(** * BFQ I/O scheduler (block/bfq-iosched.c): a shallow embedding

    The queue-level policy code of block/bfq-iosched.c is transcribed
    function by function: service charging, budget feedback at expiration,
    the peak-rate estimator, the idling decision, preemption on the
    idle-to-busy switch, the cooperator proximity test, queue merge and
    split, the idle-slice timer handler, and the dispatch of a request
    with the expiration of the queue in service.

    Conventions.
    - C integers are [Z]; every operation that can leave the range of its
      C type is wrapped explicitly ([Int.u32], [Int.u64], [Int.s64]).
    - [BUG_ON] stops the kernel: functions that contain one return [option],
      and [None] stands for the halted machine.
    - Pointers to queues and to I/O contexts are identifiers into two
      finite maps; a function that receives a pointer it only dereferences
      takes the record itself.
    - Code of bfq-sched.c, bfq.h and of the block layer is not part of this
      file's sources; what is needed of it enters as a section variable or
      as a documented definition. *)

From Stdlib Require Import ZArith Lia Bool List.
From stdpp Require Import base option gmap.
Import ListNotations.

Open Scope Z_scope.

(** ** Machine arithmetic *)

Module Int.

Definition u32 (x : Z) : Z := x mod 2 ^ 32.
Definition u64 (x : Z) : Z := x mod 2 ^ 64.

(** Reading of a 64-bit pattern as a signed [long]. *)
Definition s64 (x : Z) : Z :=
  let y := u64 x in if y <? 2 ^ 63 then y else y - 2 ^ 64.

(** The jiffies comparisons of include/linux/jiffies.h:
    [time_after(a, b)] is [(long)((b) - (a)) < 0]. *)
Definition time_after (a b : Z) : bool := s64 (b - a) <? 0.
Definition time_before (a b : Z) : bool := time_after b a.
Definition time_after_eq (a b : Z) : bool := 0 <=? s64 (a - b).

(** Reading of a 32-bit pattern as a signed [int]. *)
Definition s32 (x : Z) : Z :=
  let y := u32 x in if y <? 2 ^ 31 then y else y - 2 ^ 32.

End Int.

(** ** Constants of bfq-iosched.c *)

Definition bfq_stats_min_budgets : Z := 194.
Definition bfq_default_max_budget : Z := 16 * 1024.
Definition bfq_async_charge_factor : Z := 10.

Definition NSEC_PER_USEC : Z := 1000.
Definition NSEC_PER_MSEC : Z := 1000000.
Definition USEC_PER_MSEC : Z := 1000.
Definition USEC_PER_SEC : Z := 1000000.

Definition BFQ_MIN_TT : Z := 2 * NSEC_PER_MSEC.
Definition BFQQ_SEEK_THR : Z := 8 * 100.
Definition BFQQ_CLOSE_THR : Z := 8 * 1024.
Definition BFQ_RATE_MIN_SAMPLES : Z := 32.
Definition BFQ_RATE_MIN_INTERVAL : Z := 300 * USEC_PER_MSEC.
Definition BFQ_RATE_REF_INTERVAL : Z := USEC_PER_SEC.
Definition BFQ_RATE_SHIFT : Z := 16.

(** ** Data *)

(** The block layer's [struct request] as the scheduler sees it: start
    sector, length in bytes and FIFO deadline.  [blk_rq_pos] and
    [blk_rq_sectors] are the accessors of include/linux/blkdev.h; a sector
    is 512 bytes. *)
Record request : Type := {
  __sector : Z;    (* sector_t *)
  __data_len : Z;  (* unsigned int, bytes *)
  fifo_time : Z    (* unsigned long, jiffies *)
}.

Definition blk_rq_pos (rq : request) : Z := __sector rq.
Definition blk_rq_sectors (rq : request) : Z := Z.shiftr (__data_len rq) 9.

Definition request_wf (rq : request) : Prop :=
  0 <= __sector rq < 2 ^ 64 /\ 0 <= __data_len rq < 2 ^ 32.

Definition qid := positive.
Definition bicid := positive.

(** Reasons for which the in-service queue is expired (enum
    bfqq_expiration). *)
Inductive bfqq_expiration : Type :=
| BFQ_BFQQ_TOO_IDLE
| BFQ_BFQQ_BUDGET_TIMEOUT
| BFQ_BFQQ_BUDGET_EXHAUSTED
| BFQ_BFQQ_NO_MORE_REQUESTS
| BFQ_BFQQ_PREEMPTED.

Inductive bfq_device_speed : Type := BFQ_BFQD_FAST | BFQ_BFQD_SLOW.

(** Shape of a weight-counter tree: the idling code only looks at whether
    the root exists and whether it has a child. *)
Inductive rb_node : Type :=
| rb_nil
| rb_branch (rb_left : rb_node) (weight : Z) (num_active : Z) (rb_right : rb_node).

Definition rb_root := rb_node.

Definition RB_EMPTY_ROOT (root : rb_root) : bool :=
  match root with rb_nil => true | _ => false end.

(** struct bfq_entity, restricted to the accounting fields the queue code in bfq-iosched.c reads and writes. *)
Record bfq_entity : Type :=  {
  budget : Z;  (* int: sectors this entity may consume in its slot *)
  service : Z;  (* int: sectors charged so far in the slot *)
  on_st : Z;  (* int: set while the entity sits on a service tree *)
  prio_changed : Z  (* int: pending weight update *)
}.

Definition set_budget (v : Z) (e : bfq_entity) : bfq_entity :=
  {| budget := v; service := service e; on_st := on_st e; prio_changed := prio_changed e |}.
Definition set_service (v : Z) (e : bfq_entity) : bfq_entity :=
  {| budget := budget e; service := v; on_st := on_st e; prio_changed := prio_changed e |}.
Definition set_on_st (v : Z) (e : bfq_entity) : bfq_entity :=
  {| budget := budget e; service := service e; on_st := v; prio_changed := prio_changed e |}.
Definition set_prio_changed (v : Z) (e : bfq_entity) : bfq_entity :=
  {| budget := budget e; service := service e; on_st := on_st e; prio_changed := v |}.

(** struct bfq_queue.  Pointers to other queues and to I/O contexts are identifiers into the stores of [bfq_state]. *)
Record bfq_queue : Type :=  {
  entity : bfq_entity;
  ref : Z;  (* int *)
  allocated : Z * Z;  (* int[2], READ and WRITE *)
  new_bfqq : option qid;  (* scheduled merge target *)
  sort_list : list request;  (* rb-tree of pending requests, in sector order *)
  next_rq : option request;
  queued : Z * Z;  (* int[2], async and sync *)
  fifo : list request;
  max_budget : Z;  (* int *)
  budget_timeout : Z;  (* unsigned long, jiffies *)
  dispatched : Z;  (* int *)
  flags : Z;  (* unsigned int, one bit per bfqq_state_flags *)
  bic : option bicid;
  burst_list_node : bool;  (* true when hashed on the burst list *)
  seek_history : Z;  (* u32 *)
  requests_within_timer : Z;  (* unsigned int *)
  wr_coeff : Z;  (* unsigned int *)
  last_wr_start_finish : Z;  (* unsigned long, jiffies *)
  wr_cur_max_time : Z;  (* unsigned long, jiffies *)
  soft_rt_next_start : Z;  (* unsigned long, jiffies *)
  last_idle_bklogged : Z;  (* unsigned long, jiffies *)
  service_from_backlogged : Z;  (* unsigned long *)
  split_time : Z;  (* unsigned long, jiffies *)
  ioprio_class : Z;  (* unsigned short *)
  pid : Z
}.

Definition set_entity (v : bfq_entity) (q : bfq_queue) : bfq_queue :=
  {| entity := v; ref := ref q; allocated := allocated q; new_bfqq := new_bfqq q; sort_list := sort_list q; next_rq := next_rq q; queued := queued q; fifo := fifo q; max_budget := max_budget q; budget_timeout := budget_timeout q; dispatched := dispatched q; flags := flags q; bic := bic q; burst_list_node := burst_list_node q; seek_history := seek_history q; requests_within_timer := requests_within_timer q; wr_coeff := wr_coeff q; last_wr_start_finish := last_wr_start_finish q; wr_cur_max_time := wr_cur_max_time q; soft_rt_next_start := soft_rt_next_start q; last_idle_bklogged := last_idle_bklogged q; service_from_backlogged := service_from_backlogged q; split_time := split_time q; ioprio_class := ioprio_class q; pid := pid q |}.
Definition set_ref (v : Z) (q : bfq_queue) : bfq_queue :=
  {| entity := entity q; ref := v; allocated := allocated q; new_bfqq := new_bfqq q; sort_list := sort_list q; next_rq := next_rq q; queued := queued q; fifo := fifo q; max_budget := max_budget q; budget_timeout := budget_timeout q; dispatched := dispatched q; flags := flags q; bic := bic q; burst_list_node := burst_list_node q; seek_history := seek_history q; requests_within_timer := requests_within_timer q; wr_coeff := wr_coeff q; last_wr_start_finish := last_wr_start_finish q; wr_cur_max_time := wr_cur_max_time q; soft_rt_next_start := soft_rt_next_start q; last_idle_bklogged := last_idle_bklogged q; service_from_backlogged := service_from_backlogged q; split_time := split_time q; ioprio_class := ioprio_class q; pid := pid q |}.
Definition set_allocated (v : Z * Z) (q : bfq_queue) : bfq_queue :=
  {| entity := entity q; ref := ref q; allocated := v; new_bfqq := new_bfqq q; sort_list := sort_list q; next_rq := next_rq q; queued := queued q; fifo := fifo q; max_budget := max_budget q; budget_timeout := budget_timeout q; dispatched := dispatched q; flags := flags q; bic := bic q; burst_list_node := burst_list_node q; seek_history := seek_history q; requests_within_timer := requests_within_timer q; wr_coeff := wr_coeff q; last_wr_start_finish := last_wr_start_finish q; wr_cur_max_time := wr_cur_max_time q; soft_rt_next_start := soft_rt_next_start q; last_idle_bklogged := last_idle_bklogged q; service_from_backlogged := service_from_backlogged q; split_time := split_time q; ioprio_class := ioprio_class q; pid := pid q |}.
Definition set_new_bfqq (v : option qid) (q : bfq_queue) : bfq_queue :=
  {| entity := entity q; ref := ref q; allocated := allocated q; new_bfqq := v; sort_list := sort_list q; next_rq := next_rq q; queued := queued q; fifo := fifo q; max_budget := max_budget q; budget_timeout := budget_timeout q; dispatched := dispatched q; flags := flags q; bic := bic q; burst_list_node := burst_list_node q; seek_history := seek_history q; requests_within_timer := requests_within_timer q; wr_coeff := wr_coeff q; last_wr_start_finish := last_wr_start_finish q; wr_cur_max_time := wr_cur_max_time q; soft_rt_next_start := soft_rt_next_start q; last_idle_bklogged := last_idle_bklogged q; service_from_backlogged := service_from_backlogged q; split_time := split_time q; ioprio_class := ioprio_class q; pid := pid q |}.
Definition set_sort_list (v : list request) (q : bfq_queue) : bfq_queue :=
  {| entity := entity q; ref := ref q; allocated := allocated q; new_bfqq := new_bfqq q; sort_list := v; next_rq := next_rq q; queued := queued q; fifo := fifo q; max_budget := max_budget q; budget_timeout := budget_timeout q; dispatched := dispatched q; flags := flags q; bic := bic q; burst_list_node := burst_list_node q; seek_history := seek_history q; requests_within_timer := requests_within_timer q; wr_coeff := wr_coeff q; last_wr_start_finish := last_wr_start_finish q; wr_cur_max_time := wr_cur_max_time q; soft_rt_next_start := soft_rt_next_start q; last_idle_bklogged := last_idle_bklogged q; service_from_backlogged := service_from_backlogged q; split_time := split_time q; ioprio_class := ioprio_class q; pid := pid q |}.
Definition set_next_rq (v : option request) (q : bfq_queue) : bfq_queue :=
  {| entity := entity q; ref := ref q; allocated := allocated q; new_bfqq := new_bfqq q; sort_list := sort_list q; next_rq := v; queued := queued q; fifo := fifo q; max_budget := max_budget q; budget_timeout := budget_timeout q; dispatched := dispatched q; flags := flags q; bic := bic q; burst_list_node := burst_list_node q; seek_history := seek_history q; requests_within_timer := requests_within_timer q; wr_coeff := wr_coeff q; last_wr_start_finish := last_wr_start_finish q; wr_cur_max_time := wr_cur_max_time q; soft_rt_next_start := soft_rt_next_start q; last_idle_bklogged := last_idle_bklogged q; service_from_backlogged := service_from_backlogged q; split_time := split_time q; ioprio_class := ioprio_class q; pid := pid q |}.
Definition set_max_budget (v : Z) (q : bfq_queue) : bfq_queue :=
  {| entity := entity q; ref := ref q; allocated := allocated q; new_bfqq := new_bfqq q; sort_list := sort_list q; next_rq := next_rq q; queued := queued q; fifo := fifo q; max_budget := v; budget_timeout := budget_timeout q; dispatched := dispatched q; flags := flags q; bic := bic q; burst_list_node := burst_list_node q; seek_history := seek_history q; requests_within_timer := requests_within_timer q; wr_coeff := wr_coeff q; last_wr_start_finish := last_wr_start_finish q; wr_cur_max_time := wr_cur_max_time q; soft_rt_next_start := soft_rt_next_start q; last_idle_bklogged := last_idle_bklogged q; service_from_backlogged := service_from_backlogged q; split_time := split_time q; ioprio_class := ioprio_class q; pid := pid q |}.
Definition set_budget_timeout (v : Z) (q : bfq_queue) : bfq_queue :=
  {| entity := entity q; ref := ref q; allocated := allocated q; new_bfqq := new_bfqq q; sort_list := sort_list q; next_rq := next_rq q; queued := queued q; fifo := fifo q; max_budget := max_budget q; budget_timeout := v; dispatched := dispatched q; flags := flags q; bic := bic q; burst_list_node := burst_list_node q; seek_history := seek_history q; requests_within_timer := requests_within_timer q; wr_coeff := wr_coeff q; last_wr_start_finish := last_wr_start_finish q; wr_cur_max_time := wr_cur_max_time q; soft_rt_next_start := soft_rt_next_start q; last_idle_bklogged := last_idle_bklogged q; service_from_backlogged := service_from_backlogged q; split_time := split_time q; ioprio_class := ioprio_class q; pid := pid q |}.
Definition set_dispatched (v : Z) (q : bfq_queue) : bfq_queue :=
  {| entity := entity q; ref := ref q; allocated := allocated q; new_bfqq := new_bfqq q; sort_list := sort_list q; next_rq := next_rq q; queued := queued q; fifo := fifo q; max_budget := max_budget q; budget_timeout := budget_timeout q; dispatched := v; flags := flags q; bic := bic q; burst_list_node := burst_list_node q; seek_history := seek_history q; requests_within_timer := requests_within_timer q; wr_coeff := wr_coeff q; last_wr_start_finish := last_wr_start_finish q; wr_cur_max_time := wr_cur_max_time q; soft_rt_next_start := soft_rt_next_start q; last_idle_bklogged := last_idle_bklogged q; service_from_backlogged := service_from_backlogged q; split_time := split_time q; ioprio_class := ioprio_class q; pid := pid q |}.
Definition set_flags (v : Z) (q : bfq_queue) : bfq_queue :=
  {| entity := entity q; ref := ref q; allocated := allocated q; new_bfqq := new_bfqq q; sort_list := sort_list q; next_rq := next_rq q; queued := queued q; fifo := fifo q; max_budget := max_budget q; budget_timeout := budget_timeout q; dispatched := dispatched q; flags := v; bic := bic q; burst_list_node := burst_list_node q; seek_history := seek_history q; requests_within_timer := requests_within_timer q; wr_coeff := wr_coeff q; last_wr_start_finish := last_wr_start_finish q; wr_cur_max_time := wr_cur_max_time q; soft_rt_next_start := soft_rt_next_start q; last_idle_bklogged := last_idle_bklogged q; service_from_backlogged := service_from_backlogged q; split_time := split_time q; ioprio_class := ioprio_class q; pid := pid q |}.
Definition set_bic (v : option bicid) (q : bfq_queue) : bfq_queue :=
  {| entity := entity q; ref := ref q; allocated := allocated q; new_bfqq := new_bfqq q; sort_list := sort_list q; next_rq := next_rq q; queued := queued q; fifo := fifo q; max_budget := max_budget q; budget_timeout := budget_timeout q; dispatched := dispatched q; flags := flags q; bic := v; burst_list_node := burst_list_node q; seek_history := seek_history q; requests_within_timer := requests_within_timer q; wr_coeff := wr_coeff q; last_wr_start_finish := last_wr_start_finish q; wr_cur_max_time := wr_cur_max_time q; soft_rt_next_start := soft_rt_next_start q; last_idle_bklogged := last_idle_bklogged q; service_from_backlogged := service_from_backlogged q; split_time := split_time q; ioprio_class := ioprio_class q; pid := pid q |}.
Definition set_burst_list_node (v : bool) (q : bfq_queue) : bfq_queue :=
  {| entity := entity q; ref := ref q; allocated := allocated q; new_bfqq := new_bfqq q; sort_list := sort_list q; next_rq := next_rq q; queued := queued q; fifo := fifo q; max_budget := max_budget q; budget_timeout := budget_timeout q; dispatched := dispatched q; flags := flags q; bic := bic q; burst_list_node := v; seek_history := seek_history q; requests_within_timer := requests_within_timer q; wr_coeff := wr_coeff q; last_wr_start_finish := last_wr_start_finish q; wr_cur_max_time := wr_cur_max_time q; soft_rt_next_start := soft_rt_next_start q; last_idle_bklogged := last_idle_bklogged q; service_from_backlogged := service_from_backlogged q; split_time := split_time q; ioprio_class := ioprio_class q; pid := pid q |}.
Definition set_seek_history (v : Z) (q : bfq_queue) : bfq_queue :=
  {| entity := entity q; ref := ref q; allocated := allocated q; new_bfqq := new_bfqq q; sort_list := sort_list q; next_rq := next_rq q; queued := queued q; fifo := fifo q; max_budget := max_budget q; budget_timeout := budget_timeout q; dispatched := dispatched q; flags := flags q; bic := bic q; burst_list_node := burst_list_node q; seek_history := v; requests_within_timer := requests_within_timer q; wr_coeff := wr_coeff q; last_wr_start_finish := last_wr_start_finish q; wr_cur_max_time := wr_cur_max_time q; soft_rt_next_start := soft_rt_next_start q; last_idle_bklogged := last_idle_bklogged q; service_from_backlogged := service_from_backlogged q; split_time := split_time q; ioprio_class := ioprio_class q; pid := pid q |}.
Definition set_requests_within_timer (v : Z) (q : bfq_queue) : bfq_queue :=
  {| entity := entity q; ref := ref q; allocated := allocated q; new_bfqq := new_bfqq q; sort_list := sort_list q; next_rq := next_rq q; queued := queued q; fifo := fifo q; max_budget := max_budget q; budget_timeout := budget_timeout q; dispatched := dispatched q; flags := flags q; bic := bic q; burst_list_node := burst_list_node q; seek_history := seek_history q; requests_within_timer := v; wr_coeff := wr_coeff q; last_wr_start_finish := last_wr_start_finish q; wr_cur_max_time := wr_cur_max_time q; soft_rt_next_start := soft_rt_next_start q; last_idle_bklogged := last_idle_bklogged q; service_from_backlogged := service_from_backlogged q; split_time := split_time q; ioprio_class := ioprio_class q; pid := pid q |}.
Definition set_wr_coeff (v : Z) (q : bfq_queue) : bfq_queue :=
  {| entity := entity q; ref := ref q; allocated := allocated q; new_bfqq := new_bfqq q; sort_list := sort_list q; next_rq := next_rq q; queued := queued q; fifo := fifo q; max_budget := max_budget q; budget_timeout := budget_timeout q; dispatched := dispatched q; flags := flags q; bic := bic q; burst_list_node := burst_list_node q; seek_history := seek_history q; requests_within_timer := requests_within_timer q; wr_coeff := v; last_wr_start_finish := last_wr_start_finish q; wr_cur_max_time := wr_cur_max_time q; soft_rt_next_start := soft_rt_next_start q; last_idle_bklogged := last_idle_bklogged q; service_from_backlogged := service_from_backlogged q; split_time := split_time q; ioprio_class := ioprio_class q; pid := pid q |}.
Definition set_last_wr_start_finish (v : Z) (q : bfq_queue) : bfq_queue :=
  {| entity := entity q; ref := ref q; allocated := allocated q; new_bfqq := new_bfqq q; sort_list := sort_list q; next_rq := next_rq q; queued := queued q; fifo := fifo q; max_budget := max_budget q; budget_timeout := budget_timeout q; dispatched := dispatched q; flags := flags q; bic := bic q; burst_list_node := burst_list_node q; seek_history := seek_history q; requests_within_timer := requests_within_timer q; wr_coeff := wr_coeff q; last_wr_start_finish := v; wr_cur_max_time := wr_cur_max_time q; soft_rt_next_start := soft_rt_next_start q; last_idle_bklogged := last_idle_bklogged q; service_from_backlogged := service_from_backlogged q; split_time := split_time q; ioprio_class := ioprio_class q; pid := pid q |}.
Definition set_wr_cur_max_time (v : Z) (q : bfq_queue) : bfq_queue :=
  {| entity := entity q; ref := ref q; allocated := allocated q; new_bfqq := new_bfqq q; sort_list := sort_list q; next_rq := next_rq q; queued := queued q; fifo := fifo q; max_budget := max_budget q; budget_timeout := budget_timeout q; dispatched := dispatched q; flags := flags q; bic := bic q; burst_list_node := burst_list_node q; seek_history := seek_history q; requests_within_timer := requests_within_timer q; wr_coeff := wr_coeff q; last_wr_start_finish := last_wr_start_finish q; wr_cur_max_time := v; soft_rt_next_start := soft_rt_next_start q; last_idle_bklogged := last_idle_bklogged q; service_from_backlogged := service_from_backlogged q; split_time := split_time q; ioprio_class := ioprio_class q; pid := pid q |}.
Definition set_soft_rt_next_start (v : Z) (q : bfq_queue) : bfq_queue :=
  {| entity := entity q; ref := ref q; allocated := allocated q; new_bfqq := new_bfqq q; sort_list := sort_list q; next_rq := next_rq q; queued := queued q; fifo := fifo q; max_budget := max_budget q; budget_timeout := budget_timeout q; dispatched := dispatched q; flags := flags q; bic := bic q; burst_list_node := burst_list_node q; seek_history := seek_history q; requests_within_timer := requests_within_timer q; wr_coeff := wr_coeff q; last_wr_start_finish := last_wr_start_finish q; wr_cur_max_time := wr_cur_max_time q; soft_rt_next_start := v; last_idle_bklogged := last_idle_bklogged q; service_from_backlogged := service_from_backlogged q; split_time := split_time q; ioprio_class := ioprio_class q; pid := pid q |}.
Definition set_last_idle_bklogged (v : Z) (q : bfq_queue) : bfq_queue :=
  {| entity := entity q; ref := ref q; allocated := allocated q; new_bfqq := new_bfqq q; sort_list := sort_list q; next_rq := next_rq q; queued := queued q; fifo := fifo q; max_budget := max_budget q; budget_timeout := budget_timeout q; dispatched := dispatched q; flags := flags q; bic := bic q; burst_list_node := burst_list_node q; seek_history := seek_history q; requests_within_timer := requests_within_timer q; wr_coeff := wr_coeff q; last_wr_start_finish := last_wr_start_finish q; wr_cur_max_time := wr_cur_max_time q; soft_rt_next_start := soft_rt_next_start q; last_idle_bklogged := v; service_from_backlogged := service_from_backlogged q; split_time := split_time q; ioprio_class := ioprio_class q; pid := pid q |}.
Definition set_service_from_backlogged (v : Z) (q : bfq_queue) : bfq_queue :=
  {| entity := entity q; ref := ref q; allocated := allocated q; new_bfqq := new_bfqq q; sort_list := sort_list q; next_rq := next_rq q; queued := queued q; fifo := fifo q; max_budget := max_budget q; budget_timeout := budget_timeout q; dispatched := dispatched q; flags := flags q; bic := bic q; burst_list_node := burst_list_node q; seek_history := seek_history q; requests_within_timer := requests_within_timer q; wr_coeff := wr_coeff q; last_wr_start_finish := last_wr_start_finish q; wr_cur_max_time := wr_cur_max_time q; soft_rt_next_start := soft_rt_next_start q; last_idle_bklogged := last_idle_bklogged q; service_from_backlogged := v; split_time := split_time q; ioprio_class := ioprio_class q; pid := pid q |}.
Definition set_split_time (v : Z) (q : bfq_queue) : bfq_queue :=
  {| entity := entity q; ref := ref q; allocated := allocated q; new_bfqq := new_bfqq q; sort_list := sort_list q; next_rq := next_rq q; queued := queued q; fifo := fifo q; max_budget := max_budget q; budget_timeout := budget_timeout q; dispatched := dispatched q; flags := flags q; bic := bic q; burst_list_node := burst_list_node q; seek_history := seek_history q; requests_within_timer := requests_within_timer q; wr_coeff := wr_coeff q; last_wr_start_finish := last_wr_start_finish q; wr_cur_max_time := wr_cur_max_time q; soft_rt_next_start := soft_rt_next_start q; last_idle_bklogged := last_idle_bklogged q; service_from_backlogged := service_from_backlogged q; split_time := v; ioprio_class := ioprio_class q; pid := pid q |}.
Definition set_ioprio_class (v : Z) (q : bfq_queue) : bfq_queue :=
  {| entity := entity q; ref := ref q; allocated := allocated q; new_bfqq := new_bfqq q; sort_list := sort_list q; next_rq := next_rq q; queued := queued q; fifo := fifo q; max_budget := max_budget q; budget_timeout := budget_timeout q; dispatched := dispatched q; flags := flags q; bic := bic q; burst_list_node := burst_list_node q; seek_history := seek_history q; requests_within_timer := requests_within_timer q; wr_coeff := wr_coeff q; last_wr_start_finish := last_wr_start_finish q; wr_cur_max_time := wr_cur_max_time q; soft_rt_next_start := soft_rt_next_start q; last_idle_bklogged := last_idle_bklogged q; service_from_backlogged := service_from_backlogged q; split_time := split_time q; ioprio_class := v; pid := pid q |}.
Definition set_pid (v : Z) (q : bfq_queue) : bfq_queue :=
  {| entity := entity q; ref := ref q; allocated := allocated q; new_bfqq := new_bfqq q; sort_list := sort_list q; next_rq := next_rq q; queued := queued q; fifo := fifo q; max_budget := max_budget q; budget_timeout := budget_timeout q; dispatched := dispatched q; flags := flags q; bic := bic q; burst_list_node := burst_list_node q; seek_history := seek_history q; requests_within_timer := requests_within_timer q; wr_coeff := wr_coeff q; last_wr_start_finish := last_wr_start_finish q; wr_cur_max_time := wr_cur_max_time q; soft_rt_next_start := soft_rt_next_start q; last_idle_bklogged := last_idle_bklogged q; service_from_backlogged := service_from_backlogged q; split_time := split_time q; ioprio_class := ioprio_class q; pid := v |}.

(** struct bfq_io_cq: the per-process I/O context seen by the scheduler. *)
Record bfq_io_cq : Type :=  {
  bic_bfqq : option qid * option qid;  (* bfqq[2], async and sync *)
  ioprio : Z;  (* unsigned short, class in the top three bits *)
  ttime_last_end_request : Z;  (* u64, ns *)
  ioc_active_ref : Z;  (* icq.ioc->active_ref *)
  ioc_refcount : Z;  (* icq.ioc->refcount *)
  saved_idle_window : bool;
  saved_IO_bound : bool;
  saved_in_large_burst : bool;
  was_in_burst_list : bool
}.

Definition set_bic_bfqq (v : option qid * option qid) (c : bfq_io_cq) : bfq_io_cq :=
  {| bic_bfqq := v; ioprio := ioprio c; ttime_last_end_request := ttime_last_end_request c; ioc_active_ref := ioc_active_ref c; ioc_refcount := ioc_refcount c; saved_idle_window := saved_idle_window c; saved_IO_bound := saved_IO_bound c; saved_in_large_burst := saved_in_large_burst c; was_in_burst_list := was_in_burst_list c |}.
Definition set_ioc_refcount (v : Z) (c : bfq_io_cq) : bfq_io_cq :=
  {| bic_bfqq := bic_bfqq c; ioprio := ioprio c; ttime_last_end_request := ttime_last_end_request c; ioc_active_ref := ioc_active_ref c; ioc_refcount := v; saved_idle_window := saved_idle_window c; saved_IO_bound := saved_IO_bound c; saved_in_large_burst := saved_in_large_burst c; was_in_burst_list := was_in_burst_list c |}.
Definition set_saved_idle_window (v : bool) (c : bfq_io_cq) : bfq_io_cq :=
  {| bic_bfqq := bic_bfqq c; ioprio := ioprio c; ttime_last_end_request := ttime_last_end_request c; ioc_active_ref := ioc_active_ref c; ioc_refcount := ioc_refcount c; saved_idle_window := v; saved_IO_bound := saved_IO_bound c; saved_in_large_burst := saved_in_large_burst c; was_in_burst_list := was_in_burst_list c |}.
Definition set_saved_IO_bound (v : bool) (c : bfq_io_cq) : bfq_io_cq :=
  {| bic_bfqq := bic_bfqq c; ioprio := ioprio c; ttime_last_end_request := ttime_last_end_request c; ioc_active_ref := ioc_active_ref c; ioc_refcount := ioc_refcount c; saved_idle_window := saved_idle_window c; saved_IO_bound := v; saved_in_large_burst := saved_in_large_burst c; was_in_burst_list := was_in_burst_list c |}.
Definition set_saved_in_large_burst (v : bool) (c : bfq_io_cq) : bfq_io_cq :=
  {| bic_bfqq := bic_bfqq c; ioprio := ioprio c; ttime_last_end_request := ttime_last_end_request c; ioc_active_ref := ioc_active_ref c; ioc_refcount := ioc_refcount c; saved_idle_window := saved_idle_window c; saved_IO_bound := saved_IO_bound c; saved_in_large_burst := v; was_in_burst_list := was_in_burst_list c |}.
Definition set_was_in_burst_list (v : bool) (c : bfq_io_cq) : bfq_io_cq :=
  {| bic_bfqq := bic_bfqq c; ioprio := ioprio c; ttime_last_end_request := ttime_last_end_request c; ioc_active_ref := ioc_active_ref c; ioc_refcount := ioc_refcount c; saved_idle_window := saved_idle_window c; saved_IO_bound := saved_IO_bound c; saved_in_large_burst := saved_in_large_burst c; was_in_burst_list := v |}.

(** struct bfq_data: the per-device scheduler data. *)
Record bfq_data : Type :=  {
  in_service_queue : option qid;
  in_service_bic : option bicid;
  busy_queues : Z;  (* int *)
  wr_busy_queues : Z;  (* int *)
  rq_in_driver : Z;  (* int *)
  budgets_assigned : Z;  (* int *)
  bfq_max_budget : Z;  (* int *)
  bfq_user_max_budget : Z;  (* int *)
  hw_tag : Z;  (* int *)
  queue_nonrot : bool;  (* blk_queue_nonrot(bfqd->queue) *)
  strict_guarantees : bool;
  low_latency : bool;
  large_burst : bool;
  queue_weights_tree : rb_root;
  group_weights_tree : rb_root;
  bfq_slice_idle : Z;  (* u32, ns *)
  last_position : Z;  (* sector_t *)
  last_completion : Z;  (* u64, ns *)
  first_dispatch : Z;  (* u64, ns *)
  last_dispatch : Z;  (* u64, ns *)
  peak_rate_samples : Z;  (* int *)
  sequential_samples : Z;  (* u32 *)
  tot_sectors_dispatched : Z;  (* u64 *)
  last_rq_max_size : Z;  (* u32 *)
  delta_from_first_us : Z;  (* u64, us *)
  peak_rate : Z;  (* u32, sectors/us << BFQ_RATE_SHIFT *)
  device_speed : bfq_device_speed;
  RT_prod : Z;  (* u64 *)
  bfq_wr_coeff : Z;  (* unsigned int *)
  bfq_wr_max_time : Z;  (* unsigned int, jiffies *)
  bfq_wr_rt_max_time : Z;  (* unsigned int, jiffies *)
  bfq_wr_min_idle_time : Z;  (* unsigned int, jiffies *)
  bfq_wr_max_softrt_rate : Z;  (* unsigned int, sectors/s *)
  bfq_requests_within_timer : Z;  (* unsigned int *)
  bfq_timeout : Z  (* unsigned int, jiffies *)
}.

Definition set_in_service_queue (v : option qid) (d : bfq_data) : bfq_data :=
  {| in_service_queue := v; in_service_bic := in_service_bic d; busy_queues := busy_queues d; wr_busy_queues := wr_busy_queues d; rq_in_driver := rq_in_driver d; budgets_assigned := budgets_assigned d; bfq_max_budget := bfq_max_budget d; bfq_user_max_budget := bfq_user_max_budget d; hw_tag := hw_tag d; queue_nonrot := queue_nonrot d; strict_guarantees := strict_guarantees d; low_latency := low_latency d; large_burst := large_burst d; queue_weights_tree := queue_weights_tree d; group_weights_tree := group_weights_tree d; bfq_slice_idle := bfq_slice_idle d; last_position := last_position d; last_completion := last_completion d; first_dispatch := first_dispatch d; last_dispatch := last_dispatch d; peak_rate_samples := peak_rate_samples d; sequential_samples := sequential_samples d; tot_sectors_dispatched := tot_sectors_dispatched d; last_rq_max_size := last_rq_max_size d; delta_from_first_us := delta_from_first_us d; peak_rate := peak_rate d; device_speed := device_speed d; RT_prod := RT_prod d; bfq_wr_coeff := bfq_wr_coeff d; bfq_wr_max_time := bfq_wr_max_time d; bfq_wr_rt_max_time := bfq_wr_rt_max_time d; bfq_wr_min_idle_time := bfq_wr_min_idle_time d; bfq_wr_max_softrt_rate := bfq_wr_max_softrt_rate d; bfq_requests_within_timer := bfq_requests_within_timer d; bfq_timeout := bfq_timeout d |}.
Definition set_busy_queues (v : Z) (d : bfq_data) : bfq_data :=
  {| in_service_queue := in_service_queue d; in_service_bic := in_service_bic d; busy_queues := v; wr_busy_queues := wr_busy_queues d; rq_in_driver := rq_in_driver d; budgets_assigned := budgets_assigned d; bfq_max_budget := bfq_max_budget d; bfq_user_max_budget := bfq_user_max_budget d; hw_tag := hw_tag d; queue_nonrot := queue_nonrot d; strict_guarantees := strict_guarantees d; low_latency := low_latency d; large_burst := large_burst d; queue_weights_tree := queue_weights_tree d; group_weights_tree := group_weights_tree d; bfq_slice_idle := bfq_slice_idle d; last_position := last_position d; last_completion := last_completion d; first_dispatch := first_dispatch d; last_dispatch := last_dispatch d; peak_rate_samples := peak_rate_samples d; sequential_samples := sequential_samples d; tot_sectors_dispatched := tot_sectors_dispatched d; last_rq_max_size := last_rq_max_size d; delta_from_first_us := delta_from_first_us d; peak_rate := peak_rate d; device_speed := device_speed d; RT_prod := RT_prod d; bfq_wr_coeff := bfq_wr_coeff d; bfq_wr_max_time := bfq_wr_max_time d; bfq_wr_rt_max_time := bfq_wr_rt_max_time d; bfq_wr_min_idle_time := bfq_wr_min_idle_time d; bfq_wr_max_softrt_rate := bfq_wr_max_softrt_rate d; bfq_requests_within_timer := bfq_requests_within_timer d; bfq_timeout := bfq_timeout d |}.
Definition set_wr_busy_queues (v : Z) (d : bfq_data) : bfq_data :=
  {| in_service_queue := in_service_queue d; in_service_bic := in_service_bic d; busy_queues := busy_queues d; wr_busy_queues := v; rq_in_driver := rq_in_driver d; budgets_assigned := budgets_assigned d; bfq_max_budget := bfq_max_budget d; bfq_user_max_budget := bfq_user_max_budget d; hw_tag := hw_tag d; queue_nonrot := queue_nonrot d; strict_guarantees := strict_guarantees d; low_latency := low_latency d; large_burst := large_burst d; queue_weights_tree := queue_weights_tree d; group_weights_tree := group_weights_tree d; bfq_slice_idle := bfq_slice_idle d; last_position := last_position d; last_completion := last_completion d; first_dispatch := first_dispatch d; last_dispatch := last_dispatch d; peak_rate_samples := peak_rate_samples d; sequential_samples := sequential_samples d; tot_sectors_dispatched := tot_sectors_dispatched d; last_rq_max_size := last_rq_max_size d; delta_from_first_us := delta_from_first_us d; peak_rate := peak_rate d; device_speed := device_speed d; RT_prod := RT_prod d; bfq_wr_coeff := bfq_wr_coeff d; bfq_wr_max_time := bfq_wr_max_time d; bfq_wr_rt_max_time := bfq_wr_rt_max_time d; bfq_wr_min_idle_time := bfq_wr_min_idle_time d; bfq_wr_max_softrt_rate := bfq_wr_max_softrt_rate d; bfq_requests_within_timer := bfq_requests_within_timer d; bfq_timeout := bfq_timeout d |}.
Definition set_rq_in_driver (v : Z) (d : bfq_data) : bfq_data :=
  {| in_service_queue := in_service_queue d; in_service_bic := in_service_bic d; busy_queues := busy_queues d; wr_busy_queues := wr_busy_queues d; rq_in_driver := v; budgets_assigned := budgets_assigned d; bfq_max_budget := bfq_max_budget d; bfq_user_max_budget := bfq_user_max_budget d; hw_tag := hw_tag d; queue_nonrot := queue_nonrot d; strict_guarantees := strict_guarantees d; low_latency := low_latency d; large_burst := large_burst d; queue_weights_tree := queue_weights_tree d; group_weights_tree := group_weights_tree d; bfq_slice_idle := bfq_slice_idle d; last_position := last_position d; last_completion := last_completion d; first_dispatch := first_dispatch d; last_dispatch := last_dispatch d; peak_rate_samples := peak_rate_samples d; sequential_samples := sequential_samples d; tot_sectors_dispatched := tot_sectors_dispatched d; last_rq_max_size := last_rq_max_size d; delta_from_first_us := delta_from_first_us d; peak_rate := peak_rate d; device_speed := device_speed d; RT_prod := RT_prod d; bfq_wr_coeff := bfq_wr_coeff d; bfq_wr_max_time := bfq_wr_max_time d; bfq_wr_rt_max_time := bfq_wr_rt_max_time d; bfq_wr_min_idle_time := bfq_wr_min_idle_time d; bfq_wr_max_softrt_rate := bfq_wr_max_softrt_rate d; bfq_requests_within_timer := bfq_requests_within_timer d; bfq_timeout := bfq_timeout d |}.
Definition set_bfq_max_budget (v : Z) (d : bfq_data) : bfq_data :=
  {| in_service_queue := in_service_queue d; in_service_bic := in_service_bic d; busy_queues := busy_queues d; wr_busy_queues := wr_busy_queues d; rq_in_driver := rq_in_driver d; budgets_assigned := budgets_assigned d; bfq_max_budget := v; bfq_user_max_budget := bfq_user_max_budget d; hw_tag := hw_tag d; queue_nonrot := queue_nonrot d; strict_guarantees := strict_guarantees d; low_latency := low_latency d; large_burst := large_burst d; queue_weights_tree := queue_weights_tree d; group_weights_tree := group_weights_tree d; bfq_slice_idle := bfq_slice_idle d; last_position := last_position d; last_completion := last_completion d; first_dispatch := first_dispatch d; last_dispatch := last_dispatch d; peak_rate_samples := peak_rate_samples d; sequential_samples := sequential_samples d; tot_sectors_dispatched := tot_sectors_dispatched d; last_rq_max_size := last_rq_max_size d; delta_from_first_us := delta_from_first_us d; peak_rate := peak_rate d; device_speed := device_speed d; RT_prod := RT_prod d; bfq_wr_coeff := bfq_wr_coeff d; bfq_wr_max_time := bfq_wr_max_time d; bfq_wr_rt_max_time := bfq_wr_rt_max_time d; bfq_wr_min_idle_time := bfq_wr_min_idle_time d; bfq_wr_max_softrt_rate := bfq_wr_max_softrt_rate d; bfq_requests_within_timer := bfq_requests_within_timer d; bfq_timeout := bfq_timeout d |}.
Definition set_last_position (v : Z) (d : bfq_data) : bfq_data :=
  {| in_service_queue := in_service_queue d; in_service_bic := in_service_bic d; busy_queues := busy_queues d; wr_busy_queues := wr_busy_queues d; rq_in_driver := rq_in_driver d; budgets_assigned := budgets_assigned d; bfq_max_budget := bfq_max_budget d; bfq_user_max_budget := bfq_user_max_budget d; hw_tag := hw_tag d; queue_nonrot := queue_nonrot d; strict_guarantees := strict_guarantees d; low_latency := low_latency d; large_burst := large_burst d; queue_weights_tree := queue_weights_tree d; group_weights_tree := group_weights_tree d; bfq_slice_idle := bfq_slice_idle d; last_position := v; last_completion := last_completion d; first_dispatch := first_dispatch d; last_dispatch := last_dispatch d; peak_rate_samples := peak_rate_samples d; sequential_samples := sequential_samples d; tot_sectors_dispatched := tot_sectors_dispatched d; last_rq_max_size := last_rq_max_size d; delta_from_first_us := delta_from_first_us d; peak_rate := peak_rate d; device_speed := device_speed d; RT_prod := RT_prod d; bfq_wr_coeff := bfq_wr_coeff d; bfq_wr_max_time := bfq_wr_max_time d; bfq_wr_rt_max_time := bfq_wr_rt_max_time d; bfq_wr_min_idle_time := bfq_wr_min_idle_time d; bfq_wr_max_softrt_rate := bfq_wr_max_softrt_rate d; bfq_requests_within_timer := bfq_requests_within_timer d; bfq_timeout := bfq_timeout d |}.
Definition set_last_completion (v : Z) (d : bfq_data) : bfq_data :=
  {| in_service_queue := in_service_queue d; in_service_bic := in_service_bic d; busy_queues := busy_queues d; wr_busy_queues := wr_busy_queues d; rq_in_driver := rq_in_driver d; budgets_assigned := budgets_assigned d; bfq_max_budget := bfq_max_budget d; bfq_user_max_budget := bfq_user_max_budget d; hw_tag := hw_tag d; queue_nonrot := queue_nonrot d; strict_guarantees := strict_guarantees d; low_latency := low_latency d; large_burst := large_burst d; queue_weights_tree := queue_weights_tree d; group_weights_tree := group_weights_tree d; bfq_slice_idle := bfq_slice_idle d; last_position := last_position d; last_completion := v; first_dispatch := first_dispatch d; last_dispatch := last_dispatch d; peak_rate_samples := peak_rate_samples d; sequential_samples := sequential_samples d; tot_sectors_dispatched := tot_sectors_dispatched d; last_rq_max_size := last_rq_max_size d; delta_from_first_us := delta_from_first_us d; peak_rate := peak_rate d; device_speed := device_speed d; RT_prod := RT_prod d; bfq_wr_coeff := bfq_wr_coeff d; bfq_wr_max_time := bfq_wr_max_time d; bfq_wr_rt_max_time := bfq_wr_rt_max_time d; bfq_wr_min_idle_time := bfq_wr_min_idle_time d; bfq_wr_max_softrt_rate := bfq_wr_max_softrt_rate d; bfq_requests_within_timer := bfq_requests_within_timer d; bfq_timeout := bfq_timeout d |}.
Definition set_first_dispatch (v : Z) (d : bfq_data) : bfq_data :=
  {| in_service_queue := in_service_queue d; in_service_bic := in_service_bic d; busy_queues := busy_queues d; wr_busy_queues := wr_busy_queues d; rq_in_driver := rq_in_driver d; budgets_assigned := budgets_assigned d; bfq_max_budget := bfq_max_budget d; bfq_user_max_budget := bfq_user_max_budget d; hw_tag := hw_tag d; queue_nonrot := queue_nonrot d; strict_guarantees := strict_guarantees d; low_latency := low_latency d; large_burst := large_burst d; queue_weights_tree := queue_weights_tree d; group_weights_tree := group_weights_tree d; bfq_slice_idle := bfq_slice_idle d; last_position := last_position d; last_completion := last_completion d; first_dispatch := v; last_dispatch := last_dispatch d; peak_rate_samples := peak_rate_samples d; sequential_samples := sequential_samples d; tot_sectors_dispatched := tot_sectors_dispatched d; last_rq_max_size := last_rq_max_size d; delta_from_first_us := delta_from_first_us d; peak_rate := peak_rate d; device_speed := device_speed d; RT_prod := RT_prod d; bfq_wr_coeff := bfq_wr_coeff d; bfq_wr_max_time := bfq_wr_max_time d; bfq_wr_rt_max_time := bfq_wr_rt_max_time d; bfq_wr_min_idle_time := bfq_wr_min_idle_time d; bfq_wr_max_softrt_rate := bfq_wr_max_softrt_rate d; bfq_requests_within_timer := bfq_requests_within_timer d; bfq_timeout := bfq_timeout d |}.
Definition set_last_dispatch (v : Z) (d : bfq_data) : bfq_data :=
  {| in_service_queue := in_service_queue d; in_service_bic := in_service_bic d; busy_queues := busy_queues d; wr_busy_queues := wr_busy_queues d; rq_in_driver := rq_in_driver d; budgets_assigned := budgets_assigned d; bfq_max_budget := bfq_max_budget d; bfq_user_max_budget := bfq_user_max_budget d; hw_tag := hw_tag d; queue_nonrot := queue_nonrot d; strict_guarantees := strict_guarantees d; low_latency := low_latency d; large_burst := large_burst d; queue_weights_tree := queue_weights_tree d; group_weights_tree := group_weights_tree d; bfq_slice_idle := bfq_slice_idle d; last_position := last_position d; last_completion := last_completion d; first_dispatch := first_dispatch d; last_dispatch := v; peak_rate_samples := peak_rate_samples d; sequential_samples := sequential_samples d; tot_sectors_dispatched := tot_sectors_dispatched d; last_rq_max_size := last_rq_max_size d; delta_from_first_us := delta_from_first_us d; peak_rate := peak_rate d; device_speed := device_speed d; RT_prod := RT_prod d; bfq_wr_coeff := bfq_wr_coeff d; bfq_wr_max_time := bfq_wr_max_time d; bfq_wr_rt_max_time := bfq_wr_rt_max_time d; bfq_wr_min_idle_time := bfq_wr_min_idle_time d; bfq_wr_max_softrt_rate := bfq_wr_max_softrt_rate d; bfq_requests_within_timer := bfq_requests_within_timer d; bfq_timeout := bfq_timeout d |}.
Definition set_peak_rate_samples (v : Z) (d : bfq_data) : bfq_data :=
  {| in_service_queue := in_service_queue d; in_service_bic := in_service_bic d; busy_queues := busy_queues d; wr_busy_queues := wr_busy_queues d; rq_in_driver := rq_in_driver d; budgets_assigned := budgets_assigned d; bfq_max_budget := bfq_max_budget d; bfq_user_max_budget := bfq_user_max_budget d; hw_tag := hw_tag d; queue_nonrot := queue_nonrot d; strict_guarantees := strict_guarantees d; low_latency := low_latency d; large_burst := large_burst d; queue_weights_tree := queue_weights_tree d; group_weights_tree := group_weights_tree d; bfq_slice_idle := bfq_slice_idle d; last_position := last_position d; last_completion := last_completion d; first_dispatch := first_dispatch d; last_dispatch := last_dispatch d; peak_rate_samples := v; sequential_samples := sequential_samples d; tot_sectors_dispatched := tot_sectors_dispatched d; last_rq_max_size := last_rq_max_size d; delta_from_first_us := delta_from_first_us d; peak_rate := peak_rate d; device_speed := device_speed d; RT_prod := RT_prod d; bfq_wr_coeff := bfq_wr_coeff d; bfq_wr_max_time := bfq_wr_max_time d; bfq_wr_rt_max_time := bfq_wr_rt_max_time d; bfq_wr_min_idle_time := bfq_wr_min_idle_time d; bfq_wr_max_softrt_rate := bfq_wr_max_softrt_rate d; bfq_requests_within_timer := bfq_requests_within_timer d; bfq_timeout := bfq_timeout d |}.
Definition set_sequential_samples (v : Z) (d : bfq_data) : bfq_data :=
  {| in_service_queue := in_service_queue d; in_service_bic := in_service_bic d; busy_queues := busy_queues d; wr_busy_queues := wr_busy_queues d; rq_in_driver := rq_in_driver d; budgets_assigned := budgets_assigned d; bfq_max_budget := bfq_max_budget d; bfq_user_max_budget := bfq_user_max_budget d; hw_tag := hw_tag d; queue_nonrot := queue_nonrot d; strict_guarantees := strict_guarantees d; low_latency := low_latency d; large_burst := large_burst d; queue_weights_tree := queue_weights_tree d; group_weights_tree := group_weights_tree d; bfq_slice_idle := bfq_slice_idle d; last_position := last_position d; last_completion := last_completion d; first_dispatch := first_dispatch d; last_dispatch := last_dispatch d; peak_rate_samples := peak_rate_samples d; sequential_samples := v; tot_sectors_dispatched := tot_sectors_dispatched d; last_rq_max_size := last_rq_max_size d; delta_from_first_us := delta_from_first_us d; peak_rate := peak_rate d; device_speed := device_speed d; RT_prod := RT_prod d; bfq_wr_coeff := bfq_wr_coeff d; bfq_wr_max_time := bfq_wr_max_time d; bfq_wr_rt_max_time := bfq_wr_rt_max_time d; bfq_wr_min_idle_time := bfq_wr_min_idle_time d; bfq_wr_max_softrt_rate := bfq_wr_max_softrt_rate d; bfq_requests_within_timer := bfq_requests_within_timer d; bfq_timeout := bfq_timeout d |}.
Definition set_tot_sectors_dispatched (v : Z) (d : bfq_data) : bfq_data :=
  {| in_service_queue := in_service_queue d; in_service_bic := in_service_bic d; busy_queues := busy_queues d; wr_busy_queues := wr_busy_queues d; rq_in_driver := rq_in_driver d; budgets_assigned := budgets_assigned d; bfq_max_budget := bfq_max_budget d; bfq_user_max_budget := bfq_user_max_budget d; hw_tag := hw_tag d; queue_nonrot := queue_nonrot d; strict_guarantees := strict_guarantees d; low_latency := low_latency d; large_burst := large_burst d; queue_weights_tree := queue_weights_tree d; group_weights_tree := group_weights_tree d; bfq_slice_idle := bfq_slice_idle d; last_position := last_position d; last_completion := last_completion d; first_dispatch := first_dispatch d; last_dispatch := last_dispatch d; peak_rate_samples := peak_rate_samples d; sequential_samples := sequential_samples d; tot_sectors_dispatched := v; last_rq_max_size := last_rq_max_size d; delta_from_first_us := delta_from_first_us d; peak_rate := peak_rate d; device_speed := device_speed d; RT_prod := RT_prod d; bfq_wr_coeff := bfq_wr_coeff d; bfq_wr_max_time := bfq_wr_max_time d; bfq_wr_rt_max_time := bfq_wr_rt_max_time d; bfq_wr_min_idle_time := bfq_wr_min_idle_time d; bfq_wr_max_softrt_rate := bfq_wr_max_softrt_rate d; bfq_requests_within_timer := bfq_requests_within_timer d; bfq_timeout := bfq_timeout d |}.
Definition set_last_rq_max_size (v : Z) (d : bfq_data) : bfq_data :=
  {| in_service_queue := in_service_queue d; in_service_bic := in_service_bic d; busy_queues := busy_queues d; wr_busy_queues := wr_busy_queues d; rq_in_driver := rq_in_driver d; budgets_assigned := budgets_assigned d; bfq_max_budget := bfq_max_budget d; bfq_user_max_budget := bfq_user_max_budget d; hw_tag := hw_tag d; queue_nonrot := queue_nonrot d; strict_guarantees := strict_guarantees d; low_latency := low_latency d; large_burst := large_burst d; queue_weights_tree := queue_weights_tree d; group_weights_tree := group_weights_tree d; bfq_slice_idle := bfq_slice_idle d; last_position := last_position d; last_completion := last_completion d; first_dispatch := first_dispatch d; last_dispatch := last_dispatch d; peak_rate_samples := peak_rate_samples d; sequential_samples := sequential_samples d; tot_sectors_dispatched := tot_sectors_dispatched d; last_rq_max_size := v; delta_from_first_us := delta_from_first_us d; peak_rate := peak_rate d; device_speed := device_speed d; RT_prod := RT_prod d; bfq_wr_coeff := bfq_wr_coeff d; bfq_wr_max_time := bfq_wr_max_time d; bfq_wr_rt_max_time := bfq_wr_rt_max_time d; bfq_wr_min_idle_time := bfq_wr_min_idle_time d; bfq_wr_max_softrt_rate := bfq_wr_max_softrt_rate d; bfq_requests_within_timer := bfq_requests_within_timer d; bfq_timeout := bfq_timeout d |}.
Definition set_delta_from_first_us (v : Z) (d : bfq_data) : bfq_data :=
  {| in_service_queue := in_service_queue d; in_service_bic := in_service_bic d; busy_queues := busy_queues d; wr_busy_queues := wr_busy_queues d; rq_in_driver := rq_in_driver d; budgets_assigned := budgets_assigned d; bfq_max_budget := bfq_max_budget d; bfq_user_max_budget := bfq_user_max_budget d; hw_tag := hw_tag d; queue_nonrot := queue_nonrot d; strict_guarantees := strict_guarantees d; low_latency := low_latency d; large_burst := large_burst d; queue_weights_tree := queue_weights_tree d; group_weights_tree := group_weights_tree d; bfq_slice_idle := bfq_slice_idle d; last_position := last_position d; last_completion := last_completion d; first_dispatch := first_dispatch d; last_dispatch := last_dispatch d; peak_rate_samples := peak_rate_samples d; sequential_samples := sequential_samples d; tot_sectors_dispatched := tot_sectors_dispatched d; last_rq_max_size := last_rq_max_size d; delta_from_first_us := v; peak_rate := peak_rate d; device_speed := device_speed d; RT_prod := RT_prod d; bfq_wr_coeff := bfq_wr_coeff d; bfq_wr_max_time := bfq_wr_max_time d; bfq_wr_rt_max_time := bfq_wr_rt_max_time d; bfq_wr_min_idle_time := bfq_wr_min_idle_time d; bfq_wr_max_softrt_rate := bfq_wr_max_softrt_rate d; bfq_requests_within_timer := bfq_requests_within_timer d; bfq_timeout := bfq_timeout d |}.
Definition set_peak_rate (v : Z) (d : bfq_data) : bfq_data :=
  {| in_service_queue := in_service_queue d; in_service_bic := in_service_bic d; busy_queues := busy_queues d; wr_busy_queues := wr_busy_queues d; rq_in_driver := rq_in_driver d; budgets_assigned := budgets_assigned d; bfq_max_budget := bfq_max_budget d; bfq_user_max_budget := bfq_user_max_budget d; hw_tag := hw_tag d; queue_nonrot := queue_nonrot d; strict_guarantees := strict_guarantees d; low_latency := low_latency d; large_burst := large_burst d; queue_weights_tree := queue_weights_tree d; group_weights_tree := group_weights_tree d; bfq_slice_idle := bfq_slice_idle d; last_position := last_position d; last_completion := last_completion d; first_dispatch := first_dispatch d; last_dispatch := last_dispatch d; peak_rate_samples := peak_rate_samples d; sequential_samples := sequential_samples d; tot_sectors_dispatched := tot_sectors_dispatched d; last_rq_max_size := last_rq_max_size d; delta_from_first_us := delta_from_first_us d; peak_rate := v; device_speed := device_speed d; RT_prod := RT_prod d; bfq_wr_coeff := bfq_wr_coeff d; bfq_wr_max_time := bfq_wr_max_time d; bfq_wr_rt_max_time := bfq_wr_rt_max_time d; bfq_wr_min_idle_time := bfq_wr_min_idle_time d; bfq_wr_max_softrt_rate := bfq_wr_max_softrt_rate d; bfq_requests_within_timer := bfq_requests_within_timer d; bfq_timeout := bfq_timeout d |}.
Definition set_device_speed (v : bfq_device_speed) (d : bfq_data) : bfq_data :=
  {| in_service_queue := in_service_queue d; in_service_bic := in_service_bic d; busy_queues := busy_queues d; wr_busy_queues := wr_busy_queues d; rq_in_driver := rq_in_driver d; budgets_assigned := budgets_assigned d; bfq_max_budget := bfq_max_budget d; bfq_user_max_budget := bfq_user_max_budget d; hw_tag := hw_tag d; queue_nonrot := queue_nonrot d; strict_guarantees := strict_guarantees d; low_latency := low_latency d; large_burst := large_burst d; queue_weights_tree := queue_weights_tree d; group_weights_tree := group_weights_tree d; bfq_slice_idle := bfq_slice_idle d; last_position := last_position d; last_completion := last_completion d; first_dispatch := first_dispatch d; last_dispatch := last_dispatch d; peak_rate_samples := peak_rate_samples d; sequential_samples := sequential_samples d; tot_sectors_dispatched := tot_sectors_dispatched d; last_rq_max_size := last_rq_max_size d; delta_from_first_us := delta_from_first_us d; peak_rate := peak_rate d; device_speed := v; RT_prod := RT_prod d; bfq_wr_coeff := bfq_wr_coeff d; bfq_wr_max_time := bfq_wr_max_time d; bfq_wr_rt_max_time := bfq_wr_rt_max_time d; bfq_wr_min_idle_time := bfq_wr_min_idle_time d; bfq_wr_max_softrt_rate := bfq_wr_max_softrt_rate d; bfq_requests_within_timer := bfq_requests_within_timer d; bfq_timeout := bfq_timeout d |}.
Definition set_RT_prod (v : Z) (d : bfq_data) : bfq_data :=
  {| in_service_queue := in_service_queue d; in_service_bic := in_service_bic d; busy_queues := busy_queues d; wr_busy_queues := wr_busy_queues d; rq_in_driver := rq_in_driver d; budgets_assigned := budgets_assigned d; bfq_max_budget := bfq_max_budget d; bfq_user_max_budget := bfq_user_max_budget d; hw_tag := hw_tag d; queue_nonrot := queue_nonrot d; strict_guarantees := strict_guarantees d; low_latency := low_latency d; large_burst := large_burst d; queue_weights_tree := queue_weights_tree d; group_weights_tree := group_weights_tree d; bfq_slice_idle := bfq_slice_idle d; last_position := last_position d; last_completion := last_completion d; first_dispatch := first_dispatch d; last_dispatch := last_dispatch d; peak_rate_samples := peak_rate_samples d; sequential_samples := sequential_samples d; tot_sectors_dispatched := tot_sectors_dispatched d; last_rq_max_size := last_rq_max_size d; delta_from_first_us := delta_from_first_us d; peak_rate := peak_rate d; device_speed := device_speed d; RT_prod := v; bfq_wr_coeff := bfq_wr_coeff d; bfq_wr_max_time := bfq_wr_max_time d; bfq_wr_rt_max_time := bfq_wr_rt_max_time d; bfq_wr_min_idle_time := bfq_wr_min_idle_time d; bfq_wr_max_softrt_rate := bfq_wr_max_softrt_rate d; bfq_requests_within_timer := bfq_requests_within_timer d; bfq_timeout := bfq_timeout d |}.

(** Halting checks.  [BUG_ON c k] runs [k] unless [c] holds. *)
Definition BUG_ON {A : Type} (c : bool) (k : option A) : option A :=
  if c then None else k.

(** ** Queue flags

    [bfqq->flags] holds one bit per member of enum bfqq_state_flags, at the
    position of the member in the enumeration; the accessors are the ones
    the BFQ_BFQQ_FNS macro generates. *)
Inductive bfqq_state_flags : Type :=
| BFQ_BFQQ_FLAG_just_created
| BFQ_BFQQ_FLAG_busy
| BFQ_BFQQ_FLAG_wait_request
| BFQ_BFQQ_FLAG_non_blocking_wait_rq
| BFQ_BFQQ_FLAG_must_alloc
| BFQ_BFQQ_FLAG_fifo_expire
| BFQ_BFQQ_FLAG_idle_window
| BFQ_BFQQ_FLAG_sync
| BFQ_BFQQ_FLAG_IO_bound
| BFQ_BFQQ_FLAG_in_large_burst
| BFQ_BFQQ_FLAG_softrt_update
| BFQ_BFQQ_FLAG_coop
| BFQ_BFQQ_FLAG_split_coop.

Definition flag_bit (f : bfqq_state_flags) : Z :=
  match f with
  | BFQ_BFQQ_FLAG_just_created => 0
  | BFQ_BFQQ_FLAG_busy => 1
  | BFQ_BFQQ_FLAG_wait_request => 2
  | BFQ_BFQQ_FLAG_non_blocking_wait_rq => 3
  | BFQ_BFQQ_FLAG_must_alloc => 4
  | BFQ_BFQQ_FLAG_fifo_expire => 5
  | BFQ_BFQQ_FLAG_idle_window => 6
  | BFQ_BFQQ_FLAG_sync => 7
  | BFQ_BFQQ_FLAG_IO_bound => 8
  | BFQ_BFQQ_FLAG_in_large_burst => 9
  | BFQ_BFQQ_FLAG_softrt_update => 10
  | BFQ_BFQQ_FLAG_coop => 11
  | BFQ_BFQQ_FLAG_split_coop => 12
  end.

Definition bfq_bfqq_flag (f : bfqq_state_flags) (bfqq : bfq_queue) : bool :=
  Z.testbit (flags bfqq) (flag_bit f).

Definition bfq_mark_bfqq (f : bfqq_state_flags) (bfqq : bfq_queue) : bfq_queue :=
  set_flags (Z.lor (flags bfqq) (Z.shiftl 1 (flag_bit f))) bfqq.

Definition bfq_clear_bfqq (f : bfqq_state_flags) (bfqq : bfq_queue) : bfq_queue :=
  set_flags (Z.land (flags bfqq) (Z.lnot (Z.shiftl 1 (flag_bit f)))) bfqq.

Definition bfq_bfqq_busy := bfq_bfqq_flag BFQ_BFQQ_FLAG_busy.
Definition bfq_bfqq_wait_request := bfq_bfqq_flag BFQ_BFQQ_FLAG_wait_request.
Definition bfq_bfqq_non_blocking_wait_rq :=
  bfq_bfqq_flag BFQ_BFQQ_FLAG_non_blocking_wait_rq.
Definition bfq_bfqq_fifo_expire := bfq_bfqq_flag BFQ_BFQQ_FLAG_fifo_expire.
Definition bfq_bfqq_idle_window := bfq_bfqq_flag BFQ_BFQQ_FLAG_idle_window.
Definition bfq_bfqq_sync := bfq_bfqq_flag BFQ_BFQQ_FLAG_sync.
Definition bfq_bfqq_IO_bound := bfq_bfqq_flag BFQ_BFQQ_FLAG_IO_bound.
Definition bfq_bfqq_in_large_burst := bfq_bfqq_flag BFQ_BFQQ_FLAG_in_large_burst.
Definition bfq_bfqq_coop := bfq_bfqq_flag BFQ_BFQQ_FLAG_coop.
Definition bfq_bfqq_split_coop := bfq_bfqq_flag BFQ_BFQQ_FLAG_split_coop.
Definition bfq_bfqq_just_created := bfq_bfqq_flag BFQ_BFQQ_FLAG_just_created.

(** [if (c) mark else clear], the shape of every flag restore. *)
Definition bfq_assign_bfqq (f : bfqq_state_flags) (c : bool) (bfqq : bfq_queue)
  : bfq_queue :=
  if c then bfq_mark_bfqq f bfqq else bfq_clear_bfqq f bfqq.

Definition on_entity (f : bfq_entity -> bfq_entity) (bfqq : bfq_queue) : bfq_queue :=
  set_entity (f (entity bfqq)) bfqq.

Definition same_queue (p : option qid) (q : qid) : bool :=
  match p with Some p' => Pos.eqb p' q | None => false end.

(** ** Service charging *)

(** The two products are computed in [unsigned int], the type of
    [blk_rq_sectors]. *)
Definition bfq_serv_to_charge (rq : request) (bfqq : bfq_queue) (bfqd : bfq_data) : Z :=
  if bfq_bfqq_sync bfqq || (1 <? wr_coeff bfqq) then blk_rq_sectors rq
  else if wr_busy_queues bfqd =? 0
       then Int.u32 (blk_rq_sectors rq * bfq_async_charge_factor)
       else Int.u32 (Int.u32 (blk_rq_sectors rq * 2) * bfq_async_charge_factor).

(** ** Budgets *)

Definition bfq_bfqq_budget_left (bfqq : bfq_queue) : Z :=
  Int.s32 (budget (entity bfqq) - service (entity bfqq)).

(** The function [bfq_max_budget()] of the source; the field
    [bfqd->bfq_max_budget] keeps the plain name. *)
Definition bfq_max_budget_cur (bfqd : bfq_data) : Z :=
  if budgets_assigned bfqd <? bfq_stats_min_budgets
  then bfq_default_max_budget
  else bfq_max_budget bfqd.

Definition bfq_min_budget (bfqd : bfq_data) : Z :=
  if budgets_assigned bfqd <? bfq_stats_min_budgets
  then bfq_default_max_budget / 32
  else Z.quot (bfq_max_budget bfqd) 32.

Definition reason_eqb (a b : bfqq_expiration) : bool :=
  match a, b with
  | BFQ_BFQQ_TOO_IDLE, BFQ_BFQQ_TOO_IDLE
  | BFQ_BFQQ_BUDGET_TIMEOUT, BFQ_BFQQ_BUDGET_TIMEOUT
  | BFQ_BFQQ_BUDGET_EXHAUSTED, BFQ_BFQQ_BUDGET_EXHAUSTED
  | BFQ_BFQQ_NO_MORE_REQUESTS, BFQ_BFQQ_NO_MORE_REQUESTS
  | BFQ_BFQQ_PREEMPTED, BFQ_BFQQ_PREEMPTED => true
  | _, _ => false
  end.

(** The switch of [__bfq_bfqq_recalc_budget] for a sync queue that is not
    weight-raised.  [None] is the [default: return] arm. *)
Definition recalc_budget_switch (bfqd : bfq_data) (bfqq : bfq_queue)
    (reason : bfqq_expiration) (budget min_budget : Z) : option Z :=
  match reason with
  | BFQ_BFQQ_TOO_IDLE =>
      if 0 <? dispatched bfqq
      then Some (Z.min (Int.s32 (budget * 2)) (bfq_max_budget bfqd))
      else if Int.s32 (5 * min_budget) <? budget
           then Some (Int.s32 (budget - Int.s32 (4 * min_budget)))
           else Some min_budget
  | BFQ_BFQQ_BUDGET_TIMEOUT =>
      Some (Z.min (Int.s32 (budget * 2)) (bfq_max_budget bfqd))
  | BFQ_BFQQ_BUDGET_EXHAUSTED =>
      Some (Z.min (Int.s32 (budget * 4)) (bfq_max_budget bfqd))
  | BFQ_BFQQ_NO_MORE_REQUESTS =>
      Some (Z.max (service (entity bfqq)) min_budget)
  | BFQ_BFQQ_PREEMPTED => None
  end.

(** The end of [__bfq_bfqq_recalc_budget], from the assignment of
    [bfqq->max_budget] on. *)
Definition recalc_budget_assign (bfqd : bfq_data) (bfqq : bfq_queue)
    (reason : bfqq_expiration) (budget : Z) : option bfq_queue :=
  let bfqq := set_max_budget budget bfqq in
  let bfqq :=
    if (bfq_stats_min_budgets <=? budgets_assigned bfqd)
       && (bfq_user_max_budget bfqd =? 0)
    then set_max_budget (Z.min (max_budget bfqq) (bfq_max_budget bfqd)) bfqq
    else bfqq in
  match next_rq bfqq with
  | Some rq =>
      BUG_ON (reason_eqb reason BFQ_BFQQ_TOO_IDLE
              || reason_eqb reason BFQ_BFQQ_NO_MORE_REQUESTS) $
      let bfqq :=
        on_entity
          (set_budget
             (Int.s32 (Z.max (Int.u64 (max_budget bfqq))
                             (bfq_serv_to_charge rq bfqq bfqd)))) bfqq in
      BUG_ON (negb (bfq_bfqq_busy bfqq)) $
      BUG_ON (match sort_list bfqq with [] => true | _ => false end) $
      Some bfqq
  | None => Some bfqq
  end.

(** [__bfq_bfqq_recalc_budget(bfqd, bfqq, reason)]; [q] is the address of
    [bfqq]. *)
Definition __bfq_bfqq_recalc_budget (bfqd : bfq_data) (q : qid) (bfqq : bfq_queue)
    (reason : bfqq_expiration) : option bfq_queue :=
  BUG_ON (negb (same_queue (in_service_queue bfqd) q)) $
  let min_budget := bfq_min_budget bfqd in
  let budget :=
    if wr_coeff bfqq =? 1 then max_budget bfqq else Int.s32 (2 * min_budget) in
  let feedback :=
    if bfq_bfqq_sync bfqq && (wr_coeff bfqq =? 1)
    then recalc_budget_switch bfqd bfqq reason budget min_budget
    else if negb (bfq_bfqq_sync bfqq) then Some (bfq_max_budget bfqd)
    else Some budget in
  match feedback with
  | None => Some bfqq
  | Some budget => recalc_budget_assign bfqd bfqq reason budget
  end.

(** The budget feedback as the expiration table words it: by reason for a
    sync stream that is not weight-raised, the device maximum for an async
    stream, twice the minimum budget for a weight-raised one. *)
Definition table_max_budget (bfqd : bfq_data) (bfqq : bfq_queue)
    (reason : bfqq_expiration) : Z :=
  let dev_max := bfq_max_budget bfqd in
  let min_budget := bfq_min_budget bfqd in
  if negb (bfq_bfqq_sync bfqq) then dev_max
  else if 1 <? wr_coeff bfqq then 2 * min_budget
  else
    match reason with
    | BFQ_BFQQ_TOO_IDLE =>
        if 0 <? dispatched bfqq
        then Z.min (2 * max_budget bfqq) dev_max
        else Z.max (max_budget bfqq - 4 * min_budget) min_budget
    | BFQ_BFQQ_BUDGET_TIMEOUT => Z.min (2 * max_budget bfqq) dev_max
    | BFQ_BFQQ_BUDGET_EXHAUSTED => Z.min (4 * max_budget bfqq) dev_max
    | BFQ_BFQQ_NO_MORE_REQUESTS => Z.max (service (entity bfqq)) min_budget
    | BFQ_BFQQ_PREEMPTED => max_budget bfqq
    end.

(** Auto-tuning is in force once enough budgets were assigned and the user
    set no maximum; the feedback is then capped at the device maximum. *)
Definition budget_autotuned (bfqd : bfq_data) : bool :=
  (bfq_stats_min_budgets <=? budgets_assigned bfqd)
  && (bfq_user_max_budget bfqd =? 0).

Definition capped_max_budget (bfqd : bfq_data) (bfqq : bfq_queue)
    (reason : bfqq_expiration) : Z :=
  if bfq_bfqq_sync bfqq && (wr_coeff bfqq =? 1)
     && reason_eqb reason BFQ_BFQQ_PREEMPTED
  then max_budget bfqq
  else if budget_autotuned bfqd
       then Z.min (table_max_budget bfqd bfqq reason) (bfq_max_budget bfqd)
       else table_max_budget bfqd bfqq reason.

(** Ranges of the fields read by the feedback: the coefficient of a
    stream is at least 1, the budgets and the service are not negative
    (the code asserts it), and four times the stream's maximum budget
    fits an [int], so that the products of the switch do not wrap. *)
Definition recalc_in_range (bfqd : bfq_data) (bfqq : bfq_queue) : Prop :=
  1 <= wr_coeff bfqq
  /\ 0 <= max_budget bfqq /\ 4 * max_budget bfqq < 2 ^ 31
  /\ 0 <= bfq_max_budget bfqd < 2 ^ 31
  /\ 0 <= service (entity bfqq) < 2 ^ 31.

Definition backlog_consistent (bfqq : bfq_queue) (reason : bfqq_expiration) : Prop :=
  match next_rq bfqq with
  | None => True
  | Some rq =>
      reason <> BFQ_BFQQ_TOO_IDLE /\ reason <> BFQ_BFQQ_NO_MORE_REQUESTS
      /\ bfq_bfqq_busy bfqq = true /\ sort_list bfqq <> []
  end.

(** ** Dispatch *)

Definition IOPRIO_CLASS_RT : Z := 1.
Definition IOPRIO_CLASS_IDLE : Z := 3.

Definition bfq_class_idle (bfqq : bfq_queue) : bool :=
  ioprio_class bfqq =? IOPRIO_CLASS_IDLE.

Definition bfq_check_fifo (bfqq : bfq_queue) (jiffies : Z)
  : bfq_queue * option request :=
  if bfq_bfqq_fifo_expire bfqq then (bfqq, None)
  else
    let bfqq := bfq_mark_bfqq BFQ_BFQQ_FLAG_fifo_expire bfqq in
    match fifo bfqq with
    | [] => (bfqq, None)
    | rq :: _ =>
        if Int.time_before jiffies (fifo_time rq) then (bfqq, None)
        else (bfqq, Some rq)
    end.

(** Modelled from the spec: [bfq_bfqq_served] is defined in bfq-sched.c.
    Dispatching a request "charges the budget": the sectors charged are
    added to the service the stream consumed in its current slot.  The
    propagation to the parent groups and to the virtual time is left out. *)
Definition bfq_bfqq_served (bfqq : bfq_queue) (served : Z) : bfq_queue :=
  on_entity (fun e => set_service (Int.s32 (service e + Int.s32 served)) e) bfqq.

(** The head of [bfq_dispatch_request(bfqd, bfqq)], from its first
    statement to the point where the request is either charged or found
    not to fit: the choice of the request, the budget test and, when the
    request fits, the charge.  The value is the queue, the request chosen
    and whether it was charged; when it was not, [bfqq->next_rq] has been
    set to it and the function is about to jump to [expire:].  The budget
    test compares an [unsigned long] with an [int]. *)
Definition dispatch_charge (bfqd : bfq_data) (bfqq : bfq_queue)
    (jiffies : Z) : option (bfq_queue * request * bool) :=
  BUG_ON (match sort_list bfqq with [] => true | _ => false end) $
  let '(bfqq, fifo_rq) := bfq_check_fifo bfqq jiffies in
  match (match fifo_rq with Some rq => Some rq | None => next_rq bfqq end) with
  | None => None
  | Some rq =>
      let service_to_charge := bfq_serv_to_charge rq bfqq bfqd in
      if Int.u64 (bfq_bfqq_budget_left bfqq) <? service_to_charge
      then
        let bfqq := set_next_rq (Some rq) bfqq in
        BUG_ON (budget (entity bfqq) <? service (entity bfqq)) $
        Some (bfqq, rq, false)
      else
        BUG_ON (budget (entity bfqq) <? service (entity bfqq)) $
        let bfqq := bfq_bfqq_served bfqq service_to_charge in
        BUG_ON (budget (entity bfqq) <? service (entity bfqq)) $
        Some (bfqq, rq, true)
  end.

(** The budget invariant of a queue. *)
Definition budget_inv (bfqq : bfq_queue) : Prop :=
  0 <= service (entity bfqq) <= budget (entity bfqq).

(** ** Peak-rate estimator *)

Definition R_slow (nonrot : bool) : Z := if nonrot then 10700 else 1000.
Definition R_fast (nonrot : bool) : Z := if nonrot then 33000 else 14000.
Definition device_speed_thresh (nonrot : bool) : Z :=
  Z.quot (4 * R_slow nonrot) 3.

(** [rq] is the request being dispatched, or [None] for the NULL the
    completion path passes; [now] is the value [ktime_get_ns()] returns. *)
Definition bfq_reset_rate_computation (bfqd : bfq_data) (rq : option request)
    (now : Z) : bfq_data :=
  match rq with
  | Some rq =>
      let bfqd := set_first_dispatch now bfqd in
      let bfqd := set_last_dispatch now bfqd in
      let bfqd := set_peak_rate_samples 1 bfqd in
      let bfqd := set_sequential_samples 0 bfqd in
      let bfqd := set_last_rq_max_size (blk_rq_sectors rq) bfqd in
      set_tot_sectors_dispatched (blk_rq_sectors rq) bfqd
  | None => set_peak_rate_samples 0 bfqd
  end.

(** The raw rate of the window that is being closed: [div_u64] of the
    sectors dispatched, shifted, by the window length; the divisor of
    [div_u64] is a [u32] and the result is stored in a [u32]. *)
Definition rate_window_us (bfqd : bfq_data) : Z :=
  Z.max (delta_from_first_us bfqd)
        (Int.u64 (last_completion bfqd - first_dispatch bfqd) / NSEC_PER_USEC).

Definition rate_bw (bfqd : bfq_data) : Z :=
  Int.u32 (Int.u64 (Z.shiftl (tot_sectors_dispatched bfqd) BFQ_RATE_SHIFT)
           / Int.u32 (delta_from_first_us bfqd)).

(** The test that sends [bfq_update_rate_reset] to [reset_computation]
    without touching the estimate; [>>] binds tighter than [>]. *)
Definition rate_sample_rejected (bfqd : bfq_data) (bw : Z) : bool :=
  ((Z.shiftr (Int.u32 (3 * sequential_samples bfqd)) 2
      <? Int.u32 (peak_rate_samples bfqd))
   && (bw <=? peak_rate bfqd))
  || (Z.shiftl 20 BFQ_RATE_SHIFT <? bw).

(** The two steps that compute the weight of the new sample. *)
Definition rate_weight_seq (bfqd : bfq_data) : Z :=
  Int.u32 (9 * sequential_samples bfqd) / Int.u32 (peak_rate_samples bfqd).

Definition rate_weight (bfqd : bfq_data) : Z :=
  Z.min 8 (Int.u32 (Int.u64 (rate_weight_seq bfqd * delta_from_first_us bfqd)
                    / BFQ_RATE_REF_INTERVAL)).

Definition rate_divisor (bfqd : bfq_data) : Z := Int.u32 (10 - rate_weight bfqd).

Section Estimator.

(** Conversions that depend on HZ, and the reference times filled in by
    the module initialisation from them. *)
Variable jiffies_to_msecs : Z -> Z.
Variable T_slow T_fast : bool -> Z.

Definition bfq_calc_max_budget (bfqd : bfq_data) : Z :=
  Z.shiftr
    (Int.u64 (Int.u64 (peak_rate bfqd * USEC_PER_MSEC)
              * jiffies_to_msecs (bfq_timeout bfqd)))
    BFQ_RATE_SHIFT.

Definition update_thr_responsiveness_params (bfqd : bfq_data) : option bfq_data :=
  let dev_type := queue_nonrot bfqd in
  let after_budget :=
    if bfq_user_max_budget bfqd =? 0
    then
      let bfqd := set_bfq_max_budget (Int.s32 (bfq_calc_max_budget bfqd)) bfqd in
      BUG_ON (bfq_max_budget bfqd <? 0) $ Some bfqd
    else Some bfqd in
  match after_budget with
  | None => None
  | Some bfqd =>
      match device_speed bfqd with
      | BFQ_BFQD_FAST =>
          if peak_rate bfqd <? device_speed_thresh dev_type
          then Some (set_RT_prod (R_slow dev_type * T_slow dev_type)
                       (set_device_speed BFQ_BFQD_SLOW bfqd))
          else Some bfqd
      | BFQ_BFQD_SLOW =>
          if device_speed_thresh dev_type <? peak_rate bfqd
          then Some (set_RT_prod (R_fast dev_type * T_fast dev_type)
                       (set_device_speed BFQ_BFQD_FAST bfqd))
          else Some bfqd
      end
  end.

(** The low-pass filter proper, from the computation of the weight to
    the last check on the new estimate. *)
Definition rate_filter (bfqd : bfq_data) (bw : Z) : option bfq_data :=
  let divisor := rate_divisor bfqd in
  BUG_ON (divisor =? 0) $
  let bfqd := set_peak_rate (Int.u32 (peak_rate bfqd * Int.u32 (divisor - 1))) bfqd in
  let bfqd := set_peak_rate (peak_rate bfqd / divisor) bfqd in
  let bw := bw / divisor in
  BUG_ON (peak_rate bfqd =? 0) $
  BUG_ON (Z.shiftl 20 BFQ_RATE_SHIFT <? peak_rate bfqd) $
  let bfqd := set_peak_rate (Int.u32 (peak_rate bfqd + bw)) bfqd in
  match update_thr_responsiveness_params bfqd with
  | None => None
  | Some bfqd =>
      BUG_ON (Z.shiftl 20 BFQ_RATE_SHIFT <? peak_rate bfqd) $ Some bfqd
  end.

(** What [bfq_update_rate_reset] does before it reaches
    [reset_computation]. *)
Inductive rate_decision : Type :=
| Rate_too_early
| Rate_rejected
| Rate_filtered.

Definition rate_gate (bfqd : bfq_data) : bool :=
  (peak_rate_samples bfqd <? BFQ_RATE_MIN_SAMPLES)
  || (delta_from_first_us bfqd <? BFQ_RATE_MIN_INTERVAL).

Definition bfq_update_rate_decision (bfqd : bfq_data) : rate_decision :=
  if rate_gate bfqd then Rate_too_early
  else
    let bfqd := set_delta_from_first_us (rate_window_us bfqd) bfqd in
    if rate_sample_rejected bfqd (rate_bw bfqd) then Rate_rejected
    else Rate_filtered.

Definition bfq_update_rate_reset (bfqd : bfq_data) (rq : option request)
    (now : Z) : option bfq_data :=
  if rate_gate bfqd then Some (bfq_reset_rate_computation bfqd rq now)
  else
    let bfqd := set_delta_from_first_us (rate_window_us bfqd) bfqd in
    BUG_ON (delta_from_first_us bfqd =? 0) $
    (* div_u64 by a zero 32-bit divisor traps *)
    BUG_ON (Int.u32 (delta_from_first_us bfqd) =? 0) $
    let bw := rate_bw bfqd in
    if rate_sample_rejected bfqd bw
    then Some (bfq_reset_rate_computation bfqd rq now)
    else
      match rate_filter bfqd bw with
      | None => None
      | Some bfqd => Some (bfq_reset_rate_computation bfqd rq now)
      end.

Definition get_sdist (last_pos : Z) (rq : request) : Z :=
  if last_pos =? 0 then 0
  else if last_pos <? blk_rq_pos rq
       then Int.u64 (blk_rq_pos rq - last_pos)
       else Int.u64 (last_pos - blk_rq_pos rq).

Definition update_last_values (bfqd : bfq_data) (rq : request) (now_ns : Z)
  : bfq_data :=
  set_last_dispatch now_ns
    (set_last_position (Int.u64 (blk_rq_pos rq + blk_rq_sectors rq)) bfqd).

(** The first half of [bfq_update_peak_rate]: account the dispatch of
    [rq] and tell which of the three exits is taken.  [Close_window]
    carries the state [bfq_update_rate_reset] is called on. *)
Inductive sampling : Type :=
| First_dispatch
| Close_window (bfqd : bfq_data)
| Keep_sampling (bfqd : bfq_data).

Definition peak_rate_sample (bfqd : bfq_data) (rq : request) (now_ns : Z)
  : sampling :=
  if peak_rate_samples bfqd =? 0 then First_dispatch
  else if (100 * NSEC_PER_MSEC <? Int.u64 (now_ns - last_dispatch bfqd))
          && (rq_in_driver bfqd =? 0)
  then Close_window bfqd
  else
    let bfqd := set_peak_rate_samples (Int.s32 (peak_rate_samples bfqd + 1)) bfqd in
    let bfqd :=
      if ((0 <? rq_in_driver bfqd)
          || (Int.u64 (now_ns - last_completion bfqd) <? BFQ_MIN_TT))
         && (get_sdist (last_position bfqd) rq <? BFQQ_SEEK_THR)
      then set_sequential_samples (Int.u32 (sequential_samples bfqd + 1)) bfqd
      else bfqd in
    let bfqd :=
      set_tot_sectors_dispatched
        (Int.u64 (tot_sectors_dispatched bfqd + blk_rq_sectors rq)) bfqd in
    let bfqd :=
      if negb (Z.rem (peak_rate_samples bfqd) 32 =? 0)
      then set_last_rq_max_size
             (Z.max (blk_rq_sectors rq) (last_rq_max_size bfqd)) bfqd
      else set_last_rq_max_size (blk_rq_sectors rq) bfqd in
    let bfqd :=
      set_delta_from_first_us
        (Int.u64 (now_ns - first_dispatch bfqd) / NSEC_PER_USEC) bfqd in
    if delta_from_first_us bfqd <? BFQ_RATE_REF_INTERVAL
    then Keep_sampling bfqd
    else Close_window bfqd.

(** [bfq_update_peak_rate(bfqd, rq)], called on every dispatch.  [now_ns]
    is the clock read at entry, [now_reset] the later read made by
    [bfq_reset_rate_computation]. *)
Definition bfq_update_peak_rate (bfqd : bfq_data) (rq : request)
    (now_ns now_reset : Z) : option bfq_data :=
  match peak_rate_sample bfqd rq now_ns with
  | First_dispatch =>
      Some (update_last_values
              (bfq_reset_rate_computation bfqd (Some rq) now_reset) rq now_ns)
  | Close_window bfqd =>
      match bfq_update_rate_reset bfqd (Some rq) now_reset with
      | None => None
      | Some bfqd => Some (update_last_values bfqd rq now_ns)
      end
  | Keep_sampling bfqd => Some (update_last_values bfqd rq now_ns)
  end.

(** The part of [bfq_completed_request] that touches the estimator: a
    completion that arrives late closes the window with a NULL request. *)
Definition completion_is_late (bfqd : bfq_data) (now_ns : Z) : bool :=
  let delta_us := Int.u32 (Int.u64 (now_ns - last_completion bfqd) / NSEC_PER_USEC) in
  (Z.quot BFQ_MIN_TT NSEC_PER_USEC <? delta_us)
  && (Int.u32 (Z.shiftl (last_rq_max_size bfqd) BFQ_RATE_SHIFT) / delta_us
        <? Z.shiftl 1 (BFQ_RATE_SHIFT - 10)).

Definition completed_request_rate (bfqd : bfq_data) (now_ns : Z)
  : option bfq_data :=
  let closed :=
    if completion_is_late bfqd now_ns
    then bfq_update_rate_reset bfqd None now_ns
    else Some bfqd in
  match closed with
  | None => None
  | Some bfqd => Some (set_last_completion now_ns bfqd)
  end.

(** Events that drive the estimator, and the states they reach from a
    freshly initialised device ([bfq_init_queue] allocates [bfqd] zeroed,
    so the sample counter starts at 0).  [Ev_in_driver] stands for the
    requests the driver takes and gives back in between.  A window is
    taken to hold fewer than [INT_MAX] dispatches. *)
Inductive rate_event : Type :=
| Ev_dispatch (rq : request) (now_ns now_reset : Z)
| Ev_completion (now_ns : Z)
| Ev_in_driver (n : Z).

Definition rate_step (bfqd : bfq_data) (ev : rate_event) : option bfq_data :=
  match ev with
  | Ev_dispatch rq now_ns now_reset => bfq_update_peak_rate bfqd rq now_ns now_reset
  | Ev_completion now_ns => completed_request_rate bfqd now_ns
  | Ev_in_driver n => Some (set_rq_in_driver n bfqd)
  end.

Inductive rate_reachable : bfq_data -> Prop :=
| reach_init bfqd :
    peak_rate_samples bfqd = 0 -> rate_reachable bfqd
| reach_step bfqd ev bfqd' :
    rate_reachable bfqd ->
    peak_rate_samples bfqd < 2 ^ 31 - 1 ->
    rate_step bfqd ev = Some bfqd' ->
    rate_reachable bfqd'.

(** The states on which [bfq_update_rate_reset] is called. *)
Inductive rate_update_point : bfq_data -> Prop :=
| update_on_dispatch bfqd rq now_ns bfqd' :
    rate_reachable bfqd ->
    peak_rate_samples bfqd < 2 ^ 31 - 1 ->
    peak_rate_sample bfqd rq now_ns = Close_window bfqd' ->
    rate_update_point bfqd'
| update_on_completion bfqd now_ns :
    rate_reachable bfqd ->
    completion_is_late bfqd now_ns = true ->
    rate_update_point bfqd.

(** The samples of a window: none yet, or more than the sequential ones. *)
Definition rate_inv (bfqd : bfq_data) : Prop :=
  peak_rate_samples bfqd = 0
  \/ (0 <= sequential_samples bfqd < peak_rate_samples bfqd
      /\ peak_rate_samples bfqd < 2 ^ 31).

(** Feeding a list of events, stopping at the first check that fires or
    at a window of [INT_MAX] samples. *)
Fixpoint rate_run (bfqd : bfq_data) (evs : list rate_event) : option bfq_data :=
  match evs with
  | [] => Some bfqd
  | ev :: evs' =>
      if peak_rate_samples bfqd <? 2 ^ 31 - 1
      then match rate_step bfqd ev with
           | Some bfqd' => rate_run bfqd' evs'
           | None => None
           end
      else None
  end.

End Estimator.

(** The rejection rule as the comment in [bfq_update_rate_reset] and the
    documentation word it: the share of sequential samples is below 3/4 and
    the raw rate does not exceed the estimate, or the raw rate is beyond
    20M sectors/s. *)
Definition documented_sample_rejected (bfqd : bfq_data) (bw : Z) : bool :=
  ((4 * sequential_samples bfqd <? 3 * peak_rate_samples bfqd)
   && (bw <=? peak_rate bfqd))
  || (Z.shiftl 20 BFQ_RATE_SHIFT <? bw).

(** ** Store of queues and I/O contexts *)

Record bfq_state : Type := {
  bfqd : bfq_data;
  queues : gmap qid bfq_queue;
  bics : gmap bicid bfq_io_cq;
  oom_bfqq : qid  (* address of [bfqd->oom_bfqq] *)
}.

Definition set_bfqd (v : bfq_data) (st : bfq_state) : bfq_state :=
  {| bfqd := v; queues := queues st; bics := bics st; oom_bfqq := oom_bfqq st |}.
Definition set_queues (v : gmap qid bfq_queue) (st : bfq_state) : bfq_state :=
  {| bfqd := bfqd st; queues := v; bics := bics st; oom_bfqq := oom_bfqq st |}.
Definition set_bics (v : gmap bicid bfq_io_cq) (st : bfq_state) : bfq_state :=
  {| bfqd := bfqd st; queues := queues st; bics := v; oom_bfqq := oom_bfqq st |}.

(** [bfqq-> ... = ...] through the pointer [q]. *)
Definition upd_queue (q : qid) (f : bfq_queue -> bfq_queue) (st : bfq_state)
  : bfq_state :=
  set_queues (alter f q (queues st)) st.

Definition upd_bic (b : bicid) (f : bfq_io_cq -> bfq_io_cq) (st : bfq_state)
  : bfq_state :=
  set_bics (alter f b (bics st)) st.

Definition upd_bfqd (f : bfq_data -> bfq_data) (st : bfq_state) : bfq_state :=
  set_bfqd (f (bfqd st)) st.

(** Calls that a definition reports instead of running them, in program
    order. *)
Inductive bfq_call : Type :=
| Call_bfq_bfqq_expire (q : qid) (compensate : bool) (reason : bfqq_expiration)
| Call_bfq_schedule_dispatch
| Call_hrtimer_start (ns : Z)
| Call_bfq_handle_burst (q : qid).

(** ** Idling *)

Fixpoint hweight_bits (n : nat) (x : Z) : Z :=
  match n with
  | O => 0
  | S n' => (if Z.testbit x (Z.of_nat n') then 1 else 0) + hweight_bits n' x
  end.

Definition hweight32 (x : Z) : Z := hweight_bits 32 x.

Definition BFQQ_SEEKY (bfqq : bfq_queue) : bool :=
  Z.quot 32 8 <? hweight32 (seek_history bfqq).

Definition rb_root_has_child (root : rb_root) : bool :=
  match root with
  | rb_nil => false
  | rb_branch l _ _ r => negb (RB_EMPTY_ROOT l) || negb (RB_EMPTY_ROOT r)
  end.

Section Idling.

(** Build option: with it the group weights tree is consulted too. *)
Variable CONFIG_BFQ_GROUP_IOSCHED : bool.

Definition bfq_differentiated_weights (bfqd : bfq_data) : bool :=
  (negb (RB_EMPTY_ROOT (queue_weights_tree bfqd))
   && rb_root_has_child (queue_weights_tree bfqd))
  || (CONFIG_BFQ_GROUP_IOSCHED
      && (negb (RB_EMPTY_ROOT (group_weights_tree bfqd))
          && rb_root_has_child (group_weights_tree bfqd))).

Definition bfq_symmetric_scenario (bfqd : bfq_data) : bool :=
  negb (bfq_differentiated_weights bfqd).

Definition bfq_bfqq_may_idle (bfqd : bfq_data) (bfqq : bfq_queue) : bool :=
  if strict_guarantees bfqd then true
  else
    let idling_boosts_thr :=
      (hw_tag bfqd =? 0)
      || (negb (queue_nonrot bfqd) && bfq_bfqq_IO_bound bfqq
          && bfq_bfqq_idle_window bfqq) in
    let idling_boosts_thr_without_issues :=
      idling_boosts_thr && (wr_busy_queues bfqd =? 0) in
    let asymmetric_scenario :=
      (1 <? wr_coeff bfqq) || negb (bfq_symmetric_scenario bfqd) in
    let idling_needed_for_service_guarantees :=
      asymmetric_scenario && negb (bfq_bfqq_in_large_burst bfqq) in
    bfq_bfqq_sync bfqq
    && (idling_boosts_thr_without_issues
        || idling_needed_for_service_guarantees).

Definition bfq_bfqq_must_idle (bfqd : bfq_data) (bfqq : bfq_queue) : bool :=
  match sort_list bfqq with [] => true | _ => false end
  && negb (bfq_slice_idle bfqd =? 0)
  && bfq_bfqq_may_idle bfqd bfqq.

Definition bfq_bfqq_budget_timeout (bfqq : bfq_queue) (jiffies : Z) : bool :=
  Int.time_after_eq jiffies (budget_timeout bfqq).

Definition bfq_may_expire_for_budg_timeout (bfqq : bfq_queue) (jiffies : Z)
  : bool :=
  (negb (bfq_bfqq_wait_request bfqq)
   || (Z.quot (budget (entity bfqq)) 3 <=? bfq_bfqq_budget_left bfqq))
  && bfq_bfqq_budget_timeout bfqq jiffies.

(** [bfq_arm_slice_timer(bfqd)]; [bfqq] is the in-service queue and
    [bic] what [bfqd->in_service_bic] points to.  The result carries the
    duration the timer is started with, if it is started. *)
Definition bfq_arm_slice_timer (bfqd : bfq_data) (bfqq : bfq_queue)
    (bic : option bfq_io_cq) : option (bfq_queue * option Z) :=
  BUG_ON (match sort_list bfqq with [] => false | _ => true end) $
  match bic with
  | None => Some (bfqq, None)
  | Some bic =>
      if ioc_active_ref bic =? 0 then Some (bfqq, None)
      else
        let bfqq := bfq_mark_bfqq BFQ_BFQQ_FLAG_wait_request bfqq in
        let sl := bfq_slice_idle bfqd in
        let sl :=
          if BFQQ_SEEKY bfqq && (wr_coeff bfqq =? 1)
             && bfq_symmetric_scenario bfqd
          then Z.min (Int.u32 sl) (Int.u32 BFQ_MIN_TT)
          else sl in
        Some (bfqq, Some sl)
  end.

(** The last part of [bfq_completed_request], taken when the completed
    request belongs to the in-service queue: arm the idle timer, or
    expire the queue, or leave it in service. *)
Definition completed_request_in_service (bfqd : bfq_data) (q : qid)
    (bfqq : bfq_queue) (bic : option bfq_io_cq) (jiffies : Z)
  : option (bfq_queue * list bfq_call) :=
  if (dispatched bfqq =? 0) && bfq_bfqq_must_idle bfqd bfqq
  then
    match bfq_arm_slice_timer bfqd bfqq bic with
    | None => None
    | Some (bfqq, Some sl) => Some (bfqq, [Call_hrtimer_start sl])
    | Some (bfqq, None) => Some (bfqq, [])
    end
  else
    let tail :=
      if rq_in_driver bfqd =? 0 then [Call_bfq_schedule_dispatch] else [] in
    if bfq_may_expire_for_budg_timeout bfqq jiffies
    then Some (bfqq, Call_bfq_bfqq_expire q false BFQ_BFQQ_BUDGET_TIMEOUT :: tail)
    else if match sort_list bfqq with [] => true | _ => false end
            && ((dispatched bfqq =? 0) || negb (bfq_bfqq_may_idle bfqd bfqq))
    then Some (bfqq, Call_bfq_bfqq_expire q false BFQ_BFQQ_NO_MORE_REQUESTS :: tail)
    else Some (bfqq, tail).

(** The conditions of the idling policy, as propositions.  [streams] are
    the streams the device knows of. *)
Definition idling_boosts_throughput (bfqd : bfq_data) (bfqq : bfq_queue) : Prop :=
  hw_tag bfqd = 0
  \/ (queue_nonrot bfqd = false /\ bfq_bfqq_IO_bound bfqq = true
      /\ bfq_bfqq_idle_window bfqq = true).

Definition some_stream_weight_raised (streams : list bfq_queue) : Prop :=
  exists s, In s streams /\ 1 < wr_coeff s.

Definition idling_allowed (bfqd : bfq_data) (bfqq : bfq_queue)
    (streams : list bfq_queue) : Prop :=
  bfq_bfqq_sync bfqq = true
  /\ ((idling_boosts_throughput bfqd bfqq /\ wr_busy_queues bfqd = 0)
      \/ ((some_stream_weight_raised streams
           \/ bfq_differentiated_weights bfqd = true)
          /\ bfq_bfqq_in_large_burst bfqq = false)).

End Idling.

(** ** Idle-slice timer *)


(** ** Cooperator proximity *)

(** The kernel's [abs()] on a value as wide as a long reads it as a
    [long]; the result is compared as an unsigned [sector_t]. *)
Definition abs_long (x : Z) : Z :=
  let d := Int.s64 x in if d <? 0 then Int.s64 (- d) else d.

(** [bfq_rq_close_to_sector(io_struct, request, sector)]; [pos] is
    [bfq_io_struct_pos(io_struct, request)]. *)
Definition bfq_rq_close_to_sector (pos sector : Z) : bool :=
  Int.u64 (abs_long (pos - sector)) <=? BFQQ_CLOSE_THR.

Definition SECTOR_BYTES : Z := 512.
Definition MiB : Z := 2 ^ 20.

(** ** Weight raising and preemption on the idle-to-busy switch *)

Section Activation.

(** HZ-dependent conversion, the soft real-time weight factor of bfq.h,
    and the two entry points of bfq-sched.c that the switch calls. *)
Variable msecs_to_jiffies : Z -> Z.
Variable BFQ_SOFTRT_WEIGHT_FACTOR : Z.
Variable bfq_add_bfqq_busy : bfq_state -> qid -> bfq_state.
Variable next_queue_may_preempt : bfq_state -> bool.

(** [do_div(dur, bfqd->peak_rate)] divides a u64 by a 32-bit value. *)
Definition bfq_wr_duration (bfqd : bfq_data) : option Z :=
  if 0 <? bfq_wr_max_time bfqd then Some (bfq_wr_max_time bfqd)
  else
    BUG_ON (Int.u32 (peak_rate bfqd) =? 0) $
    let dur := Int.u64 (RT_prod bfqd) / Int.u32 (peak_rate bfqd) in
    let dur :=
      if msecs_to_jiffies 13000 <? dur then msecs_to_jiffies 13000
      else if dur <? msecs_to_jiffies 3000 then msecs_to_jiffies 3000
      else dur in
    Some (Int.u32 dur).

(** The result is the updated queue and the value returned, i.e. whether
    the queue wants to preempt the queue in service. *)
Definition bfq_bfqq_update_budg_for_activation (bfqd : bfq_data)
    (bfqq : bfq_queue) (arrived_in_time wr_or_deserves_wr : bool)
  : option (bfq_queue * bool) :=
  if bfq_bfqq_non_blocking_wait_rq bfqq && arrived_in_time
  then
    BUG_ON (max_budget bfqq <? 0) $
    let bfqq :=
      on_entity
        (set_budget (Int.s32 (Z.min (Int.u64 (bfq_bfqq_budget_left bfqq))
                                    (Int.u64 (max_budget bfqq))))) bfqq in
    BUG_ON (budget (entity bfqq) <? 0) $
    Some (bfqq, true)
  else
    BUG_ON (max_budget bfqq <? 0) $
    match next_rq bfqq with
    | None => None
    | Some rq =>
        let bfqq :=
          on_entity
            (set_budget (Int.s32 (Z.max (Int.u64 (max_budget bfqq))
                                        (bfq_serv_to_charge rq bfqq bfqd)))) bfqq in
        BUG_ON (budget (entity bfqq) <? 0) $
        Some (bfq_clear_bfqq BFQ_BFQQ_FLAG_non_blocking_wait_rq bfqq,
              wr_or_deserves_wr)
    end.

Definition bfq_update_bfqq_wr_on_rq_arrival (bfqd : bfq_data)
    (bfqq : bfq_queue) (old_wr_coeff : Z)
    (wr_or_deserves_wr interactive in_burst soft_rt : bool) (jiffies : Z)
  : option bfq_queue :=
  if (old_wr_coeff =? 1) && wr_or_deserves_wr
  then
    let started :=
      if interactive
      then
        match bfq_wr_duration bfqd with
        | None => None
        | Some dur =>
            Some (set_wr_cur_max_time dur
                    (set_wr_coeff (bfq_wr_coeff bfqd) bfqq))
        end
      else
        Some (set_wr_cur_max_time (bfq_wr_rt_max_time bfqd)
                (set_wr_coeff
                   (Int.u32 (bfq_wr_coeff bfqd * BFQ_SOFTRT_WEIGHT_FACTOR))
                   bfqq)) in
    match started with
    | None => None
    | Some bfqq =>
        Some (on_entity
                (fun e =>
                   set_budget
                     (Int.s32 (Z.min (Int.u64 (budget e))
                                     (Int.u64 (Int.s32 (2 * bfq_min_budget bfqd)))))
                     e) bfqq)
    end
  else if 1 <? old_wr_coeff
  then
    if interactive
    then
      match bfq_wr_duration bfqd with
      | None => None
      | Some dur =>
          Some (set_wr_cur_max_time dur (set_wr_coeff (bfq_wr_coeff bfqd) bfqq))
      end
    else if in_burst then Some (set_wr_coeff 1 bfqq)
    else if Int.time_before
              (Int.u64 (last_wr_start_finish bfqq + wr_cur_max_time bfqq))
              (Int.u64 (jiffies + bfq_wr_rt_max_time bfqd))
            && soft_rt
    then
      Some (set_wr_coeff
              (Int.u32 (bfq_wr_coeff bfqd * BFQ_SOFTRT_WEIGHT_FACTOR))
              (set_wr_cur_max_time (bfq_wr_rt_max_time bfqd)
                 (set_last_wr_start_finish jiffies bfqq)))
    else Some bfqq
  else Some bfqq.

Definition bfq_bfqq_idle_for_long_time (bfqd : bfq_data) (bfqq : bfq_queue)
    (jiffies : Z) : bool :=
  (dispatched bfqq =? 0)
  && Int.time_after jiffies
       (Int.u64 (budget_timeout bfqq + bfq_wr_min_idle_time bfqd)).

(** The switch, step by step.  First the statements between the budget
    update and the weight-raising block: the queue leaves the burst it
    was created in when it has been idle for long, and the count of
    requests that arrived in time decides whether it is I/O bound. *)
Definition switch_burst_and_io_bound (bfqd : bfq_data) (bfqq : bfq_queue)
    (idle_for_long_time arrived_in_time : bool) (jiffies : Z) : bfq_queue :=
  let bfqq :=
    if negb (bfq_bfqq_just_created bfqq) && idle_for_long_time
       && Int.time_after jiffies
            (Int.u64 (budget_timeout bfqq + msecs_to_jiffies 10000))
    then bfq_clear_bfqq BFQ_BFQQ_FLAG_in_large_burst
           (set_burst_list_node false bfqq)
    else bfqq in
  let bfqq := bfq_clear_bfqq BFQ_BFQQ_FLAG_just_created bfqq in
  if negb (bfq_bfqq_IO_bound bfqq)
  then
    if arrived_in_time
    then
      let bfqq :=
        set_requests_within_timer
          (Int.u32 (requests_within_timer bfqq + 1)) bfqq in
      if bfq_requests_within_timer bfqd <=? requests_within_timer bfqq
      then bfq_mark_bfqq BFQ_BFQQ_FLAG_IO_bound bfqq
      else bfqq
    else set_requests_within_timer 0 bfqq
  else bfqq.

(** Then the block guarded by [bfqd->low_latency]. *)
Definition switch_weight_raising (bfqd : bfq_data) (bfqq : bfq_queue)
    (old_wr_coeff : Z) (wr_or_deserves_wr interactive in_burst soft_rt : bool)
    (jiffies : Z) : option bfq_queue :=
  if low_latency bfqd
  then
    let bfqq :=
      if Int.time_before jiffies (split_time bfqq)
      then set_split_time
             (Int.u64 (jiffies - bfq_wr_min_idle_time bfqd - 1)) bfqq
      else bfqq in
    if Int.time_after jiffies
         (Int.u64 (split_time bfqq + bfq_wr_min_idle_time bfqd))
    then
      match bfq_update_bfqq_wr_on_rq_arrival bfqd bfqq
              (Int.u32 old_wr_coeff) wr_or_deserves_wr interactive
              in_burst soft_rt jiffies with
      | None => None
      | Some bfqq =>
          if negb (Int.u32 old_wr_coeff =? wr_coeff bfqq)
          then Some (on_entity (set_prio_changed 1) bfqq)
          else Some bfqq
      end
    else Some bfqq
  else Some bfqq.

Definition deserves_wr (bfqd : bfq_data) (bfqq : bfq_queue)
    (interactive soft_rt : bool) : bool :=
  low_latency bfqd
  && ((1 <? wr_coeff bfqq)
      || (bfq_bfqq_sync bfqq
          && match bic bfqq with Some _ => true | None => false end
          && (interactive || soft_rt))).

(** The part of the switch that works on the queue alone, up to the call
    of [bfq_add_bfqq_busy].  It yields the queue, [*interactive] and
    [bfqq_wants_to_preempt]. *)
Definition idle_busy_switch_queue (bfqd : bfq_data) (bfqq : bfq_queue)
    (old_wr_coeff last_end_request jiffies now_ns : Z)
  : option (bfq_queue * bool * bool) :=
  let idle_for_long_time := bfq_bfqq_idle_for_long_time bfqd bfqq jiffies in
  let arrived_in_time :=
    now_ns <=? Int.u64 (last_end_request + Int.u32 (bfq_slice_idle bfqd * 3)) in
  BUG_ON (budget (entity bfqq) <? service (entity bfqq)) $
  let in_burst := bfq_bfqq_in_large_burst bfqq in
  let soft_rt :=
    (0 <? bfq_wr_max_softrt_rate bfqd) && negb in_burst
    && Int.time_after jiffies (soft_rt_next_start bfqq) in
  let interactive := negb in_burst && idle_for_long_time in
  let wr_or_deserves_wr := deserves_wr bfqd bfqq interactive soft_rt in
  match bfq_bfqq_update_budg_for_activation bfqd bfqq arrived_in_time
          wr_or_deserves_wr with
  | None => None
  | Some (bfqq, bfqq_wants_to_preempt) =>
      let bfqq :=
        switch_burst_and_io_bound bfqd bfqq idle_for_long_time
          arrived_in_time jiffies in
      match switch_weight_raising bfqd bfqq old_wr_coeff wr_or_deserves_wr
              interactive in_burst soft_rt jiffies with
      | None => None
      | Some bfqq =>
          let bfqq := set_last_idle_bklogged jiffies bfqq in
          let bfqq := set_service_from_backlogged 0 bfqq in
          let bfqq := bfq_clear_bfqq BFQ_BFQQ_FLAG_softrt_update bfqq in
          Some (bfqq, interactive, bfqq_wants_to_preempt)
      end
  end.

(** The test that closes the switch, read on the state that
    [bfq_add_bfqq_busy] leaves. *)
Definition preemption_call (st : bfq_state) (q : qid)
    (bfqq_wants_to_preempt : bool) : option (list bfq_call) :=
  match in_service_queue (bfqd st) with
  | None => Some []
  | Some p =>
      if negb bfqq_wants_to_preempt then Some []
      else
        match queues st !! p, queues st !! q with
        | Some in_serv, Some bfqq =>
            if (wr_coeff in_serv <? wr_coeff bfqq) && next_queue_may_preempt st
            then
              BUG_ON (Pos.eqb p q) $
              Some [Call_bfq_bfqq_expire p false BFQ_BFQQ_PREEMPTED]
            else Some []
        | _, _ => None
        end
  end.

(** [bfq_bfqq_handle_idle_busy_switch(bfqd, bfqq, old_wr_coeff, rq,
    &interactive)]; [q] is the address of [bfqq], [last_end_request] is
    [RQ_BIC(rq)->ttime.last_end_request]. *)
Definition bfq_bfqq_handle_idle_busy_switch (st : bfq_state) (q : qid)
    (old_wr_coeff last_end_request jiffies now_ns : Z)
  : option (bfq_state * bool * list bfq_call) :=
  match queues st !! q with
  | None => None
  | Some bfqq =>
      BUG_ON (same_queue (in_service_queue (bfqd st)) q) $
      match idle_busy_switch_queue (bfqd st) bfqq old_wr_coeff
              last_end_request jiffies now_ns with
      | None => None
      | Some (bfqq, interactive, bfqq_wants_to_preempt) =>
          let st := upd_queue q (fun _ => bfqq) st in
          let st := bfq_add_bfqq_busy st q in
          match preemption_call st q bfqq_wants_to_preempt with
          | None => None
          | Some calls => Some (st, interactive, calls)
          end
      end
  end.

End Activation.

(** ** Queue merging and splitting *)

Definition READ : bool := false.
Definition WRITE : bool := true.

Definition array2_get (a : Z * Z) (i : bool) : Z := if i then snd a else fst a.
Definition array2_set (a : Z * Z) (i : bool) (v : Z) : Z * Z :=
  if i then (fst a, v) else (v, snd a).

(** [bic_to_bfqq] and [bic_set_bfqq] of bfq-ioc.c read and write
    [bic->bfqq[is_sync]]. *)
Definition bic_to_bfqq (bic : bfq_io_cq) (is_sync : bool) : option qid :=
  if is_sync then snd (bic_bfqq bic) else fst (bic_bfqq bic).

Definition bic_set_bfqq (bfqq : option qid) (is_sync : bool) (bic : bfq_io_cq)
  : bfq_io_cq :=
  set_bic_bfqq (if is_sync then (fst (bic_bfqq bic), bfqq)
                else (bfqq, snd (bic_bfqq bic))) bic.

Definition bfqq_process_refs (bfqq : bfq_queue) : option Z :=
  let io_refs := Int.s32 (fst (allocated bfqq) + snd (allocated bfqq)) in
  let process_refs := Int.s32 (Int.s32 (ref bfqq - io_refs) - on_st (entity bfqq)) in
  BUG_ON (process_refs <? 0) $ Some process_refs.

Definition bfq_bfqq_save_state (st : bfq_state) (q : qid) : option bfq_state :=
  match queues st !! q with
  | None => None
  | Some bfqq =>
      match bic bfqq with
      | None => Some st
      | Some b =>
          match bics st !! b with
          | None => None
          | Some _ =>
              Some (upd_bic b
                      (fun c =>
                         set_was_in_burst_list (burst_list_node bfqq)
                           (set_saved_in_large_burst (bfq_bfqq_in_large_burst bfqq)
                              (set_saved_IO_bound (bfq_bfqq_IO_bound bfqq)
                                 (set_saved_idle_window (bfq_bfqq_idle_window bfqq) c))))
                      st)
          end
      end
  end.

Definition bfq_bfqq_resume_state (bfqq : bfq_queue) (bic : bfq_io_cq) : bfq_queue :=
  let bfqq := bfq_assign_bfqq BFQ_BFQQ_FLAG_idle_window (saved_idle_window bic) bfqq in
  bfq_assign_bfqq BFQ_BFQQ_FLAG_IO_bound (saved_IO_bound bic) bfqq.

Definition bfq_get_bic_reference (st : bfq_state) (q : qid) : option bfq_state :=
  match queues st !! q with
  | None => None
  | Some bfqq =>
      match bic bfqq with
      | None => Some st
      | Some b =>
          match bics st !! b with
          | None => None
          | Some _ => Some (upd_bic b (fun c => set_ioc_refcount (ioc_refcount c + 1) c) st)
          end
      end
  end.

(** [bfq_put_queue(bfqq)] on the store: drop one reference; the queue is
    freed, that is removed from the store, with the last one.  The check
    BUG_ON(bfqq->entity.tree) reads a field of the entity that is not
    tracked.  The burst list is kept apart from [bfq_state]; what the
    function does to it when it frees a sync queue is part of
    [bfq_put_queue_burst]. *)
Definition bfq_put_queue (st : bfq_state) (q : qid) : option bfq_state :=
  match queues st !! q with
  | None => None
  | Some bfqq =>
      BUG_ON (ref bfqq <=? 0) $
      let bfqq := set_ref (Int.s32 (ref bfqq - 1)) bfqq in
      let st := upd_queue q (fun _ => bfqq) st in
      if negb (ref bfqq =? 0) then Some st
      else
        BUG_ON (match sort_list bfqq with [] => false | _ => true end) $
        BUG_ON (negb (Int.s32 (fst (allocated bfqq) + snd (allocated bfqq)) =? 0)) $
        BUG_ON (bfq_bfqq_busy bfqq) $
        BUG_ON (same_queue (in_service_queue (bfqd st)) q) $
        Some (set_queues (delete q (queues st)) st)
  end.

(** The loop of [bfq_put_cooperator]: follow the [new_bfqq] chain from
    [cur] until it ends or comes back to [q].  [fuel] bounds the walk; the
    chain cannot be longer than the store unless it has a cycle that
    avoids [q]. *)
Fixpoint put_cooperator_loop (fuel : nat) (st : bfq_state) (q : qid)
    (cur : option qid) : option bfq_state :=
  match cur with
  | None => Some st
  | Some c =>
      if Pos.eqb c q then Some st
      else
        match fuel with
        | O => None
        | S fuel' =>
            match queues st !! c with
            | None => None
            | Some cq =>
                match bfq_put_queue st c with
                | None => None
                | Some st => put_cooperator_loop fuel' st q (new_bfqq cq)
                end
            end
        end
  end.

Definition bfq_put_cooperator (st : bfq_state) (q : qid) : option bfq_state :=
  match queues st !! q with
  | None => None
  | Some bfqq => put_cooperator_loop (S (size (queues st))) st q (new_bfqq bfqq)
  end.

(** [bfq_merge_bfqqs(bfqd, bic, bfqq, new_bfqq)] with [b], [q] and [nq]
    the three addresses.  Every statement reads the store afresh, so the
    outcome is the source's also when pointers coincide. *)
Definition bfq_merge_bfqqs (st : bfq_state) (b : bicid) (q nq : qid)
  : option bfq_state :=
  st ← bfq_bfqq_save_state st q;
  st ← bfq_bfqq_save_state st nq;
  bfqq ← queues st !! q;
  let st :=
    if bfq_bfqq_IO_bound bfqq
    then upd_queue nq (bfq_mark_bfqq BFQ_BFQQ_FLAG_IO_bound) st else st in
  let st := upd_queue q (bfq_clear_bfqq BFQ_BFQQ_FLAG_IO_bound) st in
  bfqq ← queues st !! q;
  new_bfqq ← queues st !! nq;
  let st :=
    if (wr_coeff new_bfqq =? 1) && (1 <? wr_coeff bfqq)
    then
      let st :=
        upd_queue nq
          (fun n =>
             set_last_wr_start_finish (last_wr_start_finish bfqq)
               (set_wr_cur_max_time (wr_cur_max_time bfqq)
                  (set_wr_coeff (wr_coeff bfqq) n))) st in
      let st :=
        if bfq_bfqq_busy new_bfqq
        then upd_bfqd (fun d => set_wr_busy_queues (Int.s32 (wr_busy_queues d + 1)) d) st
        else st in
      upd_queue nq (on_entity (set_prio_changed 1)) st
    else st in
  bfqq ← queues st !! q;
  let st :=
    if 1 <? wr_coeff bfqq
    then
      let st := upd_queue q (fun x => on_entity (set_prio_changed 1) (set_wr_coeff 1 x)) st in
      if bfq_bfqq_busy bfqq
      then upd_bfqd (fun d => set_wr_busy_queues (Int.s32 (wr_busy_queues d - 1)) d) st
      else st
    else st in
  st ← bfq_get_bic_reference st q;
  st ← bfq_get_bic_reference st nq;
  _ ← bics st !! b;
  let st := upd_bic b (bic_set_bfqq (Some nq) true) st in
  let st := upd_queue nq (bfq_mark_bfqq BFQ_BFQQ_FLAG_coop) st in
  let st := upd_queue nq (set_bic None) st in
  let st := upd_queue q (set_bic None) st in
  bfq_put_queue st q.

(** [put_io_context] of the block layer drops one reference to the
    context. *)
Definition put_io_context (b : bicid) (st : bfq_state) : bfq_state :=
  upd_bic b (fun c => set_ioc_refcount (ioc_refcount c - 1) c) st.

(** [bfq_split_bfqq(bic, bfqq)]: the value is the state and the returned
    pointer. *)
Definition bfq_split_bfqq (st : bfq_state) (b : bicid) (q : qid) (current_pid : Z)
  : option (bfq_state * option qid) :=
  _ ← bics st !! b;
  let st := put_io_context b st in
  bfqq ← queues st !! q;
  refs ← bfqq_process_refs bfqq;
  if refs =? 1
  then
    Some (upd_queue q
            (fun x =>
               bfq_clear_bfqq BFQ_BFQQ_FLAG_split_coop
                 (bfq_clear_bfqq BFQ_BFQQ_FLAG_coop (set_pid current_pid x))) st,
          Some q)
  else
    let st := upd_bic b (bic_set_bfqq None true) st in
    st ← bfq_put_cooperator st q;
    st ← bfq_put_queue st q;
    Some (st, None).

(** ** Queue creation and the split on the next request *)

Definition MAX_JIFFY_OFFSET : Z := Z.shiftr (2 ^ 63 - 1) 1 - 1.

Definition bfq_greatest_from_now (jiffies : Z) : Z := Int.u64 (jiffies + MAX_JIFFY_OFFSET).
Definition bfq_smallest_from_now (jiffies : Z) : Z := Int.u64 (jiffies - MAX_JIFFY_OFFSET).

Definition IOPRIO_CLASS_SHIFT : Z := 13.
Definition IOPRIO_BE_NR : Z := 8.
Definition IOPRIO_PRIO_CLASS (mask : Z) : Z := Z.shiftr mask IOPRIO_CLASS_SHIFT.
Definition IOPRIO_PRIO_DATA (mask : Z) : Z :=
  Z.land mask (Z.shiftl 1 IOPRIO_CLASS_SHIFT - 1).

(** Memory as [kmem_cache_alloc_node(.., __GFP_ZERO, ..)] returns it. *)
Definition bfq_entity_zero : bfq_entity :=
  {| budget := 0; service := 0; on_st := 0; prio_changed := 0 |}.

Definition bfq_queue_zero : bfq_queue :=
  {| entity := bfq_entity_zero; ref := 0; allocated := (0, 0); new_bfqq := None;
     sort_list := []; next_rq := None; queued := (0, 0); fifo := [];
     max_budget := 0; budget_timeout := 0; dispatched := 0; flags := 0;
     bic := None; burst_list_node := false; seek_history := 0;
     requests_within_timer := 0; wr_coeff := 0; last_wr_start_finish := 0;
     wr_cur_max_time := 0; soft_rt_next_start := 0; last_idle_bklogged := 0;
     service_from_backlogged := 0; split_time := 0; ioprio_class := 0; pid := 0 |}.

(** [bfq_set_next_ioprio_data(bfqq, bic)] on the fields tracked here: the
    idle class loses the idle window, a priority level out of range is a
    BUG, and the entity is flagged for a weight update.  The level a task
    without I/O priority inherits from its nice value is always in range. *)
Definition bfq_set_next_ioprio_data (bfqq : bfq_queue) (bic : bfq_io_cq)
  : option bfq_queue :=
  let ioprio_class := IOPRIO_PRIO_CLASS (ioprio bic) in
  let level_checked :=
    if (ioprio_class =? IOPRIO_CLASS_RT) || (ioprio_class =? 2)
    then BUG_ON (IOPRIO_BE_NR <=? IOPRIO_PRIO_DATA (ioprio bic)) $ Some bfqq
    else if ioprio_class =? IOPRIO_CLASS_IDLE
         then Some (bfq_clear_bfqq BFQ_BFQQ_FLAG_idle_window bfqq)
         else Some bfqq in
  match level_checked with
  | None => None
  | Some bfqq => Some (on_entity (set_prio_changed 1) bfqq)
  end.

(** [bfq_init_bfqq(bfqd, bfqq, bic, pid, is_sync)] on a zeroed queue. *)
Definition bfq_init_bfqq (bfqd : bfq_data) (bfqq : bfq_queue)
    (bic : option bfq_io_cq) (pid : Z) (is_sync : bool) (jiffies : Z)
  : option bfq_queue :=
  let bfqq := set_burst_list_node false bfqq in
  let bfqq := set_ref 0 bfqq in
  match (match bic with
         | Some bic => bfq_set_next_ioprio_data bfqq bic
         | None => Some bfqq
         end) with
  | None => None
  | Some bfqq =>
      let bfqq :=
        if is_sync
        then
          let bfqq :=
            if negb (bfq_class_idle bfqq)
            then bfq_mark_bfqq BFQ_BFQQ_FLAG_idle_window bfqq else bfqq in
          bfq_mark_bfqq BFQ_BFQQ_FLAG_just_created
            (bfq_mark_bfqq BFQ_BFQQ_FLAG_sync bfqq)
        else bfq_clear_bfqq BFQ_BFQQ_FLAG_sync bfqq in
      let bfqq := bfq_mark_bfqq BFQ_BFQQ_FLAG_IO_bound bfqq in
      let bfqq := set_max_budget (Z.quot (Int.s32 (2 * bfq_max_budget_cur bfqd)) 3) bfqq in
      let bfqq := set_pid pid bfqq in
      let bfqq := set_wr_coeff 1 bfqq in
      let bfqq := set_last_wr_start_finish (bfq_smallest_from_now jiffies) bfqq in
      let bfqq := set_budget_timeout (bfq_smallest_from_now jiffies) bfqq in
      let bfqq := set_split_time (bfq_smallest_from_now jiffies) bfqq in
      let bfqq := set_soft_rt_next_start (bfq_greatest_from_now jiffies) bfqq in
      Some (set_seek_history 1 bfqq)
  end.

(** [bfq_get_queue(bfqd, bio, is_sync, bic)] for a sync queue.  [fresh] is
    the address the allocator returns, [None] when the group lookup or the
    allocation fails and the OOM queue is handed out instead. *)
Definition bfq_get_queue_sync (st : bfq_state) (bic : bfq_io_cq)
    (fresh : option qid) (pid jiffies : Z) : option (bfq_state * qid) :=
  match fresh with
  | Some q =>
      BUG_ON (match queues st !! q with Some _ => true | None => false end) $
      bfqq ← bfq_init_bfqq (bfqd st) bfq_queue_zero (Some bic) pid true jiffies;
      let bfqq := set_ref (Int.s32 (ref bfqq + 1)) bfqq in
      Some (set_queues (<[q := bfqq]> (queues st)) st, q)
  | None =>
      oom ← queues st !! oom_bfqq st;
      Some (upd_queue (oom_bfqq st) (fun x => set_ref (Int.s32 (ref x + 1)) x) st,
            oom_bfqq st)
  end.

(** The branch of [bfq_set_request] that creates the queue of a sync
    request, entered when the context has no queue or has the OOM one. *)
Definition set_request_new_queue (st : bfq_state) (b : bicid)
    (fresh : option qid) (split : bool) (pid jiffies : Z)
  : option (bfq_state * qid) :=
  c ← bics st !! b;
  st ← match bic_to_bfqq c true with
       | Some old => bfq_put_queue st old
       | None => Some st
       end;
  '(st, q) ← bfq_get_queue_sync st c fresh pid jiffies;
  bfqq ← queues st !! q;
  BUG_ON (burst_list_node bfqq) $
  let st := upd_bic b (bic_set_bfqq (Some q) true) st in
  if split
  then
    let st :=
      if (was_in_burst_list c && large_burst (bfqd st)) || saved_in_large_burst c
      then upd_queue q (bfq_mark_bfqq BFQ_BFQQ_FLAG_in_large_burst) st
      else
        let st := upd_queue q (bfq_clear_bfqq BFQ_BFQQ_FLAG_in_large_burst) st in
        if was_in_burst_list c
        then upd_queue q (set_burst_list_node true) st else st in
    Some (upd_queue q (set_split_time jiffies) st, q)
  else Some (st, q).

(** [bfq_set_request(q, rq, bio, gfp_mask)] for a sync request of the
    context [b], from the label [new_queue] on.  The priority and cgroup
    updates that precede it work on fields that are not tracked; the call
    of [bfq_handle_burst] that ends it is reported.  The value is the
    state, the queue the request is attached to, the local [split] and the
    calls made. *)
Definition bfq_set_request (st : bfq_state) (b : bicid) (rw : bool)
    (fresh : option qid) (pid jiffies : Z)
  : option (bfq_state * qid * bool * list bfq_call) :=
  c ← bics st !! b;
  '(st, q, split) ←
    match bic_to_bfqq c true with
    | None => '(st, q) ← set_request_new_queue st b fresh false pid jiffies;
              Some (st, q, false)
    | Some q =>
        if Pos.eqb q (oom_bfqq st)
        then '(st, q) ← set_request_new_queue st b fresh false pid jiffies;
             Some (st, q, false)
        else
          bfqq ← queues st !! q;
          if bfq_bfqq_coop bfqq && bfq_bfqq_split_coop bfqq
          then
            let st :=
              if bfq_bfqq_in_large_burst bfqq
              then upd_bic b (set_saved_in_large_burst true) st else st in
            '(st, kept) ← bfq_split_bfqq st b q pid;
            match kept with
            | Some q => Some (st, q, true)
            | None => '(st, q) ← set_request_new_queue st b fresh true pid jiffies;
                      Some (st, q, true)
            end
          else Some (st, q, false)
    end;
  let st :=
    upd_queue q
      (fun x =>
         set_ref (Int.s32 (ref x + 1))
           (set_allocated
              (array2_set (allocated x) rw (Int.s32 (array2_get (allocated x) rw + 1)))
              x)) st in
  bfqq ← queues st !! q;
  c ← bics st !! b;
  refs ← (if Pos.eqb q (oom_bfqq st) then Some 0 else bfqq_process_refs bfqq);
  let st :=
    if negb (Pos.eqb q (oom_bfqq st)) && (refs =? 1)
    then
      let st := upd_queue q (set_bic (Some b)) st in
      if (split : bool)
      then upd_queue q (fun x => bfq_bfqq_resume_state x c) st else st
    else st in
  bfqq ← queues st !! q;
  Some (st, q, split,
        if bfq_bfqq_just_created bfqq then [Call_bfq_handle_burst q] else []).

(** ** Further field updates *)

Definition set_in_service_bic (v : option bicid) (d : bfq_data) : bfq_data :=
  {| in_service_queue := in_service_queue d; in_service_bic := v; busy_queues := busy_queues d; wr_busy_queues := wr_busy_queues d; rq_in_driver := rq_in_driver d; budgets_assigned := budgets_assigned d; bfq_max_budget := bfq_max_budget d; bfq_user_max_budget := bfq_user_max_budget d; hw_tag := hw_tag d; queue_nonrot := queue_nonrot d; strict_guarantees := strict_guarantees d; low_latency := low_latency d; large_burst := large_burst d; queue_weights_tree := queue_weights_tree d; group_weights_tree := group_weights_tree d; bfq_slice_idle := bfq_slice_idle d; last_position := last_position d; last_completion := last_completion d; first_dispatch := first_dispatch d; last_dispatch := last_dispatch d; peak_rate_samples := peak_rate_samples d; sequential_samples := sequential_samples d; tot_sectors_dispatched := tot_sectors_dispatched d; last_rq_max_size := last_rq_max_size d; delta_from_first_us := delta_from_first_us d; peak_rate := peak_rate d; device_speed := device_speed d; RT_prod := RT_prod d; bfq_wr_coeff := bfq_wr_coeff d; bfq_wr_max_time := bfq_wr_max_time d; bfq_wr_rt_max_time := bfq_wr_rt_max_time d; bfq_wr_min_idle_time := bfq_wr_min_idle_time d; bfq_wr_max_softrt_rate := bfq_wr_max_softrt_rate d; bfq_requests_within_timer := bfq_requests_within_timer d; bfq_timeout := bfq_timeout d |}.
Definition set_budgets_assigned (v : Z) (d : bfq_data) : bfq_data :=
  {| in_service_queue := in_service_queue d; in_service_bic := in_service_bic d; busy_queues := busy_queues d; wr_busy_queues := wr_busy_queues d; rq_in_driver := rq_in_driver d; budgets_assigned := v; bfq_max_budget := bfq_max_budget d; bfq_user_max_budget := bfq_user_max_budget d; hw_tag := hw_tag d; queue_nonrot := queue_nonrot d; strict_guarantees := strict_guarantees d; low_latency := low_latency d; large_burst := large_burst d; queue_weights_tree := queue_weights_tree d; group_weights_tree := group_weights_tree d; bfq_slice_idle := bfq_slice_idle d; last_position := last_position d; last_completion := last_completion d; first_dispatch := first_dispatch d; last_dispatch := last_dispatch d; peak_rate_samples := peak_rate_samples d; sequential_samples := sequential_samples d; tot_sectors_dispatched := tot_sectors_dispatched d; last_rq_max_size := last_rq_max_size d; delta_from_first_us := delta_from_first_us d; peak_rate := peak_rate d; device_speed := device_speed d; RT_prod := RT_prod d; bfq_wr_coeff := bfq_wr_coeff d; bfq_wr_max_time := bfq_wr_max_time d; bfq_wr_rt_max_time := bfq_wr_rt_max_time d; bfq_wr_min_idle_time := bfq_wr_min_idle_time d; bfq_wr_max_softrt_rate := bfq_wr_max_softrt_rate d; bfq_requests_within_timer := bfq_requests_within_timer d; bfq_timeout := bfq_timeout d |}.
Definition set_bfq_user_max_budget (v : Z) (d : bfq_data) : bfq_data :=
  {| in_service_queue := in_service_queue d; in_service_bic := in_service_bic d; busy_queues := busy_queues d; wr_busy_queues := wr_busy_queues d; rq_in_driver := rq_in_driver d; budgets_assigned := budgets_assigned d; bfq_max_budget := bfq_max_budget d; bfq_user_max_budget := v; hw_tag := hw_tag d; queue_nonrot := queue_nonrot d; strict_guarantees := strict_guarantees d; low_latency := low_latency d; large_burst := large_burst d; queue_weights_tree := queue_weights_tree d; group_weights_tree := group_weights_tree d; bfq_slice_idle := bfq_slice_idle d; last_position := last_position d; last_completion := last_completion d; first_dispatch := first_dispatch d; last_dispatch := last_dispatch d; peak_rate_samples := peak_rate_samples d; sequential_samples := sequential_samples d; tot_sectors_dispatched := tot_sectors_dispatched d; last_rq_max_size := last_rq_max_size d; delta_from_first_us := delta_from_first_us d; peak_rate := peak_rate d; device_speed := device_speed d; RT_prod := RT_prod d; bfq_wr_coeff := bfq_wr_coeff d; bfq_wr_max_time := bfq_wr_max_time d; bfq_wr_rt_max_time := bfq_wr_rt_max_time d; bfq_wr_min_idle_time := bfq_wr_min_idle_time d; bfq_wr_max_softrt_rate := bfq_wr_max_softrt_rate d; bfq_requests_within_timer := bfq_requests_within_timer d; bfq_timeout := bfq_timeout d |}.
Definition set_hw_tag (v : Z) (d : bfq_data) : bfq_data :=
  {| in_service_queue := in_service_queue d; in_service_bic := in_service_bic d; busy_queues := busy_queues d; wr_busy_queues := wr_busy_queues d; rq_in_driver := rq_in_driver d; budgets_assigned := budgets_assigned d; bfq_max_budget := bfq_max_budget d; bfq_user_max_budget := bfq_user_max_budget d; hw_tag := v; queue_nonrot := queue_nonrot d; strict_guarantees := strict_guarantees d; low_latency := low_latency d; large_burst := large_burst d; queue_weights_tree := queue_weights_tree d; group_weights_tree := group_weights_tree d; bfq_slice_idle := bfq_slice_idle d; last_position := last_position d; last_completion := last_completion d; first_dispatch := first_dispatch d; last_dispatch := last_dispatch d; peak_rate_samples := peak_rate_samples d; sequential_samples := sequential_samples d; tot_sectors_dispatched := tot_sectors_dispatched d; last_rq_max_size := last_rq_max_size d; delta_from_first_us := delta_from_first_us d; peak_rate := peak_rate d; device_speed := device_speed d; RT_prod := RT_prod d; bfq_wr_coeff := bfq_wr_coeff d; bfq_wr_max_time := bfq_wr_max_time d; bfq_wr_rt_max_time := bfq_wr_rt_max_time d; bfq_wr_min_idle_time := bfq_wr_min_idle_time d; bfq_wr_max_softrt_rate := bfq_wr_max_softrt_rate d; bfq_requests_within_timer := bfq_requests_within_timer d; bfq_timeout := bfq_timeout d |}.
Definition set_strict_guarantees (v : bool) (d : bfq_data) : bfq_data :=
  {| in_service_queue := in_service_queue d; in_service_bic := in_service_bic d; busy_queues := busy_queues d; wr_busy_queues := wr_busy_queues d; rq_in_driver := rq_in_driver d; budgets_assigned := budgets_assigned d; bfq_max_budget := bfq_max_budget d; bfq_user_max_budget := bfq_user_max_budget d; hw_tag := hw_tag d; queue_nonrot := queue_nonrot d; strict_guarantees := v; low_latency := low_latency d; large_burst := large_burst d; queue_weights_tree := queue_weights_tree d; group_weights_tree := group_weights_tree d; bfq_slice_idle := bfq_slice_idle d; last_position := last_position d; last_completion := last_completion d; first_dispatch := first_dispatch d; last_dispatch := last_dispatch d; peak_rate_samples := peak_rate_samples d; sequential_samples := sequential_samples d; tot_sectors_dispatched := tot_sectors_dispatched d; last_rq_max_size := last_rq_max_size d; delta_from_first_us := delta_from_first_us d; peak_rate := peak_rate d; device_speed := device_speed d; RT_prod := RT_prod d; bfq_wr_coeff := bfq_wr_coeff d; bfq_wr_max_time := bfq_wr_max_time d; bfq_wr_rt_max_time := bfq_wr_rt_max_time d; bfq_wr_min_idle_time := bfq_wr_min_idle_time d; bfq_wr_max_softrt_rate := bfq_wr_max_softrt_rate d; bfq_requests_within_timer := bfq_requests_within_timer d; bfq_timeout := bfq_timeout d |}.
Definition set_low_latency (v : bool) (d : bfq_data) : bfq_data :=
  {| in_service_queue := in_service_queue d; in_service_bic := in_service_bic d; busy_queues := busy_queues d; wr_busy_queues := wr_busy_queues d; rq_in_driver := rq_in_driver d; budgets_assigned := budgets_assigned d; bfq_max_budget := bfq_max_budget d; bfq_user_max_budget := bfq_user_max_budget d; hw_tag := hw_tag d; queue_nonrot := queue_nonrot d; strict_guarantees := strict_guarantees d; low_latency := v; large_burst := large_burst d; queue_weights_tree := queue_weights_tree d; group_weights_tree := group_weights_tree d; bfq_slice_idle := bfq_slice_idle d; last_position := last_position d; last_completion := last_completion d; first_dispatch := first_dispatch d; last_dispatch := last_dispatch d; peak_rate_samples := peak_rate_samples d; sequential_samples := sequential_samples d; tot_sectors_dispatched := tot_sectors_dispatched d; last_rq_max_size := last_rq_max_size d; delta_from_first_us := delta_from_first_us d; peak_rate := peak_rate d; device_speed := device_speed d; RT_prod := RT_prod d; bfq_wr_coeff := bfq_wr_coeff d; bfq_wr_max_time := bfq_wr_max_time d; bfq_wr_rt_max_time := bfq_wr_rt_max_time d; bfq_wr_min_idle_time := bfq_wr_min_idle_time d; bfq_wr_max_softrt_rate := bfq_wr_max_softrt_rate d; bfq_requests_within_timer := bfq_requests_within_timer d; bfq_timeout := bfq_timeout d |}.
Definition set_large_burst (v : bool) (d : bfq_data) : bfq_data :=
  {| in_service_queue := in_service_queue d; in_service_bic := in_service_bic d; busy_queues := busy_queues d; wr_busy_queues := wr_busy_queues d; rq_in_driver := rq_in_driver d; budgets_assigned := budgets_assigned d; bfq_max_budget := bfq_max_budget d; bfq_user_max_budget := bfq_user_max_budget d; hw_tag := hw_tag d; queue_nonrot := queue_nonrot d; strict_guarantees := strict_guarantees d; low_latency := low_latency d; large_burst := v; queue_weights_tree := queue_weights_tree d; group_weights_tree := group_weights_tree d; bfq_slice_idle := bfq_slice_idle d; last_position := last_position d; last_completion := last_completion d; first_dispatch := first_dispatch d; last_dispatch := last_dispatch d; peak_rate_samples := peak_rate_samples d; sequential_samples := sequential_samples d; tot_sectors_dispatched := tot_sectors_dispatched d; last_rq_max_size := last_rq_max_size d; delta_from_first_us := delta_from_first_us d; peak_rate := peak_rate d; device_speed := device_speed d; RT_prod := RT_prod d; bfq_wr_coeff := bfq_wr_coeff d; bfq_wr_max_time := bfq_wr_max_time d; bfq_wr_rt_max_time := bfq_wr_rt_max_time d; bfq_wr_min_idle_time := bfq_wr_min_idle_time d; bfq_wr_max_softrt_rate := bfq_wr_max_softrt_rate d; bfq_requests_within_timer := bfq_requests_within_timer d; bfq_timeout := bfq_timeout d |}.
Definition set_bfq_slice_idle (v : Z) (d : bfq_data) : bfq_data :=
  {| in_service_queue := in_service_queue d; in_service_bic := in_service_bic d; busy_queues := busy_queues d; wr_busy_queues := wr_busy_queues d; rq_in_driver := rq_in_driver d; budgets_assigned := budgets_assigned d; bfq_max_budget := bfq_max_budget d; bfq_user_max_budget := bfq_user_max_budget d; hw_tag := hw_tag d; queue_nonrot := queue_nonrot d; strict_guarantees := strict_guarantees d; low_latency := low_latency d; large_burst := large_burst d; queue_weights_tree := queue_weights_tree d; group_weights_tree := group_weights_tree d; bfq_slice_idle := v; last_position := last_position d; last_completion := last_completion d; first_dispatch := first_dispatch d; last_dispatch := last_dispatch d; peak_rate_samples := peak_rate_samples d; sequential_samples := sequential_samples d; tot_sectors_dispatched := tot_sectors_dispatched d; last_rq_max_size := last_rq_max_size d; delta_from_first_us := delta_from_first_us d; peak_rate := peak_rate d; device_speed := device_speed d; RT_prod := RT_prod d; bfq_wr_coeff := bfq_wr_coeff d; bfq_wr_max_time := bfq_wr_max_time d; bfq_wr_rt_max_time := bfq_wr_rt_max_time d; bfq_wr_min_idle_time := bfq_wr_min_idle_time d; bfq_wr_max_softrt_rate := bfq_wr_max_softrt_rate d; bfq_requests_within_timer := bfq_requests_within_timer d; bfq_timeout := bfq_timeout d |}.
Definition set_bfq_timeout (v : Z) (d : bfq_data) : bfq_data :=
  {| in_service_queue := in_service_queue d; in_service_bic := in_service_bic d; busy_queues := busy_queues d; wr_busy_queues := wr_busy_queues d; rq_in_driver := rq_in_driver d; budgets_assigned := budgets_assigned d; bfq_max_budget := bfq_max_budget d; bfq_user_max_budget := bfq_user_max_budget d; hw_tag := hw_tag d; queue_nonrot := queue_nonrot d; strict_guarantees := strict_guarantees d; low_latency := low_latency d; large_burst := large_burst d; queue_weights_tree := queue_weights_tree d; group_weights_tree := group_weights_tree d; bfq_slice_idle := bfq_slice_idle d; last_position := last_position d; last_completion := last_completion d; first_dispatch := first_dispatch d; last_dispatch := last_dispatch d; peak_rate_samples := peak_rate_samples d; sequential_samples := sequential_samples d; tot_sectors_dispatched := tot_sectors_dispatched d; last_rq_max_size := last_rq_max_size d; delta_from_first_us := delta_from_first_us d; peak_rate := peak_rate d; device_speed := device_speed d; RT_prod := RT_prod d; bfq_wr_coeff := bfq_wr_coeff d; bfq_wr_max_time := bfq_wr_max_time d; bfq_wr_rt_max_time := bfq_wr_rt_max_time d; bfq_wr_min_idle_time := bfq_wr_min_idle_time d; bfq_wr_max_softrt_rate := bfq_wr_max_softrt_rate d; bfq_requests_within_timer := bfq_requests_within_timer d; bfq_timeout := v |}.

(** ** Choice of the next request to serve *)

Section Elevator.

(** [rq_is_sync(rq)] and [rq->cmd_flags & REQ_META] read the command
    flags of the request, which [request] does not carry. *)
Variable rq_is_sync : request -> bool.
Variable rq_is_meta : request -> bool.

(** The distance [d1] (or [d2]) that [bfq_choose_req] computes for a
    request at sector [s] with the head at [last]; [None] stands for the
    wrap bit of the request. *)
Definition seek_cost (back_max bfq_back_penalty s last : Z) : option Z :=
  if last <=? s then Some (Int.u64 (s - last))
  else if last <=? Int.u64 (s + back_max)
       then Some (Int.u64 (Int.u64 (last - s) * bfq_back_penalty))
       else None.

(** [bfq_choose_req(bfqd, rq1, rq2, last)]; the two tunables are the
    fields [bfqd->bfq_back_max] and [bfqd->bfq_back_penalty].  When both
    pointers are the same request every path returns that request, as
    the test [rq1 == rq2] does. *)
Definition bfq_choose_req (bfq_back_max bfq_back_penalty : Z)
    (rq1 rq2 : option request) (last : Z) : option request :=
  match rq1, rq2 with
  | None, _ => rq2
  | Some _, None => rq1
  | Some r1, Some r2 =>
      if rq_is_sync r1 && negb (rq_is_sync r2) then rq1
      else if rq_is_sync r2 && negb (rq_is_sync r1) then rq2
      else if rq_is_meta r1 && negb (rq_is_meta r2) then rq1
      else if rq_is_meta r2 && negb (rq_is_meta r1) then rq2
      else
        let s1 := blk_rq_pos r1 in
        let s2 := blk_rq_pos r2 in
        let back_max := Int.u32 (bfq_back_max * 2) in
        match seek_cost back_max bfq_back_penalty s1 last,
              seek_cost back_max bfq_back_penalty s2 last with
        | Some d1, Some d2 =>
            if d1 <? d2 then rq1
            else if d2 <? d1 then rq2
            else if s2 <=? s1 then rq1 else rq2
        | Some _, None => rq1
        | None, Some _ => rq2
        | None, None => if s1 <=? s2 then rq1 else rq2
        end
  end.

(** [bfq_find_next_rq(bfqd, bfqq, last)].  The rb-tree [sort_list] is the
    list of its requests in sector order and [i] the place of [last] in
    it: [rb_prev] and [rb_next] are the neighbours, [rb_first] the head.
    A [last] that is not in the tree is a BUG. *)
Definition bfq_find_next_rq (bfq_back_max bfq_back_penalty : Z)
    (sort_list : list request) (i : nat) : option (option request) :=
  match nth_error sort_list i with
  | None => None
  | Some last =>
      let prev :=
        match i with O => None | S j => nth_error sort_list j end in
      let next :=
        match nth_error sort_list (S i) with
        | Some n => Some n
        | None =>
            match i with O => None | S _ => nth_error sort_list 0 end
        end in
      Some (bfq_choose_req bfq_back_max bfq_back_penalty next prev
              (blk_rq_pos last))
  end.

End Elevator.

(** ** Seek history *)

(** [bfq_update_io_seektime(bfqd, bfqq, rq)]; [last_request_pos] is
    [bfqq->last_request_pos].  The history is a 32-bit shift register with
    one bit per request, set when the request is far from the previous
    one. *)
Definition bfq_update_io_seektime (bfqq : bfq_queue) (last_request_pos : Z)
    (rq : request) : bfq_queue :=
  let history := Int.u32 (Z.shiftl (seek_history bfqq) 1) in
  set_seek_history
    (Z.lor history
       (if BFQQ_SEEK_THR <? get_sdist last_request_pos rq then 1 else 0))
    bfqq.

(** The history after the requests [rqs], each paired with the position of
    the request before it, have been added in order. *)
Definition seek_history_after (bfqq : bfq_queue) (rqs : list (Z * request))
  : bfq_queue :=
  fold_left (fun b pr => bfq_update_io_seektime b (fst pr) (snd pr)) rqs bfqq.

(** ** Think time *)

(** The think-time statistics of an I/O context, [bic->ttime], which
    [bfq_io_cq] does not carry. *)
Record bfq_ttime : Type := {
  ttime_samples : Z;  (* unsigned long *)
  ttime_total : Z;    (* u64, ns *)
  ttime_mean : Z      (* u64, ns *)
}.

(** [bfq_update_io_thinktime(bfqd, bic)]; [last_end_request] is
    [bic->ttime.last_end_request] and [now_ns] the clock. *)
Definition bfq_update_io_thinktime (bfqd : bfq_data) (tt : bfq_ttime)
    (last_end_request now_ns : Z) : option bfq_ttime :=
  let elapsed :=
    Z.min (Int.u64 (now_ns - last_end_request))
          (Int.u64 (Int.u32 (2 * bfq_slice_idle bfqd))) in
  let samples := Int.u64 (Int.u64 (7 * ttime_samples tt) + 256) / 8 in
  let total :=
    Int.u64 (Int.u64 (7 * ttime_total tt) + Int.u64 (256 * elapsed)) / 8 in
  BUG_ON (samples =? 0) $
  Some {| ttime_samples := samples;
          ttime_total := total;
          ttime_mean := Int.u64 (total + 128) / samples |}.

Definition bfq_sample_valid (samples : Z) : bool := 80 <? samples.
(** ** The queue in service *)

(** [bfq_set_budget_timeout(bfqd, bfqq)].  [weight] and [orig_weight] are
    the fields of [bfqq->entity] with these names. *)
Definition bfq_set_budget_timeout (bfqd : bfq_data) (bfqq : bfq_queue)
    (weight orig_weight jiffies : Z) : option bfq_queue :=
  let timeout_coeff :=
    if wr_cur_max_time bfqq =? bfq_wr_rt_max_time bfqd then Some 1
    else BUG_ON (orig_weight =? 0) $ Some (Int.u32 (Z.quot weight orig_weight)) in
  match timeout_coeff with
  | None => None
  | Some timeout_coeff =>
      Some (set_budget_timeout
              (Int.u64 (jiffies + Int.u32 (bfq_timeout bfqd * timeout_coeff)))
              bfqq)
  end.

(** [__bfq_set_in_service_queue(bfqd, bfqq)] with [q] the address of
    [bfqq], [None] for a NULL pointer. *)
Definition __bfq_set_in_service_queue (st : bfq_state) (q : option qid)
    (weight orig_weight jiffies : Z) : option bfq_state :=
  match q with
  | None => Some (upd_bfqd (set_in_service_queue None) st)
  | Some q =>
      bfqq ← queues st !! q;
      let bfqq := bfq_mark_bfqq BFQ_BFQQ_FLAG_must_alloc bfqq in
      let bfqq := bfq_clear_bfqq BFQ_BFQQ_FLAG_fifo_expire bfqq in
      let st :=
        upd_bfqd
          (fun d =>
             set_budgets_assigned
               (Z.quot (Int.s32 (Int.s32 (budgets_assigned d * 7) + 256)) 8) d)
          st in
      BUG_ON (same_queue (in_service_queue (bfqd st)) q) $
      BUG_ON (match sort_list bfqq with [] => true | _ => false end) $
      let bfqq :=
        if (1 <? wr_coeff bfqq)
           && (wr_cur_max_time bfqq =? bfq_wr_rt_max_time (bfqd st))
           && Int.time_after jiffies (budget_timeout bfqq)
        then set_last_wr_start_finish
               (Int.u64 (last_wr_start_finish bfqq
                         + Int.u64 (jiffies - budget_timeout bfqq))) bfqq
        else bfqq in
      bfqq ← bfq_set_budget_timeout (bfqd st) bfqq weight orig_weight jiffies;
      let st := upd_queue q (fun _ => bfqq) st in
      Some (upd_bfqd (set_in_service_queue (Some q)) st)
  end.

(** The slots the device has handed out after [n] selections of a queue:
    the update of [budgets_assigned] in [__bfq_set_in_service_queue],
    repeated. *)
Definition budgets_assigned_after (n : nat) (x : Z) : Z :=
  Nat.iter n (fun x => Z.quot (Int.s32 (Int.s32 (x * 7) + 256)) 8) x.

(** [bfq_updated_next_req(bfqd, bfqq)] on the queue [q].  The entity must
    be on the active tree and not in service in its scheduler; the two
    checks read fields of bfq-sched.c and come as [on_active_tree].  The
    value is the state and whether [bfq_activate_bfqq] is called. *)
Definition bfq_updated_next_req (st : bfq_state) (q : qid)
    (on_active_tree : bool) : option (bfq_state * bool) :=
  bfqq ← queues st !! q;
  match next_rq bfqq with
  | None => Some (st, false)
  | Some rq =>
      if same_queue (in_service_queue (bfqd st)) q then Some (st, false)
      else
        BUG_ON (negb on_active_tree) $
        let new_budget :=
          Z.max (Int.u64 (max_budget bfqq))
                (bfq_serv_to_charge rq bfqq (bfqd st)) in
        if negb (Int.u64 (budget (entity bfqq)) =? new_budget)
        then Some (upd_queue q (on_entity (set_budget (Int.s32 new_budget))) st,
                   true)
        else Some (st, false)
  end.

Inductive select_outcome : Type :=
| Select_keep (timer_cancelled : bool)
| Select_wait
| Select_expire (reason : bfqq_expiration).

Section Selection.

Variable CONFIG_BFQ_GROUP_IOSCHED : bool.

(** [bfq_select_queue(bfqd)] when a queue is in service, up to the labels
    [expire] and [keep_queue].  [timer_active] is
    [hrtimer_active(&bfqd->idle_slice_timer)].  [Select_keep] returns the
    queue, [Select_wait] returns NULL and leaves the queue in service,
    [Select_expire] calls [bfq_bfqq_expire] with the reason and goes on
    to pick a new queue. *)
Definition bfq_select_queue (bfqd : bfq_data) (bfqq : bfq_queue)
    (timer_active : bool) (jiffies : Z)
  : option (bfq_queue * select_outcome) :=
  if bfq_may_expire_for_budg_timeout bfqq jiffies
     && negb timer_active
     && negb (bfq_bfqq_must_idle CONFIG_BFQ_GROUP_IOSCHED bfqd bfqq)
  then Some (bfqq, Select_expire BFQ_BFQQ_BUDGET_TIMEOUT)
  else
    match next_rq bfqq with
    | Some rq =>
        if Int.u64 (bfq_bfqq_budget_left bfqq) <? bfq_serv_to_charge rq bfqq bfqd
        then Some (bfqq, Select_expire BFQ_BFQQ_BUDGET_EXHAUSTED)
        else if bfq_bfqq_wait_request bfqq
        then
          BUG_ON (negb timer_active) $
          Some (bfq_clear_bfqq BFQ_BFQQ_FLAG_wait_request bfqq,
                Select_keep true)
        else Some (bfqq, Select_keep false)
    | None =>
        if timer_active
           || (negb (dispatched bfqq =? 0)
               && bfq_bfqq_may_idle CONFIG_BFQ_GROUP_IOSCHED bfqd bfqq)
        then Some (bfqq, Select_wait)
        else Some (bfqq, Select_expire BFQ_BFQQ_NO_MORE_REQUESTS)
    end.

End Selection.

(** ** End of weight raising and soft real-time start *)

(** [bfq_bfqq_end_wr(bfqq)] on the queue [q]. *)
Definition bfq_bfqq_end_wr (st : bfq_state) (q : qid) : option bfq_state :=
  bfqq ← queues st !! q;
  let st :=
    if bfq_bfqq_busy bfqq
    then upd_bfqd (fun d => set_wr_busy_queues (Int.s32 (wr_busy_queues d - 1)) d) st
    else st in
  Some (upd_queue q
          (fun x =>
             on_entity (set_prio_changed 1)
               (set_wr_cur_max_time 0 (set_wr_coeff 1 x))) st).

Section SoftRealTime.

(** HZ and [nsecs_to_jiffies] of the kernel. *)
Variable HZ : Z.
Variable nsecs_to_jiffies : Z -> Z.

(** [bfq_bfqq_softrt_next_start(bfqd, bfqq)]; the division traps when
    [bfq_wr_max_softrt_rate] is 0. *)
Definition bfq_bfqq_softrt_next_start (bfqd : bfq_data) (bfqq : bfq_queue)
    (jiffies : Z) : option Z :=
  BUG_ON (bfq_wr_max_softrt_rate bfqd =? 0) $
  Some (Z.max
          (Int.u64 (last_idle_bklogged bfqq
                    + Int.u64 (HZ * service_from_backlogged bfqq)
                      / bfq_wr_max_softrt_rate bfqd))
          (Int.u64 (Int.u64 (jiffies + nsecs_to_jiffies (bfq_slice_idle bfqd))
                    + 4))).

End SoftRealTime.
(** ** Scheduling a merge *)

Definition bfq_may_be_close_cooperator (bfqq new_bfqq : bfq_queue) : bool :=
  if bfq_class_idle bfqq || bfq_class_idle new_bfqq
     || negb (ioprio_class bfqq =? ioprio_class new_bfqq)
  then false
  else if BFQQ_SEEKY bfqq || BFQQ_SEEKY new_bfqq then false
  else if negb (bfq_bfqq_sync bfqq) || negb (bfq_bfqq_sync new_bfqq) then false
  else true.

(** The loop of [bfq_setup_merge]: from [nq] follow [new_bfqq] to the end
    of the chain.  [Some None] is the exit [return NULL] taken when the
    chain reaches [q]; [fuel] bounds the walk, which in the source does
    not end on a chain that has a cycle avoiding [q]. *)
Fixpoint setup_merge_walk (fuel : nat) (st : bfq_state) (q nq : qid)
  : option (option qid) :=
  match fuel with
  | O => None
  | S fuel' =>
      match queues st !! nq with
      | None => None
      | Some n =>
          match new_bfqq n with
          | None => Some (Some nq)
          | Some next =>
              if Pos.eqb next q then Some None
              else setup_merge_walk fuel' st q next
          end
      end
  end.

(** [bfq_setup_merge(bfqq, new_bfqq)] with [q] and [nq] the two addresses;
    the value is the state and the returned pointer. *)
Definition bfq_setup_merge (st : bfq_state) (q nq : qid)
  : option (bfq_state * option qid) :=
  n ← queues st !! nq;
  refs ← bfqq_process_refs n;
  if refs =? 0 then Some (st, None)
  else
    target ← setup_merge_walk (S (size (queues st))) st q nq;
    match target with
    | None => Some (st, None)
    | Some t =>
        bfqq ← queues st !! q;
        new_bfqq ← queues st !! t;
        process_refs ← bfqq_process_refs bfqq;
        new_process_refs ← bfqq_process_refs new_bfqq;
        if (process_refs =? 0) || (new_process_refs =? 0) then Some (st, None)
        else
          let st := upd_queue q (set_new_bfqq (Some t)) st in
          let st :=
            upd_queue t (fun x => set_ref (Int.s32 (ref x + process_refs)) x) st in
          Some (st, Some t)
    end.

(** [chain st x path]: [path] lists the queues met from [x] along
    [new_bfqq] up to the one that has no merge scheduled. *)
Fixpoint chain (st : bfq_state) (x : qid) (path : list qid) : Prop :=
  match path with
  | [] => False
  | y :: rest =>
      y = x
      /\ exists bfqq, queues st !! x = Some bfqq
         /\ match new_bfqq bfqq, rest with
            | None, [] => True
            | Some next, _ :: _ => chain st next rest
            | _, _ => False
            end
  end.

(** Every queue of the store has as many references as the requests and
    the service tree hold, so that [bfqq_process_refs] passes its check. *)
Definition process_refs_ok (st : bfq_state) : Prop :=
  forall k bfqq, queues st !! k = Some bfqq -> is_Some (bfqq_process_refs bfqq).

Section Cooperator.

Variable msecs_to_jiffies : Z -> Z.

(** [entity.parent] of two queues is the same group. *)
Variable same_parent : qid -> qid -> bool.

Definition wr_from_too_long (bfqq : bfq_queue) (jiffies : Z) : bool :=
  (1 <? wr_coeff bfqq)
  && Int.time_after jiffies
       (Int.u64 (last_wr_start_finish bfqq + msecs_to_jiffies 100)).

(** [bfq_find_close_cooperator(bfqd, cur_bfqq, sector)]; [close] is what
    [bfqq_find_close] finds in the position tree, which is not tracked. *)
Definition bfq_find_close_cooperator (close : option qid) (cur : qid)
  : option qid :=
  match close with
  | None => None
  | Some c => if Pos.eqb c cur then None else Some c
  end.

(** The part of [bfq_setup_cooperator] from the label [check_scheduled]
    on; [bfqq] is the queue at [q]. *)
Definition check_scheduled (st : bfq_state) (q : qid) (bfqq : bfq_queue)
    (close : option qid) (jiffies : Z) : option (bfq_state * option qid) :=
  match bfq_find_close_cooperator close q with
  | None => Some (st, None)
  | Some c =>
      BUG_ON (negb (same_parent q c)) $
      new_bfqq ← queues st !! c;
      if negb (wr_from_too_long new_bfqq jiffies)
         && negb (Pos.eqb c (oom_bfqq st))
         && bfq_may_be_close_cooperator bfqq new_bfqq
      then bfq_setup_merge st q c
      else Some (st, None)
  end.

(** [bfq_setup_cooperator(bfqd, bfqq, io_struct, request)] on the queue
    [q]; [io_struct] is [Some pos] with [pos] the position
    [bfq_io_struct_pos] reads off it, or [None] for a NULL pointer. *)
Definition bfq_setup_cooperator (st : bfq_state) (q : qid)
    (io_struct : option Z) (close : option qid) (jiffies : Z)
  : option (bfq_state * option qid) :=
  bfqq ← queues st !! q;
  match new_bfqq bfqq with
  | Some t => Some (st, Some t)
  | None =>
      match io_struct with
      | None => Some (st, None)
      | Some pos =>
          if wr_from_too_long bfqq jiffies || Pos.eqb q (oom_bfqq st)
          then Some (st, None)
          else if busy_queues (bfqd st) =? 1 then Some (st, None)
          else
            match in_service_queue (bfqd st) with
            | None => check_scheduled st q bfqq close jiffies
            | Some p =>
                in_service_bfqq ← queues st !! p;
                if Pos.eqb p q
                   || match in_service_bic (bfqd st) with
                      | None => true | Some _ => false end
                   || wr_from_too_long in_service_bfqq jiffies
                   || Pos.eqb p (oom_bfqq st)
                then check_scheduled st q bfqq close jiffies
                else if bfq_rq_close_to_sector pos (last_position (bfqd st))
                        && same_parent q p
                        && bfq_may_be_close_cooperator bfqq in_service_bfqq
                then
                  '(st', r) ← bfq_setup_merge st q p;
                  match r with
                  | Some t => Some (st', Some t)
                  | None => check_scheduled st' q bfqq close jiffies
                  end
                else check_scheduled st q bfqq close jiffies
            end
      end
  end.

End Cooperator.
(** ** Bursts of queue activations *)

(** The fields of [struct bfq_data] that detect a large burst, which
    [bfq_data] does not carry, beside [large_burst].  [burst_list] holds
    the addresses of the queues hashed on [bfqd->burst_list], head first. *)
Record bfq_burst : Type := {
  burst_list : list qid;
  burst_size : Z;                         (* int *)
  burst_parent_entity : option positive;  (* struct bfq_entity * *)
  last_ins_in_burst : Z;                  (* unsigned long, jiffies *)
  bfq_burst_interval : Z;                 (* unsigned long, jiffies *)
  bfq_large_burst_thresh : Z              (* int *)
}.

Definition set_burst_list (v : list qid) (b : bfq_burst) : bfq_burst :=
  {| burst_list := v; burst_size := burst_size b;
     burst_parent_entity := burst_parent_entity b;
     last_ins_in_burst := last_ins_in_burst b;
     bfq_burst_interval := bfq_burst_interval b;
     bfq_large_burst_thresh := bfq_large_burst_thresh b |}.
Definition set_burst_size (v : Z) (b : bfq_burst) : bfq_burst :=
  {| burst_list := burst_list b; burst_size := v;
     burst_parent_entity := burst_parent_entity b;
     last_ins_in_burst := last_ins_in_burst b;
     bfq_burst_interval := bfq_burst_interval b;
     bfq_large_burst_thresh := bfq_large_burst_thresh b |}.
Definition set_burst_parent_entity (v : option positive) (b : bfq_burst)
  : bfq_burst :=
  {| burst_list := burst_list b; burst_size := burst_size b;
     burst_parent_entity := v;
     last_ins_in_burst := last_ins_in_burst b;
     bfq_burst_interval := bfq_burst_interval b;
     bfq_large_burst_thresh := bfq_large_burst_thresh b |}.
Definition set_last_ins_in_burst (v : Z) (b : bfq_burst) : bfq_burst :=
  {| burst_list := burst_list b; burst_size := burst_size b;
     burst_parent_entity := burst_parent_entity b;
     last_ins_in_burst := v;
     bfq_burst_interval := bfq_burst_interval b;
     bfq_large_burst_thresh := bfq_large_burst_thresh b |}.

(** [bfq_put_queue(bfqq)] on the store and on the burst list.  When the
    last reference is dropped and the queue is sync, the function ends
    with [hlist_del_init(&bfqq->burst_list_node)], which unlinks the queue
    if it is hashed on the burst list and does nothing otherwise; the
    burst size is left as it is. *)
Definition bfq_put_queue_burst (st : bfq_state) (bu : bfq_burst) (q : qid)
  : option (bfq_state * bfq_burst) :=
  bfqq ← queues st !! q;
  st' ← bfq_put_queue st q;
  Some (st',
        if (Int.s32 (ref bfqq - 1) =? 0) && bfq_bfqq_sync bfqq
           && burst_list_node bfqq
        then set_burst_list
               (List.filter (fun k => negb (Pos.eqb k q)) (burst_list bu)) bu
        else bu).

(** [hlist_for_each_entry(item, &bfqd->burst_list, ..) item-> ... = ...]. *)
Definition upd_queues (items : list qid) (f : bfq_queue -> bfq_queue)
    (st : bfq_state) : bfq_state :=
  fold_left (fun st item => upd_queue item f st) items st.

(** [bfq_reset_burst_list(bfqd, bfqq)]; [parent] is [bfqq->entity.parent]. *)
Definition bfq_reset_burst_list (st : bfq_state) (bu : bfq_burst) (q : qid)
    (parent : option positive) : bfq_state * bfq_burst :=
  let st := upd_queues (burst_list bu) (set_burst_list_node false) st in
  let st := upd_queue q (set_burst_list_node true) st in
  (st, set_burst_parent_entity parent (set_burst_size 1 (set_burst_list [q] bu))).

(** [bfq_add_to_burst(bfqd, bfqq)]. *)
Definition bfq_add_to_burst (st : bfq_state) (bu : bfq_burst) (q : qid)
  : option (bfq_state * bfq_burst) :=
  let bu := set_burst_size (Int.s32 (burst_size bu + 1)) bu in
  BUG_ON (bfq_large_burst_thresh bu <? burst_size bu) $
  if burst_size bu =? bfq_large_burst_thresh bu
  then
    let st := upd_bfqd (set_large_burst true) st in
    let st :=
      upd_queues (burst_list bu) (bfq_mark_bfqq BFQ_BFQQ_FLAG_in_large_burst) st in
    let st := upd_queue q (bfq_mark_bfqq BFQ_BFQQ_FLAG_in_large_burst) st in
    let st := upd_queues (burst_list bu) (set_burst_list_node false) st in
    Some (st, set_burst_list [] bu)
  else
    Some (upd_queue q (set_burst_list_node true) st,
          set_burst_list (q :: burst_list bu) bu).

Definition option_positive_eqb (a b : option positive) : bool :=
  match a, b with
  | Some x, Some y => Pos.eqb x y
  | None, None => true
  | _, _ => false
  end.

Section Burst.

Variable msecs_to_jiffies : Z -> Z.

(** [bfq_handle_burst(bfqd, bfqq)] on the queue [q], whose entity has
    the parent [parent]. *)
Definition bfq_handle_burst (st : bfq_state) (bu : bfq_burst) (q : qid)
    (parent : option positive) (jiffies : Z)
  : option (bfq_state * bfq_burst) :=
  bfqq ← queues st !! q;
  if burst_list_node bfqq
     || bfq_bfqq_in_large_burst bfqq
     || Int.time_after_eq
          (Int.u64 (split_time bfqq + msecs_to_jiffies 10)) jiffies
  then Some (st, bu)
  else
    '(st, bu) ←
      (if Int.time_after jiffies
            (Int.u64 (last_ins_in_burst bu + bfq_burst_interval bu))
          || negb (option_positive_eqb parent (burst_parent_entity bu))
       then
         Some (bfq_reset_burst_list (upd_bfqd (set_large_burst false) st)
                 bu q parent)
       else if large_burst (bfqd st)
       then Some (upd_queue q (bfq_mark_bfqq BFQ_BFQQ_FLAG_in_large_burst) st,
                  bu)
       else bfq_add_to_burst st bu q);
    Some (st, set_last_ins_in_burst jiffies bu).

(** The queue is new to the burst machinery: not on the list, not
    flagged, and not just split from a shared queue. *)
Definition burst_candidate (bfqq : bfq_queue) (jiffies : Z) : Prop :=
  burst_list_node bfqq = false
  /\ bfq_bfqq_in_large_burst bfqq = false
  /\ Int.time_after_eq
       (Int.u64 (split_time bfqq + msecs_to_jiffies 10)) jiffies = false.

End Burst.

(** What the burst list and the queues agree on: the queues on the list
    are distinct, they are the queues whose node is hashed, and the burst
    has not reached the threshold while no large burst is going on. *)
Definition burst_inv (st : bfq_state) (bu : bfq_burst) : Prop :=
  List.NoDup (burst_list bu)
  /\ (forall k, In k (burst_list bu) <->
                exists bfqq, queues st !! k = Some bfqq
                             /\ burst_list_node bfqq = true)
  /\ (large_burst (bfqd st) = false ->
      0 <= burst_size bu < bfq_large_burst_thresh bu)
  /\ 2 <= bfq_large_burst_thresh bu < 2 ^ 31.
(** ** Tunables written through sysfs *)

Definition INT_MAX : Z := 2 ^ 31 - 1.

(** [bfq_var_store(&__data, page, count)]: [parsed] is the number
    [kstrtoul] reads off the page, [None] when it rejects the page; the
    variable then keeps the value it had, and the callers leave it
    uninitialised: [garbage]. *)
Definition bfq_var_store (garbage : Z) (parsed : option Z) : Z :=
  match parsed with
  | Some new_val => new_val
  | None => garbage
  end.

(** The clamp of STORE_FUNCTION. *)
Definition store_clamp (MIN MAX data : Z) : Z :=
  if data <? MIN then MIN else if MAX <? data then MAX else data.

(** [bfq_slice_idle_store] (conversion 2, into a u32 field) and
    [bfq_slice_idle_show]; [bfq_var_show] prints its [unsigned int]
    argument with [%d]. *)
Definition bfq_slice_idle_store (bfqd : bfq_data) (garbage : Z)
    (parsed : option Z) : bfq_data :=
  let data := store_clamp 0 INT_MAX (bfq_var_store garbage parsed) in
  set_bfq_slice_idle (Int.u32 (Int.u64 (data * NSEC_PER_MSEC))) bfqd.

Definition bfq_slice_idle_show (bfqd : bfq_data) : Z :=
  Int.s32 (Int.u64 (bfq_slice_idle bfqd) / NSEC_PER_MSEC).

(** [bfq_slice_idle_us_store], the same field in microseconds. *)
Definition bfq_slice_idle_us_store (bfqd : bfq_data) (garbage : Z)
    (parsed : option Z) : bfq_data :=
  let data := store_clamp 0 (2 ^ 32 - 1) (bfq_var_store garbage parsed) in
  set_bfq_slice_idle (Int.u32 (Int.u64 (data * NSEC_PER_USEC))) bfqd.

Definition bfq_slice_idle_us_show (bfqd : bfq_data) : Z :=
  Int.s32 (Int.u64 (bfq_slice_idle bfqd) / NSEC_PER_USEC).

Definition bfq_strict_guarantees_store (bfqd : bfq_data) (garbage : Z)
    (parsed : option Z) : bfq_data :=
  let data := bfq_var_store garbage parsed in
  let data := if 1 <? data then 1 else data in
  let bfqd :=
    if negb (strict_guarantees bfqd) && (data =? 1)
       && (bfq_slice_idle bfqd <? 8 * NSEC_PER_MSEC)
    then set_bfq_slice_idle (8 * NSEC_PER_MSEC) bfqd
    else bfqd in
  set_strict_guarantees (negb (data =? 0)) bfqd.

Section Sysfs.

Variable jiffies_to_msecs : Z -> Z.
Variable msecs_to_jiffies : Z -> Z.

Definition bfq_max_budget_store (bfqd : bfq_data) (garbage : Z)
    (parsed : option Z) : bfq_data :=
  let data := bfq_var_store garbage parsed in
  if data =? 0
  then
    set_bfq_user_max_budget 0
      (set_bfq_max_budget
         (Int.s32 (bfq_calc_max_budget jiffies_to_msecs bfqd)) bfqd)
  else
    let data := if INT_MAX <? data then INT_MAX else data in
    set_bfq_user_max_budget (Int.s32 data)
      (set_bfq_max_budget (Int.s32 data) bfqd).

Definition bfq_max_budget_show (bfqd : bfq_data) : Z :=
  Int.s32 (bfq_user_max_budget bfqd).

Definition bfq_timeout_sync_store (bfqd : bfq_data) (garbage : Z)
    (parsed : option Z) : bfq_data :=
  let data := store_clamp 1 INT_MAX (bfq_var_store garbage parsed) in
  let bfqd := set_bfq_timeout (Int.u32 (msecs_to_jiffies data)) bfqd in
  if bfq_user_max_budget bfqd =? 0
  then set_bfq_max_budget
         (Int.s32 (bfq_calc_max_budget jiffies_to_msecs bfqd)) bfqd
  else bfqd.

End Sysfs.
(** ** The blocks of a merge, and the count of raised busy queues *)

(** [bfq_merge_bfqqs] is four blocks after the two calls that save the
    state: the I/O-bound flag moves to the new queue, the new queue
    inherits the weight raising, the old queue loses it, and the context
    is redirected.  Each block is given a name here; [bfq_merge_bfqqs] is
    their sequence. *)
Definition merge_io_bound (st : bfq_state) (q nq : qid) : option bfq_state :=
  bfqq ← queues st !! q;
  let st :=
    if bfq_bfqq_IO_bound bfqq
    then upd_queue nq (bfq_mark_bfqq BFQ_BFQQ_FLAG_IO_bound) st else st in
  Some (upd_queue q (bfq_clear_bfqq BFQ_BFQQ_FLAG_IO_bound) st).

Definition merge_wr_inherit (st : bfq_state) (q nq : qid) : option bfq_state :=
  bfqq ← queues st !! q;
  new_bfqq ← queues st !! nq;
  Some (if (wr_coeff new_bfqq =? 1) && (1 <? wr_coeff bfqq)
        then
          let st :=
            upd_queue nq
              (fun n =>
                 set_last_wr_start_finish (last_wr_start_finish bfqq)
                   (set_wr_cur_max_time (wr_cur_max_time bfqq)
                      (set_wr_coeff (wr_coeff bfqq) n))) st in
          let st :=
            if bfq_bfqq_busy new_bfqq
            then upd_bfqd
                   (fun d => set_wr_busy_queues (Int.s32 (wr_busy_queues d + 1)) d)
                   st
            else st in
          upd_queue nq (on_entity (set_prio_changed 1)) st
        else st).

Definition merge_wr_reset (st : bfq_state) (q : qid) : option bfq_state :=
  bfqq ← queues st !! q;
  Some (if 1 <? wr_coeff bfqq
        then
          let st :=
            upd_queue q
              (fun x => on_entity (set_prio_changed 1) (set_wr_coeff 1 x)) st in
          if bfq_bfqq_busy bfqq
          then upd_bfqd
                 (fun d => set_wr_busy_queues (Int.s32 (wr_busy_queues d - 1)) d)
                 st
          else st
        else st).

Definition merge_redirect (st : bfq_state) (b : bicid) (q nq : qid)
  : option bfq_state :=
  st ← bfq_get_bic_reference st q;
  st ← bfq_get_bic_reference st nq;
  _ ← bics st !! b;
  let st := upd_bic b (bic_set_bfqq (Some nq) true) st in
  let st := upd_queue nq (bfq_mark_bfqq BFQ_BFQQ_FLAG_coop) st in
  let st := upd_queue nq (set_bic None) st in
  let st := upd_queue q (set_bic None) st in
  bfq_put_queue st q.

(** A queue that [bfqd->wr_busy_queues] is meant to count, and the number
    of such queues in the store. *)
Definition raised_and_busy (bfqq : bfq_queue) : bool :=
  bfq_bfqq_busy bfqq && (1 <? wr_coeff bfqq).

Definition wr_busy_count (m : gmap qid bfq_queue) : Z :=
  Z.of_nat
    (size (filter (fun kv : qid * bfq_queue => raised_and_busy (snd kv) = true) m)).

Definition wr_busy_exact (st : bfq_state) : Prop :=
  wr_busy_queues (bfqd st) = wr_busy_count (queues st).

(** [view st0 st q nq bq bn]: in [st] the queues at [q] and [nq] are [bq]
    and [bn], and every other queue is as in [st0]. *)
Definition view (st0 st : bfq_state) (q nq : qid) (bq bn : bfq_queue) : Prop :=
  queues st !! q = Some bq
  /\ queues st !! nq = Some bn
  /\ forall k, k <> q -> k <> nq -> queues st !! k = queues st0 !! k.

(** Whether the new queue of a merge takes over the weight raising of the
    old one. *)
Definition inherits (bq bn : bfq_queue) : bool :=
  (wr_coeff bn =? 1) && (1 <? wr_coeff bq).

(** The contribution of the queue at [k] to [wr_busy_count]. *)
Definition raised_at (m : gmap qid bfq_queue) (k : qid) : Z :=
  match m !! k with
  | Some b => if raised_and_busy b then 1 else 0
  | None => 0
  end.

(** [same_saved c c']: the context [c'] has the saved idle-window and
    I/O-bound flags of [c]. *)
Definition same_saved (c c' : bfq_io_cq) : Prop :=
  saved_idle_window c' = saved_idle_window c
  /\ saved_IO_bound c' = saved_IO_bound c.
(** ** Updates of the request lists of a queue *)

Definition set_queued (v : Z * Z) (q : bfq_queue) : bfq_queue :=
  {| entity := entity q; ref := ref q; allocated := allocated q; new_bfqq := new_bfqq q; sort_list := sort_list q; next_rq := next_rq q; queued := v; fifo := fifo q; max_budget := max_budget q; budget_timeout := budget_timeout q; dispatched := dispatched q; flags := flags q; bic := bic q; burst_list_node := burst_list_node q; seek_history := seek_history q; requests_within_timer := requests_within_timer q; wr_coeff := wr_coeff q; last_wr_start_finish := last_wr_start_finish q; wr_cur_max_time := wr_cur_max_time q; soft_rt_next_start := soft_rt_next_start q; last_idle_bklogged := last_idle_bklogged q; service_from_backlogged := service_from_backlogged q; split_time := split_time q; ioprio_class := ioprio_class q; pid := pid q |}.
Definition set_fifo (v : list request) (q : bfq_queue) : bfq_queue :=
  {| entity := entity q; ref := ref q; allocated := allocated q; new_bfqq := new_bfqq q; sort_list := sort_list q; next_rq := next_rq q; queued := queued q; fifo := v; max_budget := max_budget q; budget_timeout := budget_timeout q; dispatched := dispatched q; flags := flags q; bic := bic q; burst_list_node := burst_list_node q; seek_history := seek_history q; requests_within_timer := requests_within_timer q; wr_coeff := wr_coeff q; last_wr_start_finish := last_wr_start_finish q; wr_cur_max_time := wr_cur_max_time q; soft_rt_next_start := soft_rt_next_start q; last_idle_bklogged := last_idle_bklogged q; service_from_backlogged := service_from_backlogged q; split_time := split_time q; ioprio_class := ioprio_class q; pid := pid q |}.


(** ** Dispatch and expiration *)

Definition NSEC_PER_SEC : Z := 1000000000.
Definition LONG_MAX : Z := 2 ^ 63 - 1.

(** The file-scope variable [bfq_slice_idle], the default of the tunable
    of the same name in [struct bfq_data]. *)
Definition bfq_slice_idle_default : Z := NSEC_PER_SEC / 125.

(** What the code below reads from the clock and from fields that the
    records do not carry. *)
Record bfq_env : Type := {
  env_jiffies : Z;          (* jiffies *)
  env_now_ns : Z;           (* ktime_get_ns() in bfq_update_peak_rate *)
  env_now_reset : Z;        (* ktime_get_ns() in bfq_reset_rate_computation *)
  env_busy_usecs : Z;       (* ktime_to_us(ktime_get() - bfqd->last_budget_start) *)
  env_idling_usecs : Z;     (* ktime_to_us(bfqd->last_idling_start
                                           - bfqd->last_budget_start) *)
  env_weight : Z;           (* bfqq->entity.weight, int *)
  env_orig_weight : Z;      (* bfqq->entity.orig_weight, int *)
  env_on_active_tree : bool; (* the two checks of bfq_updated_next_req *)
  env_back_max : Z;         (* bfqd->bfq_back_max *)
  env_back_penalty : Z      (* bfqd->bfq_back_penalty *)
}.

(** Requests are told apart by their fields: [rq_eqb] stands for the
    comparison of two request pointers, and [rq_del] and [rq_index] for
    the removal and the lookup of a request in a list or tree. *)
Definition rq_eqb (a b : request) : bool :=
  (__sector a =? __sector b) && (__data_len a =? __data_len b)
  && (fifo_time a =? fifo_time b).

Fixpoint rq_del (rq : request) (l : list request) : list request :=
  match l with
  | [] => []
  | x :: l' => if rq_eqb x rq then l' else x :: rq_del rq l'
  end.

Fixpoint rq_index (rq : request) (l : list request) : option nat :=
  match l with
  | [] => None
  | x :: l' => if rq_eqb x rq then Some O else S <$> rq_index rq l'
  end.

(** [bfq_bfqq_is_slow(bfqd, bfqq, compensate, reason, &delta_ms)]: the
    value returned and the value left in [*delta_ms], which the caller
    initialises to 0.  The function does not read [reason]. *)
Definition bfq_bfqq_is_slow (bfqd : bfq_data) (bfqq : bfq_queue)
    (compensate : bool) (env : bfq_env) : bool * Z :=
  let slow := BFQQ_SEEKY bfqq in
  if negb (bfq_bfqq_sync bfqq) then (false, 0)
  else
    let delta_usecs :=
      Int.u64 (if compensate then env_idling_usecs env else env_busy_usecs env) in
    if (delta_usecs <? 1000) || (LONG_MAX <=? delta_usecs)
    then
      (slow,
       if queue_nonrot bfqd then BFQ_MIN_TT / NSEC_PER_MSEC
       else bfq_slice_idle_default / NSEC_PER_MSEC)
    else
      let delta_ms := delta_usecs / USEC_PER_MSEC in
      if 20000 <? delta_usecs
      then (service (entity bfqq) <? Z.quot (bfq_max_budget bfqd) 2, delta_ms)
      else (slow, delta_ms).

(** The test that guards the call of [bfq_bfqq_charge_time] in
    [bfq_bfqq_expire]. *)
Definition expire_charges_time (bfqq : bfq_queue) (slow : bool)
    (reason : bfqq_expiration) : bool :=
  (wr_coeff bfqq =? 1)
  && (slow
      || (reason_eqb reason BFQ_BFQQ_BUDGET_TIMEOUT
          && (Z.quot (budget (entity bfqq)) 3 <=? bfq_bfqq_budget_left bfqq))).

(** The budget accounting of the queue at [q]: its budget, its service
    and its maximum budget. *)
Definition acct (bfqq : bfq_queue) : Z * Z * Z :=
  (budget (entity bfqq), service (entity bfqq), max_budget bfqq).

Definition accounting (st : bfq_state) (q : qid) : option (Z * Z * Z) :=
  acct <$> queues st !! q.

Section Dispatch.

(** Kernel helpers of the estimator and of the soft real-time test. *)
Variable jiffies_to_msecs : Z -> Z.
Variable T_slow T_fast : bool -> Z.
Variable HZ : Z.
Variable nsecs_to_jiffies : Z -> Z.

(** Command flags and owner of a request, which [request] does not
    carry: [rq_is_sync(rq)], [rq->cmd_flags & REQ_META], [RQ_BIC(rq)]. *)
Variable rq_is_sync : request -> bool.
Variable rq_is_meta : request -> bool.
Variable RQ_BIC : request -> bicid.

(** Functions of bfq-sched.c, on the queue [q]. *)
Variable bfq_bfqq_charge_time : bfq_state -> qid -> Z -> bfq_state.
Variable __bfq_bfqd_reset_in_service : bfq_state -> bfq_state.
Variable bfq_del_bfqq_busy : bfq_state -> qid -> bfq_state.
Variable bfq_activate_bfqq : bfq_state -> qid -> bfq_state.
Variable __bfq_entity_update_weight_prio : bfq_state -> qid -> bfq_state.

(** [__bfq_bfqq_expire(bfqd, bfqq)].  The queue leaves service; it
    leaves the busy list when it has no request, and is put back on the
    active tree otherwise.  The position tree that
    [bfq_pos_tree_add_move] updates is not tracked. *)
Definition __bfq_bfqq_expire (st : bfq_state) (q : qid) (jiffies : Z)
  : option bfq_state :=
  BUG_ON (negb (same_queue (in_service_queue (bfqd st)) q)) $
  let st := __bfq_bfqd_reset_in_service st in
  bfqq ← queues st !! q;
  let st :=
    if bfq_bfqq_coop bfqq && BFQQ_SEEKY bfqq
    then upd_queue q (bfq_mark_bfqq BFQ_BFQQ_FLAG_split_coop) st
    else st in
  match sort_list bfqq with
  | [] =>
      let st :=
        if dispatched bfqq =? 0
        then upd_queue q (set_budget_timeout jiffies) st
        else st in
      Some (bfq_del_bfqq_busy st q)
  | _ :: _ => Some (bfq_activate_bfqq st q)
  end.

(** [bfq_bfqq_expire(bfqd, bfqq, compensate, reason)] in two parts.
    The first part runs up to the check that follows the possible
    charge for time. *)
Definition expire_charge (st : bfq_state) (q : qid) (compensate : bool)
    (reason : bfqq_expiration) (env : bfq_env) : option bfq_state :=
  bfqq ← queues st !! q;
  BUG_ON (negb (same_queue (in_service_queue (bfqd st)) q)) $
  let '(slow, delta) := bfq_bfqq_is_slow (bfqd st) bfqq compensate env in
  let st :=
    upd_queue q
      (fun b =>
         set_service_from_backlogged
           (Int.u64 (service_from_backlogged b + service (entity b))) b) st in
  let st :=
    if expire_charges_time bfqq slow reason
    then bfq_bfqq_charge_time st q delta
    else st in
  bfqq ← queues st !! q;
  BUG_ON (budget (entity bfqq) <? service (entity bfqq)) $
  Some st.

(** The second part: the flags and times of the queue, the budget
    feedback, and the removal from service. *)
Definition expire_update (st : bfq_state) (q : qid)
    (reason : bfqq_expiration) (env : bfq_env) : option bfq_state :=
  let jiffies := env_jiffies env in
  bfqq ← queues st !! q;
  let st :=
    if reason_eqb reason BFQ_BFQQ_TOO_IDLE
       && (service (entity bfqq)
           <=? Z.quot (Int.s32 (2 * budget (entity bfqq))) 10)
    then upd_queue q (bfq_clear_bfqq BFQ_BFQQ_FLAG_IO_bound) st
    else st in
  let st :=
    if low_latency (bfqd st) && (wr_coeff bfqq =? 1)
    then upd_queue q (set_last_wr_start_finish jiffies) st
    else st in
  st ← (if low_latency (bfqd st) && (0 <? bfq_wr_max_softrt_rate (bfqd st))
           && match sort_list bfqq with [] => true | _ => false end
        then
          BUG_ON (busy_queues (bfqd st) <? 1) $
          if dispatched bfqq =? 0
          then
            cur ← queues st !! q;
            t ← bfq_bfqq_softrt_next_start HZ nsecs_to_jiffies (bfqd st) cur
                  jiffies;
            Some (upd_queue q (set_soft_rt_next_start t) st)
          else
            Some (upd_queue q
                    (fun b =>
                       bfq_mark_bfqq BFQ_BFQQ_FLAG_softrt_update
                         (set_soft_rt_next_start
                            (bfq_greatest_from_now jiffies) b)) st)
        else Some st);
  bfqq ← queues st !! q;
  BUG_ON (budget (entity bfqq) <? service (entity bfqq)) $
  bfqq ← __bfq_bfqq_recalc_budget (bfqd st) q bfqq reason;
  let st := upd_queue q (fun _ => bfqq) st in
  BUG_ON (match next_rq bfqq with None => true | Some _ => false end
          && (budget (entity bfqq) <? service (entity bfqq))) $
  st ← __bfq_bfqq_expire st q jiffies;
  bfqq ← queues st !! q;
  BUG_ON (negb (bfq_bfqq_busy bfqq)
          && reason_eqb reason BFQ_BFQQ_BUDGET_EXHAUSTED
          && negb (bfq_class_idle bfqq)) $
  Some (if negb (bfq_bfqq_busy bfqq)
           && negb (reason_eqb reason BFQ_BFQQ_BUDGET_TIMEOUT)
           && negb (reason_eqb reason BFQ_BFQQ_BUDGET_EXHAUSTED)
        then upd_queue q (bfq_mark_bfqq BFQ_BFQQ_FLAG_non_blocking_wait_rq) st
        else st).

Definition bfq_bfqq_expire (st : bfq_state) (q : qid) (compensate : bool)
    (reason : bfqq_expiration) (env : bfq_env) : option bfq_state :=
  st ← expire_charge st q compensate reason env;
  expire_update st q reason env.

(** [bfq_remove_request(rq)] for a request of the queue [q].  The
    position tree, [bfqd->queued] and [bfqq->meta_pending] are not
    tracked. *)
Definition bfq_remove_request (st : bfq_state) (q : qid) (rq : request)
    (env : bfq_env) : option bfq_state :=
  bfqq ← queues st !! q;
  let sync := rq_is_sync rq in
  BUG_ON ((budget (entity bfqq) <? service (entity bfqq))
          && same_queue (in_service_queue (bfqd st)) q) $
  st ← (if match next_rq bfqq with Some n => rq_eqb n rq | None => false end
        then
          i ← rq_index rq (sort_list bfqq);
          next ← bfq_find_next_rq rq_is_sync rq_is_meta (env_back_max env)
                   (env_back_penalty env) (sort_list bfqq) i;
          let st := upd_queue q (set_next_rq next) st in
          '(st, activate) ← bfq_updated_next_req st q (env_on_active_tree env);
          Some (if activate : bool then bfq_activate_bfqq st q else st)
        else Some st);
  bfqq ← queues st !! q;
  let st := upd_queue q (set_fifo (rq_del rq (fifo bfqq))) st in
  BUG_ON (array2_get (queued bfqq) sync =? 0) $
  let st :=
    upd_queue q
      (set_queued
         (array2_set (queued bfqq) sync
            (Int.s32 (array2_get (queued bfqq) sync - 1)))) st in
  let st := upd_queue q (set_sort_list (rq_del rq (sort_list bfqq))) st in
  match rq_del rq (sort_list bfqq) with
  | [] =>
      BUG_ON (budget (entity bfqq) <? 0) $
      Some (if bfq_bfqq_busy bfqq
               && negb (same_queue (in_service_queue (bfqd st)) q)
            then
              let st := bfq_del_bfqq_busy st q in
              upd_queue q
                (on_entity (fun e => set_budget 0 (set_service 0 e))) st
            else st)
  | _ :: _ => Some st
  end.

(** [bfq_dispatch_insert(q, rq)] for a request of the queue [q]; the
    request then goes to the dispatch list of the block layer. *)
Definition bfq_dispatch_insert (st : bfq_state) (q : qid) (rq : request)
    (env : bfq_env) : option bfq_state :=
  let st :=
    upd_queue q (fun b => set_dispatched (Int.s32 (dispatched b + 1)) b) st in
  d ← bfq_update_peak_rate jiffies_to_msecs T_slow T_fast (bfqd st) rq
        (env_now_ns env) (env_now_reset env);
  bfq_remove_request (set_bfqd d st) q rq env.

(** [bfq_update_wr_data(bfqd, bfqq)]. *)
Definition bfq_update_wr_data (st : bfq_state) (q : qid) (env : bfq_env)
  : option bfq_state :=
  let jiffies := env_jiffies env in
  bfqq ← queues st !! q;
  st ← (if 1 <? wr_coeff bfqq
        then
          BUG_ON (negb (same_queue (in_service_queue (bfqd st)) q)
                  && negb (Int.u32 (env_weight env)
                           =? Int.u32 (env_orig_weight env * wr_coeff bfqq))) $
          if bfq_bfqq_in_large_burst bfqq
             || Int.time_after jiffies
                  (Int.u64 (last_wr_start_finish bfqq + wr_cur_max_time bfqq))
          then
            bfq_bfqq_end_wr (upd_queue q (set_last_wr_start_finish jiffies) st) q
          else Some st
        else Some st);
  bfqq ← queues st !! q;
  Some (if negb (Bool.eqb (env_orig_weight env <? env_weight env)
                          (1 <? wr_coeff bfqq))
        then __bfq_entity_update_weight_prio st q
        else st).

(** [bfq_dispatch_request(bfqd, bfqq)] on the queue [q].  The value is
    the state, the number of requests dispatched (0 or 1) and the calls
    of [bfq_schedule_dispatch]. *)
Definition bfq_dispatch_request (st : bfq_state) (q : qid) (env : bfq_env)
  : option (bfq_state * Z * list bfq_call) :=
  bfqq ← queues st !! q;
  '(bfqq, rq, charged) ← dispatch_charge (bfqd st) bfqq (env_jiffies env);
  let st := upd_queue q (fun _ => bfqq) st in
  if negb charged
  then
    let calls :=
      if rq_in_driver (bfqd st) =? 0 then [Call_bfq_schedule_dispatch] else [] in
    st ← bfq_bfqq_expire st q false BFQ_BFQQ_BUDGET_EXHAUSTED env;
    Some (st, 0, calls)
  else
    st ← bfq_dispatch_insert st q rq env;
    st ← bfq_update_wr_data st q env;
    st ← (match in_service_bic (bfqd st) with
          | Some _ => Some st
          | None =>
              _ ← bics st !! RQ_BIC rq;
              let st :=
                upd_bic (RQ_BIC rq)
                  (fun c => set_ioc_refcount (ioc_refcount c + 1) c) st in
              Some (upd_bfqd (set_in_service_bic (Some (RQ_BIC rq))) st)
          end);
    cur ← queues st !! q;
    if (1 <? busy_queues (bfqd st)) && bfq_class_idle cur
    then
      st ← bfq_bfqq_expire st q false BFQ_BFQQ_BUDGET_EXHAUSTED env;
      Some (st, 1, [])
    else Some (st, 1, []).

End Dispatch.
(** ** Concrete devices, queues and requests used by the examples *)

Definition rq_4k : request :=
  {| __sector := 2048; __data_len := 4096; fifo_time := 0 |}.

Definition rq_512k : request :=
  {| __sector := 4096; __data_len := 524288; fifo_time := 0 |}.

Definition bfq_data_zero : bfq_data :=
  {| in_service_queue := None; in_service_bic := None; busy_queues := 0;
     wr_busy_queues := 0; rq_in_driver := 0; budgets_assigned := 0;
     bfq_max_budget := 0; bfq_user_max_budget := 0; hw_tag := 0;
     queue_nonrot := false; strict_guarantees := false; low_latency := false;
     large_burst := false; queue_weights_tree := rb_nil;
     group_weights_tree := rb_nil; bfq_slice_idle := 0; last_position := 0;
     last_completion := 0; first_dispatch := 0; last_dispatch := 0;
     peak_rate_samples := 0; sequential_samples := 0;
     tot_sectors_dispatched := 0; last_rq_max_size := 0;
     delta_from_first_us := 0; peak_rate := 0; device_speed := BFQ_BFQD_FAST;
     RT_prod := 0; bfq_wr_coeff := 0; bfq_wr_max_time := 0;
     bfq_wr_rt_max_time := 0; bfq_wr_min_idle_time := 0;
     bfq_wr_max_softrt_rate := 0; bfq_requests_within_timer := 0;
     bfq_timeout := 0 |}.

Definition async_queue : bfq_queue :=
  set_wr_coeff 1 bfq_queue_zero.

Definition sync_queue : bfq_queue :=
  bfq_mark_bfqq BFQ_BFQQ_FLAG_sync (set_wr_coeff 1 bfq_queue_zero).

(** A slow device whose auto-tuned maximum budget is 500 sectors, serving
    queue 1; the queue has just been charged one 512 KiB request. *)
Definition slow_device : bfq_data :=
  set_in_service_queue (Some 1%positive)
    (set_bfq_max_budget 500
       {| in_service_queue := None; in_service_bic := None; busy_queues := 1;
          wr_busy_queues := 0; rq_in_driver := 1; budgets_assigned := 194;
          bfq_max_budget := 0; bfq_user_max_budget := 0; hw_tag := 0;
          queue_nonrot := false; strict_guarantees := false; low_latency := true;
          large_burst := false; queue_weights_tree := rb_nil;
          group_weights_tree := rb_nil; bfq_slice_idle := 8000000; last_position := 0;
          last_completion := 0; first_dispatch := 0; last_dispatch := 0;
          peak_rate_samples := 0; sequential_samples := 0;
          tot_sectors_dispatched := 0; last_rq_max_size := 0;
          delta_from_first_us := 0; peak_rate := 262; device_speed := BFQ_BFQD_SLOW;
          RT_prod := 0; bfq_wr_coeff := 30; bfq_wr_max_time := 0;
          bfq_wr_rt_max_time := 0; bfq_wr_min_idle_time := 0;
          bfq_wr_max_softrt_rate := 7000; bfq_requests_within_timer := 120;
          bfq_timeout := 0 |}).

Definition big_request_queue : bfq_queue :=
  on_entity (fun e => set_service 1024 (set_budget 1024 e))
    (set_max_budget 500 sync_queue).

(** A device with the default budgets, serving the async queue 1.  The
    queue was activated for a 1 MiB write, charged 2048 * 10 = 20480
    sectors, which is both its budget and, after the dispatch, its
    service; a 4 KiB write is pending. *)
Definition default_device : bfq_data :=
  set_in_service_queue (Some 1%positive) (set_bfq_max_budget 16384 bfq_data_zero).

Definition exhausted_queue : bfq_queue :=
  bfq_mark_bfqq BFQ_BFQQ_FLAG_fifo_expire
    (bfq_mark_bfqq BFQ_BFQQ_FLAG_busy
       (set_sort_list [rq_4k]
          (set_next_rq (Some rq_4k)
             (on_entity (fun e => set_service 20480 (set_budget 20480 e))
                (set_max_budget 16384 async_queue))))).

(** A window of 100 samples, 99 of them sequential, closed after one
    second with 10000 sectors dispatched: a raw rate of 655 (in sectors/us
    shifted by 16) against an estimate of 1000. *)
Definition seq_window : bfq_data :=
  set_peak_rate 1000
    (set_delta_from_first_us 1000000
       (set_tot_sectors_dispatched 10000
          (set_sequential_samples 99
             (set_peak_rate_samples 100 bfq_data_zero)))).

(** Forty 4 KiB dispatches, 10 ms apart, with one request in the driver. *)
Definition steady_dispatches : list rate_event :=
  Ev_in_driver 1
  :: map (fun i => Ev_dispatch rq_4k (Z.of_nat i * 10000000) (Z.of_nat i * 10000000))
         (seq 1 40).

Definition steady_window : bfq_data :=
  match rate_run (fun x => x) (fun _ => 0) (fun _ => 0) bfq_data_zero
          steady_dispatches with
  | Some bfqd => bfqd
  | None => bfq_data_zero
  end.

Definition steady_window_closed : bfq_data :=
  match peak_rate_sample steady_window rq_4k 1020000000 with
  | Close_window bfqd => bfqd
  | _ => bfq_data_zero
  end.



(** An instance of the busy-list entry point for the examples: the queue
    is flagged busy and counted. *)
Definition add_busy_counts (st : bfq_state) (q : qid) : bfq_state :=
  upd_bfqd (fun d => set_busy_queues (busy_queues d + 1) d)
    (upd_queue q (bfq_mark_bfqq BFQ_BFQQ_FLAG_busy) st).

(** HZ = 250. *)
Definition msecs_to_jiffies_250 (ms : Z) : Z := (ms + 3) / 4.

(** Queue 1 is in service and not weight-raised; queue 2, idle since long
    and still carrying a weight-raising coefficient of 30, receives a
    request.  In [throughput_state] the device runs with low_latency off,
    in [latency_state] with low_latency on. *)
Definition tuned_device (low_lat : bool) : bfq_data :=
  {| in_service_queue := Some 1%positive; in_service_bic := None; busy_queues := 1;
     wr_busy_queues := 0; rq_in_driver := 0; budgets_assigned := 0;
     bfq_max_budget := 16384; bfq_user_max_budget := 0; hw_tag := 0;
     queue_nonrot := false; strict_guarantees := false; low_latency := low_lat;
     large_burst := false; queue_weights_tree := rb_nil;
     group_weights_tree := rb_nil; bfq_slice_idle := 8000000; last_position := 0;
     last_completion := 0; first_dispatch := 0; last_dispatch := 0;
     peak_rate_samples := 0; sequential_samples := 0;
     tot_sectors_dispatched := 0; last_rq_max_size := 0;
     delta_from_first_us := 0; peak_rate := 9333; device_speed := BFQ_BFQD_FAST;
     RT_prod := 14000 * 1750; bfq_wr_coeff := 30; bfq_wr_max_time := 0;
     bfq_wr_rt_max_time := 75; bfq_wr_min_idle_time := 500;
     bfq_wr_max_softrt_rate := 7000; bfq_requests_within_timer := 120;
     bfq_timeout := 31 |}.

Definition serving_queue : bfq_queue :=
  bfq_mark_bfqq BFQ_BFQQ_FLAG_busy
    (on_entity (set_budget 16384) (set_max_budget 16384 sync_queue)).

Definition raised_queue : bfq_queue :=
  set_next_rq (Some rq_4k)
    (set_sort_list [rq_4k]
       (set_wr_coeff 30 (set_max_budget 1024 sync_queue))).

Definition switch_state (low_lat : bool) : bfq_state :=
  {| bfqd := tuned_device low_lat;
     queues := <[1%positive := serving_queue]> (<[2%positive := raised_queue]> ∅);
     bics := ∅;
     oom_bfqq := 9%positive |}.

Definition throughput_state : bfq_state := switch_state false.
Definition latency_state : bfq_state := switch_state true.

(** Two processes with one sync queue each.  The queue of the first, queue
    1, is weight-raised (coefficient 30), has lost its idle window and is
    not I/O bound; a merge into queue 2 has been set up, which took one
    reference on queue 2. *)
Definition merging_queue : bfq_queue :=
  set_new_bfqq (Some 2%positive)
    (set_bic (Some 1%positive)
       (set_ref 1
          (set_wr_cur_max_time 1750
             (set_wr_coeff 30 sync_queue)))).

Definition target_queue : bfq_queue :=
  set_bic (Some 2%positive)
    (set_ref 2
       (bfq_mark_bfqq BFQ_BFQQ_FLAG_IO_bound
          (bfq_mark_bfqq BFQ_BFQQ_FLAG_idle_window sync_queue))).

Definition context_of (q : qid) : bfq_io_cq :=
  {| bic_bfqq := (None, Some q); ioprio := 0; ttime_last_end_request := 0;
     ioc_active_ref := 1; ioc_refcount := 2;
     saved_idle_window := true; saved_IO_bound := true;
     saved_in_large_burst := false; was_in_burst_list := false |}.

Definition merge_state : bfq_state :=
  {| bfqd := set_in_service_queue None (tuned_device true);
     queues := <[1%positive := merging_queue]> (<[2%positive := target_queue]> ∅);
     bics := <[1%positive := context_of 1%positive]> (<[2%positive := context_of 2%positive]> ∅);
     oom_bfqq := 9%positive |}.


(** A request far from sector 1 and one eight sectors past sector 2048; a
    queue whose history says that all its last 32 requests were far. *)
Definition far_request : request :=
  {| __sector := 1000000; __data_len := 4096; fifo_time := 0 |}.

Definition near_request : request :=
  {| __sector := 2056; __data_len := 4096; fifo_time := 0 |}.

Definition seeky_queue : bfq_queue :=
  set_seek_history (2 ^ 32 - 1) sync_queue.

(** A device that has selected a queue ten times since it was set up, and
    a backlogged queue 1 about to be put in service. *)
Definition young_device_state : bfq_state :=
  {| bfqd := set_budgets_assigned 186 (set_bfq_max_budget 4000 bfq_data_zero);
     queues := <[1%positive := set_sort_list [rq_4k]
                                 (set_next_rq (Some rq_4k) sync_queue)]> ∅;
     bics := ∅;
     oom_bfqq := 9%positive |}.

(** The two queues of [merge_state], queue 1 with a merge into queue 2
    scheduled, and a third sync queue 3 owned by one process. *)
Definition cooperating_state : bfq_state :=
  {| bfqd := set_busy_queues 3 (set_in_service_queue None (tuned_device true));
     queues := <[1%positive := merging_queue]>
                 (<[2%positive := target_queue]>
                    (<[3%positive := set_ref 1 sync_queue]> ∅));
     bics := <[1%positive := context_of 1%positive]>
               (<[2%positive := context_of 2%positive]> ∅);
     oom_bfqq := 9%positive |}.

(** A burst in progress: queues 1 and 2 were activated shortly one after
    the other and are on the burst list; queue 3 has just been created.
    With a threshold of 3 the next activation makes the burst large. *)
Definition burst_state : bfq_state :=
  {| bfqd := bfq_data_zero;
     queues := <[1%positive := set_burst_list_node true sync_queue]>
                 (<[2%positive := set_burst_list_node true sync_queue]>
                    (<[3%positive := sync_queue]> ∅));
     bics := ∅;
     oom_bfqq := 9%positive |}.

Definition burst_of_two : bfq_burst :=
  {| burst_list := [2%positive; 1%positive]; burst_size := 2;
     burst_parent_entity := None; last_ins_in_burst := 990;
     bfq_burst_interval := 45; bfq_large_burst_thresh := 3 |}.

(** A sync queue in service with a 4 KiB request pending, its whole budget
    of 16384 sectors left and its budget timeout still ahead. *)
Definition kept_queue : bfq_queue :=
  set_budget_timeout 1000
    (set_sort_list [rq_4k] (set_next_rq (Some rq_4k) serving_queue)).

(** The two queues of [merge_state] while both are backlogged: queue 1,
    raised, is the one busy queue that [wr_busy_queues] counts. *)
Definition busy_merge_state : bfq_state :=
  upd_bfqd (set_wr_busy_queues 1)
    (upd_queue 2%positive (bfq_mark_bfqq BFQ_BFQQ_FLAG_busy)
       (upd_queue 1%positive
          (fun x => set_ref 2 (bfq_mark_bfqq BFQ_BFQQ_FLAG_busy x)) merge_state)).

(** [merge_state] after the merge of queue 1 into queue 2, and with
    queue 2 then flagged for a split. *)
Definition merged_state : bfq_state :=
  default merge_state
    (bfq_merge_bfqqs merge_state 1%positive 1%positive 2%positive).

Definition split_pending_state : bfq_state :=
  upd_queue 2%positive (bfq_mark_bfqq BFQ_BFQQ_FLAG_split_coop) merged_state.

(** Two streams that are not weight-raised: the sync queue 1 is busy and
    in service, the async queue 2 has a 4 KiB write to dispatch; no
    raised queue is busy and [wr_busy_queues] is 0. *)
Definition plain_busy_state : bfq_state :=
  {| bfqd := tuned_device true;
     queues := <[1%positive := serving_queue]> (<[2%positive := async_queue]> ∅);
     bics := ∅;
     oom_bfqq := 9%positive |}.


(** Instances of the functions of bfq-sched.c for the examples: the charge
    for time charges the whole budget; a queue that leaves service resets
    the two pointers of the device; a queue that leaves the busy list
    loses the flag and is no longer counted; the activation and the
    weight update change nothing that is tracked here. *)
Definition charge_whole_budget (st : bfq_state) (q : qid) (time_ms : Z)
  : bfq_state :=
  upd_queue q (on_entity (fun e => set_service (budget e) e)) st.

Definition reset_in_service (st : bfq_state) : bfq_state :=
  upd_bfqd (fun d => set_in_service_bic None (set_in_service_queue None d)) st.

Definition del_busy_counts (st : bfq_state) (q : qid) : bfq_state :=
  upd_bfqd (fun d => set_busy_queues (busy_queues d - 1) d)
    (upd_queue q (bfq_clear_bfqq BFQ_BFQQ_FLAG_busy) st).

Definition activate_untracked (st : bfq_state) (q : qid) : bfq_state := st.

(** A dispatch at time 0, 5 ms after the budget was started, for an entity
    whose weight is its original weight. *)
Definition quiet_env : bfq_env :=
  {| env_jiffies := 0; env_now_ns := 0; env_now_reset := 0;
     env_busy_usecs := 5000; env_idling_usecs := 0;
     env_weight := 100; env_orig_weight := 100;
     env_on_active_tree := false;
     env_back_max := 16384; env_back_penalty := 2 |}.

(** The async queue 1 of [default_device] in service.  In
    [exhausted_state] it has used its whole budget of 20480 sectors and a
    4 KiB write is pending; in [fresh_state] the same queue has not been
    served yet, and the write is counted and on its FIFO. *)
Definition exhausted_state : bfq_state :=
  {| bfqd := set_busy_queues 1 default_device;
     queues := <[1%positive := exhausted_queue]> ∅;
     bics := <[1%positive := context_of 1%positive]> ∅;
     oom_bfqq := 9%positive |}.

Definition fresh_state : bfq_state :=
  upd_queue 1%positive
    (fun b => set_queued (1, 0) (set_fifo [rq_4k] (on_entity (set_service 0) b)))
    exhausted_state.
(** * Properties *)

(** ** Machine arithmetic *)

Module IntFacts.
Import Int.

Lemma u32_range x : 0 <= u32 x < 2 ^ 32.
Proof. unfold u32. apply Z.mod_pos_bound. lia. Qed.

Lemma u64_range x : 0 <= u64 x < 2 ^ 64.
Proof. unfold u64. apply Z.mod_pos_bound. lia. Qed.

Lemma u32_small x : 0 <= x < 2 ^ 32 -> u32 x = x.
Proof. intros H. unfold u32. now apply Z.mod_small. Qed.

Lemma u64_small x : 0 <= x < 2 ^ 64 -> u64 x = x.
Proof. intros H. unfold u64. now apply Z.mod_small. Qed.

Lemma s64_small x : - 2 ^ 63 <= x < 2 ^ 63 -> s64 x = x.
Proof.
  intros H. unfold s64, u64.
  destruct (Z_lt_le_dec x 0) as [Hneg | Hpos].
  - replace (x mod 2 ^ 64) with (x + 2 ^ 64).
    + destruct (Z.ltb_spec (x + 2 ^ 64) (2 ^ 63)); lia.
    + apply Z.mod_unique with (q := -1); lia.
  - rewrite Z.mod_small by lia.
    destruct (Z.ltb_spec x (2 ^ 63)); lia.
Qed.

Lemma s32_small x : - 2 ^ 31 <= x < 2 ^ 31 -> s32 x = x.
Proof.
  intros H. unfold s32, u32.
  destruct (Z_lt_le_dec x 0) as [Hneg | Hpos].
  - replace (x mod 2 ^ 32) with (x + 2 ^ 32).
    + destruct (Z.ltb_spec (x + 2 ^ 32) (2 ^ 31)); lia.
    + apply Z.mod_unique with (q := -1); lia.
  - rewrite Z.mod_small by lia.
    destruct (Z.ltb_spec x (2 ^ 31)); lia.
Qed.

End IntFacts.

(** ** Flags *)

Lemma flag_bit_nonneg f : 0 <= flag_bit f.
Proof. destruct f; simpl; lia. Qed.

Lemma flag_bit_inj f g : flag_bit f = flag_bit g -> f = g.
Proof. destruct f, g; simpl; intros H; try reflexivity; discriminate H. Qed.

Lemma testbit_flag_mask f m : 0 <= m ->
  Z.testbit (Z.shiftl 1 (flag_bit f)) m = (flag_bit f =? m).
Proof.
  intros _. rewrite Z.shiftl_1_l. apply Z.pow2_bits_eqb, flag_bit_nonneg.
Qed.

Lemma flag_mark_same f bfqq : bfq_bfqq_flag f (bfq_mark_bfqq f bfqq) = true.
Proof.
  unfold bfq_bfqq_flag, bfq_mark_bfqq; simpl.
  rewrite Z.lor_spec, testbit_flag_mask by apply flag_bit_nonneg.
  rewrite Z.eqb_refl. apply orb_true_r.
Qed.

Lemma flag_mark_other f g bfqq :
  f <> g -> bfq_bfqq_flag g (bfq_mark_bfqq f bfqq) = bfq_bfqq_flag g bfqq.
Proof.
  intros Hne. unfold bfq_bfqq_flag, bfq_mark_bfqq; simpl.
  rewrite Z.lor_spec, testbit_flag_mask by apply flag_bit_nonneg.
  destruct (Z.eqb_spec (flag_bit f) (flag_bit g)) as [E | _].
  - apply flag_bit_inj in E. contradiction.
  - apply orb_false_r.
Qed.

Lemma flag_clear_same f bfqq : bfq_bfqq_flag f (bfq_clear_bfqq f bfqq) = false.
Proof.
  unfold bfq_bfqq_flag, bfq_clear_bfqq; simpl.
  rewrite Z.land_spec, Z.lnot_spec, testbit_flag_mask by apply flag_bit_nonneg.
  rewrite Z.eqb_refl. apply andb_false_r.
Qed.

Lemma flag_clear_other f g bfqq :
  f <> g -> bfq_bfqq_flag g (bfq_clear_bfqq f bfqq) = bfq_bfqq_flag g bfqq.
Proof.
  intros Hne. unfold bfq_bfqq_flag, bfq_clear_bfqq; simpl.
  rewrite Z.land_spec, Z.lnot_spec, testbit_flag_mask by apply flag_bit_nonneg.
  destruct (Z.eqb_spec (flag_bit f) (flag_bit g)) as [E | _].
  - apply flag_bit_inj in E. contradiction.
  - apply andb_true_r.
Qed.

Lemma flag_assign_same f c bfqq : bfq_bfqq_flag f (bfq_assign_bfqq f c bfqq) = c.
Proof.
  destruct c; simpl; [apply flag_mark_same | apply flag_clear_same].
Qed.

Lemma flag_assign_other f g c bfqq :
  f <> g -> bfq_bfqq_flag g (bfq_assign_bfqq f c bfqq) = bfq_bfqq_flag g bfqq.
Proof.
  intros Hne. destruct c; simpl;
    [now apply flag_mark_other | now apply flag_clear_other].
Qed.

(** ** Service charging *)

Lemma blk_rq_sectors_range rq :
  request_wf rq -> 0 <= blk_rq_sectors rq < 2 ^ 23.
Proof.
  intros [_ Hlen]. unfold blk_rq_sectors.
  rewrite Z.shiftr_div_pow2 by lia.
  split.
  - apply Z.div_pos; lia.
  - apply Z.div_lt_upper_bound; lia.
Qed.

Lemma serv_to_charge_bound rq bfqq bfqd :
  request_wf rq -> 0 <= bfq_serv_to_charge rq bfqq bfqd < 2 ^ 28.
Proof.
  intros Hwf. pose proof (blk_rq_sectors_range rq Hwf) as Hn.
  unfold bfq_serv_to_charge, bfq_async_charge_factor.
  destruct (bfq_bfqq_sync bfqq || (1 <? wr_coeff bfqq)); [lia |].
  destruct (wr_busy_queues bfqd =? 0);
    rewrite ?(IntFacts.u32_small (blk_rq_sectors rq * 2)) by lia;
    rewrite IntFacts.u32_small by lia; lia.
Qed.

(** What [bfq_serv_to_charge] computes, in terms of the counter it reads:
    a request of [n] sectors charges its stream [n] when the stream is
    sync or weight-raised; otherwise [n] times the async charge factor
    (10) when [wr_busy_queues] is 0, and twice that when it is not. *)
Theorem bfq_serv_to_charge_spec rq bfqq bfqd :
  request_wf rq ->
  let n := blk_rq_sectors rq in
  (bfq_bfqq_sync bfqq = true \/ 1 < wr_coeff bfqq ->
   bfq_serv_to_charge rq bfqq bfqd = n)
  /\ (bfq_bfqq_sync bfqq = false -> wr_coeff bfqq <= 1 ->
      wr_busy_queues bfqd = 0 ->
      bfq_serv_to_charge rq bfqq bfqd = n * bfq_async_charge_factor)
  /\ (bfq_bfqq_sync bfqq = false -> wr_coeff bfqq <= 1 ->
      wr_busy_queues bfqd <> 0 ->
      bfq_serv_to_charge rq bfqq bfqd = n * 2 * bfq_async_charge_factor).
Proof.
  intros Hwf n. pose proof (blk_rq_sectors_range rq Hwf) as Hn. fold n in Hn.
  unfold bfq_serv_to_charge. fold n.
  repeat split.
  - intros [Hs | Hw].
    + now rewrite Hs.
    + apply Z.ltb_lt in Hw. rewrite Hw. now rewrite orb_true_r.
  - intros Hs Hw Hb. rewrite Hs. apply Z.ltb_ge in Hw. rewrite Hw. simpl.
    rewrite Hb. simpl. unfold bfq_async_charge_factor.
    apply IntFacts.u32_small. lia.
  - intros Hs Hw Hb. rewrite Hs. apply Z.ltb_ge in Hw. rewrite Hw. simpl.
    apply Z.eqb_neq in Hb. rewrite Hb. unfold bfq_async_charge_factor.
    rewrite (IntFacts.u32_small (n * 2)) by lia.
    apply IntFacts.u32_small. lia.
Qed.

Lemma bfq_serv_to_charge_spec_witness :
  request_wf rq_4k /\ bfq_serv_to_charge rq_4k async_queue bfq_data_zero = 80.
Proof.
  assert (Hwf : request_wf rq_4k) by (unfold request_wf; simpl; lia).
  split; [exact Hwf |].
  destruct (bfq_serv_to_charge_spec rq_4k async_queue bfq_data_zero Hwf)
    as (_ & Hasync & _).
  rewrite Hasync; reflexivity.
Defined.

(** ** Budget feedback at expiration *)

Lemma bfq_min_budget_range bfqd :
  0 <= bfq_max_budget bfqd < 2 ^ 31 -> 0 <= bfq_min_budget bfqd < 2 ^ 26.
Proof.
  intros H. unfold bfq_min_budget, bfq_default_max_budget.
  destruct (budgets_assigned bfqd <? bfq_stats_min_budgets).
  - change (16 * 1024 / 32) with 512. lia.
  - rewrite Z.quot_div_nonneg by lia. split.
    + apply Z.div_pos; lia.
    + apply Z.div_lt_upper_bound; lia.
Qed.

Lemma recalc_budget_assign_ok bfqd bfqq reason b :
  backlog_consistent bfqq reason ->
  exists bfqq',
    recalc_budget_assign bfqd bfqq reason b = Some bfqq'
    /\ max_budget bfqq' =
       (if budget_autotuned bfqd then Z.min b (bfq_max_budget bfqd) else b)
    /\ (next_rq bfqq = None ->
        entity bfqq' = entity bfqq).
Proof.
  unfold backlog_consistent, recalc_budget_assign, budget_autotuned.
  intros Hb.
  destruct ((bfq_stats_min_budgets <=? budgets_assigned bfqd)
            && (bfq_user_max_budget bfqd =? 0));
    cbn [next_rq set_max_budget max_budget];
    (destruct (next_rq bfqq) as [rq |] eqn:Hrq;
     [ destruct Hb as (Hr1 & Hr2 & Hbusy & Hsort);
       assert (Hreason : reason_eqb reason BFQ_BFQQ_TOO_IDLE
                         || reason_eqb reason BFQ_BFQQ_NO_MORE_REQUESTS = false)
         by (destruct reason; simpl; congruence);
       rewrite Hreason; unfold BUG_ON at 1; cbv beta;
       unfold bfq_bfqq_busy, bfq_bfqq_flag in *; cbn [flags on_entity set_entity set_max_budget];
       rewrite Hbusy; unfold BUG_ON at 1; cbv beta; cbn [negb];
       cbn [sort_list on_entity set_entity set_max_budget];
       destruct (sort_list bfqq) as [| r l]; [congruence |];
       unfold BUG_ON; eexists; split; [reflexivity |];
       split; [reflexivity | congruence]
     | eexists; split; [reflexivity |]; split; reflexivity ]).
Qed.

(** C3, as amended.  For the stream in service, with a coefficient of at
    least 1, budgets and service that are not negative, a maximum budget
    whose quadruple fits an [int], and (what the function asserts of a
    stream that still has a request) busy, backlogged and not expired for
    TOO_IDLE or NO_MORE_REQUESTS: the function returns, and the new
    maximum budget follows the table by reason for a sync stream that is
    not weight-raised (PREEMPTED leaves it alone), is the device maximum
    for an async stream and twice the minimum budget for a sync
    weight-raised one; whenever auto-tuning is in force the value is in
    addition capped at the device maximum. *)
Theorem recalc_budget_feedback bfqd q bfqq reason :
  in_service_queue bfqd = Some q ->
  recalc_in_range bfqd bfqq ->
  backlog_consistent bfqq reason ->
  exists bfqq',
    __bfq_bfqq_recalc_budget bfqd q bfqq reason = Some bfqq'
    /\ max_budget bfqq' = capped_max_budget bfqd bfqq reason.
Proof.
  intros Hin (Hwr & Hmb0 & Hmb4 & Hdev & Hserv) Hback.
  pose proof (bfq_min_budget_range bfqd Hdev) as Hmin.
  unfold __bfq_bfqq_recalc_budget, capped_max_budget, table_max_budget.
  rewrite Hin. unfold same_queue. rewrite Pos.eqb_refl. unfold BUG_ON at 1.
  cbv beta iota zeta. cbn [negb].
  destruct (bfq_bfqq_sync bfqq) eqn:Hsync; cbn [andb negb].
  - destruct (Z.eqb_spec (wr_coeff bfqq) 1) as [Hone | Hraised].
    + replace (1 <? wr_coeff bfqq) with false by (symmetry; apply Z.ltb_ge; lia).
      destruct reason; cbn [recalc_budget_switch reason_eqb].
      * (* TOO_IDLE *)
        destruct (0 <? dispatched bfqq).
        -- destruct (recalc_budget_assign_ok bfqd bfqq BFQ_BFQQ_TOO_IDLE
                       (Z.min (Int.s32 (max_budget bfqq * 2)) (bfq_max_budget bfqd)) Hback)
             as (r & Hr & Hval & _).
           exists r. split; [exact Hr |]. rewrite Hval.
           rewrite IntFacts.s32_small by lia.
           cbn [andb]; destruct (budget_autotuned bfqd); lia.
        -- rewrite (IntFacts.s32_small (5 * bfq_min_budget bfqd)) by lia.
           rewrite (IntFacts.s32_small (4 * bfq_min_budget bfqd)) by lia.
           rewrite (IntFacts.s32_small (max_budget bfqq - 4 * bfq_min_budget bfqd)) by lia.
           destruct (Z.ltb_spec (5 * bfq_min_budget bfqd) (max_budget bfqq)).
           ++ destruct (recalc_budget_assign_ok bfqd bfqq BFQ_BFQQ_TOO_IDLE
                          (max_budget bfqq - 4 * bfq_min_budget bfqd) Hback)
                as (r & Hr & Hval & _).
              exists r. split; [exact Hr |]. rewrite Hval.
              cbn [andb]; destruct (budget_autotuned bfqd); lia.
           ++ destruct (recalc_budget_assign_ok bfqd bfqq BFQ_BFQQ_TOO_IDLE
                          (bfq_min_budget bfqd) Hback)
                as (r & Hr & Hval & _).
              exists r. split; [exact Hr |]. rewrite Hval.
              cbn [andb]; destruct (budget_autotuned bfqd); lia.
      * (* BUDGET_TIMEOUT *)
        destruct (recalc_budget_assign_ok bfqd bfqq BFQ_BFQQ_BUDGET_TIMEOUT
                    (Z.min (Int.s32 (max_budget bfqq * 2)) (bfq_max_budget bfqd)) Hback)
          as (r & Hr & Hval & _).
        exists r. split; [exact Hr |]. rewrite Hval.
        rewrite IntFacts.s32_small by lia.
        cbn [andb]; destruct (budget_autotuned bfqd); lia.
      * (* BUDGET_EXHAUSTED *)
        destruct (recalc_budget_assign_ok bfqd bfqq BFQ_BFQQ_BUDGET_EXHAUSTED
                    (Z.min (Int.s32 (max_budget bfqq * 4)) (bfq_max_budget bfqd)) Hback)
          as (r & Hr & Hval & _).
        exists r. split; [exact Hr |]. rewrite Hval.
        rewrite IntFacts.s32_small by lia.
        cbn [andb]; destruct (budget_autotuned bfqd); lia.
      * (* NO_MORE_REQUESTS *)
        destruct (recalc_budget_assign_ok bfqd bfqq BFQ_BFQQ_NO_MORE_REQUESTS
                    (Z.max (service (entity bfqq)) (bfq_min_budget bfqd)) Hback)
          as (r & Hr & Hval & _).
        exists r. split; [exact Hr |]. rewrite Hval. reflexivity.
      * (* PREEMPTED *)
        exists bfqq. split; reflexivity.
    + replace (1 <? wr_coeff bfqq) with true by (symmetry; apply Z.ltb_lt; lia).
      rewrite IntFacts.s32_small by lia.
      destruct (recalc_budget_assign_ok bfqd bfqq reason
                  (2 * bfq_min_budget bfqd) Hback) as (r & Hr & Hval & _).
      exists r. split; [exact Hr |]. rewrite Hval. reflexivity.
  - destruct (recalc_budget_assign_ok bfqd bfqq reason (bfq_max_budget bfqd) Hback)
      as (r & Hr & Hval & _).
    exists r. split; [exact Hr |]. rewrite Hval. reflexivity.
Qed.

Lemma recalc_budget_feedback_witness :
  exists bfqq',
    __bfq_bfqq_recalc_budget slow_device 1%positive big_request_queue
      BFQ_BFQQ_NO_MORE_REQUESTS = Some bfqq'
    /\ max_budget bfqq' = 500.
Proof.
  apply (recalc_budget_feedback slow_device 1%positive big_request_queue
           BFQ_BFQQ_NO_MORE_REQUESTS).
  - reflexivity.
  - unfold recalc_in_range; simpl; lia.
  - exact I.
Defined.

(** Outside the range of [recalc_in_range] the products of the switch
    wrap: with a user-set maximum of 2^30 sectors a stream that exhausts a
    budget of 2^30 is left with a maximum budget of 0, not with the
    quadruple capped at the device maximum. *)
Lemma recalc_budget_wraps :
  let bfqd := set_bfq_user_max_budget (2 ^ 30)
                (set_bfq_max_budget (2 ^ 30) slow_device) in
  let bfqq := set_max_budget (2 ^ 30) big_request_queue in
  exists bfqq',
    __bfq_bfqq_recalc_budget bfqd 1%positive bfqq BFQ_BFQQ_BUDGET_EXHAUSTED
    = Some bfqq'
    /\ max_budget bfqq' = 0
    /\ capped_max_budget bfqd bfqq BFQ_BFQQ_BUDGET_EXHAUSTED = 2 ^ 30.
Proof. eexists. vm_compute. repeat split. Qed.

(** C3, as stated, fails: on a device auto-tuned to 500 sectors a stream
    that consumed 1024 sectors and expires with NO_MORE_REQUESTS gets 500,
    not max(1024, min_budget) = 1024. *)
Lemma recalc_budget_not_table :
  exists bfqq',
    __bfq_bfqq_recalc_budget slow_device 1%positive big_request_queue
      BFQ_BFQQ_NO_MORE_REQUESTS = Some bfqq'
    /\ max_budget bfqq' = 500
    /\ table_max_budget slow_device big_request_queue BFQ_BFQQ_NO_MORE_REQUESTS = 1024
    /\ max_budget bfqq'
       <> table_max_budget slow_device big_request_queue BFQ_BFQQ_NO_MORE_REQUESTS.
Proof.
  eexists. split; [reflexivity |]. repeat split. discriminate.
Qed.

(** ** The budget invariant across dispatch and expiration *)

Lemma bfq_check_fifo_props bfqq jiffies :
  entity (fst (bfq_check_fifo bfqq jiffies)) = entity bfqq
  /\ next_rq (fst (bfq_check_fifo bfqq jiffies)) = next_rq bfqq
  /\ (forall rq, snd (bfq_check_fifo bfqq jiffies) = Some rq -> In rq (fifo bfqq)).
Proof.
  unfold bfq_check_fifo.
  destruct (bfq_bfqq_fifo_expire bfqq).
  - simpl. repeat split. discriminate.
  - cbn [fifo bfq_mark_bfqq set_flags].
    destruct (fifo bfqq) as [| r l].
    + simpl. repeat split. discriminate.
    + destruct (Int.time_before jiffies (fifo_time r)); simpl; repeat split.
      * discriminate.
      * intros rq [= <-]. now left.
Qed.

Lemma budget_left_exact bfqq :
  budget_inv bfqq -> budget (entity bfqq) < 2 ^ 31 ->
  bfq_bfqq_budget_left bfqq = budget (entity bfqq) - service (entity bfqq).
Proof.
  unfold budget_inv, bfq_bfqq_budget_left. intros H Hb.
  apply IntFacts.s32_small. lia.
Qed.


Lemma serv_to_charge_flag_independent rq bfqq bfqd f c :
  f <> BFQ_BFQQ_FLAG_sync ->
  bfq_serv_to_charge rq (bfq_assign_bfqq f c bfqq) bfqd
  = bfq_serv_to_charge rq bfqq bfqd.
Proof.
  intros Hf. unfold bfq_serv_to_charge, bfq_bfqq_sync.
  rewrite flag_assign_other by congruence.
  now destruct c.
Qed.

Lemma check_fifo_charge rq bfqq bfqd jiffies :
  bfq_serv_to_charge rq (fst (bfq_check_fifo bfqq jiffies)) bfqd
  = bfq_serv_to_charge rq bfqq bfqd
  /\ sort_list (fst (bfq_check_fifo bfqq jiffies)) = sort_list bfqq.
Proof.
  unfold bfq_check_fifo.
  destruct (bfq_bfqq_fifo_expire bfqq); [now split|].
  cbn [fifo bfq_mark_bfqq set_flags].
  assert (H : bfq_serv_to_charge rq (bfq_mark_bfqq BFQ_BFQQ_FLAG_fifo_expire bfqq) bfqd
              = bfq_serv_to_charge rq bfqq bfqd)
    by (apply (serv_to_charge_flag_independent rq bfqq bfqd
                 BFQ_BFQQ_FLAG_fifo_expire true); discriminate).
  destruct (fifo bfqq) as [|r l]; [now split|].
  destruct (Int.time_before jiffies (fifo_time r)); now split.
Qed.

Lemma upd_queue_lookup st q f b :
  queues st !! q = Some b -> queues (upd_queue q f st) !! q = Some (f b).
Proof.
  intros H. cbn [upd_queue queues set_queues]. now rewrite lookup_alter_eq, H.
Qed.

Lemma upd_queue_lookup_ne st q p f :
  p <> q -> queues (upd_queue p f st) !! q = queues st !! q.
Proof.
  intros H. cbn [upd_queue queues set_queues]. now rewrite lookup_alter_ne.
Qed.

Lemma cond_upd_lookup st q f b (c : bool) :
  queues st !! q = Some b ->
  queues (if c then upd_queue q f st else st) !! q = Some (if c then f b else b).
Proof. intros H. destruct c; [now apply upd_queue_lookup | exact H]. Qed.

Lemma cond_upd_bfqd st q f (c : bool) :
  bfqd (if c then upd_queue q f st else st) = bfqd st.
Proof. now destruct c. Qed.

Lemma accounting_upd_queue st p q f :
  (forall b, acct (f b) = acct b) ->
  accounting (upd_queue p f st) q = accounting st q.
Proof.
  intros Hf. unfold accounting. cbn [upd_queue queues set_queues].
  destruct (decide (p = q)) as [-> | Hne].
  - rewrite lookup_alter_eq. destruct (queues st !! q); cbn; [|reflexivity].
    now rewrite Hf.
  - now rewrite lookup_alter_ne.
Qed.

Lemma accounting_lookup st q b :
  queues st !! q = Some b -> accounting st q = Some (acct b).
Proof. intros H. unfold accounting. now rewrite H. Qed.

Lemma accounting_inv st q a :
  accounting st q = Some a -> exists b, queues st !! q = Some b /\ acct b = a.
Proof.
  unfold accounting. destruct (queues st !! q) as [b|]; [|discriminate].
  intros [= <-]. now exists b.
Qed.

Lemma serv_to_charge_same rq b b' d :
  bfq_bfqq_sync b' = bfq_bfqq_sync b -> wr_coeff b' = wr_coeff b ->
  bfq_serv_to_charge rq b' d = bfq_serv_to_charge rq b d.
Proof. intros Hs Hw. unfold bfq_serv_to_charge. now rewrite Hs, Hw. Qed.

(** What the budget feedback does to the accounting of the queue. *)
Lemma recalc_budget_assign_accounting bfqd bfqq reason nb b' :
  recalc_budget_assign bfqd bfqq reason nb = Some b' ->
  service (entity b') = service (entity bfqq)
  /\ next_rq b' = next_rq bfqq
  /\ bfq_bfqq_sync b' = bfq_bfqq_sync bfqq
  /\ wr_coeff b' = wr_coeff bfqq
  /\ match next_rq bfqq with
     | None => budget (entity b') = budget (entity bfqq)
     | Some rq =>
         budget (entity b')
         = Int.s32 (Z.max (Int.u64 (max_budget b'))
                          (bfq_serv_to_charge rq bfqq bfqd))
     end.
Proof.
  unfold recalc_budget_assign, BUG_ON.
  destruct (_ && _); cbn [next_rq set_max_budget max_budget];
    destruct (next_rq bfqq) as [rq|] eqn:Hn;
    repeat match goal with
           | |- context [if ?c then _ else _] => destruct c
           end;
    try discriminate; intros [= <-]; repeat split; exact Hn.
Qed.

Lemma recalc_budget_accounting bfqd q bfqq reason b' :
  __bfq_bfqq_recalc_budget bfqd q bfqq reason = Some b' ->
  service (entity b') = service (entity bfqq)
  /\ next_rq b' = next_rq bfqq
  /\ bfq_bfqq_sync b' = bfq_bfqq_sync bfqq
  /\ wr_coeff b' = wr_coeff bfqq
  /\ if bfq_bfqq_sync bfqq && (wr_coeff bfqq =? 1)
        && reason_eqb reason BFQ_BFQQ_PREEMPTED
     then b' = bfqq
     else match next_rq bfqq with
          | None => budget (entity b') = budget (entity bfqq)
          | Some rq =>
              budget (entity b')
              = Int.s32 (Z.max (Int.u64 (max_budget b'))
                               (bfq_serv_to_charge rq bfqq bfqd))
          end.
Proof.
  unfold __bfq_bfqq_recalc_budget, BUG_ON.
  destruct (negb _); [discriminate|]. cbv zeta.
  destruct (bfq_bfqq_sync bfqq && (wr_coeff bfqq =? 1)) eqn:Hsw; cbn [andb].
  - destruct reason; cbn [recalc_budget_switch reason_eqb];
      try (intros H; apply recalc_budget_assign_accounting in H; exact H).
    + destruct (0 <? dispatched bfqq);
        [|destruct (_ <? _)];
        intros H; apply recalc_budget_assign_accounting in H; exact H.
    + intros [= <-]. repeat split.
  - destruct (negb (bfq_bfqq_sync bfqq));
      intros H; apply recalc_budget_assign_accounting in H; exact H.
Qed.

Lemma bind_some {A B} (m : option A) (f : A -> option B) y :
  m ≫= f = Some y -> exists x, m = Some x /\ f x = Some y.
Proof. destruct m as [x|]; [|discriminate]. intros H. now exists x. Qed.

Lemma BUG_ON_some {A} (c : bool) (k : option A) y :
  BUG_ON c k = Some y -> c = false /\ k = Some y.
Proof. unfold BUG_ON. destruct c; [discriminate|]. now split. Qed.

(** The estimator does not touch the pointer to the queue in service. *)
Section EstimatorFrame.

Variable jiffies_to_msecs : Z -> Z.
Variable T_slow T_fast : bool -> Z.

Lemma reset_rate_in_service d rq now :
  in_service_queue (bfq_reset_rate_computation d rq now) = in_service_queue d.
Proof. now destruct rq. Qed.

Lemma update_thr_in_service d d' :
  update_thr_responsiveness_params jiffies_to_msecs T_slow T_fast d = Some d' ->
  in_service_queue d' = in_service_queue d.
Proof.
  unfold update_thr_responsiveness_params, BUG_ON. cbv zeta.
  repeat match goal with
         | |- context [if ?c then _ else _] => destruct c
         | |- context [match device_speed ?x with _ => _ end] =>
             destruct (device_speed x)
         end;
    intros [= <-] || discriminate; reflexivity.
Qed.

Lemma rate_filter_in_service d bw d' :
  rate_filter jiffies_to_msecs T_slow T_fast d bw = Some d' ->
  in_service_queue d' = in_service_queue d.
Proof.
  unfold rate_filter. cbv zeta. intros H.
  apply BUG_ON_some in H as [_ H].
  apply BUG_ON_some in H as [_ H].
  apply BUG_ON_some in H as [_ H].
  match type of H with
  | match ?u with _ => _ end = _ => destruct u as [d1|] eqn:Hu; [|discriminate]
  end.
  apply BUG_ON_some in H as [_ H]. injection H as <-.
  apply update_thr_in_service in Hu. exact Hu.
Qed.

Lemma update_rate_reset_in_service d rq now d' :
  bfq_update_rate_reset jiffies_to_msecs T_slow T_fast d rq now = Some d' ->
  in_service_queue d' = in_service_queue d.
Proof.
  unfold bfq_update_rate_reset. cbv zeta.
  destruct (rate_gate d).
  { intros [= <-]. apply reset_rate_in_service. }
  intros H. apply BUG_ON_some in H as [_ H].
  apply BUG_ON_some in H as [_ H].
  destruct (rate_sample_rejected _ _).
  { injection H as <-. now rewrite reset_rate_in_service. }
  match type of H with
  | match ?u with _ => _ end = _ => destruct u as [d1|] eqn:Hu; [|discriminate]
  end.
  injection H as <-. rewrite reset_rate_in_service.
  apply rate_filter_in_service in Hu. exact Hu.
Qed.

Lemma update_peak_rate_in_service d rq now now' d' :
  bfq_update_peak_rate jiffies_to_msecs T_slow T_fast d rq now now' = Some d' ->
  in_service_queue d' = in_service_queue d.
Proof.
  unfold bfq_update_peak_rate.
  destruct (peak_rate_sample d rq now) as [|d1|d1] eqn:Hs.
  - intros [= <-]. reflexivity.
  - assert (H1 : in_service_queue d1 = in_service_queue d).
    { revert Hs. unfold peak_rate_sample. cbv zeta.
      repeat match goal with
             | |- context [if ?c then _ else _] => destruct c
             end; intros [= <-] || discriminate; reflexivity. }
    destruct (bfq_update_rate_reset _ _ _ _ _ _) as [d2|] eqn:Hr; [|discriminate].
    intros [= <-]. apply update_rate_reset_in_service in Hr. cbn. congruence.
  - assert (H1 : in_service_queue d1 = in_service_queue d).
    { revert Hs. unfold peak_rate_sample. cbv zeta.
      repeat match goal with
             | |- context [if ?c then _ else _] => destruct c
             end; intros [= <-] || discriminate; reflexivity. }
    intros [= <-]. cbn. exact H1.
Qed.

End EstimatorFrame.

(** The head of a dispatch: what it returns when it returns, and that it
    returns for a backlogged queue within its budget. *)
Lemma dispatch_charge_result bfqd bfqq jiffies b1 rq charged :
  budget_inv bfqq ->
  budget (entity bfqq) < 2 ^ 31 ->
  Forall request_wf (fifo bfqq) ->
  (forall r, next_rq bfqq = Some r -> request_wf r) ->
  dispatch_charge bfqd bfqq jiffies = Some (b1, rq, charged) ->
  request_wf rq
  /\ (snd (bfq_check_fifo bfqq jiffies) = Some rq
      \/ (snd (bfq_check_fifo bfqq jiffies) = None /\ next_rq bfqq = Some rq))
  /\ charged
     = (bfq_serv_to_charge rq bfqq bfqd
        <=? budget (entity bfqq) - service (entity bfqq))
  /\ budget (entity b1) = budget (entity bfqq)
  /\ service (entity b1)
     = service (entity bfqq)
       + (if charged then bfq_serv_to_charge rq bfqq bfqd else 0)
  /\ max_budget b1 = max_budget bfqq
  /\ budget_inv b1.
Proof.
  intros Hinv Hrange Hfifo Hnext. unfold dispatch_charge.
  intros H. apply BUG_ON_some in H as [_ H].
  pose proof (bfq_check_fifo_props bfqq jiffies) as (Hent & Hnx & Hin).
  pose proof (fun r => check_fifo_charge r bfqq bfqd jiffies) as Hch.
  assert (Hmax : max_budget (fst (bfq_check_fifo bfqq jiffies)) = max_budget bfqq).
  { unfold bfq_check_fifo. destruct (bfq_bfqq_fifo_expire bfqq); [reflexivity|].
    cbn [fifo bfq_mark_bfqq set_flags].
    destruct (fifo bfqq) as [|r l]; [reflexivity|].
    now destruct (Int.time_before jiffies (fifo_time r)). }
  destruct (bfq_check_fifo bfqq jiffies) as [b0 fr]. cbn [fst snd] in *.
  assert (Hrq : match fr with Some r => Some r | None => next_rq b0 end = Some rq
                /\ request_wf rq
                /\ (fr = Some rq \/ (fr = None /\ next_rq bfqq = Some rq))).
  { destruct fr as [r|].
    - assert (r = rq) as ->.
      { destruct (Int.u64 _ <? _) in H;
          [apply BUG_ON_some in H as [_ H]
          |apply BUG_ON_some in H as [_ H]; apply BUG_ON_some in H as [_ H]];
          now injection H. }
      split; [reflexivity|]. split; [|now left].
      rewrite List.Forall_forall in Hfifo. apply Hfifo, Hin. reflexivity.
    - destruct (next_rq b0) as [r|] eqn:Hn0; [|discriminate].
      assert (r = rq) as ->.
      { destruct (Int.u64 _ <? _) in H;
          [apply BUG_ON_some in H as [_ H]
          |apply BUG_ON_some in H as [_ H]; apply BUG_ON_some in H as [_ H]];
          now injection H. }
      rewrite Hnx in Hn0. split; [reflexivity|].
      split; [now apply Hnext|]. right. now split. }
  destruct Hrq as (Hsel & Hwf & Hwhich). rewrite Hsel in H.
  pose proof (serv_to_charge_bound rq b0 bfqd Hwf) as Hc.
  assert (Hinv0 : budget_inv b0) by (unfold budget_inv; now rewrite Hent).
  assert (Hrange0 : budget (entity b0) < 2 ^ 31) by now rewrite Hent.
  rewrite (budget_left_exact b0 Hinv0 Hrange0) in H.
  unfold budget_inv in Hinv0.
  rewrite IntFacts.u64_small in H by lia.
  specialize (Hch rq) as [Hch _]. rewrite <- Hch, <- Hent.
  split; [exact Hwf|]. split; [exact Hwhich|].
  destruct (Z.ltb_spec (budget (entity b0) - service (entity b0))
              (bfq_serv_to_charge rq b0 bfqd)) as [Hlt|Hge].
  - apply BUG_ON_some in H as [_ H]. injection H as <- <-.
    cbn [entity set_next_rq max_budget]. unfold budget_inv.
    cbn [entity set_next_rq].
    replace (_ <=? _) with false by (symmetry; apply Z.leb_gt; lia).
    repeat split; lia.
  - apply BUG_ON_some in H as [_ H]. apply BUG_ON_some in H as [_ H].
    injection H as <- <-.
    unfold bfq_bfqq_served, on_entity, budget_inv.
    cbn [entity set_entity budget service set_service max_budget].
    rewrite (IntFacts.s32_small (bfq_serv_to_charge rq b0 bfqd)) by lia.
    rewrite (IntFacts.s32_small (service (entity b0) + _)) by lia.
    replace (_ <=? _) with true by (symmetry; apply Z.leb_le; lia).
    repeat split; lia.
Qed.

Lemma dispatch_charge_returns bfqd bfqq jiffies :
  budget_inv bfqq ->
  budget (entity bfqq) < 2 ^ 31 ->
  sort_list bfqq <> [] ->
  Forall request_wf (fifo bfqq) ->
  (exists r, next_rq bfqq = Some r /\ request_wf r) ->
  exists b1 rq charged,
    dispatch_charge bfqd bfqq jiffies = Some (b1, rq, charged).
Proof.
  intros Hinv Hrange Hsort Hfifo (nrq & Hnext & Hnwf).
  unfold dispatch_charge.
  destruct (sort_list bfqq) as [| s l] eqn:Hs; [congruence |].
  unfold BUG_ON at 1. cbv beta iota.
  pose proof (bfq_check_fifo_props bfqq jiffies) as (Hent & Hnx & Hin).
  destruct (bfq_check_fifo bfqq jiffies) as [b0 fr]. cbn [fst snd] in *.
  assert (Hrq : exists rq,
             match fr with Some rq => Some rq | None => next_rq b0 end = Some rq
             /\ request_wf rq).
  { destruct fr as [r |].
    - exists r. split; [reflexivity |].
      rewrite List.Forall_forall in Hfifo. apply Hfifo, Hin. reflexivity.
    - exists nrq. rewrite Hnx. now split. }
  destruct Hrq as (rq & -> & Hwf).
  pose proof (serv_to_charge_bound rq b0 bfqd Hwf) as Hc.
  assert (Hinv0 : budget_inv b0) by (unfold budget_inv; now rewrite Hent).
  assert (Hrange0 : budget (entity b0) < 2 ^ 31) by now rewrite Hent.
  rewrite (budget_left_exact b0 Hinv0 Hrange0).
  unfold budget_inv in Hinv0.
  rewrite IntFacts.u64_small by lia.
  destruct (Z.ltb_spec (budget (entity b0) - service (entity b0))
              (bfq_serv_to_charge rq b0 bfqd)) as [Hlt | Hge].
  - cbn [entity set_next_rq].
    replace (budget (entity b0) <? service (entity b0)) with false
      by (symmetry; apply Z.ltb_ge; lia).
    unfold BUG_ON. eexists _, _, _. reflexivity.
  - replace (budget (entity b0) <? service (entity b0)) with false
      by (symmetry; apply Z.ltb_ge; lia).
    unfold BUG_ON at 1. cbv beta iota.
    unfold bfq_bfqq_served, on_entity.
    cbn [entity set_entity budget service set_service].
    rewrite (IntFacts.s32_small (bfq_serv_to_charge rq b0 bfqd)) by lia.
    rewrite (IntFacts.s32_small (service (entity b0) + _)) by lia.
    replace (budget (entity b0)
             <? service (entity b0) + bfq_serv_to_charge rq b0 bfqd) with false
      by (symmetry; apply Z.ltb_ge; lia).
    unfold BUG_ON. eexists _, _, _. reflexivity.
Qed.

Section DispatchFacts.

Variable jiffies_to_msecs : Z -> Z.
Variable T_slow T_fast : bool -> Z.
Variable HZ : Z.
Variable nsecs_to_jiffies : Z -> Z.
Variable rq_is_sync : request -> bool.
Variable rq_is_meta : request -> bool.
Variable RQ_BIC : request -> bicid.
Variable bfq_bfqq_charge_time : bfq_state -> qid -> Z -> bfq_state.
Variable __bfq_bfqd_reset_in_service : bfq_state -> bfq_state.
Variable bfq_del_bfqq_busy : bfq_state -> qid -> bfq_state.
Variable bfq_activate_bfqq : bfq_state -> qid -> bfq_state.
Variable __bfq_entity_update_weight_prio : bfq_state -> qid -> bfq_state.

Hypothesis reset_frame : forall st q,
  accounting (__bfq_bfqd_reset_in_service st) q = accounting st q.
Hypothesis del_busy_frame : forall st q p,
  accounting (bfq_del_bfqq_busy st q) p = accounting st p.
Hypothesis activate_frame : forall st q p,
  accounting (bfq_activate_bfqq st q) p = accounting st p.
Hypothesis update_prio_frame : forall st q p,
  accounting (__bfq_entity_update_weight_prio st q) p = accounting st p.

Local Abbreviation expire_inner :=
  (__bfq_bfqq_expire __bfq_bfqd_reset_in_service bfq_del_bfqq_busy
     bfq_activate_bfqq).
Local Abbreviation exp_update :=
  (expire_update HZ nsecs_to_jiffies __bfq_bfqd_reset_in_service
     bfq_del_bfqq_busy bfq_activate_bfqq).
Local Abbreviation exp_charge := (expire_charge bfq_bfqq_charge_time).
Local Abbreviation expire :=
  (bfq_bfqq_expire HZ nsecs_to_jiffies bfq_bfqq_charge_time
     __bfq_bfqd_reset_in_service bfq_del_bfqq_busy bfq_activate_bfqq).

Lemma expire_inner_accounting st q jiffies st' :
  expire_inner st q jiffies = Some st' ->
  accounting st' q = accounting st q.
Proof.
  unfold __bfq_bfqq_expire. intros H.
  apply BUG_ON_some in H as [_ H].
  apply bind_some in H as (b & Hb & H).
  destruct (sort_list b); injection H as <-.
  - rewrite del_busy_frame.
    destruct (dispatched b =? 0);
      [rewrite accounting_upd_queue by reflexivity|];
      (destruct (bfq_bfqq_coop b && BFQQ_SEEKY b);
       [rewrite accounting_upd_queue by reflexivity|]);
      apply reset_frame.
  - rewrite activate_frame.
    destruct (bfq_bfqq_coop b && BFQQ_SEEKY b);
      [rewrite accounting_upd_queue by reflexivity|];
      apply reset_frame.
Qed.

Lemma expire_update_accounting st q reason env st' b1 :
  queues st !! q = Some b1 ->
  exp_update st q reason env = Some st' ->
  exists b',
    queues st' !! q = Some b'
    /\ service (entity b') = service (entity b1)
    /\ if bfq_bfqq_sync b1 && (wr_coeff b1 =? 1)
          && reason_eqb reason BFQ_BFQQ_PREEMPTED
       then budget (entity b') = budget (entity b1)
            /\ max_budget b' = max_budget b1
       else match next_rq b1 with
            | None => budget (entity b') = budget (entity b1)
            | Some rq =>
                budget (entity b')
                = Int.s32 (Z.max (Int.u64 (max_budget b'))
                                 (bfq_serv_to_charge rq b1 (bfqd st)))
            end.
Proof.
  intros Hq Hrun. unfold expire_update in Hrun.
  rewrite Hq in Hrun. cbn [mbind option_bind] in Hrun.
  cbv zeta in Hrun.
  match type of Hrun with
  | context [if ?c then upd_queue q (bfq_clear_bfqq BFQ_BFQQ_FLAG_IO_bound) st
             else st] =>
      set (c1 := c) in *;
      set (sA := if c1 then upd_queue q (bfq_clear_bfqq BFQ_BFQQ_FLAG_IO_bound) st
                 else st) in *
  end.
  assert (HqA : queues sA !! q
                = Some (if c1 then bfq_clear_bfqq BFQ_BFQQ_FLAG_IO_bound b1
                        else b1))
    by (apply cond_upd_lookup; exact Hq).
  assert (HdA : bfqd sA = bfqd st) by apply cond_upd_bfqd.
  set (bA := if c1 then bfq_clear_bfqq BFQ_BFQQ_FLAG_IO_bound b1 else b1) in *.
  match type of Hrun with
  | context [if ?c then upd_queue q (set_last_wr_start_finish ?j) sA
             else sA] =>
      set (c2 := c) in *;
      set (sB := if c2 then upd_queue q (set_last_wr_start_finish j) sA
                 else sA) in *
  end.
  assert (HqB : queues sB !! q
                = Some (if c2 then set_last_wr_start_finish (env_jiffies env) bA
                        else bA))
    by (apply cond_upd_lookup; exact HqA).
  assert (HdB : bfqd sB = bfqd st)
    by (unfold sB; rewrite cond_upd_bfqd; exact HdA).
  set (bB := if c2 then set_last_wr_start_finish (env_jiffies env) bA else bA) in *.
  assert (HbB : entity bB = entity b1 /\ next_rq bB = next_rq b1
                /\ bfq_bfqq_sync bB = bfq_bfqq_sync b1
                /\ wr_coeff bB = wr_coeff b1
                /\ max_budget bB = max_budget b1).
  { unfold bB, bA. destruct c1, c2; repeat split;
      unfold bfq_bfqq_sync;
      change (bfq_bfqq_flag BFQ_BFQQ_FLAG_sync (set_last_wr_start_finish ?j ?b))
        with (bfq_bfqq_flag BFQ_BFQQ_FLAG_sync b);
      rewrite ?flag_clear_other by discriminate; reflexivity. }
  clearbody bB sB. clear HqA HdA sA bA c1 c2.
  apply bind_some in Hrun as (sC & HsC & Hrun).
  assert (HC : exists bC, queues sC !! q = Some bC /\ bfqd sC = bfqd st
                 /\ entity bC = entity b1 /\ next_rq bC = next_rq b1
                 /\ bfq_bfqq_sync bC = bfq_bfqq_sync b1
                 /\ wr_coeff bC = wr_coeff b1
                 /\ max_budget bC = max_budget b1).
  { destruct (_ && _) in HsC.
    - apply BUG_ON_some in HsC as [_ HsC].
      destruct (dispatched b1 =? 0).
      + rewrite HqB in HsC. cbn [mbind option_bind] in HsC.
        apply bind_some in HsC as (t & _ & HsC). injection HsC as <-.
        eexists. split; [apply upd_queue_lookup; exact HqB|].
        split; [exact HdB|]. exact HbB.
      + injection HsC as <-.
        eexists. split; [apply upd_queue_lookup; exact HqB|].
        split; [exact HdB|].
        destruct HbB as (? & ? & ? & ? & ?). repeat split; try assumption.
        unfold bfq_bfqq_sync. rewrite flag_mark_other by discriminate.
        assumption.
    - injection HsC as <-. exists bB. split; [exact HqB|].
      split; [exact HdB|]. exact HbB. }
  destruct HC as (bC & HqC & HdC & HeC & HnC & HsyC & HwC & HmC).
  rewrite HqC in Hrun. cbn [mbind option_bind] in Hrun.
  apply BUG_ON_some in Hrun as [_ Hrun].
  apply bind_some in Hrun as (b3 & Hrec & Hrun).
  apply BUG_ON_some in Hrun as [_ Hrun].
  apply bind_some in Hrun as (sE & HsE & Hrun).
  apply bind_some in Hrun as (bE & HqE & Hrun).
  apply BUG_ON_some in Hrun as [_ Hrun].
  apply expire_inner_accounting in HsE.
  rewrite (accounting_lookup (upd_queue q (fun _ => b3) sC) q b3) in HsE
    by (exact (upd_queue_lookup sC q (fun _ => b3) bC HqC)).
  rewrite (accounting_lookup _ _ bE HqE) in HsE.
  injection HsE as Hb Hs Hm.
  apply recalc_budget_accounting in Hrec
    as (Hs3 & Hn3 & Hsy3 & Hw3 & Hb3).
  rewrite HsyC, HwC, HnC, HdC in Hb3.
  assert (Hfinal : exists b', queues st' !! q = Some b' /\ acct b' = acct bE).
  { injection Hrun as <-.
    match goal with
    | |- context [if ?c then _ else _] => destruct c
    end.
    - eexists. split; [apply upd_queue_lookup; exact HqE|reflexivity].
    - exists bE. split; [exact HqE|reflexivity]. }
  destruct Hfinal as (b' & Hq' & Ha').
  injection Ha' as Hb' Hs' Hm'.
  exists b'. split; [exact Hq'|]. split; [congruence|].
  destruct (bfq_bfqq_sync b1 && (wr_coeff b1 =? 1)
            && reason_eqb reason BFQ_BFQQ_PREEMPTED).
  - subst b3. split; congruence.
  - destruct (next_rq b1) as [rq|].
    + rewrite Hb', Hb, Hb3, Hm', Hm.
      rewrite (serv_to_charge_same rq b1 bC) by congruence. reflexivity.
    + congruence.
Qed.

Local Abbreviation remove_request :=
  (bfq_remove_request rq_is_sync rq_is_meta bfq_del_bfqq_busy
     bfq_activate_bfqq).
Local Abbreviation dispatch_insert :=
  (bfq_dispatch_insert jiffies_to_msecs T_slow T_fast rq_is_sync rq_is_meta
     bfq_del_bfqq_busy bfq_activate_bfqq).
Local Abbreviation update_wr_data :=
  (bfq_update_wr_data __bfq_entity_update_weight_prio).

Lemma same_queue_in_service d q :
  in_service_queue d = Some q -> same_queue (in_service_queue d) q = true.
Proof. intros ->. unfold same_queue. apply Pos.eqb_refl. Qed.

Lemma updated_next_req_in_service st q tree :
  in_service_queue (bfqd st) = Some q ->
  is_Some (queues st !! q) ->
  bfq_updated_next_req st q tree = Some (st, false).
Proof.
  intros Hin [b Hb]. unfold bfq_updated_next_req. rewrite Hb.
  cbn [mbind option_bind].
  destruct (next_rq b); [|reflexivity].
  now rewrite (same_queue_in_service _ _ Hin).
Qed.

Lemma remove_request_in_service st q rq env st' :
  in_service_queue (bfqd st) = Some q ->
  remove_request st q rq env = Some st' ->
  accounting st' q = accounting st q /\ bfqd st' = bfqd st.
Proof.
  intros Hin H. unfold bfq_remove_request in H.
  apply bind_some in H as (b & Hb & H). cbv zeta in H.
  apply BUG_ON_some in H as [_ H].
  apply bind_some in H as (sX & HsX & H).
  assert (HX : accounting sX q = accounting st q /\ bfqd sX = bfqd st).
  { destruct (match next_rq b with Some n => rq_eqb n rq | None => false end).
    - apply bind_some in HsX as (i & _ & HsX).
      apply bind_some in HsX as (next & _ & HsX).
      rewrite updated_next_req_in_service in HsX.
      + cbn in HsX. injection HsX as <-.
        split; [now apply accounting_upd_queue|reflexivity].
      + exact Hin.
      + exists (set_next_rq next b). now apply upd_queue_lookup.
    - injection HsX as <-. now split. }
  destruct HX as [HaX HdX].
  apply bind_some in H as (bX & HbX & H).
  apply BUG_ON_some in H as [_ H].
  match type of H with
  | match ?l with _ => _ end = _ => destruct l
  end.
  - apply BUG_ON_some in H as [_ H]. injection H as <-.
    cbn [upd_queue bfqd set_queues].
    rewrite HdX, (same_queue_in_service _ _ Hin), andb_false_r.
    rewrite !accounting_upd_queue by reflexivity. now split.
  - injection H as <-.
    rewrite !accounting_upd_queue by reflexivity. now split.
Qed.

Lemma dispatch_insert_in_service st q rq env st' :
  in_service_queue (bfqd st) = Some q ->
  dispatch_insert st q rq env = Some st' ->
  accounting st' q = accounting st q
  /\ in_service_queue (bfqd st') = Some q.
Proof.
  intros Hin H. unfold bfq_dispatch_insert in H. cbv zeta in H.
  apply bind_some in H as (d & Hd & H).
  apply update_peak_rate_in_service in Hd.
  cbn [upd_queue bfqd set_queues] in Hd.
  apply remove_request_in_service in H
    as [Ha Hb]; [|cbn [set_bfqd bfqd]; congruence].
  split.
  - rewrite Ha. unfold accounting. cbn [set_bfqd queues].
    fold (accounting (upd_queue q
            (fun b => set_dispatched (Int.s32 (dispatched b + 1)) b) st) q).
    now apply accounting_upd_queue.
  - rewrite Hb. cbn [set_bfqd bfqd]. congruence.
Qed.

Lemma end_wr_accounting_frame st q p st' :
  bfq_bfqq_end_wr st q = Some st' -> accounting st' p = accounting st p.
Proof.
  unfold bfq_bfqq_end_wr. intros H.
  apply bind_some in H as (b & _ & H). injection H as <-.
  rewrite accounting_upd_queue by reflexivity.
  now destruct (bfq_bfqq_busy b).
Qed.

Lemma update_wr_data_accounting st q env st' :
  update_wr_data st q env = Some st' ->
  accounting st' q = accounting st q.
Proof.
  intros H. unfold bfq_update_wr_data in H. cbv zeta in H.
  apply bind_some in H as (b & Hb & H).
  apply bind_some in H as (sX & HsX & H).
  assert (HX : accounting sX q = accounting st q).
  { destruct (1 <? wr_coeff b).
    - apply BUG_ON_some in HsX as [_ HsX].
      destruct (_ || _).
      + apply end_wr_accounting_frame with (p := q) in HsX.
        rewrite HsX. now apply accounting_upd_queue.
      + now injection HsX as <-.
    - now injection HsX as <-. }
  apply bind_some in H as (bX & _ & H). injection H as <-.
  match goal with
  | |- context [if ?c then _ else _] => destruct c
  end; [rewrite update_prio_frame|]; exact HX.
Qed.


Local Abbreviation dispatch :=
  (bfq_dispatch_request jiffies_to_msecs T_slow T_fast HZ nsecs_to_jiffies
     rq_is_sync rq_is_meta RQ_BIC bfq_bfqq_charge_time
     __bfq_bfqd_reset_in_service bfq_del_bfqq_busy bfq_activate_bfqq
     __bfq_entity_update_weight_prio).

Lemma expire_charge_result st q compensate reason env s1 bfqq :
  queues st !! q = Some bfqq ->
  exp_charge st q compensate reason env = Some s1 ->
  exists b1,
    queues s1 !! q = Some b1
    /\ service (entity b1) <= budget (entity b1)
    /\ (expire_charges_time bfqq
          (fst (bfq_bfqq_is_slow (bfqd st) bfqq compensate env)) reason = false ->
        entity b1 = entity bfqq).
Proof.
  intros Hq H. unfold expire_charge in H. rewrite Hq in H.
  cbn [mbind option_bind] in H.
  apply BUG_ON_some in H as [_ H].
  destruct (bfq_bfqq_is_slow (bfqd st) bfqq compensate env) as [slow delta].
  cbn [fst]. cbv zeta in H.
  apply bind_some in H as (b1 & Hb1 & H).
  apply BUG_ON_some in H as [Hle H]. injection H as <-.
  apply Z.ltb_ge in Hle.
  exists b1. split; [exact Hb1|]. split; [exact Hle|].
  intros Hno. rewrite Hno in Hb1.
  erewrite upd_queue_lookup in Hb1 by exact Hq.
  now injection Hb1 as <-.
Qed.

(** C9, as amended.  For a backlogged queue with
    [0 <= service <= budget] the head of a dispatch returns: none of
    its checks of the budget fires.  For the queue in service with
    [0 <= service <= budget], a dispatch that returns has charged the
    request it chose exactly when the charge fits the budget left: the
    service then grows by the charge, the budget is not written, and
    [0 <= service <= budget] still holds at the point where the function
    returns or, for a request that does not fit or for a queue of the
    idle class while other queues are busy, calls [bfq_bfqq_expire] with
    BUDGET_EXHAUSTED.  An expiration that returns may first charge the
    queue for time, after which the code asserts [service <= budget];
    from then on the service is not written.  The budget is kept when no
    request is pending, and also when a sync queue that is not raised is
    preempted; otherwise, with a request pending, the budget becomes
    max(new max_budget, charge of the next request), whatever the
    service is.  The functions of bfq-sched.c that are called on the way
    are assumed to leave budget, service and max_budget alone. *)
Theorem budget_inv_preserved :
  (forall bfqd bfqq jiffies,
      budget_inv bfqq ->
      budget (entity bfqq) < 2 ^ 31 ->
      sort_list bfqq <> [] ->
      Forall request_wf (fifo bfqq) ->
      (exists r, next_rq bfqq = Some r /\ request_wf r) ->
      exists b1 rq charged,
        dispatch_charge bfqd bfqq jiffies = Some (b1, rq, charged))
  /\ (forall st q env bfqq st' n calls,
      queues st !! q = Some bfqq ->
      in_service_queue (bfqd st) = Some q ->
      budget_inv bfqq ->
      budget (entity bfqq) < 2 ^ 31 ->
      Forall request_wf (fifo bfqq) ->
      (forall r, next_rq bfqq = Some r -> request_wf r) ->
      dispatch st q env = Some (st', n, calls) ->
      exists b1 rq charged s1 cur,
        dispatch_charge (bfqd st) bfqq (env_jiffies env)
        = Some (b1, rq, charged)
        /\ charged
           = (bfq_serv_to_charge rq bfqq (bfqd st)
              <=? budget (entity bfqq) - service (entity bfqq))
        /\ n = (if charged then 1 else 0)
        /\ queues s1 !! q = Some cur
        /\ budget (entity cur) = budget (entity bfqq)
        /\ service (entity cur)
           = service (entity bfqq)
             + (if charged then bfq_serv_to_charge rq bfqq (bfqd st) else 0)
        /\ budget_inv cur
        /\ if negb charged
              || ((1 <? busy_queues (bfqd s1)) && bfq_class_idle cur)
           then expire s1 q false BFQ_BFQQ_BUDGET_EXHAUSTED env = Some st'
           else st' = s1)
  /\ (forall st q compensate reason env bfqq st',
        queues st !! q = Some bfqq ->
        expire st q compensate reason env = Some st' ->
        exists s1 b1 b',
          exp_charge st q compensate reason env = Some s1
          /\ queues s1 !! q = Some b1
          /\ service (entity b1) <= budget (entity b1)
          /\ (expire_charges_time bfqq
                (fst (bfq_bfqq_is_slow (bfqd st) bfqq compensate env)) reason
              = false -> entity b1 = entity bfqq)
          /\ queues st' !! q = Some b'
          /\ service (entity b') = service (entity b1)
          /\ if bfq_bfqq_sync b1 && (wr_coeff b1 =? 1)
                && reason_eqb reason BFQ_BFQQ_PREEMPTED
             then budget (entity b') = budget (entity b1)
                  /\ max_budget b' = max_budget b1
             else match next_rq b1 with
                  | None => budget (entity b') = budget (entity b1)
                  | Some rq =>
                      budget (entity b')
                      = Int.s32 (Z.max (Int.u64 (max_budget b'))
                                   (bfq_serv_to_charge rq b1 (bfqd s1)))
                      /\ (request_wf rq -> 0 <= max_budget b' < 2 ^ 31 ->
                          budget (entity b')
                          = Z.max (max_budget b')
                              (bfq_serv_to_charge rq b1 (bfqd s1)))
                  end).
Proof.
  split; [exact dispatch_charge_returns|]. split.
  - intros st q env bfqq st' n calls Hq Hin Hinv Hrange Hfifo Hnext Hrun.
    unfold bfq_dispatch_request in Hrun. rewrite Hq in Hrun.
    cbn [mbind option_bind] in Hrun.
    apply bind_some in Hrun as ([[b1 rq] charged] & Hch & Hrun).
    pose proof (dispatch_charge_result _ _ _ _ _ _ Hinv Hrange Hfifo Hnext Hch)
      as (Hwf & _ & Hc & Hb & Hs & Hm & Hinv1).
    cbv zeta in Hrun.
    set (s0 := upd_queue q (fun _ => b1) st) in *.
    assert (Hq0 : queues s0 !! q = Some b1)
      by exact (upd_queue_lookup st q (fun _ => b1) bfqq Hq).
    exists b1, rq, charged.
    destruct charged; cbn [negb orb] in *.
    + apply bind_some in Hrun as (sI & HsI & Hrun).
      apply dispatch_insert_in_service in HsI as [HaI HinI]; [|exact Hin].
      apply bind_some in Hrun as (sW & HsW & Hrun).
      apply update_wr_data_accounting in HsW.
      apply bind_some in Hrun as (sB & HsB & Hrun).
      assert (HaB : accounting sB q = accounting sW q).
      { destruct (in_service_bic (bfqd sW)).
        - now injection HsB as <-.
        - apply bind_some in HsB as (c & _ & HsB). now injection HsB as <-. }
      apply bind_some in Hrun as (cur & Hcur & Hrun).
      exists sB, cur.
      rewrite (accounting_lookup _ _ _ Hcur), HsW, HaI in HaB.
      rewrite (accounting_lookup _ _ _ Hq0) in HaB.
      injection HaB as Hb' Hs' Hm'.
      split; [exact Hch|]. split; [exact Hc|].
      assert (Hn : n = 1 /\ if (1 <? busy_queues (bfqd sB)) && bfq_class_idle cur
                           then expire sB q false BFQ_BFQQ_BUDGET_EXHAUSTED env
                                = Some st'
                           else st' = sB).
      { destruct ((1 <? busy_queues (bfqd sB)) && bfq_class_idle cur).
        - apply bind_some in Hrun as (sE & HsE & Hrun).
          injection Hrun as <- <- _. now split.
        - injection Hrun as <- <- _. now split. }
      destruct Hn as [-> Hend].
      split; [reflexivity|]. split; [exact Hcur|].
      split; [congruence|]. split; [congruence|].
      split; [|exact Hend].
      unfold budget_inv in *. rewrite Hb', Hs'. exact Hinv1.
    + apply bind_some in Hrun as (sE & HsE & Hrun).
      injection Hrun as <- <- _.
      exists s0, b1.
      split; [exact Hch|]. split; [exact Hc|].
      split; [reflexivity|]. split; [exact Hq0|].
      split; [exact Hb|]. split; [exact Hs|]. split; [exact Hinv1|exact HsE].
  - intros st q compensate reason env bfqq st' Hq Hrun.
    unfold bfq_bfqq_expire in Hrun.
    apply bind_some in Hrun as (s1 & Hs1 & Hrun).
    destruct (expire_charge_result _ _ _ _ _ _ _ Hq Hs1)
      as (b1 & Hq1 & Hle & Hsame).
    destruct (expire_update_accounting _ _ _ _ _ _ Hq1 Hrun)
      as (b' & Hq' & Hs' & Hb').
    exists s1, b1, b'. repeat (split; [assumption|]).
    destruct (bfq_bfqq_sync b1 && (wr_coeff b1 =? 1)
              && reason_eqb reason BFQ_BFQQ_PREEMPTED); [exact Hb'|].
    destruct (next_rq b1) as [rq|]; [|exact Hb'].
    split; [exact Hb'|]. intros Hwf Hmax. rewrite Hb'.
    pose proof (serv_to_charge_bound rq b1 (bfqd s1) Hwf).
    rewrite IntFacts.u64_small by lia.
    apply IntFacts.s32_small. lia.
Qed.

End DispatchFacts.

Lemma reset_in_service_frame st q :
  accounting (reset_in_service st) q = accounting st q.
Proof. reflexivity. Qed.

Lemma del_busy_counts_frame st q p :
  accounting (del_busy_counts st q) p = accounting st p.
Proof.
  unfold del_busy_counts.
  exact (accounting_upd_queue st q p (bfq_clear_bfqq BFQ_BFQQ_FLAG_busy)
           (fun b => eq_refl)).
Qed.

Lemma activate_untracked_frame st q p :
  accounting (activate_untracked st q) p = accounting st p.
Proof. reflexivity. Qed.

Lemma budget_inv_preserved_witness :
  exists st' n calls s1 cur,
    bfq_dispatch_request (fun x => x) (fun _ => 0) (fun _ => 0) 250
      (fun ns => ns / 4000000) (fun _ => false) (fun _ => false)
      (fun _ => 1%positive) charge_whole_budget reset_in_service
      del_busy_counts activate_untracked activate_untracked
      fresh_state 1%positive quiet_env = Some (st', n, calls)
    /\ n = 1
    /\ queues s1 !! 1%positive = Some cur
    /\ budget (entity cur) = 20480
    /\ service (entity cur) = 80
    /\ budget_inv cur.
Proof.
  destruct (bfq_dispatch_request (fun x => x) (fun _ => 0) (fun _ => 0) 250
              (fun ns => ns / 4000000) (fun _ => false) (fun _ => false)
              (fun _ => 1%positive) charge_whole_budget reset_in_service
              del_busy_counts activate_untracked activate_untracked
              fresh_state 1%positive quiet_env)
    as [[[st' n] calls] |] eqn:Hrun; [| vm_compute in Hrun; discriminate].
  pose (bfqq := set_queued (1, 0)
                  (set_fifo [rq_4k] (on_entity (set_service 0) exhausted_queue))).
  destruct (proj1 (proj2
                     (budget_inv_preserved (fun x => x) (fun _ => 0)
                        (fun _ => 0) 250 (fun ns => ns / 4000000)
                        (fun _ => false) (fun _ => false) (fun _ => 1%positive)
                        charge_whole_budget reset_in_service del_busy_counts
                        activate_untracked activate_untracked
                        reset_in_service_frame del_busy_counts_frame
                        activate_untracked_frame activate_untracked_frame))
              fresh_state 1%positive quiet_env bfqq st' n calls)
    as (b1 & rq & charged & s1 & cur & Hch & Hc & Hn & Hcur & Hb & Hs & Hinv & _).
  - reflexivity.
  - reflexivity.
  - unfold budget_inv. vm_compute. split; discriminate.
  - reflexivity.
  - repeat constructor; vm_compute; discriminate.
  - intros r [= <-]. vm_compute. repeat split; discriminate.
  - exact Hrun.
  - vm_compute in Hch. injection Hch as <- <- <-.
    exists st', n, calls, s1, cur.
    split; [reflexivity |]. split; [exact Hn |]. split; [exact Hcur |].
    split; [exact Hb |]. split; [exact Hs |]. exact Hinv.
Defined.

(** C9, as stated, fails at an expiration that finds a request pending:
    the async queue has used its budget of 20480 sectors, the dispatch of
    its next request runs into BUDGET_EXHAUSTED, and when the dispatch
    returns the budget assigned for the next slot (16384, the device
    maximum) is below the service still recorded (20480). *)
Lemma expire_breaks_budget_inv :
  budget_inv exhausted_queue
  /\ exists st' bfqq',
       bfq_dispatch_request (fun x => x) (fun _ => 0) (fun _ => 0) 250
         (fun ns => ns / 4000000) (fun _ => false) (fun _ => false)
         (fun _ => 1%positive) charge_whole_budget reset_in_service
         del_busy_counts activate_untracked activate_untracked
         exhausted_state 1%positive quiet_env
       = Some (st', 0, [Call_bfq_schedule_dispatch])
       /\ queues st' !! 1%positive = Some bfqq'
       /\ budget (entity bfqq') = 16384
       /\ service (entity bfqq') = 20480
       /\ ~ budget_inv bfqq'.
Proof.
  split.
  - unfold budget_inv; simpl; lia.
  - eexists _, _. split; [vm_compute; reflexivity |].
    split; [vm_compute; reflexivity |].
    split; [reflexivity |]. split; [reflexivity |].
    unfold budget_inv. intros [_ H]. vm_compute in H. now apply H.
Qed.
(** ** Peak-rate estimator *)

Lemma s32_upper x : Int.s32 x < 2 ^ 31.
Proof.
  unfold Int.s32. pose proof (IntFacts.u32_range x) as H.
  destruct (Z.ltb_spec (Int.u32 x) (2 ^ 31)); lia.
Qed.

Lemma rate_weight_bounds bfqd : 0 <= rate_weight bfqd <= 8.
Proof.
  unfold rate_weight.
  match goal with |- context [Int.u32 ?x] => pose proof (IntFacts.u32_range x) end.
  lia.
Qed.

Lemma rate_divisor_bounds bfqd : 2 <= rate_divisor bfqd <= 10.
Proof.
  unfold rate_divisor. pose proof (rate_weight_bounds bfqd) as H.
  rewrite IntFacts.u32_small; lia.
Qed.

Lemma rate_weight_seq_bound bfqd :
  0 <= sequential_samples bfqd < peak_rate_samples bfqd ->
  peak_rate_samples bfqd < 2 ^ 31 ->
  0 <= rate_weight_seq bfqd <= 8.
Proof.
  intros Hseq Hmax. unfold rate_weight_seq.
  rewrite (IntFacts.u32_small (peak_rate_samples bfqd)) by lia.
  pose proof (IntFacts.u32_range (9 * sequential_samples bfqd)) as Hu.
  assert (Hlt : Int.u32 (9 * sequential_samples bfqd) < peak_rate_samples bfqd * 9).
  { destruct (Z_lt_le_dec (9 * sequential_samples bfqd) (2 ^ 32)).
    - rewrite IntFacts.u32_small by lia. lia.
    - lia. }
  split.
  - apply Z.div_pos; lia.
  - apply Z.div_lt_upper_bound in Hlt; lia.
Qed.

(** Where a window is closed the test on the sequential share is always
    met: the rejection only depends on the raw rate. *)
Lemma rate_sample_rejected_at_update bfqd bw :
  0 <= sequential_samples bfqd < peak_rate_samples bfqd ->
  peak_rate_samples bfqd < 2 ^ 31 ->
  rate_sample_rejected bfqd bw
  = (bw <=? peak_rate bfqd) || (Z.shiftl 20 BFQ_RATE_SHIFT <? bw).
Proof.
  intros Hseq Hmax. unfold rate_sample_rejected.
  rewrite (IntFacts.u32_small (peak_rate_samples bfqd)) by lia.
  pose proof (IntFacts.u32_range (3 * sequential_samples bfqd)) as Hu.
  assert (Hlt : Z.shiftr (Int.u32 (3 * sequential_samples bfqd)) 2
                < peak_rate_samples bfqd).
  { rewrite Z.shiftr_div_pow2 by lia.
    apply Z.div_lt_upper_bound; [lia |].
    destruct (Z_lt_le_dec (3 * sequential_samples bfqd) (2 ^ 32)).
    - rewrite IntFacts.u32_small by lia. lia.
    - lia. }
  apply Z.ltb_lt in Hlt. rewrite Hlt. reflexivity.
Qed.

(** C1 (the code departs from the claim).  With 99 sequential samples out
    of 100 and a raw rate below the estimate, the rule of the claim keeps
    the sample, yet [bfq_update_rate_reset] rejects it and leaves the
    estimate at 1000: its test compares the number of samples with 3/4 of
    the sequential ones, which always succeeds. *)
Theorem rate_reject_ignores_sequential_share :
  rate_bw seq_window = 655
  /\ documented_sample_rejected seq_window (rate_bw seq_window) = false
  /\ bfq_update_rate_decision seq_window = Rate_rejected
  /\ forall jiffies_to_msecs T_slow T_fast now,
       exists bfqd',
         bfq_update_rate_reset jiffies_to_msecs T_slow T_fast seq_window
           (Some rq_4k) now = Some bfqd'
         /\ peak_rate bfqd' = 1000.
Proof.
  split; [reflexivity |]. split; [reflexivity |]. split; [reflexivity |].
  intros j ts tf now. eexists. split; reflexivity.
Qed.

Section EstimatorFacts.

Variable jiffies_to_msecs : Z -> Z.
Variable T_slow T_fast : bool -> Z.

Local Abbreviation update_rate_reset :=
  (bfq_update_rate_reset jiffies_to_msecs T_slow T_fast).
Local Abbreviation step := (rate_step jiffies_to_msecs T_slow T_fast).
Local Abbreviation reachable := (rate_reachable jiffies_to_msecs T_slow T_fast).
Local Abbreviation update_point :=
  (rate_update_point jiffies_to_msecs T_slow T_fast).

Lemma reset_rate_inv bfqd rq now :
  rate_inv (bfq_reset_rate_computation bfqd rq now).
Proof.
  unfold rate_inv. destruct rq as [rq |]; simpl.
  - right. lia.
  - now left.
Qed.

Lemma update_rate_reset_inv bfqd rq now bfqd' :
  update_rate_reset bfqd rq now = Some bfqd' -> rate_inv bfqd'.
Proof.
  unfold bfq_update_rate_reset, BUG_ON.
  repeat match goal with
         | |- context [if ?c then _ else _] => destruct c
         | |- context [match rate_filter ?a ?b ?c ?d ?e with _ => _ end] =>
             destruct (rate_filter a b c d e)
         end;
    intros [= <-] || discriminate; apply reset_rate_inv.
Qed.

Lemma peak_rate_sample_inv bfqd rq now_ns :
  rate_inv bfqd ->
  peak_rate_samples bfqd < 2 ^ 31 - 1 ->
  match peak_rate_sample bfqd rq now_ns with
  | First_dispatch => True
  | Close_window bfqd' | Keep_sampling bfqd' =>
      0 <= sequential_samples bfqd' < peak_rate_samples bfqd'
      /\ peak_rate_samples bfqd' < 2 ^ 31
  end.
Proof.
  intros Hinv Hmax. unfold peak_rate_sample.
  destruct (Z.eqb_spec (peak_rate_samples bfqd) 0) as [| Hnz]; [exact I |].
  destruct Hinv as [Hz | [Hseq Hb]]; [contradiction |].
  destruct ((100 * NSEC_PER_MSEC <? Int.u64 (now_ns - last_dispatch bfqd))
            && (rq_in_driver bfqd =? 0)).
  - now split.
  - cbn [rq_in_driver last_completion last_position set_peak_rate_samples].
    match goal with
    | |- context [if ?c && ?d then _ else _] => destruct (c && d)
    end;
      cbn [peak_rate_samples set_sequential_samples set_peak_rate_samples
           set_tot_sectors_dispatched];
      match goal with
      | |- context [if negb ?c then _ else _] => destruct (negb c)
      end;
      cbn [delta_from_first_us set_delta_from_first_us];
      match goal with
      | |- context [if ?c then Keep_sampling _ else _] => destruct c
      end;
      cbn [sequential_samples peak_rate_samples set_delta_from_first_us
           set_last_rq_max_size set_tot_sectors_dispatched
           set_sequential_samples set_peak_rate_samples];
      rewrite ?(IntFacts.s32_small (peak_rate_samples bfqd + 1)) by lia;
      rewrite ?(IntFacts.u32_small (sequential_samples bfqd + 1)) by lia;
      lia.
Qed.

Lemma update_last_values_inv bfqd rq now_ns :
  rate_inv bfqd -> rate_inv (update_last_values bfqd rq now_ns).
Proof. intros H. exact H. Qed.

Lemma rate_step_inv bfqd ev bfqd' :
  rate_inv bfqd ->
  peak_rate_samples bfqd < 2 ^ 31 - 1 ->
  step bfqd ev = Some bfqd' ->
  rate_inv bfqd'.
Proof.
  intros Hinv Hmax. unfold rate_step.
  destruct ev as [rq now_ns now_reset | now_ns | n].
  - unfold bfq_update_peak_rate.
    pose proof (peak_rate_sample_inv bfqd rq now_ns Hinv Hmax) as Hs.
    destruct (peak_rate_sample bfqd rq now_ns) as [| dm | dm].
    + intros [= <-].
      exact (update_last_values_inv _ rq now_ns
               (reset_rate_inv bfqd (Some rq) now_reset)).
    + destruct (bfq_update_rate_reset jiffies_to_msecs T_slow T_fast dm
                  (Some rq) now_reset) as [d2 |] eqn:Hu; [| discriminate].
      intros [= <-].
      exact (update_last_values_inv _ rq now_ns
               (update_rate_reset_inv dm (Some rq) now_reset d2 Hu)).
    + intros [= <-].
      exact (update_last_values_inv _ rq now_ns (or_intror Hs)).
  - unfold completed_request_rate.
    destruct (completion_is_late bfqd now_ns).
    + destruct (bfq_update_rate_reset jiffies_to_msecs T_slow T_fast bfqd
                  None now_ns) as [d2 |] eqn:Hu; [| discriminate].
      intros [= <-]. eapply update_rate_reset_inv in Hu. exact Hu.
    + intros [= <-]. exact Hinv.
  - intros [= <-]. exact Hinv.
Qed.

Lemma rate_reachable_inv bfqd : reachable bfqd -> rate_inv bfqd.
Proof.
  induction 1 as [d Hz | d ev d' _ IH Hmax Hstep].
  - now left.
  - eapply rate_step_inv; eauto.
Qed.

Lemma rate_run_reachable evs : forall bfqd bfqd',
  reachable bfqd ->
  rate_run jiffies_to_msecs T_slow T_fast bfqd evs = Some bfqd' ->
  reachable bfqd'.
Proof.
  induction evs as [| ev evs IH]; intros d d' Hr; simpl.
  - now intros [= <-].
  - destruct (Z.ltb_spec (peak_rate_samples d) (2 ^ 31 - 1)) as [Hlt |];
      [| discriminate].
    destruct (rate_step jiffies_to_msecs T_slow T_fast d ev) as [d1 |] eqn:Hs;
      [| discriminate].
    apply IH. eapply reach_step; eauto.
Qed.

Lemma rate_update_point_inv bfqd : update_point bfqd -> rate_inv bfqd.
Proof.
  intros [d rq now_ns d' Hr Hmax Hs | d now_ns Hr _].
  - pose proof (peak_rate_sample_inv d rq now_ns (rate_reachable_inv d Hr) Hmax) as H.
    rewrite Hs in H. now right.
  - now apply rate_reachable_inv.
Qed.

(** C10.  Wherever the low-pass filter is applied, the sequential samples
    are strictly fewer than the samples of the window, the weight stays
    within 0..8 at both of its steps and the divisor within 2..10: the
    filter never divides by zero. *)
Theorem rate_filter_divisor_safe bfqd :
  update_point bfqd ->
  rate_gate bfqd = false ->
  let window := set_delta_from_first_us (rate_window_us bfqd) bfqd in
  sequential_samples bfqd < peak_rate_samples bfqd
  /\ 0 <= rate_weight_seq window <= 8
  /\ 0 <= rate_weight window <= 8
  /\ 2 <= rate_divisor window <= 10
  /\ rate_divisor window <> 0.
Proof.
  intros Hup Hgate window.
  pose proof (rate_update_point_inv bfqd Hup) as [Hz | [Hseq Hmax]].
  - unfold rate_gate in Hgate. rewrite Hz in Hgate. discriminate.
  - pose proof (rate_divisor_bounds window).
    repeat split; try apply rate_weight_bounds; try lia;
      apply (rate_weight_seq_bound window); assumption.
Qed.

End EstimatorFacts.

Lemma steady_window_reachable :
  rate_reachable (fun x => x) (fun _ => 0) (fun _ => 0) steady_window
  /\ peak_rate_samples steady_window = 40
  /\ sequential_samples steady_window = 39.
Proof.
  split; [| split; vm_compute; reflexivity].
  eapply rate_run_reachable with (bfqd := bfq_data_zero) (evs := steady_dispatches).
  - now apply reach_init.
  - vm_compute. reflexivity.
Qed.

Lemma rate_filter_divisor_safe_witness :
  sequential_samples steady_window_closed < peak_rate_samples steady_window_closed
  /\ 2 <= rate_divisor
            (set_delta_from_first_us (rate_window_us steady_window_closed)
               steady_window_closed) <= 10.
Proof.
  assert (Hup : rate_update_point (fun x => x) (fun _ => 0) (fun _ => 0)
                  steady_window_closed).
  { apply update_on_dispatch
      with (bfqd := steady_window) (rq := rq_4k) (now_ns := 1020000000).
    - apply steady_window_reachable.
    - vm_compute. reflexivity.
    - vm_compute. reflexivity. }
  assert (Hgate : rate_gate steady_window_closed = false)
    by (vm_compute; reflexivity).
  destruct (rate_filter_divisor_safe _ _ _ steady_window_closed Hup Hgate)
    as (H1 & _ & _ & H4 & _).
  split; assumption.
Defined.

(** ** Idling *)

Section IdlingFacts.

Variable CONFIG_BFQ_GROUP_IOSCHED : bool.

Local Abbreviation may_idle := (bfq_bfqq_may_idle CONFIG_BFQ_GROUP_IOSCHED).
Local Abbreviation differentiated :=
  (bfq_differentiated_weights CONFIG_BFQ_GROUP_IOSCHED).

(** What [bfq_bfqq_may_idle] computes when strict guarantees are off. *)
Lemma may_idle_exact bfqd bfqq :
  strict_guarantees bfqd = false ->
  may_idle bfqd bfqq = true <->
  bfq_bfqq_sync bfqq = true
  /\ ((idling_boosts_throughput bfqd bfqq /\ wr_busy_queues bfqd = 0)
      \/ ((1 < wr_coeff bfqq \/ differentiated bfqd = true)
          /\ bfq_bfqq_in_large_burst bfqq = false)).
Proof.
  intros Hstrict.
  unfold bfq_bfqq_may_idle, idling_boosts_throughput,
    bfq_symmetric_scenario.
  rewrite Hstrict.
  rewrite andb_true_iff, orb_true_iff, !andb_true_iff, !orb_true_iff,
    !andb_true_iff, !negb_true_iff, negb_false_iff.
  rewrite Z.eqb_eq, Z.eqb_eq, Z.ltb_lt.
  tauto.
Qed.

(** What [bfq_bfqq_may_idle] allows, in the words of the idling policy:
    with strict guarantees it always allows idling; without them it
    allows idling only for a sync stream for which idling boosts
    throughput while [wr_busy_queues] is 0, or for which the scenario is
    asymmetric (a weight-raised stream exists, here the stream itself,
    or the weight-counter trees hold more than one weight) and that is
    not in a large burst; and the idle timer is armed on a completion
    only if [bfq_bfqq_may_idle] allows idling. *)
Theorem idle_only_if_allowed bfqd bfqq (streams : list bfq_queue) :
  In bfqq streams ->
  (strict_guarantees bfqd = true -> may_idle bfqd bfqq = true)
  /\ (strict_guarantees bfqd = false -> may_idle bfqd bfqq = true ->
      idling_allowed CONFIG_BFQ_GROUP_IOSCHED bfqd bfqq streams)
  /\ (forall q bic jiffies bfqq' calls sl,
        completed_request_in_service CONFIG_BFQ_GROUP_IOSCHED bfqd q bfqq
          bic jiffies = Some (bfqq', calls) ->
        In (Call_hrtimer_start sl) calls ->
        may_idle bfqd bfqq = true).
Proof.
  intros Hin. split; [| split].
  - intros Hs. unfold bfq_bfqq_may_idle. now rewrite Hs.
  - intros Hs Hidle. apply (may_idle_exact bfqd bfqq Hs) in Hidle.
    destruct Hidle as (Hsync & [Hboost | ([Hwr | Hdiff] & Hburst)]).
    + split; [exact Hsync | now left].
    + split; [exact Hsync |]. right. split; [| exact Hburst].
      left. exists bfqq. now split.
    + split; [exact Hsync |]. right. split; [| exact Hburst]. now right.
  - intros q bic jiffies bfqq' calls sl.
    unfold completed_request_in_service, bfq_bfqq_must_idle.
    destruct (may_idle bfqd bfqq); [reflexivity |].
    rewrite !andb_false_r.
    repeat match goal with
           | |- context [if ?c then _ else _] => destruct c
           end;
      intros [= <- <-]; simpl; intuition discriminate.
Qed.



End IdlingFacts.



Lemma idle_only_if_allowed_witness :
  idling_allowed true default_device sync_queue [sync_queue].
Proof.
  assert (Hin : In sync_queue [sync_queue]) by (left; reflexivity).
  destruct (idle_only_if_allowed true default_device sync_queue [sync_queue] Hin)
    as (_ & Hallowed & _).
  apply Hallowed; reflexivity.
Defined.

(** ** Cooperator proximity *)

Lemma abs_long_exact x : - 2 ^ 63 < x < 2 ^ 63 -> abs_long x = Z.abs x.
Proof.
  intros H. unfold abs_long. rewrite (IntFacts.s64_small x) by lia.
  destruct (Z.ltb_spec x 0).
  - rewrite IntFacts.s64_small by lia. lia.
  - lia.
Qed.

(** C7, as amended.  Two positions are close exactly when they are at most
    8 * 1024 = 8192 sectors apart, which is 4 MiB in 512-byte sectors. *)
Theorem close_to_sector_threshold pos sector :
  0 <= pos < 2 ^ 63 -> 0 <= sector < 2 ^ 63 ->
  (bfq_rq_close_to_sector pos sector = true <-> Z.abs (pos - sector) <= 8192)
  /\ (bfq_rq_close_to_sector pos sector = true <->
      SECTOR_BYTES * Z.abs (pos - sector) <= 4 * MiB).
Proof.
  intros Hp Hs. unfold bfq_rq_close_to_sector, BFQQ_CLOSE_THR, SECTOR_BYTES, MiB.
  rewrite abs_long_exact by lia.
  rewrite IntFacts.u64_small by lia.
  rewrite Z.leb_le. split; lia.
Qed.

Lemma close_to_sector_threshold_witness :
  bfq_rq_close_to_sector 10000 2048 = true <-> Z.abs (10000 - 2048) <= 8192.
Proof.
  apply (close_to_sector_threshold 10000 2048); lia.
Defined.

(** C7, as stated, fails: positions 16384 sectors apart are 8 MiB apart and
    are not close. *)
Lemma close_threshold_not_8MiB :
  SECTOR_BYTES * Z.abs (16384 - 0) <= 8 * MiB
  /\ bfq_rq_close_to_sector 16384 0 = false.
Proof. split; [vm_compute; discriminate | reflexivity]. Qed.

(** ** Idle-slice timer *)




(** ** Preemption on the idle-to-busy switch *)

Section ActivationFacts.

Variable msecs_to_jiffies : Z -> Z.
Variable BFQ_SOFTRT_WEIGHT_FACTOR : Z.
Variable bfq_add_bfqq_busy : bfq_state -> qid -> bfq_state.
Variable next_queue_may_preempt : bfq_state -> bool.

(** What is used of [bfq_add_bfqq_busy]: it changes neither the queue in
    service nor the weight-raising coefficient of any queue. *)
Hypothesis add_busy_in_service : forall st q,
  in_service_queue (bfqd (bfq_add_bfqq_busy st q)) = in_service_queue (bfqd st).
Hypothesis add_busy_wr_coeff : forall st q p,
  wr_coeff <$> (queues (bfq_add_bfqq_busy st q) !! p)
  = wr_coeff <$> (queues st !! p).

Lemma update_budg_for_activation_result bfqd bfqq arrived w b1 wants :
  bfq_bfqq_update_budg_for_activation bfqd bfqq arrived w = Some (b1, wants) ->
  wr_coeff b1 = wr_coeff bfqq /\ (wants = true \/ wants = w).
Proof.
  unfold bfq_bfqq_update_budg_for_activation, BUG_ON.
  repeat match goal with
         | |- context [if ?c then _ else _] => destruct c
         | |- context [match next_rq ?q with _ => _ end] => destruct (next_rq q)
         end;
    intros [= <- <-] || discriminate; split; auto.
Qed.

Lemma switch_burst_and_io_bound_wr_coeff bfqd bfqq idle arrived jiffies :
  wr_coeff (switch_burst_and_io_bound msecs_to_jiffies bfqd bfqq idle arrived jiffies)
  = wr_coeff bfqq.
Proof.
  unfold switch_burst_and_io_bound.
  repeat match goal with
         | |- context [if ?c then _ else _] => destruct c
         end; reflexivity.
Qed.

Lemma switch_weight_raising_keeps bfqd bfqq old inter in_burst soft_rt jiffies b :
  switch_weight_raising msecs_to_jiffies BFQ_SOFTRT_WEIGHT_FACTOR bfqd bfqq old
    false inter in_burst soft_rt jiffies = Some b ->
  Int.u32 old <= 1 ->
  wr_coeff b = wr_coeff bfqq.
Proof.
  unfold switch_weight_raising, bfq_update_bfqq_wr_on_rq_arrival.
  intros Hrun Hold. revert Hrun.
  rewrite andb_false_r.
  replace (1 <? Int.u32 old) with false by (symmetry; apply Z.ltb_ge; lia).
  repeat match goal with
         | |- context [if ?c then _ else _] => destruct c
         end; intros [= <-]; reflexivity.
Qed.

(** With low_latency on, a queue that leaves the switch weight-raised
    wants to preempt. *)
Lemma raised_queue_wants_to_preempt bfqd bfqq old ler jiffies now_ns b inter wants :
  idle_busy_switch_queue msecs_to_jiffies BFQ_SOFTRT_WEIGHT_FACTOR bfqd bfqq
    old ler jiffies now_ns = Some (b, inter, wants) ->
  low_latency bfqd = true ->
  Int.u32 old = wr_coeff bfqq ->
  1 < wr_coeff b ->
  wants = true.
Proof.
  unfold idle_busy_switch_queue, BUG_ON. intros Hrun Hlow Hold Hraised.
  destruct (budget (entity bfqq) <? service (entity bfqq)); [discriminate |].
  match type of Hrun with
  | context [bfq_bfqq_update_budg_for_activation ?d ?q ?a ?w] =>
      destruct (bfq_bfqq_update_budg_for_activation d q a w)
        as [[b1 w1] |] eqn:Hu; [| discriminate];
      destruct (update_budg_for_activation_result _ _ _ _ _ _ Hu) as [Hwr1 Hw1];
      destruct w eqn:Hdes
  end.
  - destruct (switch_weight_raising _ _ _ _ _ _ _ _ _ _) as [b2 |];
      [| discriminate].
    injection Hrun as <- <- <-. destruct Hw1; assumption.
  - destruct (switch_weight_raising _ _ _ _ _ _ _ _ _ _) as [b2 |] eqn:Hw;
      [| discriminate].
    injection Hrun as <- <- <-. destruct Hw1 as [-> | ->]; [reflexivity |].
    exfalso.
    assert (Hle : wr_coeff bfqq <= 1).
    { unfold deserves_wr in Hdes. rewrite Hlow in Hdes. cbn [andb] in Hdes.
      apply orb_false_iff in Hdes as [Hlt _]. now apply Z.ltb_ge in Hlt. }
    apply switch_weight_raising_keeps in Hw; [| lia].
    rewrite switch_burst_and_io_bound_wr_coeff in Hw.
    cbn [wr_coeff bfq_clear_bfqq set_flags set_service_from_backlogged
         set_last_idle_bklogged] in Hraised.
    lia.
Qed.

(** What [bfqq_wants_to_preempt] is at the end of the switch. *)
Lemma update_budg_for_activation_wants bfqd bfqq arrived w b1 wants :
  bfq_bfqq_update_budg_for_activation bfqd bfqq arrived w = Some (b1, wants) ->
  wants = (bfq_bfqq_non_blocking_wait_rq bfqq && arrived) || w.
Proof.
  unfold bfq_bfqq_update_budg_for_activation, BUG_ON.
  destruct (bfq_bfqq_non_blocking_wait_rq bfqq && arrived); cbn [orb];
    repeat match goal with
           | |- context [if ?c then _ else _] => destruct c
           | |- context [match next_rq ?q with _ => _ end] => destruct (next_rq q)
           end;
    intros [= <- <-] || discriminate; reflexivity.
Qed.

Lemma switch_wants_exact bfqd bfqq old ler jiffies now_ns b inter wants :
  idle_busy_switch_queue msecs_to_jiffies BFQ_SOFTRT_WEIGHT_FACTOR bfqd bfqq
    old ler jiffies now_ns = Some (b, inter, wants) ->
  (wants = true ->
   low_latency bfqd = true
   \/ bfq_bfqq_non_blocking_wait_rq bfqq
      && (now_ns <=? Int.u64 (ler + Int.u32 (bfq_slice_idle bfqd * 3))) = true)
  /\ (bfq_bfqq_non_blocking_wait_rq bfqq
      && (now_ns <=? Int.u64 (ler + Int.u32 (bfq_slice_idle bfqd * 3))) = true
      -> wants = true).
Proof.
  unfold idle_busy_switch_queue, BUG_ON. intros Hrun.
  destruct (budget (entity bfqq) <? service (entity bfqq)); [discriminate |].
  match type of Hrun with
  | context [bfq_bfqq_update_budg_for_activation ?d ?q ?a ?w] =>
      destruct (bfq_bfqq_update_budg_for_activation d q a w)
        as [[b1 w1] |] eqn:Hu; [| discriminate];
      apply update_budg_for_activation_wants in Hu
  end.
  destruct (switch_weight_raising _ _ _ _ _ _ _ _ _ _) as [b2 |];
    [| discriminate].
  injection Hrun as <- <- <-. subst w1. split.
  - intros Hw. apply orb_true_iff in Hw as [Hw | Hw]; [now right |].
    left. unfold deserves_wr in Hw. now apply andb_true_iff in Hw as [Hw _].
  - intros ->. reflexivity.
Qed.

(** C6, as amended.  On the idle-to-busy switch of a stream while another
    stream is in service (with a coefficient of at least 1), the switch
    requests at most one expiration, that of the stream in service with
    reason PREEMPTED, and it requests it exactly when the newly busy
    stream ends the switch with a strictly higher coefficient, may be
    the next to be selected, and either low_latency is on or the stream
    was waiting in non-blocking mode and its request arrived in time.
    [old] is the coefficient of the stream at entry. *)
Theorem preemption_on_switch st q old ler jiffies now_ns p in_serv bfqq
    st' inter calls bfqq' :
  in_service_queue (bfqd st) = Some p ->
  queues st !! p = Some in_serv ->
  queues st !! q = Some bfqq ->
  Int.u32 old = wr_coeff bfqq ->
  1 <= wr_coeff in_serv ->
  bfq_bfqq_handle_idle_busy_switch msecs_to_jiffies BFQ_SOFTRT_WEIGHT_FACTOR
    bfq_add_bfqq_busy next_queue_may_preempt st q old ler jiffies now_ns
    = Some (st', inter, calls) ->
  queues st' !! q = Some bfqq' ->
  (calls = [Call_bfq_bfqq_expire p false BFQ_BFQQ_PREEMPTED] \/ calls = [])
  /\ (calls = [Call_bfq_bfqq_expire p false BFQ_BFQQ_PREEMPTED]
      <-> wr_coeff in_serv < wr_coeff bfqq'
          /\ next_queue_may_preempt st' = true
          /\ (low_latency (bfqd st) = true
              \/ bfq_bfqq_non_blocking_wait_rq bfqq
                 && (now_ns <=? Int.u64 (ler + Int.u32
                                           (bfq_slice_idle (bfqd st) * 3)))
                 = true)).
Proof.
  intros Hin Hp Hq Hold Hone Hrun Hq'.
  unfold bfq_bfqq_handle_idle_busy_switch in Hrun.
  rewrite Hq, Hin in Hrun. unfold same_queue, BUG_ON in Hrun.
  destruct (Pos.eqb_spec p q) as [Heq | Hne]; [discriminate |].
  destruct (idle_busy_switch_queue _ _ _ _ _ _ _ _) as [[[b inter0] wants] |]
    eqn:Hsw; [| discriminate].
  set (st1 := upd_queue q (fun _ => b) st) in *.
  destruct (preemption_call next_queue_may_preempt (bfq_add_bfqq_busy st1 q)
              q wants) as [cs |] eqn:Hcall; [| discriminate].
  injection Hrun as <- <- <-.
  assert (Hb : wr_coeff bfqq' = wr_coeff b).
  { pose proof (add_busy_wr_coeff st1 q q) as Hw. rewrite Hq' in Hw.
    unfold st1, upd_queue in Hw. cbn [queues set_queues] in Hw.
    rewrite lookup_alter_eq, Hq in Hw. cbn in Hw. congruence. }
  destruct (switch_wants_exact _ _ _ _ _ _ _ _ _ Hsw) as [Hwhy Hwait].
  assert (Hlat : low_latency (bfqd st) = true ->
                 wr_coeff in_serv < wr_coeff bfqq' -> wants = true).
  { intros Hlow Hhigher.
    eapply raised_queue_wants_to_preempt; eauto. lia. }
  unfold preemption_call in Hcall.
  rewrite add_busy_in_service in Hcall.
  unfold st1 at 1, upd_queue in Hcall. cbn [bfqd set_queues] in Hcall.
  rewrite Hin in Hcall.
  destruct wants; cbn [negb] in Hcall.
  - rewrite Hq' in Hcall.
    pose proof (add_busy_wr_coeff st1 q p) as Hw.
    unfold st1 at 2, upd_queue in Hw. cbn [queues set_queues] in Hw.
    rewrite lookup_alter_ne, Hp in Hw by congruence.
    destruct (queues (bfq_add_bfqq_busy st1 q) !! p) as [in_serv' |];
      [| discriminate].
    cbn in Hw. injection Hw as Hw. rewrite Hw in Hcall.
    destruct (Z.ltb_spec (wr_coeff in_serv) (wr_coeff bfqq')) as [Hhi | Hlo];
      cbn [andb] in Hcall.
    + destruct (next_queue_may_preempt (bfq_add_bfqq_busy st1 q)) eqn:Hmay.
      * unfold BUG_ON in Hcall.
        replace (Pos.eqb p q) with false in Hcall
          by (symmetry; now apply Pos.eqb_neq).
        injection Hcall as <-. split; [now left |].
        split; [intros _ | reflexivity].
        split; [exact Hhi |]. split; [reflexivity |]. now apply Hwhy.
      * injection Hcall as <-. split; [now right |].
        split; [discriminate | intros (_ & [=] & _)].
    + injection Hcall as <-. split; [now right |].
      split; [discriminate | intros (Hhi & _)]. lia.
  - injection Hcall as <-. split; [now right |].
    split; [discriminate |].
    intros (Hhi & _ & [Hlow | Hw]).
    + specialize (Hlat Hlow Hhi). discriminate.
    + specialize (Hwait Hw). discriminate.
Qed.

End ActivationFacts.

Lemma add_busy_counts_in_service st q :
  in_service_queue (bfqd (add_busy_counts st q)) = in_service_queue (bfqd st).
Proof. reflexivity. Qed.

Lemma add_busy_counts_wr_coeff st q p :
  wr_coeff <$> (queues (add_busy_counts st q) !! p) = wr_coeff <$> (queues st !! p).
Proof.
  unfold add_busy_counts, upd_bfqd, upd_queue. cbn [queues set_bfqd set_queues].
  destruct (decide (q = p)) as [-> | Hne].
  - rewrite lookup_alter_eq. destruct (queues st !! p); reflexivity.
  - now rewrite lookup_alter_ne.
Qed.

Lemma preemption_on_switch_witness :
  exists st' inter,
    bfq_bfqq_handle_idle_busy_switch msecs_to_jiffies_250 100 add_busy_counts
      (fun _ => true) latency_state 2%positive 30 0 5000 0
    = Some (st', inter, [Call_bfq_bfqq_expire 1%positive false BFQ_BFQQ_PREEMPTED]).
Proof.
  destruct (bfq_bfqq_handle_idle_busy_switch msecs_to_jiffies_250 100
              add_busy_counts (fun _ => true) latency_state 2%positive 30 0 5000 0)
    as [[[st' inter] calls] |] eqn:Hrun; [| vm_compute in Hrun; discriminate].
  exists st', inter. f_equal. f_equal.
  assert (Hq' : exists bfqq', queues st' !! 2%positive = Some bfqq'
                              /\ wr_coeff bfqq' = 30).
  { vm_compute in Hrun. injection Hrun as <- _ _. eexists. split; reflexivity. }
  destruct Hq' as (bfqq' & Hq' & Hwr).
  apply (preemption_on_switch msecs_to_jiffies_250 100 add_busy_counts
           (fun _ => true) add_busy_counts_in_service add_busy_counts_wr_coeff
           latency_state 2%positive 30 0 5000 0 1%positive serving_queue
           raised_queue st' inter calls bfqq');
    [ reflexivity | reflexivity | reflexivity | reflexivity
    | vm_compute; discriminate | exact Hrun | exact Hq' | ].
  split; [rewrite Hwr; vm_compute; reflexivity |].
  split; [reflexivity | left; reflexivity].
Defined.

(** C6, as stated, fails: with low_latency off the newly busy stream keeps
    its coefficient of 30 against 1 for the stream in service and may be
    the next to be selected, yet nothing is expired. *)
Lemma no_preemption_with_low_latency_off :
  exists st' inter,
    bfq_bfqq_handle_idle_busy_switch msecs_to_jiffies_250 100 add_busy_counts
      (fun _ => true) throughput_state 2%positive 30 0 5000 0
    = Some (st', inter, [])
    /\ in_service_queue (bfqd st') = Some 1%positive
    /\ wr_coeff <$> (queues st' !! 1%positive) = Some 1
    /\ wr_coeff <$> (queues st' !! 2%positive) = Some 30.
Proof.
  eexists _, _. split; [vm_compute; reflexivity |].
  repeat split.
Qed.

(** ** Merge and split *)

(** The flags [bfq_bfqq_resume_state] writes are the saved ones; nothing
    else of the queue changes. *)
Lemma resume_state_flags bfqq bic :
  bfq_bfqq_idle_window (bfq_bfqq_resume_state bfqq bic) = saved_idle_window bic
  /\ bfq_bfqq_IO_bound (bfq_bfqq_resume_state bfqq bic) = saved_IO_bound bic
  /\ wr_coeff (bfq_bfqq_resume_state bfqq bic) = wr_coeff bfqq
  /\ wr_cur_max_time (bfq_bfqq_resume_state bfqq bic) = wr_cur_max_time bfqq
  /\ last_wr_start_finish (bfq_bfqq_resume_state bfqq bic)
     = last_wr_start_finish bfqq.
Proof.
  unfold bfq_bfqq_resume_state, bfq_bfqq_idle_window, bfq_bfqq_IO_bound.
  repeat split.
  - rewrite flag_assign_other by discriminate. apply flag_assign_same.
  - apply flag_assign_same.
  - destruct (saved_idle_window bic), (saved_IO_bound bic); reflexivity.
  - destruct (saved_idle_window bic), (saved_IO_bound bic); reflexivity.
  - destruct (saved_idle_window bic), (saved_IO_bound bic); reflexivity.
Qed.

(** What [bfq_bfqq_save_state] records in the context of a queue that
    still belongs to one: the four flags, and no weight-raising field. *)
Lemma save_state_records st q bfqq b :
  queues st !! q = Some bfqq ->
  bic bfqq = Some b ->
  is_Some (bics st !! b) ->
  exists st' c,
    bfq_bfqq_save_state st q = Some st'
    /\ queues st' = queues st
    /\ bics st' !! b = Some c
    /\ saved_idle_window c = bfq_bfqq_idle_window bfqq
    /\ saved_IO_bound c = bfq_bfqq_IO_bound bfqq
    /\ saved_in_large_burst c = bfq_bfqq_in_large_burst bfqq
    /\ was_in_burst_list c = burst_list_node bfqq.
Proof.
  intros Hq Hb [c Hc]. unfold bfq_bfqq_save_state.
  rewrite Hq, Hb, Hc. eexists _, _. split; [reflexivity |].
  split; [reflexivity |].
  unfold upd_bic. cbn [bics set_bics].
  rewrite lookup_alter_eq, Hc. cbn. repeat split.
Qed.

(** The round trip of the two flags: saved from one queue, resumed on
    another. *)
Lemma save_resume_round_trip st q bfqq b fresh :
  queues st !! q = Some bfqq ->
  bic bfqq = Some b ->
  is_Some (bics st !! b) ->
  exists st' c,
    bfq_bfqq_save_state st q = Some st'
    /\ bics st' !! b = Some c
    /\ bfq_bfqq_idle_window (bfq_bfqq_resume_state fresh c)
       = bfq_bfqq_idle_window bfqq
    /\ bfq_bfqq_IO_bound (bfq_bfqq_resume_state fresh c)
       = bfq_bfqq_IO_bound bfqq.
Proof.
  intros Hq Hb Hc.
  destruct (save_state_records st q bfqq b Hq Hb Hc)
    as (st' & c & Hs & _ & Hl & Hiw & Hio & _).
  destruct (resume_state_flags fresh c) as (Riw & Rio & _).
  exists st', c. rewrite Riw, Rio, Hiw, Hio. repeat split; assumption.
Qed.

(** C4 (the code departs from the claim).  Queue 1, weight-raised with
    coefficient 30, without idle window and not I/O bound, is merged into
    queue 2; queue 2 is then flagged for a split, and the next request of
    the first process detaches the fresh queue 3.  Queue 3 has the saved
    idle-window and I/O-bound flags, but its weight-raising coefficient is
    the initial 1: the weight-raising state was neither saved nor
    restored. *)
Theorem split_restores_flags_not_weight_raising :
  exists st1 st3,
    bfq_merge_bfqqs merge_state 1%positive 1%positive 2%positive = Some st1
    /\ bfq_set_request
         (upd_queue 2%positive (bfq_mark_bfqq BFQ_BFQQ_FLAG_split_coop) st1)
         1%positive READ (Some 3%positive) 42 9000
       = Some (st3, 3%positive, true, [Call_bfq_handle_burst 3%positive])
    /\ bfq_bfqq_idle_window <$> (queues st3 !! 3%positive)
       = Some (bfq_bfqq_idle_window merging_queue)
    /\ bfq_bfqq_IO_bound <$> (queues st3 !! 3%positive)
       = Some (bfq_bfqq_IO_bound merging_queue)
    /\ bfq_bfqq_idle_window merging_queue = false
    /\ wr_coeff merging_queue = 30
    /\ wr_coeff <$> (queues st3 !! 3%positive) = Some 1.
Proof.
  eexists _, _.
  split; [vm_compute; reflexivity |].
  split; [vm_compute; reflexivity |].
  repeat split.
Qed.


(** * Further properties of the code *)

(** ** Choice of the next request *)

Section ElevatorFacts.

Variable rq_is_sync : request -> bool.
Variable rq_is_meta : request -> bool.

Local Abbreviation choose_req := (bfq_choose_req rq_is_sync rq_is_meta).
Local Abbreviation find_next_rq := (bfq_find_next_rq rq_is_sync rq_is_meta).

Lemma choose_req_candidates back_max back_penalty rq1 rq2 last :
  choose_req back_max back_penalty rq1 rq2 last = rq1
  \/ choose_req back_max back_penalty rq1 rq2 last = rq2.
Proof.
  unfold bfq_choose_req.
  destruct rq1 as [r1|], rq2 as [r2|]; auto.
  repeat match goal with
         | |- context [if ?c then _ else _] => destruct c
         | |- context [match ?c with Some _ => _ | None => _ end] => destruct c
         end; auto.
Qed.

(** X1. Between two distinct positions the choice does not depend on the
    order in which the two requests are passed: [bfq_choose_req] picks
    the same request for (rq1, rq2) and for (rq2, rq1). *)
Theorem bfq_choose_req_order_independent back_max back_penalty r1 r2 last :
  blk_rq_pos r1 <> blk_rq_pos r2 ->
  choose_req back_max back_penalty (Some r1) (Some r2) last
  = choose_req back_max back_penalty (Some r2) (Some r1) last.
Proof.
  intros Hpos. unfold bfq_choose_req.
  destruct (rq_is_sync r1), (rq_is_sync r2),
           (rq_is_meta r1), (rq_is_meta r2); cbn [andb negb]; try reflexivity.
  all: destruct (seek_cost _ _ (blk_rq_pos r1) last) as [d1|],
                (seek_cost _ _ (blk_rq_pos r2) last) as [d2|];
       try reflexivity.
  all: repeat match goal with
              | |- context [?a <? ?b] => destruct (Z.ltb_spec a b)
              | |- context [?a <=? ?b] => destruct (Z.leb_spec a b)
              end; try reflexivity; lia.
Qed.

(** X2. One-way elevator.  For two requests of the same kind with the
    first at or ahead of the head, the first is chosen exactly when the
    second is at least as far ahead (a tie at equal sectors goes to the
    first), or lies behind the head beyond the allowed back seek, or
    lies behind within it at a penalised distance that is not smaller
    than the distance of the first.  Sectors and distances are taken in
    the range where the 64-bit arithmetic of the function does not
    wrap. *)
Theorem bfq_choose_req_one_way back_max back_penalty r1 r2 last :
  rq_is_sync r1 = rq_is_sync r2 ->
  rq_is_meta r1 = rq_is_meta r2 ->
  0 <= last <= blk_rq_pos r1 ->
  blk_rq_pos r1 < 2 ^ 64 ->
  0 <= blk_rq_pos r2 < 2 ^ 63 ->
  0 <= back_max < 2 ^ 31 ->
  0 <= back_penalty ->
  (last - blk_rq_pos r2) * back_penalty < 2 ^ 64 ->
  choose_req back_max back_penalty (Some r1) (Some r2) last = Some r1
  <-> (last <= blk_rq_pos r2 /\ blk_rq_pos r1 <= blk_rq_pos r2)
      \/ blk_rq_pos r2 + 2 * back_max < last
      \/ (blk_rq_pos r2 < last <= blk_rq_pos r2 + 2 * back_max
          /\ blk_rq_pos r1 - last
             <= (last - blk_rq_pos r2) * back_penalty).
Proof.
  intros Hs Hm H1 H1' H2 Hb Hp Hmul.
  unfold bfq_choose_req. rewrite Hs, Hm.
  destruct (rq_is_sync r2), (rq_is_meta r2); cbn [andb negb].
  all: unfold seek_cost.
  all: rewrite (IntFacts.u32_small (back_max * 2)) by lia.
  all: destruct (Z.leb_spec last (blk_rq_pos r1)); [|lia].
  all: rewrite (IntFacts.u64_small (blk_rq_pos r1 - last)) by lia.
  all: destruct (Z.leb_spec last (blk_rq_pos r2)).
  all: try (rewrite (IntFacts.u64_small (blk_rq_pos r2 - last)) by lia).
  all: try (rewrite (IntFacts.u64_small (blk_rq_pos r2 + back_max * 2)) by lia;
            destruct (Z.leb_spec last (blk_rq_pos r2 + back_max * 2));
            [rewrite (IntFacts.u64_small (last - blk_rq_pos r2)) by lia;
             rewrite (IntFacts.u64_small ((last - blk_rq_pos r2) * back_penalty))
               by nia|]).
  all: repeat match goal with
              | |- context [?a <? ?b] => destruct (Z.ltb_spec a b)
              | |- context [?a <=? ?b] => destruct (Z.leb_spec a b)
              end.
  all: split; intros Hsel; try reflexivity; try lia.
  all: injection Hsel as ->; lia.
Qed.

(** X3. [bfq_find_next_rq] on a request of the sort list returns NULL
    exactly when that request is alone in the list; otherwise it returns
    one of the other requests of the list, a neighbour of [last] or the
    head. *)
Theorem bfq_find_next_rq_result back_max back_penalty l i :
  (i < length l)%nat ->
  exists r,
    bfq_find_next_rq rq_is_sync rq_is_meta back_max back_penalty l i
    = Some r
    /\ (r = None <-> length l = 1%nat)
    /\ (forall x, r = Some x ->
        exists j, j <> i /\ nth_error l j = Some x
                  /\ (j = pred i \/ j = S i \/ j = O)).
Proof.
  intros Hi. unfold bfq_find_next_rq.
  destruct (nth_error l i) as [last|] eqn:Hl;
    [|apply nth_error_None in Hl; lia].
  eexists; split; [reflexivity|].
  set (prev := match i with O => None | S j => nth_error l j end).
  set (next := match nth_error l (S i) with
               | Some n => Some n
               | None => match i with O => None | S _ => nth_error l 0 end
               end).
  assert (Hprev : forall x, prev = Some x ->
            exists j, j <> i /\ nth_error l j = Some x
                      /\ (j = pred i \/ j = S i \/ j = O)).
  { intros x Hx. subst prev. destruct i as [|j]; [discriminate|].
    exists j. repeat split; auto; lia. }
  assert (Hnext : forall x, next = Some x ->
            exists j, j <> i /\ nth_error l j = Some x
                      /\ (j = pred i \/ j = S i \/ j = O)).
  { intros x Hx. subst next.
    destruct (nth_error l (S i)) eqn:Hn.
    - exists (S i). injection Hx as ->. repeat split; auto; lia.
    - destruct i as [|j]; [discriminate|].
      exists O. repeat split; auto. }
  assert (Hnone : prev = None /\ next = None <-> length l = 1%nat).
  { subst prev next. split.
    - intros [Hp Hn]. destruct i as [|j].
      + destruct (nth_error l 1) eqn:H1; [discriminate|].
        apply nth_error_None in H1. lia.
      + apply nth_error_None in Hp. lia.
    - intros Hlen. assert (i = O) by lia. subst i.
      destruct (nth_error l 1) eqn:H1; auto.
      assert (nth_error l 1 <> None) by congruence.
      apply nth_error_Some in H. lia. }
  destruct (choose_req_candidates back_max back_penalty next prev
              (blk_rq_pos last)) as [E|E].
  - split.
    + rewrite E. unfold bfq_choose_req in E.
      destruct next, prev; try discriminate; intuition congruence.
    + intros x Hx. rewrite E in Hx. auto.
  - split.
    + rewrite E. unfold bfq_choose_req in E.
      destruct next, prev; try discriminate; intuition congruence.
    + intros x Hx. rewrite E in Hx. auto.
Qed.

End ElevatorFacts.

Lemma bfq_choose_req_order_independent_witness :
  bfq_choose_req (fun _ => true) (fun _ => false) 16384 2
    (Some rq_4k) (Some rq_512k) 3000
  = bfq_choose_req (fun _ => true) (fun _ => false) 16384 2
      (Some rq_512k) (Some rq_4k) 3000.
Proof.
  apply bfq_choose_req_order_independent. vm_compute. discriminate.
Defined.

Lemma bfq_choose_req_one_way_witness :
  bfq_choose_req (fun _ => true) (fun _ => false) 16384 2
    (Some rq_512k) (Some rq_4k) 3000 = Some rq_512k.
Proof.
  apply (bfq_choose_req_one_way (fun _ => true) (fun _ => false) 16384 2
           rq_512k rq_4k 3000).
  - reflexivity.
  - reflexivity.
  - vm_compute. split; discriminate.
  - reflexivity.
  - vm_compute. split; [discriminate|reflexivity].
  - lia.
  - lia.
  - vm_compute. reflexivity.
  - right. right. vm_compute. repeat split; discriminate.
Defined.

Lemma bfq_find_next_rq_result_witness :
  exists r,
    bfq_find_next_rq (fun _ => true) (fun _ => false) 16384 2
      [rq_4k; rq_512k] 0 = Some r
    /\ r <> None.
Proof.
  destruct (bfq_find_next_rq_result (fun _ => true) (fun _ => false) 16384 2
              [rq_4k; rq_512k] 0) as [r [Hr [Hnone _]]].
  - cbn. lia.
  - exists r. split; [exact Hr|].
    intros H. apply Hnone in H. discriminate.
Defined.

(** ** Seek history *)

Lemma seek_history_bit0 bfqq last_pos rq :
  Z.testbit (seek_history (bfq_update_io_seektime bfqq last_pos rq)) 0
  = (BFQQ_SEEK_THR <? get_sdist last_pos rq).
Proof.
  unfold bfq_update_io_seektime. cbn [seek_history set_seek_history].
  rewrite Z.lor_spec. unfold Int.u32.
  rewrite Z.mod_pow2_bits_low by lia.
  rewrite Z.shiftl_spec by lia. rewrite Z.testbit_neg_r by lia.
  now destruct (BFQQ_SEEK_THR <? get_sdist last_pos rq).
Qed.

Lemma seek_history_bitS bfqq last_pos rq i :
  0 < i < 32 ->
  Z.testbit (seek_history (bfq_update_io_seektime bfqq last_pos rq)) i
  = Z.testbit (seek_history bfqq) (i - 1).
Proof.
  intros Hi. unfold bfq_update_io_seektime. cbn [seek_history set_seek_history].
  rewrite Z.lor_spec. unfold Int.u32.
  rewrite Z.mod_pow2_bits_low by lia.
  rewrite Z.shiftl_spec by lia.
  replace (Z.testbit (if BFQQ_SEEK_THR <? get_sdist last_pos rq then 1 else 0) i)
    with false; [apply orb_false_r|].
  destruct (BFQQ_SEEK_THR <? get_sdist last_pos rq).
  - change 1 with (2 ^ 0). symmetry. apply Z.pow2_bits_false. lia.
  - now rewrite Z.bits_0.
Qed.

(** After the requests [rqs], all far from their predecessor ([b] true) or
    all near it ([b] false), the low bits of the history are [b]. *)
Lemma seek_history_after_bits (b : bool) rqs : forall bfqq i,
  Forall (fun pr => (BFQQ_SEEK_THR <? get_sdist (fst pr) (snd pr)) = b) rqs ->
  (i < length rqs)%nat -> (i < 32)%nat ->
  Z.testbit (seek_history (seek_history_after bfqq rqs)) (Z.of_nat i) = b.
Proof.
  induction rqs as [|x l IH] using rev_ind; intros bfqq i Hall Hi H32.
  - cbn in Hi. lia.
  - unfold seek_history_after. rewrite fold_left_app. cbn [fold_left].
    fold (seek_history_after bfqq l).
    apply Forall_app in Hall as [Hl Hx].
    rewrite length_app in Hi. cbn in Hi.
    destruct i as [|j].
    + change (Z.of_nat 0) with 0. rewrite seek_history_bit0.
      now inversion Hx.
    + rewrite seek_history_bitS by lia.
      replace (Z.of_nat (S j) - 1) with (Z.of_nat j) by lia.
      apply IH; auto; lia.
Qed.

Lemma hweight_bits_nonneg n x : 0 <= hweight_bits n x <= Z.of_nat n.
Proof.
  induction n as [|n IH]; cbn [hweight_bits]; [lia|].
  destruct (Z.testbit x (Z.of_nat n)); lia.
Qed.

Lemma hweight_bits_lower n x : forall k,
  (k <= n)%nat ->
  (forall i, (i < k)%nat -> Z.testbit x (Z.of_nat i) = true) ->
  Z.of_nat k <= hweight_bits n x.
Proof.
  induction n as [|n IH]; intros k Hk Hbits; cbn [hweight_bits]; [lia|].
  destruct (Nat.eq_dec k (S n)) as [->|Hne].
  - rewrite (Hbits n) by lia.
    specialize (IH n (Nat.le_refl n)).
    assert (Z.of_nat n <= hweight_bits n x) by (apply IH; intros; apply Hbits; lia).
    lia.
  - assert (Z.of_nat k <= hweight_bits n x) by (apply IH; [lia|auto]).
    destruct (Z.testbit x (Z.of_nat n)); lia.
Qed.

Lemma hweight_bits_upper n x : forall k,
  (k <= n)%nat ->
  (forall i, (i < k)%nat -> Z.testbit x (Z.of_nat i) = false) ->
  hweight_bits n x <= Z.of_nat (n - k).
Proof.
  induction n as [|n IH]; intros k Hk Hbits; cbn [hweight_bits]; [lia|].
  destruct (Nat.eq_dec k (S n)) as [->|Hne].
  - rewrite (Hbits n) by lia.
    assert (hweight_bits n x <= Z.of_nat (n - n))
      by (apply IH; [lia|intros; apply Hbits; lia]).
    lia.
  - assert (hweight_bits n x <= Z.of_nat (n - k)) by (apply IH; [lia|auto]).
    destruct (Z.testbit x (Z.of_nat n)); lia.
Qed.

(** X4. A queue is seeky as soon as its last five requests were all far
    (more than BFQQ_SEEK_THR sectors) from the request before them,
    whatever its history was. *)
Theorem seeky_after_five_far_requests bfqq rqs :
  Forall (fun pr => BFQQ_SEEK_THR < get_sdist (fst pr) (snd pr)) rqs ->
  (5 <= length rqs)%nat ->
  BFQQ_SEEKY (seek_history_after bfqq rqs) = true.
Proof.
  intros Hfar Hlen. unfold BFQQ_SEEKY, hweight32.
  apply Z.ltb_lt. change (Z.quot 32 8) with 4.
  assert (Z.of_nat 5 <= hweight_bits 32 (seek_history (seek_history_after bfqq rqs))).
  { apply hweight_bits_lower; [lia|].
    intros i Hi. apply (seek_history_after_bits true); [|lia|lia].
    eapply List.Forall_impl; [|exact Hfar].
    intros pr Hpr. now apply Z.ltb_lt. }
  lia.
Qed.

Lemma seeky_after_five_far_requests_witness :
  BFQQ_SEEKY
    (seek_history_after sync_queue
       (repeat (1, far_request) 5)) = true.
Proof.
  apply seeky_after_five_far_requests.
  - apply List.Forall_forall. intros x Hx.
    apply List.repeat_spec in Hx. subst x. reflexivity.
  - cbn. lia.
Defined.

(** X5. A queue is not seeky once its last 28 requests were all near the
    request before them: at most four bits of the 32-bit history can still
    be set, and BFQQ_SEEKY asks for more than four. *)
Theorem not_seeky_after_28_near_requests bfqq rqs :
  Forall (fun pr => get_sdist (fst pr) (snd pr) <= BFQQ_SEEK_THR) rqs ->
  (28 <= length rqs)%nat ->
  BFQQ_SEEKY (seek_history_after bfqq rqs) = false.
Proof.
  intros Hnear Hlen. unfold BFQQ_SEEKY, hweight32.
  apply Z.ltb_ge. change (Z.quot 32 8) with 4.
  assert (hweight_bits 32 (seek_history (seek_history_after bfqq rqs))
          <= Z.of_nat (32 - 28)).
  { apply hweight_bits_upper; [lia|].
    intros i Hi. apply (seek_history_after_bits false); [|lia|lia].
    eapply List.Forall_impl; [|exact Hnear].
    intros pr Hpr. now apply Z.ltb_ge. }
  lia.
Qed.

Lemma not_seeky_after_28_near_requests_witness :
  BFQQ_SEEKY
    (seek_history_after seeky_queue
       (repeat (2048, near_request) 28)) = false.
Proof.
  apply not_seeky_after_28_near_requests.
  - apply List.Forall_forall. intros x Hx.
    apply List.repeat_spec in Hx. subst x. vm_compute. discriminate.
  - cbn. lia.
Defined.

(** ** The queue in service *)

Lemma budgets_assigned_step x :
  0 <= x <= 256 ->
  Z.quot (Int.s32 (Int.s32 (x * 7) + 256)) 8 = (7 * x + 256) / 8.
Proof.
  intros Hx.
  rewrite (IntFacts.s32_small (x * 7)) by lia.
  rewrite IntFacts.s32_small by lia.
  rewrite Z.quot_div_nonneg by lia. f_equal. lia.
Qed.

Lemma budgets_assigned_after_S n x :
  budgets_assigned_after (S n) x
  = Z.quot (Int.s32 (Int.s32 (budgets_assigned_after n x * 7) + 256)) 8.
Proof. reflexivity. Qed.

Lemma budgets_assigned_after_range n :
  0 <= budgets_assigned_after n 0 <= 256.
Proof.
  induction n as [|n IH]; [cbn; lia|].
  rewrite budgets_assigned_after_S, budgets_assigned_step by exact IH.
  split; [apply Z.div_pos; lia|].
  apply Z.div_le_upper_bound; lia.
Qed.

Lemma budgets_assigned_after_late n :
  (10 <= n)%nat -> 186 <= budgets_assigned_after n 0.
Proof.
  induction 1 as [|n Hn IH]; [vm_compute; discriminate|].
  pose proof (budgets_assigned_after_range n) as Hr.
  rewrite budgets_assigned_after_S, budgets_assigned_step by exact Hr.
  apply Z.div_le_lower_bound; lia.
Qed.

Lemma set_in_service_queue_bfqd st q weight orig_weight jiffies st' :
  __bfq_set_in_service_queue st (Some q) weight orig_weight jiffies = Some st' ->
  bfqd st'
  = set_in_service_queue (Some q)
      (set_budgets_assigned
         (Z.quot (Int.s32 (Int.s32 (budgets_assigned (bfqd st) * 7) + 256)) 8)
         (bfqd st)).
Proof.
  unfold __bfq_set_in_service_queue, BUG_ON.
  destruct (queues st !! q) as [bfqq|]; cbn [mbind option_bind]; [|discriminate].
  repeat match goal with
         | |- context [if ?c then None else _] => destruct c; [discriminate|]
         end.
  match goal with
  | |- context [bfq_set_budget_timeout ?d ?b ?w ?o ?j] =>
      destruct (bfq_set_budget_timeout d b w o j); cbn [mbind option_bind];
      [|discriminate]
  end.
  now intros [= <-].
Qed.

(** X6. A device set up with [budgets_assigned] = 0 works with the default
    maximum budget during its first ten selections of a queue and with its
    own [bfq_max_budget] from the eleventh on: each selection replaces
    [budgets_assigned] by (7 * budgets_assigned + 256) / 8, which reaches
    the threshold 194 at the eleventh and never falls below it again. *)
Theorem default_budget_for_first_ten_selections n st q weight orig_weight
    jiffies st' :
  budgets_assigned (bfqd st) = budgets_assigned_after n 0 ->
  __bfq_set_in_service_queue st (Some q) weight orig_weight jiffies = Some st' ->
  budgets_assigned (bfqd st') = budgets_assigned_after (S n) 0
  /\ in_service_queue (bfqd st') = Some q
  /\ bfq_max_budget_cur (bfqd st')
     = if (n <? 10)%nat then bfq_default_max_budget
       else bfq_max_budget (bfqd st).
Proof.
  intros Hn Hset. apply set_in_service_queue_bfqd in Hset.
  rewrite Hset, Hn. clear Hset Hn.
  split; [reflexivity|]. split; [reflexivity|].
  unfold bfq_max_budget_cur.
  cbn [budgets_assigned bfq_max_budget set_in_service_queue set_budgets_assigned].
  change (Z.quot (Int.s32 (Int.s32 (budgets_assigned_after n 0 * 7) + 256)) 8)
    with (budgets_assigned_after (S n) 0).
  destruct (Nat.ltb_spec n 10) as [Hlt|Hge].
  - do 10 (destruct n as [|n]; [reflexivity|]). lia.
  - pose proof (budgets_assigned_after_late n Hge) as H186.
    pose proof (budgets_assigned_after_range n) as Hr.
    rewrite budgets_assigned_after_S, budgets_assigned_step by exact Hr.
    destruct (Z.ltb_spec ((7 * budgets_assigned_after n 0 + 256) / 8)
                bfq_stats_min_budgets) as [Hlt|]; [|reflexivity].
    exfalso. revert Hlt. unfold bfq_stats_min_budgets.
    apply Z.le_ngt. apply Z.div_le_lower_bound; lia.
Qed.

Lemma default_budget_for_first_ten_selections_witness :
  exists st',
    __bfq_set_in_service_queue young_device_state (Some 1%positive) 100 100 5000
    = Some st'
    /\ budgets_assigned (bfqd st') = 194
    /\ bfq_max_budget_cur (bfqd st') = 4000.
Proof.
  eexists. split; [reflexivity|].
  pose proof (default_budget_for_first_ten_selections 10 young_device_state
                1%positive 100 100 5000 _ eq_refl eq_refl) as [H1 [_ H3]].
  split; [exact H1 | exact H3].
Defined.

(** ** Weight raising and budgets at activation *)

Section WeightRaisingFacts.

Variable msecs_to_jiffies : Z -> Z.
Variable BFQ_SOFTRT_WEIGHT_FACTOR : Z.

Local Abbreviation wr_duration := (bfq_wr_duration msecs_to_jiffies).
Local Abbreviation wr_on_rq_arrival :=
  (bfq_update_bfqq_wr_on_rq_arrival msecs_to_jiffies BFQ_SOFTRT_WEIGHT_FACTOR).

Lemma wr_duration_some bfqd :
  0 < bfq_wr_max_time bfqd \/ Int.u32 (peak_rate bfqd) <> 0 ->
  exists dur, wr_duration bfqd = Some dur.
Proof.
  intros H. unfold bfq_wr_duration, BUG_ON.
  destruct (Z.ltb_spec 0 (bfq_wr_max_time bfqd)); [eauto|].
  destruct (Z.eqb_spec (Int.u32 (peak_rate bfqd)) 0); [lia|eauto].
Qed.

(** X7. The duration of interactive weight raising is the user's
    [bfq_wr_max_time] when that is set; otherwise it is computed from the
    estimated peak rate and always lies between 3 and 13 seconds. *)
Theorem bfq_wr_duration_clamped bfqd :
  0 <= msecs_to_jiffies 3000 <= msecs_to_jiffies 13000 ->
  msecs_to_jiffies 13000 < 2 ^ 32 ->
  Int.u32 (peak_rate bfqd) <> 0 ->
  exists dur,
    wr_duration bfqd = Some dur
    /\ if 0 <? bfq_wr_max_time bfqd then dur = bfq_wr_max_time bfqd
       else msecs_to_jiffies 3000 <= dur <= msecs_to_jiffies 13000.
Proof.
  intros Hm Hmax Hrate. unfold bfq_wr_duration, BUG_ON.
  destruct (0 <? bfq_wr_max_time bfqd); [eauto|].
  destruct (Z.eqb_spec (Int.u32 (peak_rate bfqd)) 0) as [|_]; [contradiction|].
  eexists. split; [reflexivity|].
  destruct (Z.ltb_spec (msecs_to_jiffies 13000)
              (Int.u64 (RT_prod bfqd) / Int.u32 (peak_rate bfqd))).
  - rewrite IntFacts.u32_small by lia. lia.
  - destruct (Z.ltb_spec (Int.u64 (RT_prod bfqd) / Int.u32 (peak_rate bfqd))
                (msecs_to_jiffies 3000));
      rewrite IntFacts.u32_small by lia; lia.
Qed.

(** X8. The budget a queue with a pending request gets when it becomes
    busy.  The function first checks that [max_budget] is not negative
    and stops when it is.  Otherwise, for a queue with
    [0 <= service <= budget], no check fires: a queue that comes back in
    time after a non-blocking wait resumes with what was left of its
    budget, at most its [max_budget], and always asks to preempt; any
    other queue gets the larger of its [max_budget] and the charge of
    its next request, so its budget covers that request. *)
Theorem activation_budget bfqd bfqq arrived_in_time wr_or_deserves_wr rq :
  next_rq bfqq = Some rq ->
  request_wf rq ->
  budget_inv bfqq ->
  budget (entity bfqq) < 2 ^ 31 ->
  - 2 ^ 31 <= max_budget bfqq < 2 ^ 31 ->
  if max_budget bfqq <? 0
  then bfq_bfqq_update_budg_for_activation bfqd bfqq arrived_in_time
         wr_or_deserves_wr = None
  else
    exists b wants,
      bfq_bfqq_update_budg_for_activation bfqd bfqq arrived_in_time
        wr_or_deserves_wr = Some (b, wants)
      /\ if bfq_bfqq_non_blocking_wait_rq bfqq && arrived_in_time
         then wants = true
              /\ budget (entity b)
                 = Z.min (budget (entity bfqq) - service (entity bfqq))
                         (max_budget bfqq)
         else wants = wr_or_deserves_wr
              /\ budget (entity b)
                 = Z.max (max_budget bfqq) (bfq_serv_to_charge rq bfqq bfqd)
              /\ bfq_serv_to_charge rq b bfqd <= budget (entity b)
              /\ bfq_bfqq_non_blocking_wait_rq b = false.
Proof.
  intros Hnext Hwf Hinv Hb Hrange.
  destruct (max_budget bfqq <? 0) eqn:Hneg.
  { unfold bfq_bfqq_update_budg_for_activation, BUG_ON. rewrite Hneg.
    destruct (bfq_bfqq_non_blocking_wait_rq bfqq && arrived_in_time);
      reflexivity. }
  apply Z.ltb_ge in Hneg.
  assert (Hmax : 0 <= max_budget bfqq < 2 ^ 31) by lia.
  pose proof (serv_to_charge_bound rq bfqq bfqd Hwf) as Hc.
  pose proof (budget_left_exact bfqq Hinv Hb) as Hleft.
  unfold budget_inv in Hinv.
  unfold bfq_bfqq_update_budg_for_activation, BUG_ON.
  destruct (bfq_bfqq_non_blocking_wait_rq bfqq && arrived_in_time).
  - destruct (Z.ltb_spec (max_budget bfqq) 0); [lia|].
    rewrite Hleft.
    rewrite (IntFacts.u64_small (budget (entity bfqq) - service (entity bfqq)))
      by lia.
    rewrite (IntFacts.u64_small (max_budget bfqq)) by lia.
    cbn [on_entity entity set_entity budget set_budget].
    rewrite IntFacts.s32_small by lia.
    destruct (Z.ltb_spec
                (Z.min (budget (entity bfqq) - service (entity bfqq))
                   (max_budget bfqq)) 0); [lia|].
    eexists _, _. split; [reflexivity|]. split; reflexivity.
  - destruct (Z.ltb_spec (max_budget bfqq) 0); [lia|].
    rewrite Hnext.
    rewrite (IntFacts.u64_small (max_budget bfqq)) by lia.
    cbn [on_entity entity set_entity budget set_budget].
    rewrite IntFacts.s32_small by lia.
    destruct (Z.ltb_spec
                (Z.max (max_budget bfqq) (bfq_serv_to_charge rq bfqq bfqd)) 0);
      [lia|].
    eexists _, _. split; [reflexivity|].
    split; [reflexivity|]. split; [reflexivity|]. split.
    + replace (bfq_serv_to_charge rq _ bfqd)
        with (bfq_serv_to_charge rq bfqq bfqd).
      * cbn [on_entity bfq_clear_bfqq set_flags entity set_entity budget
             set_budget].
        lia.
      * unfold bfq_serv_to_charge.
        replace (bfq_bfqq_sync (bfq_clear_bfqq _ _))
          with (bfq_bfqq_sync bfqq); [reflexivity|].
        unfold bfq_bfqq_sync. rewrite flag_clear_other by discriminate.
        reflexivity.
    + apply flag_clear_same.
Qed.

(** X9. When weight raising starts for a queue (its coefficient was 1 and
    it deserves raising), the queue leaves with the device's coefficient,
    multiplied by the soft real-time factor if it is not interactive, and
    its budget is cut to at most twice the minimum budget. *)
Theorem weight_raising_start bfqd bfqq interactive in_burst soft_rt jiffies :
  0 < bfq_wr_max_time bfqd \/ Int.u32 (peak_rate bfqd) <> 0 ->
  0 <= bfq_max_budget bfqd < 2 ^ 31 ->
  0 <= budget (entity bfqq) < 2 ^ 31 ->
  exists b,
    wr_on_rq_arrival bfqd bfqq 1 true interactive in_burst soft_rt jiffies
    = Some b
    /\ budget (entity b)
       = Z.min (budget (entity bfqq)) (2 * bfq_min_budget bfqd)
    /\ wr_coeff b
       = (if interactive then bfq_wr_coeff bfqd
          else Int.u32 (bfq_wr_coeff bfqd * BFQ_SOFTRT_WEIGHT_FACTOR))
    /\ (interactive = false -> wr_cur_max_time b = bfq_wr_rt_max_time bfqd)
    /\ (interactive = true -> wr_duration bfqd = Some (wr_cur_max_time b)).
Proof.
  intros Hdur Hmax Hb.
  pose proof (bfq_min_budget_range bfqd Hmax) as Hmin.
  destruct (wr_duration_some bfqd Hdur) as [dur Hd].
  unfold bfq_update_bfqq_wr_on_rq_arrival.
  change ((1 =? 1) && true) with true. cbv iota.
  destruct interactive.
  - rewrite Hd. eexists. split; [reflexivity|].
    cbn [on_entity entity set_entity budget set_budget wr_coeff set_wr_coeff
         set_wr_cur_max_time wr_cur_max_time].
    rewrite (IntFacts.s32_small (2 * bfq_min_budget bfqd)) by lia.
    rewrite !IntFacts.u64_small by lia.
    rewrite IntFacts.s32_small by lia.
    repeat split; auto; discriminate.
  - eexists. split; [reflexivity|].
    cbn [on_entity entity set_entity budget set_budget wr_coeff set_wr_coeff
         set_wr_cur_max_time wr_cur_max_time].
    rewrite (IntFacts.s32_small (2 * bfq_min_budget bfqd)) by lia.
    rewrite !IntFacts.u64_small by lia.
    rewrite IntFacts.s32_small by lia.
    repeat split; auto; discriminate.
Qed.

End WeightRaisingFacts.

Lemma bfq_wr_duration_clamped_witness :
  exists dur,
    bfq_wr_duration msecs_to_jiffies_250 (tuned_device true) = Some dur
    /\ 750 <= dur <= 3250.
Proof.
  destruct (bfq_wr_duration_clamped msecs_to_jiffies_250 (tuned_device true))
    as [dur [Hd Hr]].
  - vm_compute. split; discriminate.
  - reflexivity.
  - vm_compute. discriminate.
  - exists dur. split; [exact Hd | exact Hr].
Defined.

Lemma activation_budget_witness :
  exists b,
    bfq_bfqq_update_budg_for_activation (tuned_device true) raised_queue
      false true = Some (b, true)
    /\ budget (entity b) = 1024.
Proof.
  destruct (activation_budget (tuned_device true) raised_queue false true rq_4k)
    as [b [wants [Hrun [Hw [Hb _]]]]].
  - reflexivity.
  - vm_compute. repeat split; discriminate.
  - vm_compute. split; discriminate.
  - reflexivity.
  - vm_compute. split; [discriminate | reflexivity].
  - exists b. subst wants. split; [exact Hrun | exact Hb].
Defined.

Lemma weight_raising_start_witness :
  exists b,
    bfq_update_bfqq_wr_on_rq_arrival msecs_to_jiffies_250 3 (tuned_device true)
      serving_queue 1 true true false false 1000 = Some b
    /\ budget (entity b) = 1024
    /\ wr_coeff b = 30.
Proof.
  destruct (weight_raising_start msecs_to_jiffies_250 3 (tuned_device true)
              serving_queue true false false 1000)
    as [b [Hrun [Hb [Hc _]]]].
  - right. vm_compute. discriminate.
  - vm_compute. split; [discriminate | reflexivity].
  - vm_compute. split; [discriminate | reflexivity].
  - exists b. split; [exact Hrun|]. split; [exact Hb | exact Hc].
Defined.

(** ** The low-pass filter of the peak-rate estimator *)

Lemma filter_mix_bounds a b n :
  2 <= n -> 0 <= a -> 0 <= b ->
  Z.min a b - 1 <= a * (n - 1) / n + b / n <= Z.max a b.
Proof.
  intros Hn Ha Hb.
  pose proof (Z.div_mod (a * (n - 1)) n ltac:(lia)) as E1.
  pose proof (Z.div_mod b n ltac:(lia)) as E2.
  pose proof (Z.mod_pos_bound (a * (n - 1)) n ltac:(lia)) as R1.
  pose proof (Z.mod_pos_bound b n ltac:(lia)) as R2.
  set (q1 := a * (n - 1) / n) in *. set (q2 := b / n) in *.
  set (r1 := (a * (n - 1)) mod n) in *. set (r2 := b mod n) in *.
  split.
  - assert (n * (Z.min a b - 2) < n * (q1 + q2)) by nia.
    assert (Z.min a b - 2 < q1 + q2) by (apply Z.mul_lt_mono_pos_l with n; lia).
    lia.
  - assert (n * (q1 + q2) <= n * Z.max a b) by nia.
    apply Z.mul_le_mono_pos_l with n; lia.
Qed.

Section FilterFacts.

Variable jiffies_to_msecs : Z -> Z.
Variable T_slow T_fast : bool -> Z.

Local Abbreviation calc_max_budget := (bfq_calc_max_budget jiffies_to_msecs).
Local Abbreviation update_params :=
  (update_thr_responsiveness_params jiffies_to_msecs T_slow T_fast).
Local Abbreviation filter := (rate_filter jiffies_to_msecs T_slow T_fast).
Local Abbreviation update_reset :=
  (bfq_update_rate_reset jiffies_to_msecs T_slow T_fast).

Lemma calc_max_budget_fits bfqd :
  0 <= peak_rate bfqd <= Z.shiftl 20 BFQ_RATE_SHIFT ->
  0 <= jiffies_to_msecs (bfq_timeout bfqd) <= 100000 ->
  0 <= calc_max_budget bfqd < 2 ^ 31.
Proof.
  intros Hp Ht. unfold bfq_calc_max_budget, USEC_PER_MSEC, BFQ_RATE_SHIFT in *.
  change (Z.shiftl 20 16) with 1310720 in Hp.
  rewrite (IntFacts.u64_small (peak_rate bfqd * 1000)) by lia.
  rewrite IntFacts.u64_small by nia.
  rewrite Z.shiftr_div_pow2 by lia. split.
  - apply Z.div_pos; nia.
  - apply Z.div_lt_upper_bound; nia.
Qed.

Lemma update_params_peak_rate bfqd :
  0 <= peak_rate bfqd <= Z.shiftl 20 BFQ_RATE_SHIFT ->
  bfq_user_max_budget bfqd <> 0
  \/ 0 <= jiffies_to_msecs (bfq_timeout bfqd) <= 100000 ->
  exists d, update_params bfqd = Some d /\ peak_rate d = peak_rate bfqd.
Proof.
  intros Hp Ht.
  unfold update_thr_responsiveness_params, BUG_ON.
  destruct (Z.eqb_spec (bfq_user_max_budget bfqd) 0) as [Hu|Hu].
  - destruct Ht as [Ht|Ht]; [contradiction|].
    pose proof (calc_max_budget_fits bfqd Hp Ht) as Hc.
    cbn [bfq_max_budget set_bfq_max_budget].
    rewrite IntFacts.s32_small by lia.
    destruct (Z.ltb_spec (calc_max_budget bfqd) 0); [lia|].
    cbn [device_speed set_bfq_max_budget peak_rate].
    destruct (device_speed bfqd);
      match goal with |- context [if ?c then _ else _] => destruct c end;
      eexists; split; reflexivity.
  - destruct (device_speed bfqd);
      match goal with |- context [if ?c then _ else _] => destruct c end;
      eexists; split; reflexivity.
Qed.

Lemma rate_filter_result bfqd bw :
  2 <= peak_rate bfqd <= Z.shiftl 20 BFQ_RATE_SHIFT ->
  0 <= bw <= Z.shiftl 20 BFQ_RATE_SHIFT ->
  bfq_user_max_budget bfqd <> 0
  \/ 0 <= jiffies_to_msecs (bfq_timeout bfqd) <= 100000 ->
  exists d,
    filter bfqd bw = Some d
    /\ Z.min (peak_rate bfqd) bw - 1 <= peak_rate d
       <= Z.max (peak_rate bfqd) bw.
Proof.
  intros Hp Hbw Ht.
  pose proof (rate_divisor_bounds bfqd) as Hn.
  pose proof (filter_mix_bounds (peak_rate bfqd) bw (rate_divisor bfqd)
                ltac:(lia) ltac:(lia) ltac:(lia)) as Hmix.
  unfold BFQ_RATE_SHIFT in *. change (Z.shiftl 20 16) with 1310720 in *.
  unfold rate_filter, BUG_ON.
  destruct (Z.eqb_spec (rate_divisor bfqd) 0); [lia|].
  cbn [peak_rate set_peak_rate].
  rewrite (IntFacts.u32_small (rate_divisor bfqd - 1)) by lia.
  rewrite (IntFacts.u32_small (peak_rate bfqd * _)) by nia.
  assert (Hfirst : 1 <= peak_rate bfqd * (rate_divisor bfqd - 1)
                        / rate_divisor bfqd <= peak_rate bfqd).
  { split.
    - apply Z.div_le_lower_bound; nia.
    - apply Z.div_le_upper_bound; nia. }
  assert (Hsecond : 0 <= bw / rate_divisor bfqd) by (apply Z.div_pos; lia).
  destruct (Z.eqb_spec (peak_rate bfqd * (rate_divisor bfqd - 1)
                        / rate_divisor bfqd) 0); [lia|].
  unfold BFQ_RATE_SHIFT. change (Z.shiftl 20 16) with 1310720.
  destruct (Z.ltb_spec 1310720 (peak_rate bfqd * (rate_divisor bfqd - 1)
                                / rate_divisor bfqd)); [lia|].
  rewrite IntFacts.u32_small by lia.
  match goal with
  | |- context [update_params ?d] =>
      destruct (update_params_peak_rate d) as [d' [Hd' Hpk]];
      [cbn [peak_rate set_peak_rate]; unfold BFQ_RATE_SHIFT;
       change (Z.shiftl 20 16) with 1310720; lia
      |cbn [bfq_timeout bfq_user_max_budget set_peak_rate]; exact Ht
      |rewrite Hd']
  end.
  cbn [peak_rate set_peak_rate] in Hpk.
  destruct (Z.ltb_spec 1310720 (peak_rate d')); [lia|].
  exists d'. split; [reflexivity|]. lia.
Qed.

(** X10. The filter never leaves the range spanned by the old estimate
    and the new sample, up to one unit of rounding: with an estimate of
    at least 2, both values at most 20 sectors/us (shifted) and either a
    user-set maximum budget or a budget timeout of at most 100 seconds
    (beyond which the recomputed maximum budget can leave the range of
    an int and stop the filter), none of the checks of the filter fires
    and the new estimate lies between min(old, sample) - 1 and
    max(old, sample). *)
Theorem rate_filter_between bfqd bw :
  2 <= peak_rate bfqd <= Z.shiftl 20 BFQ_RATE_SHIFT ->
  0 <= bw <= Z.shiftl 20 BFQ_RATE_SHIFT ->
  bfq_user_max_budget bfqd <> 0
  \/ 0 <= jiffies_to_msecs (bfq_timeout bfqd) <= 100000 ->
  exists d,
    filter bfqd bw = Some d
    /\ Z.min (peak_rate bfqd) bw - 1 <= peak_rate d
       <= Z.max (peak_rate bfqd) bw.
Proof. exact (rate_filter_result bfqd bw). Qed.

(** X11. With an estimate of 0 or 1 the filter stops the kernel: the
    old estimate, weighted, rounds down to 0 and the check
    BUG_ON(bfqd->peak_rate == 0) fires, whatever the sample. *)
Theorem rate_filter_halts_on_tiny_estimate bfqd bw :
  0 <= peak_rate bfqd <= 1 ->
  rate_filter jiffies_to_msecs T_slow T_fast bfqd bw = None.
Proof.
  intros Hp. pose proof (rate_divisor_bounds bfqd) as Hn.
  unfold rate_filter, BUG_ON.
  destruct (Z.eqb_spec (rate_divisor bfqd) 0); [lia|].
  cbn [peak_rate set_peak_rate].
  rewrite (IntFacts.u32_small (rate_divisor bfqd - 1)) by lia.
  rewrite (IntFacts.u32_small (peak_rate bfqd * _)) by nia.
  rewrite Z.div_small by nia. reflexivity.
Qed.

(** X12. Closing a window never lowers the estimate by more than one
    unit of rounding.  Where [bfq_update_rate_reset] passes its gate the
    samples outnumber the sequential ones, so a sample that is not above
    the estimate is always rejected; and a sample above it can only pull
    the filtered value up.  As for the filter, the maximum budget is
    user-set or the budget timeout is at most 100 seconds. *)
Theorem estimate_never_lowered bfqd rq now :
  0 <= sequential_samples bfqd < peak_rate_samples bfqd ->
  peak_rate_samples bfqd < 2 ^ 31 ->
  2 <= peak_rate bfqd <= Z.shiftl 20 BFQ_RATE_SHIFT ->
  0 < rate_window_us bfqd < 2 ^ 32 ->
  bfq_user_max_budget bfqd <> 0
  \/ 0 <= jiffies_to_msecs (bfq_timeout bfqd) <= 100000 ->
  exists d,
    update_reset bfqd rq now = Some d
    /\ peak_rate bfqd - 1 <= peak_rate d <= Z.shiftl 20 BFQ_RATE_SHIFT.
Proof.
  intros Hseq Hmax Hp Hw Ht.
  assert (Hreset : forall d, peak_rate (bfq_reset_rate_computation d rq now)
                             = peak_rate d).
  { intros d. unfold bfq_reset_rate_computation. now destruct rq. }
  unfold bfq_update_rate_reset, BUG_ON.
  destruct (rate_gate bfqd).
  { eexists. split; [reflexivity|]. rewrite Hreset. lia. }
  cbn [delta_from_first_us set_delta_from_first_us].
  destruct (Z.eqb_spec (rate_window_us bfqd) 0); [lia|].
  rewrite (IntFacts.u32_small (rate_window_us bfqd)) by lia.
  destruct (Z.eqb_spec (rate_window_us bfqd) 0); [lia|].
  set (d0 := set_delta_from_first_us (rate_window_us bfqd) bfqd).
  rewrite (rate_sample_rejected_at_update d0) by (subst d0; assumption).
  change (peak_rate d0) with (peak_rate bfqd).
  destruct (Z.leb_spec (rate_bw d0) (peak_rate bfqd)) as [|Hbw].
  { cbn [orb]. eexists. split; [reflexivity|]. rewrite Hreset.
    change (peak_rate d0) with (peak_rate bfqd). lia. }
  cbn [orb].
  destruct (Z.ltb_spec (Z.shiftl 20 BFQ_RATE_SHIFT) (rate_bw d0)) as [|Hcap].
  { eexists. split; [reflexivity|]. rewrite Hreset.
    change (peak_rate d0) with (peak_rate bfqd). lia. }
  destruct (rate_filter_result d0 (rate_bw d0)) as [d [Hd Hb]];
    [exact Hp | lia | exact Ht |].
  rewrite Hd. eexists. split; [reflexivity|]. rewrite Hreset.
  change (peak_rate d0) with (peak_rate bfqd) in Hb. lia.
Qed.

End FilterFacts.

Lemma rate_filter_between_witness :
  exists d,
    rate_filter (fun x => x) (fun _ => 0) (fun _ => 0) seq_window 2000 = Some d
    /\ 999 <= peak_rate d <= 2000.
Proof.
  destruct (rate_filter_between (fun x => x) (fun _ => 0) (fun _ => 0)
              seq_window 2000) as [d [Hd Hb]].
  - vm_compute. split; discriminate.
  - vm_compute. split; discriminate.
  - right. vm_compute. split; discriminate.
  - exists d. split; [exact Hd | exact Hb].
Defined.

Lemma rate_filter_halts_on_tiny_estimate_witness :
  rate_filter (fun x => x) (fun _ => 0) (fun _ => 0)
    (set_peak_rate 1 seq_window) 2000 = None.
Proof.
  apply rate_filter_halts_on_tiny_estimate.
  vm_compute. split; discriminate.
Defined.

Lemma estimate_never_lowered_witness :
  exists d,
    bfq_update_rate_reset (fun x => x) (fun _ => 0) (fun _ => 0)
      seq_window None 0 = Some d
    /\ 999 <= peak_rate d <= 1310720.
Proof.
  destruct (estimate_never_lowered (fun x => x) (fun _ => 0) (fun _ => 0)
              seq_window None 0) as [d [Hd Hb]].
  - vm_compute. split; [discriminate | reflexivity].
  - reflexivity.
  - vm_compute. split; discriminate.
  - vm_compute. split; reflexivity.
  - right. vm_compute. split; discriminate.
  - exists d. split; [exact Hd | exact Hb].
Defined.

(** ** Scheduling a merge *)

Lemma chain_head st x path : chain st x path -> exists rest, path = x :: rest.
Proof. destruct path as [|y rest]; [easy|]. intros [-> _]. eauto. Qed.

Lemma chain_unique st : forall p1 p2 x, chain st x p1 -> chain st x p2 -> p1 = p2.
Proof.
  induction p1 as [|y1 r1 IH]; intros p2 x H1 H2; [easy|].
  destruct p2 as [|y2 r2]; [easy|].
  destruct H1 as [-> [b1 [L1 H1]]], H2 as [-> [b2 [L2 H2]]].
  rewrite L1 in L2. injection L2 as <-. f_equal.
  destruct (new_bfqq b1) as [next|], r1 as [|z1 r1], r2 as [|z2 r2];
    try easy.
  eapply IH; eauto.
Qed.

Lemma chain_suffix st : forall p x k,
  chain st x p -> In k p ->
  exists p', chain st k p' /\ (length p' <= length p)%nat.
Proof.
  induction p as [|y rest IH]; intros x k Hc Hin; [easy|].
  pose proof Hc as [-> [b [L H]]].
  destruct Hin as [<-|Hin]; [exists (x :: rest); split; [exact Hc|lia]|].
  destruct (new_bfqq b) as [next|], rest as [|z r]; try easy.
  destruct (IH next k H Hin) as [p' [Hp' Hlen]].
  exists p'. split; [exact Hp'|]. cbn [length] in *. lia.
Qed.

Lemma chain_NoDup st : forall p x, chain st x p -> List.NoDup p.
Proof.
  induction p as [|y rest IH]; intros x Hc; [constructor|].
  pose proof Hc as [-> [b [L H]]].
  constructor.
  - intros Hin.
    destruct (new_bfqq b) as [next|] eqn:Hn, rest as [|z r] eqn:Hr; try easy.
    rewrite <- Hr in *.
    destruct (chain_suffix st rest next x H Hin) as [p' [Hp' Hlen]].
    pose proof (chain_unique st _ _ _ Hc Hp') as <-.
    cbn [length] in Hlen. lia.
  - destruct (new_bfqq b) as [next|], rest as [|z r]; try easy.
    + eapply IH; eauto.
    + constructor.
Qed.

Lemma chain_keys st : forall p x k,
  chain st x p -> In k p -> is_Some (queues st !! k).
Proof.
  intros p x k Hc Hin.
  destruct (chain_suffix st p x k Hc Hin) as [p' [Hp' _]].
  destruct p' as [|y r]; [easy|]. destruct Hp' as [-> [b [L _]]]. eauto.
Qed.

Lemma distinct_keys_size {A} : forall (p : list positive) (m : gmap positive A),
  List.NoDup p -> (forall k, In k p -> is_Some (m !! k)) ->
  (length p <= size m)%nat.
Proof.
  induction p as [|k p IH]; intros m Hnd Hkeys; [cbn; lia|].
  inversion Hnd as [|? ? Hnotin Hnd']; subst.
  assert (Hk : is_Some (m !! k)) by (apply Hkeys; now left).
  assert (length p <= size (delete k m))%nat.
  { apply IH; [exact Hnd'|].
    intros k' Hin. rewrite lookup_delete_ne by (intros ->; contradiction).
    apply Hkeys. now right. }
  rewrite map_size_delete_Some in H by exact Hk.
  assert (size m <> 0%nat).
  { intros Hz. apply map_size_empty_inv in Hz. subst m.
    rewrite lookup_empty in Hk. now destruct Hk. }
  cbn [length]. lia.
Qed.

Lemma chain_length st p x : chain st x p -> (length p <= size (queues st))%nat.
Proof.
  intros Hc. apply distinct_keys_size.
  - eapply chain_NoDup; eauto.
  - intros k. eapply chain_keys; eauto.
Qed.

(** On a chain that ends, the walk of [bfq_setup_merge] ends too: at the
    last queue of the chain, or at [q] if the chain goes through it. *)
Lemma setup_merge_walk_chain st q : forall path nq fuel,
  chain st nq path -> (length path <= fuel)%nat -> nq <> q ->
  exists r,
    setup_merge_walk fuel st q nq = Some r
    /\ forall t, r = Some t ->
       t <> q /\ In t path
       /\ exists tq, queues st !! t = Some tq /\ new_bfqq tq = None.
Proof.
  induction path as [|y rest IH]; intros nq fuel Hc Hlen Hne; [easy|].
  destruct Hc as [-> [n [L H]]].
  destruct fuel as [|fuel]; [cbn in Hlen; lia|].
  cbn [setup_merge_walk]. rewrite L.
  destruct (new_bfqq n) as [next|] eqn:Hn.
  - destruct rest as [|z r]; [easy|].
    destruct (Pos.eqb_spec next q) as [->|Hnq].
    + eexists. split; [reflexivity|]. intros t [=].
    + destruct (IH next fuel H ltac:(cbn [length] in *; lia) Hnq)
        as [res [Hres Hprop]].
      exists res. split; [exact Hres|].
      intros t Ht. destruct (Hprop t Ht) as [H1 [H2 H3]].
      split; [exact H1|]. split; [now right|exact H3].
  - eexists. split; [reflexivity|].
    intros t [= <-]. split; [exact Hne|]. split; [now left|]. eauto.
Qed.

Lemma process_refs_nonneg bfqq refs :
  bfqq_process_refs bfqq = Some refs -> 0 <= refs.
Proof.
  unfold bfqq_process_refs, BUG_ON.
  match goal with |- context [?a <? 0] => destruct (Z.ltb_spec a 0) end;
    [discriminate|].
  intros [= <-]. lia.
Qed.

(** X13. Scheduling a merge never closes a cycle and never loops.  If the
    chain of scheduled merges that starts at [new_bfqq] ends, then
    [bfq_setup_merge] returns; when it schedules a merge, the target is the
    last queue of that chain and is not [bfqq], the chain from [bfqq] is
    then [bfqq -> target] and ends there, and the target has gained as
    many references as [bfqq] has process references (at least one).
    When it returns NULL nothing has changed. *)
Theorem bfq_setup_merge_no_cycle st q nq path :
  process_refs_ok st ->
  is_Some (queues st !! q) ->
  q <> nq ->
  chain st nq path ->
  exists st' r,
    bfq_setup_merge st q nq = Some (st', r)
    /\ match r with
       | None => st' = st
       | Some t =>
           t <> q /\ In t path /\ chain st' q [q; t]
           /\ exists bq tq tq' refs,
                queues st !! q = Some bq
                /\ bfqq_process_refs bq = Some refs /\ 0 < refs
                /\ queues st !! t = Some tq
                /\ queues st' !! t = Some tq'
                /\ ref tq' = Int.s32 (ref tq + refs)
       end.
Proof.
  intros Hok [bq Lq] Hne Hc.
  pose proof (chain_length st path nq Hc) as Hlen.
  destruct (chain_head st nq path Hc) as [rest ->].
  pose proof Hc as [_ [n [Ln _]]].
  unfold bfq_setup_merge. rewrite Ln. cbn [mbind option_bind].
  destruct (Hok nq n Ln) as [refs0 Hr0]. rewrite Hr0. cbn [mbind option_bind].
  destruct (refs0 =? 0); [eexists _, _; split; [reflexivity|reflexivity]|].
  destruct (setup_merge_walk_chain st q (nq :: rest) nq (S (size (queues st)))
              Hc ltac:(lia) ltac:(congruence)) as [res [Hres Hprop]].
  rewrite Hres. cbn [mbind option_bind].
  destruct res as [t|]; [|eexists _, _; split; reflexivity].
  destruct (Hprop t eq_refl) as [Htq [Hin [tq [Lt Hend]]]].
  rewrite Lq, Lt. cbn [mbind option_bind].
  destruct (Hok q bq Lq) as [refs Hr]. destruct (Hok t tq Lt) as [refs' Hr'].
  rewrite Hr, Hr'. cbn [mbind option_bind].
  pose proof (process_refs_nonneg bq refs Hr) as Hpos.
  destruct (Z.eqb_spec refs 0) as [|Hnz];
    [eexists _, _; split; reflexivity|].
  destruct (refs' =? 0); cbn [orb];
    [eexists _, _; split; reflexivity|].
  eexists _, _. split; [reflexivity|].
  split; [exact Htq|]. split; [exact Hin|].
  assert (Lq' : queues (upd_queue t (fun x => set_ref (Int.s32 (ref x + refs)) x)
                          (upd_queue q (set_new_bfqq (Some t)) st)) !! q
                = Some (set_new_bfqq (Some t) bq)).
  { cbn [upd_queue queues set_queues].
    rewrite lookup_alter_ne by exact Htq.
    rewrite lookup_alter_eq, Lq. reflexivity. }
  assert (Lt' : queues (upd_queue t (fun x => set_ref (Int.s32 (ref x + refs)) x)
                          (upd_queue q (set_new_bfqq (Some t)) st)) !! t
                = Some (set_ref (Int.s32 (ref tq + refs)) tq)).
  { cbn [upd_queue queues set_queues].
    rewrite lookup_alter_eq.
    rewrite lookup_alter_ne by congruence. rewrite Lt. reflexivity. }
  split.
  - cbn [chain]. split; [reflexivity|].
    eexists. split; [exact Lq'|]. cbn [new_bfqq set_new_bfqq].
    split; [reflexivity|].
    eexists. split; [exact Lt'|]. cbn [new_bfqq set_ref]. now rewrite Hend.
  - exists bq, tq, (set_ref (Int.s32 (ref tq + refs)) tq), refs.
    repeat split; auto; lia.
Qed.

Lemma cooperating_state_refs_ok : process_refs_ok cooperating_state.
Proof.
  intros k bfqq H. cbn [cooperating_state queues] in H.
  rewrite !lookup_insert_Some, lookup_empty in H.
  destruct H as [[_ <-]|[_ [[_ <-]|[_ [[_ <-]|[_ H]]]]]];
    [vm_compute; eauto ..|discriminate].
Qed.

Lemma bfq_setup_merge_no_cycle_witness :
  exists st',
    bfq_setup_merge cooperating_state 3%positive 1%positive
    = Some (st', Some 2%positive)
    /\ chain st' 3%positive [3%positive; 2%positive].
Proof.
  destruct (bfq_setup_merge_no_cycle cooperating_state 3%positive 1%positive
              [1%positive; 2%positive]) as [st' [r [Hrun Hpost]]].
  - exact cooperating_state_refs_ok.
  - vm_compute. eauto.
  - discriminate.
  - split; [reflexivity|]. eexists. split; [reflexivity|].
    split; [reflexivity|]. eexists. split; [reflexivity|]. exact I.
  - assert (Hr : r = Some 2%positive).
    { vm_compute in Hrun. now injection Hrun as _ <-. }
    subst r. exists st'. split; [exact Hrun|]. apply Hpost.
Defined.

Lemma setup_merge_walk_target st q : forall fuel nq t,
  setup_merge_walk fuel st q nq = Some (Some t) -> nq <> q -> t <> q.
Proof.
  induction fuel as [|fuel IH]; intros nq t H Hne; [discriminate|].
  cbn [setup_merge_walk] in H.
  destruct (queues st !! nq) as [n|]; [|discriminate].
  destruct (new_bfqq n) as [next|].
  - destruct (Pos.eqb_spec next q); [discriminate|]. eapply IH; eauto.
  - now injection H as <-.
Qed.

Lemma setup_merge_target st q nq st' t :
  bfq_setup_merge st q nq = Some (st', Some t) -> nq <> q ->
  exists bq, queues st' !! q = Some bq /\ new_bfqq bq = Some t.
Proof.
  unfold bfq_setup_merge. intros H Hne.
  destruct (queues st !! nq) as [n|]; [|discriminate]. cbn [mbind option_bind] in H.
  destruct (bfqq_process_refs n) as [r0|]; [|discriminate].
  cbn [mbind option_bind] in H.
  destruct (r0 =? 0); [discriminate|].
  destruct (setup_merge_walk _ st q nq) as [[t'|]|] eqn:Hw;
    cbn [mbind option_bind] in H; try discriminate.
  pose proof (setup_merge_walk_target _ _ _ _ _ Hw Hne) as Ht.
  destruct (queues st !! q) as [bq|] eqn:Lq; [|discriminate].
  cbn [mbind option_bind] in H.
  destruct (queues st !! t') as [tq|]; [|discriminate].
  cbn [mbind option_bind] in H.
  destruct (bfqq_process_refs bq) as [r1|]; [|discriminate].
  cbn [mbind option_bind] in H.
  destruct (bfqq_process_refs tq) as [r2|]; [|discriminate].
  cbn [mbind option_bind] in H.
  destruct ((r1 =? 0) || (r2 =? 0)); [discriminate|].
  injection H as <- <-.
  exists (set_new_bfqq (Some t') bq). split; [|reflexivity].
  cbn [upd_queue queues set_queues].
  rewrite lookup_alter_ne by exact Ht.
  now rewrite lookup_alter_eq, Lq.
Qed.

Section CooperatorFacts.

Variable msecs_to_jiffies : Z -> Z.
Variable same_parent : qid -> qid -> bool.

Local Abbreviation setup_cooperator :=
  (bfq_setup_cooperator msecs_to_jiffies same_parent).

Lemma check_scheduled_target st q bfqq close jiffies st' t :
  check_scheduled msecs_to_jiffies same_parent st q bfqq close jiffies
  = Some (st', Some t) ->
  exists bq, queues st' !! q = Some bq /\ new_bfqq bq = Some t.
Proof.
  unfold check_scheduled, bfq_find_close_cooperator, BUG_ON.
  destruct close as [c|]; [|discriminate].
  destruct (Pos.eqb_spec c q); [discriminate|].
  destruct (negb (same_parent q c)); [discriminate|].
  destruct (queues st !! c) as [cq|]; [|discriminate].
  cbn [mbind option_bind].
  destruct (_ && _); [|discriminate].
  intros H. eapply setup_merge_target; eauto.
Qed.

Lemma setup_cooperator_target st q io close jiffies st' t :
  setup_cooperator st q io close jiffies = Some (st', Some t) ->
  exists bq, queues st' !! q = Some bq /\ new_bfqq bq = Some t.
Proof.
  unfold bfq_setup_cooperator.
  destruct (queues st !! q) as [bq|] eqn:Lq; [|discriminate].
  cbn [mbind option_bind].
  destruct (new_bfqq bq) as [t0|] eqn:Hn.
  { intros [= <- <-]. eauto. }
  destruct io as [pos|]; [|discriminate].
  destruct (_ || _); [discriminate|].
  destruct (busy_queues (bfqd st) =? 1); [discriminate|].
  destruct (in_service_queue (bfqd st)) as [p|];
    [|apply check_scheduled_target].
  destruct (queues st !! p) as [pq|]; [|discriminate].
  cbn [mbind option_bind].
  destruct (Pos.eqb_spec p q) as [->|Hpq]; cbn [orb];
    [apply check_scheduled_target|].
  destruct (_ || _); [apply check_scheduled_target|].
  destruct (_ && _); [|apply check_scheduled_target].
  destruct (bfq_setup_merge st q p) as [[s1 [t1|]]|] eqn:Hm;
    cbn [mbind option_bind]; [| |discriminate].
  - intros [= <- <-]. eapply setup_merge_target; eauto.
  - apply check_scheduled_target.
Qed.

(** X14. Once [bfq_setup_cooperator] has returned a queue to merge with,
    the merge stays scheduled: every later call for the same queue
    returns the same target and changes nothing, whatever the request,
    the position tree and the clock are by then. *)
Theorem bfq_setup_cooperator_idempotent st q io close jiffies st' t
    io' close' jiffies' :
  bfq_setup_cooperator msecs_to_jiffies same_parent st q io close jiffies
  = Some (st', Some t) ->
  bfq_setup_cooperator msecs_to_jiffies same_parent st' q io' close' jiffies'
  = Some (st', Some t).
Proof.
  intros H. destruct (setup_cooperator_target _ _ _ _ _ _ _ H) as [bq [L Hn]].
  unfold bfq_setup_cooperator. rewrite L. cbn [mbind option_bind].
  now rewrite Hn.
Qed.

End CooperatorFacts.

Lemma bfq_setup_cooperator_idempotent_witness :
  exists st',
    bfq_setup_cooperator msecs_to_jiffies_250 (fun _ _ => true)
      cooperating_state 3%positive (Some 2048) (Some 1%positive) 10
    = Some (st', Some 2%positive)
    /\ bfq_setup_cooperator msecs_to_jiffies_250 (fun _ _ => true)
         st' 3%positive None None 99999
       = Some (st', Some 2%positive).
Proof.
  eexists. split; [reflexivity|].
  apply (bfq_setup_cooperator_idempotent msecs_to_jiffies_250 (fun _ _ => true)
           cooperating_state 3%positive (Some 2048) (Some 1%positive) 10).
  reflexivity.
Defined.

(** ** References to a queue *)

(** What a call of [bfq_put_queue] that returns has done. *)
Lemma put_queue_result st q st' :
  bfq_put_queue st q = Some st' ->
  exists bfqq,
    queues st !! q = Some bfqq
    /\ 0 < ref bfqq
    /\ bfqd st' = bfqd st /\ bics st' = bics st
    /\ (forall k, k <> q -> queues st' !! k = queues st !! k)
    /\ (queues st' !! q = Some (set_ref (Int.s32 (ref bfqq - 1)) bfqq)
        /\ Int.s32 (ref bfqq - 1) <> 0
        \/ queues st' !! q = None
           /\ Int.s32 (ref bfqq - 1) = 0
           /\ sort_list bfqq = []
           /\ Int.s32 (fst (allocated bfqq) + snd (allocated bfqq)) = 0
           /\ bfq_bfqq_busy bfqq = false
           /\ in_service_queue (bfqd st) <> Some q).
Proof.
  unfold bfq_put_queue, BUG_ON. intros H.
  destruct (queues st !! q) as [bfqq|] eqn:L; [|discriminate].
  exists bfqq. split; [reflexivity|].
  destruct (Z.leb_spec (ref bfqq) 0) as [|Hpos]; [discriminate|].
  split; [exact Hpos|].
  cbn [ref set_ref sort_list allocated upd_queue queues set_queues bfqd bics]
    in H.
  destruct (Z.eqb_spec (Int.s32 (ref bfqq - 1)) 0) as [Hz|Hnz]; cbn [negb] in H.
  - destruct (sort_list bfqq) eqn:Hs; [|discriminate].
    destruct (Z.eqb_spec (Int.s32 (fst (allocated bfqq) + snd (allocated bfqq))) 0)
      as [Ha|]; [|discriminate]. cbn [negb] in H.
    replace (bfq_bfqq_busy (set_ref (Int.s32 (ref bfqq - 1)) bfqq))
      with (bfq_bfqq_busy bfqq) in H by reflexivity.
    destruct (bfq_bfqq_busy bfqq) eqn:Hb; [discriminate|].
    destruct (same_queue (in_service_queue (bfqd st)) q) eqn:Hin; [discriminate|].
    injection H as <-. cbn [bfqd bics queues set_queues upd_queue].
    split; [reflexivity|]. split; [reflexivity|]. split.
    + intros k Hk. rewrite lookup_delete_ne by congruence.
      now rewrite lookup_alter_ne by congruence.
    + right. rewrite lookup_delete_eq. repeat split; auto.
      intros Heq. rewrite Heq in Hin. cbn in Hin.
      now rewrite Pos.eqb_refl in Hin.
  - injection H as <-. cbn [bfqd bics queues set_queues upd_queue].
    split; [reflexivity|]. split; [reflexivity|]. split.
    + intros k Hk. now rewrite lookup_alter_ne by congruence.
    + left. rewrite lookup_alter_eq, L. split; [reflexivity|exact Hnz].
Qed.

Lemma put_queue_oom st q st' :
  bfq_put_queue st q = Some st' -> oom_bfqq st' = oom_bfqq st.
Proof.
  unfold bfq_put_queue, BUG_ON.
  destruct (queues st !! q); [|discriminate].
  repeat match goal with
         | |- context [if ?c then _ else _] => destruct c
         end; try discriminate; now intros [= <-].
Qed.

(** X15. [bfq_put_queue] frees a queue only with its last reference, and
    only a queue that has no request queued or allocated, is not busy and
    is not in service; in any other case in which it returns, the queue
    is still there with one reference less.  It touches no other queue of
    the store, no I/O context and no field of the device but the burst
    list: a sync queue that is freed while hashed on the burst list is
    unlinked from it, no other queue is, and the burst size is kept. *)
Theorem bfq_put_queue_frees_only_idle st bu q st' bu' :
  bfq_put_queue_burst st bu q = Some (st', bu') ->
  exists bfqq,
    queues st !! q = Some bfqq
    /\ 0 < ref bfqq
    /\ bfqd st' = bfqd st /\ bics st' = bics st
    /\ (forall k, k <> q -> queues st' !! k = queues st !! k)
    /\ (forall k, k <> q -> In k (burst_list bu') <-> In k (burst_list bu))
    /\ set_burst_list (burst_list bu) bu' = bu
    /\ (queues st' !! q = Some (set_ref (Int.s32 (ref bfqq - 1)) bfqq)
        /\ Int.s32 (ref bfqq - 1) <> 0
        /\ bu' = bu
        \/ queues st' !! q = None
           /\ Int.s32 (ref bfqq - 1) = 0
           /\ sort_list bfqq = []
           /\ Int.s32 (fst (allocated bfqq) + snd (allocated bfqq)) = 0
           /\ bfq_bfqq_busy bfqq = false
           /\ in_service_queue (bfqd st) <> Some q
           /\ (if bfq_bfqq_sync bfqq && burst_list_node bfqq
               then ~ In q (burst_list bu')
               else bu' = bu)).
Proof.
  unfold bfq_put_queue_burst. intros H.
  destruct (queues st !! q) as [bfqq|] eqn:L; [|discriminate].
  cbn [mbind option_bind] in H.
  destruct (bfq_put_queue st q) as [s1|] eqn:Hput; [|discriminate].
  cbn [mbind option_bind] in H. injection H as <- <-.
  destruct (put_queue_result st q s1 Hput)
    as (b & Lb & Hpos & Hd & Hb & Hfr & Hcase).
  rewrite L in Lb. injection Lb as <-.
  exists bfqq. split; [reflexivity|]. split; [exact Hpos|].
  split; [exact Hd|]. split; [exact Hb|]. split; [exact Hfr|].
  assert (Hbu : set_burst_list (burst_list bu) bu = bu) by now destruct bu.
  destruct Hcase as [[Hq Hnz] | (Hq & Hz & Hs & Ha & Hbusy & Hin)].
  - replace (Int.s32 (ref bfqq - 1) =? 0) with false
      by (symmetry; now apply Z.eqb_neq).
    cbn [andb]. split; [tauto|]. split; [exact Hbu|]. left. now repeat split.
  - rewrite Hz. cbn [andb Z.eqb].
    destruct (bfq_bfqq_sync bfqq && burst_list_node bfqq).
    + cbn [burst_list set_burst_list]. split; [|split].
      * intros k Hk. rewrite filter_In. split; [tauto|].
        intros Hk'. split; [exact Hk'|].
        apply negb_true_iff, Pos.eqb_neq. exact Hk.
      * now destruct bu.
      * right. repeat split; auto.
        rewrite filter_In. intros [_ Hne].
        rewrite Pos.eqb_refl in Hne. discriminate.
    + split; [tauto|]. split; [exact Hbu|]. right. now repeat split.
Qed.

Lemma bfq_put_queue_frees_only_idle_witness :
  exists st' bu',
    bfq_put_queue_burst merge_state burst_of_two 2%positive = Some (st', bu')
    /\ ref <$> (queues st' !! 2%positive) = Some 1
    /\ bu' = burst_of_two.
Proof.
  eexists _, _. split; [reflexivity|].
  destruct (bfq_put_queue_frees_only_idle merge_state burst_of_two 2%positive
              _ _ eq_refl)
    as [bfqq [L [_ [_ [_ [_ [_ [_ Hq]]]]]]]].
  split; reflexivity.
Defined.

(** ** Bursts of queue activations *)

Lemma upd_queues_bfqd l f : forall st, bfqd (upd_queues l f st) = bfqd st.
Proof.
  unfold upd_queues. induction l as [|x l IH]; intros st; [reflexivity|].
  cbn [fold_left]. now rewrite IH.
Qed.

Lemma upd_queues_notin l f k : forall st,
  ~ In k l -> queues (upd_queues l f st) !! k = queues st !! k.
Proof.
  unfold upd_queues. induction l as [|x l IH]; intros st Hk; [reflexivity|].
  cbn [fold_left]. rewrite IH by (intros H; apply Hk; now right).
  cbn [upd_queue queues set_queues].
  apply lookup_alter_ne. intros ->. apply Hk. now left.
Qed.

Lemma upd_queues_in l f k : forall st,
  List.NoDup l -> In k l ->
  queues (upd_queues l f st) !! k = f <$> queues st !! k.
Proof.
  unfold upd_queues. induction l as [|x l IH]; intros st Hnd Hk; [easy|].
  inversion Hnd as [|? ? Hx Hnd']; subst. cbn [fold_left].
  destruct Hk as [->|Hk].
  - fold (upd_queues l f (upd_queue k f st)).
    rewrite upd_queues_notin by exact Hx.
    cbn [upd_queue queues set_queues]. apply lookup_alter_eq.
  - rewrite IH by assumption.
    cbn [upd_queue queues set_queues].
    rewrite lookup_alter_ne; [reflexivity|]. intros ->. contradiction.
Qed.

(** A field that [f] leaves alone is the same in every queue afterwards. *)
Lemma upd_queues_preserves {A} (P : bfq_queue -> A) l f k :
  (forall x, P (f x) = P x) ->
  forall st, P <$> queues (upd_queues l f st) !! k = P <$> queues st !! k.
Proof.
  intros HP. unfold upd_queues.
  induction l as [|x l IH]; intros st; [reflexivity|].
  cbn [fold_left]. rewrite IH. cbn [upd_queue queues set_queues].
  destruct (decide (x = k)) as [->|Hne].
  - rewrite lookup_alter_eq. destruct (queues st !! k); cbn; [|reflexivity].
    now rewrite HP.
  - now rewrite lookup_alter_ne.
Qed.

Lemma node_of_marked bfqq :
  burst_list_node (bfq_mark_bfqq BFQ_BFQQ_FLAG_in_large_burst bfqq)
  = burst_list_node bfqq.
Proof. reflexivity. Qed.

Section BurstFacts.

Variable msecs_to_jiffies : Z -> Z.

Local Abbreviation handle_burst := (bfq_handle_burst msecs_to_jiffies).

Lemma burst_inv_reset st bu q bfqq parent jiffies :
  burst_inv st bu -> queues st !! q = Some bfqq ->
  let r := bfq_reset_burst_list (upd_bfqd (set_large_burst false) st)
             bu q parent in
  burst_inv (fst r) (set_last_ins_in_burst jiffies (snd r)).
Proof.
  intros (Hnd & Hiff & Hsize & Hthr) L. cbn zeta.
  unfold bfq_reset_burst_list. cbn [fst snd].
  set (st1 := upd_queues (burst_list bu) (set_burst_list_node false)
                (upd_bfqd (set_large_burst false) st)).
  assert (Hother : forall k, k <> q ->
            forall b, queues st1 !! k = Some b -> burst_list_node b = false).
  { intros k Hk b Hb. subst st1.
    destruct (in_dec Pos.eq_dec k (burst_list bu)) as [Hin|Hnin].
    - rewrite upd_queues_in in Hb by assumption.
      cbn [upd_bfqd queues set_bfqd] in Hb.
      destruct (queues st !! k); [|discriminate]. now injection Hb as <-.
    - rewrite upd_queues_notin in Hb by assumption.
      cbn [upd_bfqd queues set_bfqd] in Hb.
      destruct (burst_list_node b) eqn:Hn; [|reflexivity].
      exfalso. apply Hnin. apply Hiff. eauto. }
  assert (Lq : exists b1, queues st1 !! q = Some b1).
  { subst st1.
    destruct (in_dec Pos.eq_dec q (burst_list bu)) as [Hin|Hnin].
    - rewrite upd_queues_in by assumption.
      cbn [upd_bfqd queues set_bfqd]. rewrite L. cbn. eauto.
    - rewrite upd_queues_notin by assumption.
      cbn [upd_bfqd queues set_bfqd]. eauto. }
  destruct Lq as [b1 Lq].
  split; [|split; [|split]].
  - cbn [burst_list set_last_ins_in_burst set_burst_parent_entity
           set_burst_size set_burst_list].
    constructor; [easy|constructor].
  - intros k.
    cbn [burst_list set_last_ins_in_burst set_burst_parent_entity
           set_burst_size set_burst_list upd_queue queues set_queues].
    split.
    + intros [<-|[]]. rewrite lookup_alter_eq, Lq. cbn. eauto.
    + intros [b [Hb Hn]].
      destruct (Pos.eq_dec k q) as [->|Hk]; [now left|].
      rewrite lookup_alter_ne in Hb by congruence.
      rewrite (Hother k Hk b Hb) in Hn. discriminate.
  - intros _.
    cbn [burst_size bfq_large_burst_thresh set_last_ins_in_burst
           set_burst_parent_entity set_burst_size set_burst_list]. lia.
  - exact Hthr.
Qed.

(** X16. [bfq_handle_burst] keeps the burst list and the queues
    consistent and never trips its check: if the queues hashed on the
    burst list are exactly the distinct members of the list and the
    burst size is below the threshold while no large burst is flagged,
    then the call returns and the same holds afterwards. *)
Theorem bfq_handle_burst_keeps_inv st bu q parent jiffies :
  burst_inv st bu ->
  is_Some (queues st !! q) ->
  exists st' bu',
    handle_burst st bu q parent jiffies = Some (st', bu')
    /\ burst_inv st' bu'.
Proof.
  intros Hinv [bfqq L]. pose proof Hinv as (Hnd & Hiff & Hsize & Hthr).
  unfold bfq_handle_burst. rewrite L. cbn [mbind option_bind].
  destruct (burst_list_node bfqq) eqn:Hnode; cbn [orb];
    [eexists _, _; split; [reflexivity|exact Hinv]|].
  destruct (bfq_bfqq_in_large_burst bfqq) eqn:Hlb; cbn [orb];
    [eexists _, _; split; [reflexivity|exact Hinv]|].
  destruct (Int.time_after_eq _ jiffies);
    [eexists _, _; split; [reflexivity|exact Hinv]|].
  assert (Hq : ~ In q (burst_list bu)).
  { intros Hin. apply Hiff in Hin as [b [Hb Hn]].
    rewrite L in Hb. injection Hb as <-. congruence. }
  destruct (_ || _).
  { pose proof (burst_inv_reset st bu q bfqq parent jiffies Hinv L) as Hr.
    cbn zeta in Hr.
    destruct (bfq_reset_burst_list _ bu q parent) as [st1 bu1].
    cbn [mbind option_bind]. eexists _, _. split; [reflexivity|exact Hr]. }
  destruct (large_burst (bfqd st)) eqn:Hlarge.
  { cbn [mbind option_bind]. eexists _, _. split; [reflexivity|].
    split; [exact Hnd|]. split; [|split; [|exact Hthr]].
    - intros k. rewrite Hiff.
      cbn [upd_queue queues set_queues burst_list set_last_ins_in_burst].
      destruct (Pos.eq_dec k q) as [->|Hk].
      + rewrite lookup_alter_eq, L. cbn.
        split; intros [b [Hb Hn]]; injection Hb as <-; eauto.
      + now rewrite lookup_alter_ne by congruence.
    - cbn [upd_queue bfqd set_queues]. congruence. }
  specialize (Hsize eq_refl).
  unfold bfq_add_to_burst, BUG_ON.
  cbn [burst_size set_burst_size bfq_large_burst_thresh burst_list].
  rewrite IntFacts.s32_small by lia.
  destruct (Z.ltb_spec (bfq_large_burst_thresh bu) (burst_size bu + 1)); [lia|].
  destruct (Z.eqb_spec (burst_size bu + 1) (bfq_large_burst_thresh bu)).
  - cbn [mbind option_bind]. eexists _, _. split; [reflexivity|].
    split; [constructor|]. split; [|split; [|exact Hthr]].
    + intros k. cbn [burst_list set_last_ins_in_burst set_burst_list].
      split; [easy|]. intros [b [Hb Hn]]. exfalso.
      destruct (in_dec Pos.eq_dec k (burst_list bu)) as [Hin|Hnin].
      * rewrite upd_queues_in in Hb by assumption.
        destruct (queues _ !! k); [|discriminate].
        injection Hb as <-. discriminate.
      * rewrite upd_queues_notin in Hb by assumption.
        assert (Hn' : burst_list_node <$> queues st !! k = Some true).
        { transitivity (burst_list_node <$> Some b); [|cbn; now rewrite Hn].
          rewrite <- Hb. cbn [upd_queue queues set_queues].
          assert (Hp : burst_list_node
                         <$> queues
                               (upd_queues (burst_list bu)
                                  (bfq_mark_bfqq BFQ_BFQQ_FLAG_in_large_burst)
                                  (upd_bfqd (set_large_burst true) st)) !! k
                       = burst_list_node <$> queues st !! k)
            by exact (upd_queues_preserves burst_list_node (burst_list bu)
                        (bfq_mark_bfqq BFQ_BFQQ_FLAG_in_large_burst) k
                        node_of_marked (upd_bfqd (set_large_burst true) st)).
          rewrite <- Hp.
          destruct (Pos.eq_dec k q) as [->|Hk].
          - rewrite lookup_alter_eq.
            destruct (queues (upd_queues _ _ _) !! q); reflexivity.
          - now rewrite lookup_alter_ne by congruence. }
        destruct (queues st !! k) as [b0|] eqn:Lk; [|discriminate].
        injection Hn' as Hn'. apply Hnin. apply Hiff. eauto.
    + rewrite upd_queues_bfqd. cbn [upd_queue bfqd set_queues].
      rewrite upd_queues_bfqd. cbn. discriminate.
  - cbn [mbind option_bind]. eexists _, _. split; [reflexivity|].
    split; [|split; [|split; [|exact Hthr]]].
    + cbn [burst_list set_last_ins_in_burst set_burst_list].
      constructor; assumption.
    + intros k.
      cbn [burst_list set_last_ins_in_burst set_burst_list upd_queue queues
             set_queues].
      destruct (Pos.eq_dec k q) as [->|Hk].
      * rewrite lookup_alter_eq, L. cbn. split; [eauto|now left].
      * rewrite lookup_alter_ne by congruence. rewrite <- Hiff.
        split; [intros [|]; [congruence|assumption]|now right].
    + intros _.
      cbn [burst_size bfq_large_burst_thresh set_last_ins_in_burst
             set_burst_list set_burst_size]. lia.
Qed.


Lemma upd_queues_is_Some l f k st :
  is_Some (queues st !! k) -> is_Some (queues (upd_queues l f st) !! k).
Proof.
  intros [b Hb].
  pose proof (upd_queues_preserves (fun _ => tt) l f k (fun _ => eq_refl) st)
    as H.
  rewrite Hb in H. destruct (queues (upd_queues l f st) !! k); [eauto|].
  discriminate.
Qed.

Lemma handle_burst_marks st bu q parent jiffies bfqq st1 bu1 :
  queues st !! q = Some bfqq ->
  Int.time_after_eq
    (Int.u64 (split_time bfqq + msecs_to_jiffies 10)) jiffies = false ->
  handle_burst st bu q parent jiffies = Some (st1, bu1) ->
  exists b1,
    queues st1 !! q = Some b1
    /\ burst_list_node b1 || bfq_bfqq_in_large_burst b1 = true.
Proof.
  intros L Hsplit. unfold bfq_handle_burst. rewrite L.
  cbn [mbind option_bind]. rewrite Hsplit.
  destruct (burst_list_node bfqq) eqn:Hnode; cbn [orb].
  { intros [= <- <-]. exists bfqq. now rewrite L, Hnode. }
  destruct (bfq_bfqq_in_large_burst bfqq) eqn:Hlb; cbn [orb].
  { intros [= <- <-]. exists bfqq. now rewrite L, Hnode, Hlb. }
  destruct (_ || _).
  { unfold bfq_reset_burst_list. cbn [mbind option_bind].
    intros [= <- <-]. cbn [upd_queue queues set_queues].
    rewrite lookup_alter_eq.
    destruct (upd_queues_is_Some (burst_list bu) (set_burst_list_node false) q
                (upd_bfqd (set_large_burst false) st)) as [b Hb];
      [cbn [upd_bfqd queues set_bfqd]; eauto|].
    rewrite Hb. cbn. eauto. }
  destruct (large_burst (bfqd st)).
  { cbn [mbind option_bind]. intros [= <- <-].
    cbn [upd_queue queues set_queues]. rewrite lookup_alter_eq, L. cbn [fmap option_fmap option_map].
    eexists. split; [reflexivity|].
    unfold bfq_bfqq_in_large_burst. rewrite flag_mark_same.
    apply orb_true_r. }
  unfold bfq_add_to_burst, BUG_ON.
  destruct (_ <? _); [discriminate|].
  destruct (_ =? _); cbn [mbind option_bind]; intros [= <- <-].
  - set (st2 := upd_queue q (bfq_mark_bfqq BFQ_BFQQ_FLAG_in_large_burst) _).
    assert (H2 : exists b2, queues st2 !! q = Some b2
                            /\ bfq_bfqq_in_large_burst b2 = true).
    { subst st2. cbn [upd_queue queues set_queues]. rewrite lookup_alter_eq.
      match goal with
      | |- context [queues (upd_queues ?l ?f ?s) !! q] =>
          destruct (upd_queues_is_Some l f q s) as [b Hb];
          [cbn [upd_bfqd queues set_bfqd]; eauto|rewrite Hb]
      end.
      cbn [fmap option_fmap option_map]. eexists. split; [reflexivity|].
      unfold bfq_bfqq_in_large_burst. apply flag_mark_same. }
    destruct H2 as [b2 [L2 F2]].
    match goal with
    | |- context [queues (upd_queues ?l ?f st2) !! q] =>
        pose proof (upd_queues_preserves bfq_bfqq_in_large_burst l f q
                      (fun _ => eq_refl) st2) as Hp;
        destruct (upd_queues_is_Some l f q st2) as [b3 L3]; [eauto|]
    end.
    rewrite L3, L2 in Hp. cbn [fmap option_fmap option_map] in Hp.
    injection Hp as Hp.
    exists b3. split; [exact L3|]. rewrite Hp, F2. apply orb_true_r.
  - cbn [upd_queue queues set_queues]. rewrite lookup_alter_eq, L. cbn [fmap option_fmap option_map].
    eexists. split; reflexivity.
Qed.

(** X17. A queue is counted in a burst once: after [bfq_handle_burst]
    has handled a queue that was not just split off a shared queue, a
    further call for the same queue changes nothing, whenever it comes
    and whatever the parent group is by then. *)
Theorem bfq_handle_burst_once st bu q parent jiffies bfqq st1 bu1
    parent' jiffies' :
  queues st !! q = Some bfqq ->
  Int.time_after_eq
    (Int.u64 (split_time bfqq + msecs_to_jiffies 10)) jiffies = false ->
  handle_burst st bu q parent jiffies = Some (st1, bu1) ->
  handle_burst st1 bu1 q parent' jiffies' = Some (st1, bu1).
Proof.
  intros L Hsplit Hrun.
  destruct (handle_burst_marks _ _ _ _ _ _ _ _ L Hsplit Hrun) as [b1 [L1 Hm]].
  unfold bfq_handle_burst. rewrite L1. cbn [mbind option_bind].
  now rewrite Hm.
Qed.

(** X18. The activation that brings the burst size to the threshold
    turns the burst into a large one: the device is flagged, every queue
    that was on the burst list and the queue being activated are marked
    as belonging to a large burst, and the list is emptied with every
    node unhashed. *)
Theorem large_burst_flags_all st bu q parent jiffies bfqq :
  burst_inv st bu ->
  queues st !! q = Some bfqq ->
  burst_candidate msecs_to_jiffies bfqq jiffies ->
  Int.time_after jiffies
    (Int.u64 (last_ins_in_burst bu + bfq_burst_interval bu)) = false ->
  option_positive_eqb parent (burst_parent_entity bu) = true ->
  large_burst (bfqd st) = false ->
  burst_size bu + 1 = bfq_large_burst_thresh bu ->
  exists st' bu',
    handle_burst st bu q parent jiffies = Some (st', bu')
    /\ large_burst (bfqd st') = true
    /\ burst_list bu' = []
    /\ forall k, k = q \/ In k (burst_list bu) ->
       exists b, queues st' !! k = Some b
                 /\ bfq_bfqq_in_large_burst b = true
                 /\ burst_list_node b = false.
Proof.
  intros (Hnd & Hiff & Hsize & Hthr) L (Hnode & Hlb & Hsplit) Hlate Hpar
    Hlarge Hfull.
  specialize (Hsize Hlarge).
  assert (Hq : ~ In q (burst_list bu)).
  { intros Hin. apply Hiff in Hin as [b [Hb Hn]].
    rewrite L in Hb. injection Hb as <-. congruence. }
  unfold bfq_handle_burst. rewrite L. cbn [mbind option_bind].
  rewrite Hnode, Hlb, Hsplit, Hlate, Hpar, Hlarge.
  cbn [mbind option_bind orb negb].
  unfold bfq_add_to_burst, BUG_ON.
  cbn [burst_size set_burst_size bfq_large_burst_thresh burst_list].
  rewrite IntFacts.s32_small by lia.
  destruct (Z.ltb_spec (bfq_large_burst_thresh bu) (burst_size bu + 1)); [lia|].
  destruct (Z.eqb_spec (burst_size bu + 1) (bfq_large_burst_thresh bu));
    [|contradiction].
  cbn [mbind option_bind]. eexists _, _. split; [reflexivity|].
  split; [|split; [reflexivity|]].
  { rewrite upd_queues_bfqd. cbn [upd_queue bfqd set_queues].
    now rewrite upd_queues_bfqd. }
  intros k Hk.
  destruct (in_dec Pos.eq_dec k (burst_list bu)) as [Hin|Hnin].
  - rewrite upd_queues_in by assumption.
    cbn [upd_queue queues set_queues].
    rewrite lookup_alter_ne by (intros ->; contradiction).
    rewrite upd_queues_in by assumption.
    cbn [upd_bfqd queues set_bfqd].
    apply Hiff in Hin as [b0 [Lk _]]. rewrite Lk.
    cbn [fmap option_fmap option_map].
    eexists. split; [reflexivity|]. split; [|reflexivity].
    apply (flag_mark_same BFQ_BFQQ_FLAG_in_large_burst).
  - destruct Hk as [->|Hk]; [|contradiction].
    rewrite upd_queues_notin by assumption.
    cbn [upd_queue queues set_queues]. rewrite lookup_alter_eq.
    rewrite upd_queues_notin by assumption.
    cbn [upd_bfqd queues set_bfqd]. rewrite L.
    cbn [fmap option_fmap option_map].
    eexists. split; [reflexivity|]. split; [|exact Hnode].
    apply (flag_mark_same BFQ_BFQQ_FLAG_in_large_burst).
Qed.

End BurstFacts.

Lemma burst_state_inv : burst_inv burst_state burst_of_two.
Proof.
  split; [|split; [|split]].
  - repeat constructor; cbn; intuition discriminate.
  - intros k. cbn [burst_of_two burst_list burst_state queues]. split.
    + intros [<-|[<-|[]]]; eexists; split; reflexivity.
    + intros [b [Hb Hn]].
      rewrite !lookup_insert_Some, lookup_empty in Hb.
      destruct Hb as [[<- _]|[_ [[<- _]|[_ [[_ <-]|[_ Hb]]]]]];
        [now right; left | now left | discriminate | discriminate].
  - intros _. cbn. lia.
  - cbn. lia.
Qed.

Lemma bfq_handle_burst_keeps_inv_witness :
  exists st' bu',
    bfq_handle_burst msecs_to_jiffies_250 burst_state burst_of_two 3%positive
      None 1000 = Some (st', bu')
    /\ burst_inv st' bu'.
Proof.
  apply bfq_handle_burst_keeps_inv.
  - exact burst_state_inv.
  - vm_compute. eauto.
Defined.

Lemma bfq_handle_burst_once_witness :
  exists st1 bu1,
    bfq_handle_burst msecs_to_jiffies_250 burst_state burst_of_two 3%positive
      None 1000 = Some (st1, bu1)
    /\ bfq_handle_burst msecs_to_jiffies_250 st1 bu1 3%positive None 1001
       = Some (st1, bu1).
Proof.
  eexists _, _. split; [reflexivity|].
  apply (bfq_handle_burst_once msecs_to_jiffies_250 burst_state burst_of_two
           3%positive None 1000 sync_queue); reflexivity.
Defined.

Lemma large_burst_flags_all_witness :
  exists st' bu',
    bfq_handle_burst msecs_to_jiffies_250 burst_state burst_of_two 3%positive
      None 1000 = Some (st', bu')
    /\ large_burst (bfqd st') = true
    /\ burst_list bu' = [].
Proof.
  destruct (large_burst_flags_all msecs_to_jiffies_250 burst_state burst_of_two
              3%positive None 1000 sync_queue)
    as [st' [bu' [Hrun [Hl [He _]]]]].
  - exact burst_state_inv.
  - reflexivity.
  - repeat split.
  - reflexivity.
  - reflexivity.
  - reflexivity.
  - reflexivity.
  - exists st', bu'. split; [exact Hrun|]. split; [exact Hl|exact He].
Defined.

(** ** Selection and dispatch *)

Section SelectionFacts.

Variable CONFIG_BFQ_GROUP_IOSCHED : bool.
Variable jiffies_to_msecs : Z -> Z.
Variable T_slow T_fast : bool -> Z.
Variable HZ : Z.
Variable nsecs_to_jiffies : Z -> Z.
Variable rq_is_sync : request -> bool.
Variable rq_is_meta : request -> bool.
Variable RQ_BIC : request -> bicid.
Variable bfq_bfqq_charge_time : bfq_state -> qid -> Z -> bfq_state.
Variable __bfq_bfqd_reset_in_service : bfq_state -> bfq_state.
Variable bfq_del_bfqq_busy : bfq_state -> qid -> bfq_state.
Variable bfq_activate_bfqq : bfq_state -> qid -> bfq_state.
Variable __bfq_entity_update_weight_prio : bfq_state -> qid -> bfq_state.

Local Abbreviation select_queue := (bfq_select_queue CONFIG_BFQ_GROUP_IOSCHED).
(** The device data of a state; [bfqd] is the name of a binder below. *)
Local Abbreviation device_of := (bfqd).

Lemma select_keep_next_rq bfqd bfqq timer_active jiffies b cancelled :
  select_queue bfqd bfqq timer_active jiffies = Some (b, Select_keep cancelled) ->
  exists rq,
    next_rq bfqq = Some rq
    /\ (Int.u64 (bfq_bfqq_budget_left bfqq) <? bfq_serv_to_charge rq bfqq bfqd)
       = false
    /\ (b = bfqq \/ b = bfq_clear_bfqq BFQ_BFQQ_FLAG_wait_request bfqq).
Proof.
  unfold bfq_select_queue, BUG_ON.
  destruct (_ && _); [discriminate|].
  destruct (next_rq bfqq) as [rq|].
  - destruct (Int.u64 _ <? _) eqn:Hfit; [discriminate|].
    destruct (bfq_bfqq_wait_request bfqq).
    + destruct (negb timer_active); [discriminate|].
      intros [= <- _]. exists rq. auto.
    + intros [= <- _]. exists rq. auto.
  - destruct (_ || _); discriminate.
Qed.

(** X19. A queue that [bfq_select_queue] keeps in service can be served:
    its next request fits the budget left.  So, unless a request whose
    FIFO deadline has expired takes precedence, the head of the dispatch
    that follows ([dispatch_charge]: the choice of the request, the
    budget test and the charge) picks exactly that request and charges
    it: the service grows by the charge, the budget is not written and
    the service stays within the budget.  A call of
    [bfq_dispatch_request] on that queue that returns has therefore
    dispatched one request; whether it has also expired the queue is
    decided after the request has been dispatched. *)
Theorem select_keep_then_dispatch bfqd bfqq timer_active jiffies b cancelled
    jiffies' :
  select_queue bfqd bfqq timer_active jiffies = Some (b, Select_keep cancelled) ->
  budget_inv bfqq ->
  budget (entity bfqq) < 2 ^ 31 ->
  sort_list bfqq <> [] ->
  (forall rq, next_rq bfqq = Some rq -> request_wf rq) ->
  snd (bfq_check_fifo b jiffies') = None ->
  exists rq b',
    next_rq bfqq = Some rq
    /\ dispatch_charge bfqd b jiffies' = Some (b', rq, true)
    /\ service (entity b')
       = service (entity bfqq) + bfq_serv_to_charge rq bfqq bfqd
    /\ budget (entity b') = budget (entity bfqq)
    /\ budget_inv b'
    /\ forall st q env st' n calls,
         queues st !! q = Some b ->
         device_of st = bfqd ->
         env_jiffies env = jiffies' ->
         bfq_dispatch_request jiffies_to_msecs T_slow T_fast HZ
           nsecs_to_jiffies rq_is_sync rq_is_meta RQ_BIC
           bfq_bfqq_charge_time __bfq_bfqd_reset_in_service
           bfq_del_bfqq_busy bfq_activate_bfqq
           __bfq_entity_update_weight_prio st q env = Some (st', n, calls) ->
         n = 1.
Proof.
  intros Hsel Hinv Hrange Hsort Hwf Hfifo.
  cut (exists rq b',
          next_rq bfqq = Some rq
          /\ dispatch_charge bfqd b jiffies' = Some (b', rq, true)
          /\ service (entity b')
             = service (entity bfqq) + bfq_serv_to_charge rq bfqq bfqd
          /\ budget (entity b') = budget (entity bfqq)
          /\ budget_inv b').
  { intros (rq & b' & Hn & Hd & Hs & Hb & Hi).
    exists rq, b'. repeat (split; [assumption|]).
    intros st q env st' n calls Hq Hdev Hj Hrun.
    unfold bfq_dispatch_request in Hrun.
    rewrite Hq, Hdev, Hj in Hrun. cbn [mbind option_bind] in Hrun.
    rewrite Hd in Hrun. cbn [mbind option_bind negb] in Hrun.
    cbv zeta in Hrun.
    repeat match type of Hrun with
           | (?m ≫= _) = Some _ =>
               apply bind_some in Hrun as (? & _ & Hrun)
           end.
    match type of Hrun with
    | (if ?c then _ else _) = _ => destruct c
    end.
    - apply bind_some in Hrun as (? & _ & Hrun). now injection Hrun.
    - now injection Hrun. }
  destruct (select_keep_next_rq _ _ _ _ _ _ Hsel) as [rq [Hnext [Hfit Hb]]].
  specialize (Hwf rq Hnext).
  pose proof (serv_to_charge_bound rq bfqq bfqd Hwf) as Hc.
  rewrite (budget_left_exact bfqq Hinv Hrange) in Hfit.
  unfold budget_inv in Hinv.
  rewrite IntFacts.u64_small in Hfit by lia. apply Z.ltb_ge in Hfit.
  assert (Hsame : entity b = entity bfqq /\ next_rq b = next_rq bfqq
                  /\ sort_list b = sort_list bfqq
                  /\ bfq_serv_to_charge rq b bfqd
                     = bfq_serv_to_charge rq bfqq bfqd).
  { destruct Hb as [->| ->]; [now repeat split|].
    repeat split.
    apply (serv_to_charge_flag_independent rq bfqq bfqd
             BFQ_BFQQ_FLAG_wait_request false). discriminate. }
  destruct Hsame as (He & Hn & Hs & Hch).
  pose proof (bfq_check_fifo_props b jiffies') as (Hent & Hnx & _).
  pose proof (check_fifo_charge rq b bfqd jiffies') as (Hch1 & _).
  unfold dispatch_charge.
  destruct (sort_list b) as [|s l] eqn:Hsb; [congruence|].
  unfold BUG_ON at 1. cbv beta iota.
  destruct (bfq_check_fifo b jiffies') as [b1 fr]. cbn [fst snd] in *.
  subst fr. rewrite Hnx, Hn, Hnext.
  unfold bfq_bfqq_budget_left. rewrite Hent, He, Hch1, Hch.
  rewrite (IntFacts.s32_small (budget (entity bfqq) - service (entity bfqq)))
    by lia.
  rewrite IntFacts.u64_small by lia.
  destruct (Z.ltb_spec (budget (entity bfqq) - service (entity bfqq))
              (bfq_serv_to_charge rq bfqq bfqd)); [lia|].
  unfold BUG_ON at 1.
  destruct (Z.ltb_spec (budget (entity bfqq)) (service (entity bfqq))); [lia|].
  unfold bfq_bfqq_served, on_entity, BUG_ON.
  cbn [entity set_entity budget service set_service].
  rewrite Hent, He.
  rewrite (IntFacts.s32_small (bfq_serv_to_charge rq bfqq bfqd)) by lia.
  rewrite (IntFacts.s32_small (service (entity bfqq) + _)) by lia.
  destruct (Z.ltb_spec (budget (entity bfqq))
              (service (entity bfqq) + bfq_serv_to_charge rq bfqq bfqd)); [lia|].
  eexists rq, _. split; [reflexivity|]. split; [reflexivity|].
  unfold budget_inv.
  cbn [entity set_entity budget service set_service].
  repeat split; lia.
Qed.

End SelectionFacts.

Section SoftRealTimeFacts.

Variable HZ : Z.
Variable nsecs_to_jiffies : Z -> Z.

(** X20. The instant from which a queue may be deemed soft real-time is
    never closer than the idle slice plus four jiffies: whatever service
    the queue received, [bfq_bfqq_softrt_next_start] returns a time at
    least [nsecs_to_jiffies(bfq_slice_idle) + 4] jiffies ahead. *)
Theorem softrt_next_start_in_future bfqd bfqq jiffies :
  bfq_wr_max_softrt_rate bfqd <> 0 ->
  0 <= jiffies ->
  0 <= nsecs_to_jiffies (bfq_slice_idle bfqd) ->
  jiffies + nsecs_to_jiffies (bfq_slice_idle bfqd) + 4 < 2 ^ 64 ->
  exists t,
    bfq_bfqq_softrt_next_start HZ nsecs_to_jiffies bfqd bfqq jiffies = Some t
    /\ jiffies + nsecs_to_jiffies (bfq_slice_idle bfqd) + 4 <= t.
Proof.
  intros Hrate Hj Hn Hmax. unfold bfq_bfqq_softrt_next_start, BUG_ON.
  destruct (Z.eqb_spec (bfq_wr_max_softrt_rate bfqd) 0); [contradiction|].
  eexists. split; [reflexivity|].
  rewrite (IntFacts.u64_small (jiffies + _)) by lia.
  rewrite (IntFacts.u64_small (jiffies + _ + 4)) by lia.
  lia.
Qed.

End SoftRealTimeFacts.

Lemma select_keep_then_dispatch_witness :
  exists b',
    dispatch_charge (tuned_device true) kept_queue 11
    = Some (b', rq_4k, true)
    /\ service (entity b') = 8.
Proof.
  destruct (select_keep_then_dispatch false (fun x => x) (fun _ => 0)
              (fun _ => 0) 250 (fun ns => ns / 4000000) (fun _ => true)
              (fun _ => false) (fun _ => 1%positive) charge_whole_budget
              reset_in_service del_busy_counts activate_untracked
              activate_untracked (tuned_device true) kept_queue false
              10 kept_queue false 11) as (rq & b' & Hn & Hd & Hs & _).
  - reflexivity.
  - vm_compute. split; discriminate.
  - reflexivity.
  - discriminate.
  - intros rq [= <-]. vm_compute. repeat split; discriminate.
  - reflexivity.
  - injection Hn as <-. exists b'. split; [exact Hd | exact Hs].
Defined.

Lemma softrt_next_start_in_future_witness :
  exists t,
    bfq_bfqq_softrt_next_start 250 (fun ns => ns / 4000000) (tuned_device true)
      sync_queue 1000 = Some t
    /\ 1006 <= t.
Proof.
  destruct (softrt_next_start_in_future 250 (fun ns => ns / 4000000)
              (tuned_device true) sync_queue 1000) as [t [Ht Hb]].
  - discriminate.
  - lia.
  - vm_compute. discriminate.
  - vm_compute. reflexivity.
  - exists t. split; [exact Ht|exact Hb].
Defined.

(** ** Queue creation *)

Lemma s64_congr x y : Int.u64 x = Int.u64 y -> Int.s64 x = Int.s64 y.
Proof. unfold Int.s64. now intros ->. Qed.

Lemma init_bfqq_fields bfqd bfqq bic pid is_sync jiffies b :
  bfq_init_bfqq bfqd bfqq bic pid is_sync jiffies = Some b ->
  budget_timeout b = bfq_smallest_from_now jiffies
  /\ split_time b = bfq_smallest_from_now jiffies
  /\ soft_rt_next_start b = bfq_greatest_from_now jiffies
  /\ wr_coeff b = 1
  /\ seek_history b = 1
  /\ dispatched b = dispatched bfqq
  /\ burst_list_node b = false
  /\ bfq_bfqq_sync b = is_sync.
Proof.
  unfold bfq_init_bfqq.
  set (b0 := set_ref 0 (set_burst_list_node false bfqq)).
  assert (Hio : forall c x, bfq_set_next_ioprio_data b0 c = Some x ->
                            dispatched x = dispatched bfqq).
  { intros c x. unfold bfq_set_next_ioprio_data, BUG_ON.
    repeat match goal with
           | |- context [if ?c then _ else _] => destruct c
           end; try discriminate; now intros [= <-]. }
  destruct (match bic with
            | Some c => bfq_set_next_ioprio_data b0 c
            | None => Some b0
            end) as [b1|] eqn:H1; [|discriminate].
  assert (Hd : dispatched b1 = dispatched bfqq).
  { destruct bic as [c|]; [eapply Hio; eauto|]. now injection H1 as <-. }
  intros [= <-].
  cbn [budget_timeout split_time soft_rt_next_start wr_coeff seek_history
       dispatched burst_list_node set_seek_history set_soft_rt_next_start
       set_split_time set_budget_timeout set_last_wr_start_finish set_wr_coeff
       set_pid set_max_budget].
  repeat split; auto.
  - destruct is_sync; [destruct (negb (bfq_class_idle b1))|]; exact Hd.
  - destruct is_sync; [destruct (negb (bfq_class_idle b1))|];
      cbn [burst_list_node bfq_mark_bfqq bfq_clear_bfqq set_flags];
      destruct bic as [c|]; try (now injection H1 as <-);
      revert H1; unfold bfq_set_next_ioprio_data, BUG_ON;
      repeat match goal with
             | |- context [if ?c then _ else _] => destruct c
             end; try discriminate; now intros [= <-].
  - unfold bfq_bfqq_sync.
    replace (bfq_bfqq_flag BFQ_BFQQ_FLAG_sync _)
      with (bfq_bfqq_flag BFQ_BFQQ_FLAG_sync
              (bfq_mark_bfqq BFQ_BFQQ_FLAG_IO_bound
                 (if is_sync
                  then bfq_mark_bfqq BFQ_BFQQ_FLAG_just_created
                         (bfq_mark_bfqq BFQ_BFQQ_FLAG_sync
                            (if negb (bfq_class_idle b1)
                             then bfq_mark_bfqq BFQ_BFQQ_FLAG_idle_window b1
                             else b1))
                  else bfq_clear_bfqq BFQ_BFQQ_FLAG_sync b1)))
      by reflexivity.
    rewrite flag_mark_other by discriminate.
    destruct is_sync.
    + rewrite flag_mark_other by discriminate. apply flag_mark_same.
    + apply flag_clear_same.
Qed.

(** X21. A queue just created counts as idle for a long time, hence as
    interactive when its first request arrives, at any moment of the next
    2^61 jiffies; it is not seeky, its weight is not raised yet, and it
    cannot be taken for a soft real-time queue before its first
    expiration computes a start time. *)
Theorem fresh_queue_is_interactive bfqd bfqq bic pid is_sync jiffies b now :
  bfq_init_bfqq bfqd bfqq bic pid is_sync jiffies = Some b ->
  dispatched bfqq = 0 ->
  0 <= jiffies < 2 ^ 64 ->
  jiffies <= now < jiffies + 2 ^ 61 ->
  0 <= bfq_wr_min_idle_time bfqd < 2 ^ 32 ->
  bfq_bfqq_idle_for_long_time bfqd b now = true
  /\ Int.time_after now (soft_rt_next_start b) = false
  /\ wr_coeff b = 1
  /\ BFQQ_SEEKY b = false.
Proof.
  intros Hinit Hdisp Hj Hnow Hidle.
  destruct (init_bfqq_fields _ _ _ _ _ _ _ Hinit)
    as (Hbt & _ & Hsoft & Hwr & Hseek & Hd & _).
  assert (HM : MAX_JIFFY_OFFSET = 2 ^ 62 - 2) by reflexivity.
  split; [|split; [|split]].
  - unfold bfq_bfqq_idle_for_long_time. rewrite Hd, Hdisp, Hbt.
    cbn [andb Z.eqb]. unfold Int.time_after, bfq_smallest_from_now.
    apply Z.ltb_lt.
    rewrite (s64_congr _ (jiffies - MAX_JIFFY_OFFSET
                          + bfq_wr_min_idle_time bfqd - now)).
    + rewrite IntFacts.s64_small; lia.
    + unfold Int.u64. rewrite Zminus_mod_idemp_l.
      rewrite <- Z.add_sub_assoc, Zplus_mod_idemp_l.
      f_equal. lia.
  - rewrite Hsoft. unfold Int.time_after, bfq_greatest_from_now.
    apply Z.ltb_ge.
    rewrite (s64_congr _ (jiffies + MAX_JIFFY_OFFSET - now)).
    + rewrite IntFacts.s64_small; lia.
    + unfold Int.u64. now rewrite Zminus_mod_idemp_l.
  - exact Hwr.
  - unfold BFQQ_SEEKY. now rewrite Hseek.
Qed.

Lemma fresh_queue_is_interactive_witness :
  exists b,
    bfq_init_bfqq (tuned_device true) bfq_queue_zero None 42 true 5000 = Some b
    /\ bfq_bfqq_idle_for_long_time (tuned_device true) b 5001 = true.
Proof.
  eexists. split; [reflexivity|].
  eapply (fresh_queue_is_interactive (tuned_device true) bfq_queue_zero None 42
            true 5000 _ 5001).
  - reflexivity.
  - reflexivity.
  - lia.
  - lia.
  - vm_compute. split; [discriminate|reflexivity].
Defined.

(** ** Tunables written through sysfs *)

(** X22. What is written to [slice_idle] is read back: a number of
    milliseconds up to 4294, the largest whose nanoseconds fit the 32-bit
    field, is shown again as written, and as a thousand times as many
    microseconds by [slice_idle_us]. *)
Theorem slice_idle_store_show bfqd garbage v :
  0 <= v <= 4294 ->
  bfq_slice_idle_show (bfq_slice_idle_store bfqd garbage (Some v)) = v
  /\ bfq_slice_idle_us_show (bfq_slice_idle_store bfqd garbage (Some v))
     = 1000 * v.
Proof.
  intros Hv.
  unfold bfq_slice_idle_show, bfq_slice_idle_us_show, bfq_slice_idle_store,
    bfq_var_store, store_clamp, INT_MAX, NSEC_PER_MSEC, NSEC_PER_USEC.
  cbn [bfq_slice_idle set_bfq_slice_idle].
  destruct (Z.ltb_spec v 0); [lia|].
  destruct (Z.ltb_spec (2 ^ 31 - 1) v); [lia|].
  rewrite (IntFacts.u64_small (v * 1000000)) by lia.
  rewrite (IntFacts.u32_small (v * 1000000)) by lia.
  rewrite (IntFacts.u64_small (v * 1000000)) by lia.
  rewrite Z.div_mul by lia.
  replace (v * 1000000) with (1000 * v * 1000) by lia.
  rewrite Z.div_mul by lia.
  rewrite !IntFacts.s32_small by lia. split; reflexivity.
Qed.

Lemma slice_idle_store_show_witness :
  bfq_slice_idle_show (bfq_slice_idle_store bfq_data_zero 7 (Some 8)) = 8
  /\ bfq_slice_idle_us_show (bfq_slice_idle_store bfq_data_zero 7 (Some 8))
     = 1000 * 8.
Proof. apply slice_idle_store_show. lia. Defined.

Section StrictGuaranteesFacts.

Variable CONFIG_BFQ_GROUP_IOSCHED : bool.

(** X23. Switching strict guarantees on makes the scheduler idle for
    every queue that runs out of requests: the store sets the flag and
    lifts the idle slice to at least 8 ms, after which
    [bfq_bfqq_must_idle] holds for any queue with an empty sort list. *)
Theorem strict_guarantees_store_forces_idling bfqd garbage v bfqq :
  strict_guarantees bfqd = false ->
  1 <= v ->
  sort_list bfqq = [] ->
  let bfqd' := bfq_strict_guarantees_store bfqd garbage (Some v) in
  strict_guarantees bfqd' = true
  /\ 8 * NSEC_PER_MSEC <= bfq_slice_idle bfqd'
  /\ bfq_bfqq_must_idle CONFIG_BFQ_GROUP_IOSCHED bfqd' bfqq = true.
Proof.
  intros Hoff Hv Hsort. cbn zeta.
  unfold bfq_strict_guarantees_store, bfq_var_store. rewrite Hoff.
  cbn [negb andb].
  assert (Hd : (if 1 <? v then 1 else v) = 1)
    by (destruct (Z.ltb_spec 1 v); lia).
  rewrite Hd. change (1 =? 1) with true. change (1 =? 0) with false.
  cbn [negb andb].
  assert (Hslice :
    8 * NSEC_PER_MSEC
    <= bfq_slice_idle
         (if bfq_slice_idle bfqd <? 8 * NSEC_PER_MSEC
          then set_bfq_slice_idle (8 * NSEC_PER_MSEC) bfqd else bfqd)).
  { destruct (Z.ltb_spec (bfq_slice_idle bfqd) (8 * NSEC_PER_MSEC));
      cbn [bfq_slice_idle set_bfq_slice_idle]; lia. }
  split; [reflexivity|]. split; [exact Hslice|].
  unfold bfq_bfqq_must_idle, bfq_bfqq_may_idle.
  cbn [strict_guarantees set_strict_guarantees bfq_slice_idle].
  rewrite Hsort. cbn [andb].
  match goal with
  | |- context [?x =? 0] =>
      destruct (Z.eqb_spec x 0) as [Hz|]; [|reflexivity]
  end.
  exfalso. revert Hslice. rewrite Hz. unfold NSEC_PER_MSEC. lia.
Qed.

End StrictGuaranteesFacts.

Lemma strict_guarantees_store_forces_idling_witness :
  bfq_bfqq_must_idle false
    (bfq_strict_guarantees_store bfq_data_zero 7 (Some 1)) sync_queue = true.
Proof.
  apply (strict_guarantees_store_forces_idling false bfq_data_zero 7 1
           sync_queue); [reflexivity|lia|reflexivity].
Defined.

Section MaxBudgetFacts.

Variable jiffies_to_msecs : Z -> Z.
Variable T_slow T_fast : bool -> Z.

(** X24. A maximum budget written by the user is kept: the store clamps
    it to INT_MAX and records it both as the device budget and as the
    user's choice, and the re-tuning that follows every update of the
    peak rate leaves it alone.  Writing 0 hands the budget back to the
    auto-tuning. *)
Theorem max_budget_store_is_kept bfqd garbage v :
  0 <= v ->
  let bfqd' := bfq_max_budget_store jiffies_to_msecs bfqd garbage (Some v) in
  if v =? 0
  then bfq_user_max_budget bfqd' = 0
       /\ bfq_max_budget bfqd'
          = Int.s32 (bfq_calc_max_budget jiffies_to_msecs bfqd)
  else bfq_user_max_budget bfqd' = Z.min v INT_MAX
       /\ bfq_max_budget bfqd' = Z.min v INT_MAX
       /\ budget_autotuned bfqd' = false
       /\ exists d,
            update_thr_responsiveness_params jiffies_to_msecs T_slow T_fast
              bfqd' = Some d
            /\ bfq_max_budget d = Z.min v INT_MAX.
Proof.
  intros Hv. cbn zeta. unfold bfq_max_budget_store, bfq_var_store.
  destruct (Z.eqb_spec v 0) as [->|Hnz]; [split; reflexivity|].
  cbn [bfq_user_max_budget bfq_max_budget set_bfq_user_max_budget
       set_bfq_max_budget].
  assert (Hclamp : Int.s32 (if INT_MAX <? v then INT_MAX else v)
                   = Z.min v INT_MAX).
  { unfold INT_MAX. destruct (Z.ltb_spec (2 ^ 31 - 1) v);
      rewrite IntFacts.s32_small; lia. }
  rewrite Hclamp.
  assert (Hpos : Z.min v INT_MAX <> 0) by (unfold INT_MAX; lia).
  split; [reflexivity|]. split; [reflexivity|]. split.
  - unfold budget_autotuned.
    cbn [bfq_user_max_budget set_bfq_user_max_budget]. rewrite ?Hclamp.
    destruct (Z.eqb_spec (Z.min v INT_MAX) 0); [contradiction|].
    apply andb_false_r.
  - unfold update_thr_responsiveness_params.
    cbn [bfq_user_max_budget set_bfq_user_max_budget]. rewrite ?Hclamp.
    destruct (Z.eqb_spec (Z.min v INT_MAX) 0); [contradiction|].
    cbn [device_speed set_bfq_user_max_budget set_bfq_max_budget].
    destruct (device_speed bfqd);
      match goal with |- context [if ?c then _ else _] => destruct c end;
      eexists; (split; [reflexivity|]);
      cbn [bfq_max_budget set_RT_prod set_device_speed
           set_bfq_user_max_budget set_bfq_max_budget];
      rewrite ?Hclamp; reflexivity.
Qed.

End MaxBudgetFacts.

Lemma max_budget_store_is_kept_witness :
  bfq_max_budget
    (bfq_max_budget_store (fun x => 4 * x) (tuned_device true) 7 (Some 3000))
  = 3000.
Proof.
  pose proof (max_budget_store_is_kept (fun x => 4 * x) (fun _ => 0)
                (fun _ => 0) (tuned_device true) 7 3000 ltac:(lia)) as H.
  cbn zeta in H. change (3000 =? 0) with false in H. cbv iota in H.
  destruct H as [_ [H _]]. exact H.
Defined.

(** ** The budget of a queue whose next request changes *)

(** X25. [bfq_updated_next_req] never touches the budget of the queue in
    service.  For any other backlogged queue the budget becomes the larger
    of the queue's [max_budget] and the charge of the new next request, so
    that the request can be served in one slot, and the queue is activated
    again exactly when this changes the budget. *)
Theorem updated_next_req_budget st q bfqq rq :
  queues st !! q = Some bfqq ->
  next_rq bfqq = Some rq ->
  request_wf rq ->
  0 <= max_budget bfqq < 2 ^ 31 ->
  0 <= budget (entity bfqq) < 2 ^ 31 ->
  exists st' activated,
    bfq_updated_next_req st q true = Some (st', activated)
    /\ if same_queue (in_service_queue (bfqd st)) q
       then st' = st /\ activated = false
       else exists b,
              queues st' !! q = Some b
              /\ budget (entity b)
                 = Z.max (max_budget bfqq)
                         (bfq_serv_to_charge rq bfqq (bfqd st))
              /\ bfq_serv_to_charge rq b (bfqd st') <= budget (entity b)
              /\ (activated = true
                  <-> budget (entity b) <> budget (entity bfqq)).
Proof.
  intros L Hnext Hwf Hmax Hb.
  pose proof (serv_to_charge_bound rq bfqq (bfqd st) Hwf) as Hc.
  unfold bfq_updated_next_req, BUG_ON. rewrite L. cbn [mbind option_bind].
  rewrite Hnext.
  destruct (same_queue (in_service_queue (bfqd st)) q).
  { eexists _, _. split; [reflexivity|]. now split. }
  cbn [negb].
  rewrite (IntFacts.u64_small (max_budget bfqq)) by lia.
  rewrite (IntFacts.u64_small (budget (entity bfqq))) by lia.
  destruct (Z.eqb_spec (budget (entity bfqq))
              (Z.max (max_budget bfqq) (bfq_serv_to_charge rq bfqq (bfqd st))))
    as [He|Hne]; cbn [negb].
  - eexists _, _. split; [reflexivity|].
    exists bfqq. split; [exact L|]. split; [exact He|]. split; [lia|].
    split; [discriminate|congruence].
  - eexists _, _. split; [reflexivity|].
    cbn [upd_queue queues set_queues bfqd]. rewrite lookup_alter_eq, L.
    cbn [fmap option_fmap option_map].
    eexists. split; [reflexivity|].
    cbn [on_entity entity set_entity budget set_budget].
    rewrite IntFacts.s32_small by lia.
    split; [reflexivity|]. split; [|split; [congruence|reflexivity]].
    change (bfq_serv_to_charge rq (on_entity _ bfqq) (bfqd st))
      with (bfq_serv_to_charge rq bfqq (bfqd st)).
    lia.
Qed.

Lemma updated_next_req_budget_witness :
  exists st' b,
    bfq_updated_next_req latency_state 2%positive true = Some (st', true)
    /\ queues st' !! 2%positive = Some b
    /\ budget (entity b) = 1024.
Proof.
  destruct (updated_next_req_budget latency_state 2%positive raised_queue
              rq_4k) as (st' & act & Hrun & Hpost).
  - reflexivity.
  - reflexivity.
  - vm_compute. repeat split; discriminate.
  - vm_compute. split; [discriminate|reflexivity].
  - vm_compute. split; [discriminate|reflexivity].
  - change (same_queue (in_service_queue (bfqd latency_state)) 2%positive)
      with false in Hpost. cbv iota in Hpost.
    destruct Hpost as (b & Lb & Hb & _ & Hact).
    exists st', b. split; [|split; [exact Lb|exact Hb]].
    rewrite Hrun. f_equal. f_equal. apply Hact. rewrite Hb. discriminate.
Defined.

(** ** The counter of weight-raised busy queues *)

(** [bfq_merge_bfqqs] as the sequence of its blocks. *)
Lemma merge_bfqqs_blocks st b q nq :
  bfq_merge_bfqqs st b q nq
  = (s ← bfq_bfqq_save_state st q;
     s ← bfq_bfqq_save_state s nq;
     s ← merge_io_bound s q nq;
     s ← merge_wr_inherit s q nq;
     s ← merge_wr_reset s q;
     merge_redirect s b q nq).
Proof.
  unfold bfq_merge_bfqqs.
  destruct (bfq_bfqq_save_state st q) as [s1|]; [|reflexivity].
  cbn [mbind option_bind].
  destruct (bfq_bfqq_save_state s1 nq) as [s2|]; [|reflexivity].
  cbn [mbind option_bind].
  unfold merge_io_bound at 1.
  destruct (queues s2 !! q) as [bq|]; [|reflexivity].
  cbn [mbind option_bind].
  set (s3 := upd_queue q _ _).
  unfold merge_wr_inherit at 1.
  destruct (queues s3 !! q) as [bq3|]; [|reflexivity].
  cbn [mbind option_bind].
  destruct (queues s3 !! nq) as [bn3|]; [|reflexivity].
  cbn [mbind option_bind].
  set (s4 := if (wr_coeff bn3 =? 1) && (1 <? wr_coeff bq3) then _ else s3).
  unfold merge_wr_reset at 1.
  destruct (queues s4 !! q) as [bq4|]; [|reflexivity].
  cbn [mbind option_bind].
  reflexivity.
Qed.

Lemma save_state_frame st q s1 :
  bfq_bfqq_save_state st q = Some s1 ->
  queues s1 = queues st /\ bfqd s1 = bfqd st /\ oom_bfqq s1 = oom_bfqq st.
Proof.
  unfold bfq_bfqq_save_state.
  destruct (queues st !! q) as [bq|]; [|discriminate].
  destruct (bic bq) as [b|]; [|now intros [= <-]].
  destruct (bics st !! b); [|discriminate].
  now intros [= <-].
Qed.

Lemma get_bic_reference_frame st q s1 :
  bfq_get_bic_reference st q = Some s1 ->
  queues s1 = queues st /\ bfqd s1 = bfqd st /\ oom_bfqq s1 = oom_bfqq st.
Proof.
  unfold bfq_get_bic_reference.
  destruct (queues st !! q) as [bq|]; [|discriminate].
  destruct (bic bq) as [b|]; [|now intros [= <-]].
  destruct (bics st !! b); [|discriminate].
  now intros [= <-].
Qed.

Lemma view_upd_q st0 st q nq bq bn f :
  q <> nq -> view st0 st q nq bq bn -> view st0 (upd_queue q f st) q nq (f bq) bn.
Proof.
  intros Hne (Lq & Ln & Hfr). unfold view. cbn [upd_queue queues set_queues].
  rewrite lookup_alter_eq, Lq. rewrite lookup_alter_ne by congruence.
  split; [reflexivity|]. split; [exact Ln|].
  intros k Hk Hk'. rewrite lookup_alter_ne by congruence. now apply Hfr.
Qed.

Lemma view_upd_nq st0 st q nq bq bn f :
  q <> nq -> view st0 st q nq bq bn -> view st0 (upd_queue nq f st) q nq bq (f bn).
Proof.
  intros Hne (Lq & Ln & Hfr). unfold view. cbn [upd_queue queues set_queues].
  rewrite lookup_alter_eq, Ln. rewrite lookup_alter_ne by congruence.
  split; [exact Lq|]. split; [reflexivity|].
  intros k Hk Hk'. rewrite lookup_alter_ne by congruence. now apply Hfr.
Qed.

Lemma view_upd_bfqd st0 st q nq bq bn f :
  view st0 st q nq bq bn -> view st0 (upd_bfqd f st) q nq bq bn.
Proof. exact (fun H => H). Qed.

Lemma view_queues_eq st0 st s q nq bq bn :
  queues s = queues st -> view st0 st q nq bq bn -> view st0 s q nq bq bn.
Proof. unfold view. now intros ->. Qed.

Lemma merge_io_bound_view st0 st q nq bq bn :
  q <> nq -> view st0 st q nq bq bn ->
  exists s,
    merge_io_bound st q nq = Some s
    /\ view st0 s q nq (bfq_clear_bfqq BFQ_BFQQ_FLAG_IO_bound bq)
         (if bfq_bfqq_IO_bound bq
          then bfq_mark_bfqq BFQ_BFQQ_FLAG_IO_bound bn else bn)
    /\ bfqd s = bfqd st /\ bics s = bics st /\ oom_bfqq s = oom_bfqq st.
Proof.
  intros Hne Hv. pose proof Hv as (Lq & _).
  unfold merge_io_bound. rewrite Lq. cbn [mbind option_bind].
  eexists. split; [reflexivity|]. split.
  - apply view_upd_q; [exact Hne|].
    destruct (bfq_bfqq_IO_bound bq); [now apply view_upd_nq|exact Hv].
  - destruct (bfq_bfqq_IO_bound bq); repeat split.
Qed.

Lemma merge_wr_inherit_view st0 st q nq bq bn :
  q <> nq -> view st0 st q nq bq bn ->
  exists s,
    merge_wr_inherit st q nq = Some s
    /\ view st0 s q nq bq
         (if inherits bq bn
          then on_entity (set_prio_changed 1)
                 (set_last_wr_start_finish (last_wr_start_finish bq)
                    (set_wr_cur_max_time (wr_cur_max_time bq)
                       (set_wr_coeff (wr_coeff bq) bn)))
          else bn)
    /\ bfqd s
       = (if inherits bq bn && bfq_bfqq_busy bn
          then set_wr_busy_queues (Int.s32 (wr_busy_queues (bfqd st) + 1)) (bfqd st)
          else bfqd st)
    /\ bics s = bics st /\ oom_bfqq s = oom_bfqq st.
Proof.
  intros Hne Hv. pose proof Hv as (Lq & Ln & _).
  unfold merge_wr_inherit, inherits. rewrite Lq. cbn [mbind option_bind].
  rewrite Ln. cbn [mbind option_bind].
  eexists. split; [reflexivity|].
  destruct ((wr_coeff bn =? 1) && (1 <? wr_coeff bq)); cbn [andb].
  - destruct (bfq_bfqq_busy bn); (split; [|repeat split]).
    + apply (view_upd_nq st0 _ q nq bq _ (on_entity (set_prio_changed 1)) Hne).
      apply view_upd_bfqd.
      apply (view_upd_nq st0 st q nq bq bn
               (fun n => set_last_wr_start_finish (last_wr_start_finish bq)
                           (set_wr_cur_max_time (wr_cur_max_time bq)
                              (set_wr_coeff (wr_coeff bq) n))) Hne Hv).
    + apply (view_upd_nq st0 _ q nq bq _ (on_entity (set_prio_changed 1)) Hne).
      apply (view_upd_nq st0 st q nq bq bn
               (fun n => set_last_wr_start_finish (last_wr_start_finish bq)
                           (set_wr_cur_max_time (wr_cur_max_time bq)
                              (set_wr_coeff (wr_coeff bq) n))) Hne Hv).
  - split; [exact Hv|repeat split].
Qed.

Lemma merge_wr_reset_view st0 st q nq bq bn :
  q <> nq -> view st0 st q nq bq bn ->
  exists s,
    merge_wr_reset st q = Some s
    /\ view st0 s q nq
         (if 1 <? wr_coeff bq
          then on_entity (set_prio_changed 1) (set_wr_coeff 1 bq) else bq) bn
    /\ bfqd s
       = (if (1 <? wr_coeff bq) && bfq_bfqq_busy bq
          then set_wr_busy_queues (Int.s32 (wr_busy_queues (bfqd st) - 1)) (bfqd st)
          else bfqd st)
    /\ bics s = bics st /\ oom_bfqq s = oom_bfqq st.
Proof.
  intros Hne Hv. pose proof Hv as (Lq & Ln & _).
  unfold merge_wr_reset. rewrite Lq. cbn [mbind option_bind].
  eexists. split; [reflexivity|].
  destruct (1 <? wr_coeff bq); cbn [andb].
  - destruct (bfq_bfqq_busy bq); (split; [|repeat split]).
    + apply view_upd_bfqd.
      apply (view_upd_q st0 st q nq bq bn
               (fun x => on_entity (set_prio_changed 1) (set_wr_coeff 1 x)) Hne Hv).
    + apply (view_upd_q st0 st q nq bq bn
               (fun x => on_entity (set_prio_changed 1) (set_wr_coeff 1 x)) Hne Hv).
  - split; [exact Hv|repeat split].
Qed.

Lemma wr_busy_count_delete m k :
  wr_busy_count (delete k m) = wr_busy_count m - raised_at m k.
Proof.
  unfold wr_busy_count, raised_at.
  rewrite map_filter_delete, map_size_delete.
  set (P := fun kv : qid * bfq_queue => raised_and_busy (snd kv) = true).
  destruct (filter P m !! k) as [x|] eqn:Hf.
  - apply map_lookup_filter_Some in Hf as [Hm HP]. cbn in HP.
    rewrite Hm, HP.
    assert (size (filter P m) <> 0%nat).
    { intros Hz. apply map_size_empty_inv in Hz.
      assert (Hl : filter P m !! k = Some x)
        by (apply map_lookup_filter_Some; now split).
      rewrite Hz, lookup_empty in Hl. discriminate. }
    lia.
  - destruct (m !! k) as [x|] eqn:Hm; [|cbn; lia].
    destruct (raised_and_busy x) eqn:HP; [|cbn; lia].
    assert (Hl : filter P m !! k = Some x)
      by (apply map_lookup_filter_Some; now split).
    congruence.
Qed.

Lemma raised_at_delete_ne m k k' :
  k <> k' -> raised_at (delete k m) k' = raised_at m k'.
Proof. intros H. unfold raised_at. now rewrite lookup_delete_ne. Qed.

Lemma wr_busy_count_frame2 m m' q nq :
  q <> nq ->
  (forall k, k <> q -> k <> nq -> m' !! k = m !! k) ->
  wr_busy_count m'
  = wr_busy_count m - raised_at m q - raised_at m nq
    + raised_at m' q + raised_at m' nq.
Proof.
  intros Hne Hfr.
  assert (E : delete q (delete nq m') = delete q (delete nq m)).
  { apply map_eq. intros k.
    destruct (decide (k = q)) as [->|Hq]; [now rewrite !lookup_delete_eq|].
    rewrite !(lookup_delete_ne _ q) by congruence.
    destruct (decide (k = nq)) as [->|Hn]; [now rewrite !lookup_delete_eq|].
    rewrite !lookup_delete_ne by congruence. now apply Hfr. }
  pose proof (f_equal wr_busy_count E) as Hc.
  rewrite !wr_busy_count_delete in Hc.
  rewrite !raised_at_delete_ne in Hc by congruence. lia.
Qed.

Lemma wr_busy_count_frame1 m m' q :
  (forall k, k <> q -> m' !! k = m !! k) ->
  wr_busy_count m' = wr_busy_count m - raised_at m q + raised_at m' q.
Proof.
  intros Hfr.
  assert (E : delete q m' = delete q m).
  { apply map_eq. intros k.
    destruct (decide (k = q)) as [->|Hq]; [now rewrite !lookup_delete_eq|].
    rewrite !lookup_delete_ne by congruence. now apply Hfr. }
  pose proof (f_equal wr_busy_count E) as Hc.
  rewrite !wr_busy_count_delete in Hc. lia.
Qed.

Lemma merge_redirect_view st0 st b q nq bq bn st' :
  q <> nq -> view st0 st q nq bq bn ->
  merge_redirect st b q nq = Some st' ->
  bfqd st' = bfqd st /\ oom_bfqq st' = oom_bfqq st
  /\ queues st' !! nq
     = Some (set_bic None (bfq_mark_bfqq BFQ_BFQQ_FLAG_coop bn))
  /\ (forall k, k <> q -> k <> nq -> queues st' !! k = queues st0 !! k)
  /\ (queues st' !! q
      = Some (set_ref (Int.s32 (ref bq - 1)) (set_bic None bq))
      \/ queues st' !! q = None /\ bfq_bfqq_busy bq = false).
Proof.
  intros Hne Hv. unfold merge_redirect.
  destruct (bfq_get_bic_reference st q) as [s1|] eqn:E1; [|discriminate].
  cbn [mbind option_bind].
  destruct (bfq_get_bic_reference s1 nq) as [s2|] eqn:E2; [|discriminate].
  cbn [mbind option_bind].
  destruct (bics s2 !! b) as [c|]; [|discriminate].
  cbn [mbind option_bind].
  destruct (get_bic_reference_frame _ _ _ E1) as (Q1 & D1 & O1).
  destruct (get_bic_reference_frame _ _ _ E2) as (Q2 & D2 & O2).
  assert (Hv2 : view st0 s2 q nq bq bn)
    by (eapply view_queues_eq; [|exact Hv]; congruence).
  set (s3 := upd_bic b (bic_set_bfqq (Some nq) true) s2).
  assert (Hv3 : view st0 s3 q nq bq bn) by exact Hv2.
  pose proof (view_upd_nq st0 s3 q nq bq bn
                (bfq_mark_bfqq BFQ_BFQQ_FLAG_coop) Hne Hv3) as Hv4.
  pose proof (view_upd_nq st0 _ q nq bq _ (set_bic None) Hne Hv4) as Hv5.
  pose proof (view_upd_q st0 _ q nq bq _ (set_bic None) Hne Hv5) as Hv6.
  intros Hput.
  destruct (put_queue_result _ _ _ Hput)
    as (x & Lx & _ & Hd & _ & Hfr & Hcase).
  pose proof (put_queue_oom _ _ _ Hput) as Ho.
  destruct Hv6 as (L6q & L6n & F6).
  rewrite L6q in Lx. injection Lx as <-. subst s3.
  split; [rewrite Hd; cbn [upd_queue upd_bic bfqd set_queues set_bics];
          congruence|].
  split; [rewrite Ho; cbn [upd_queue upd_bic oom_bfqq set_queues set_bics];
          congruence|].
  split; [rewrite Hfr by congruence; exact L6n|].
  split; [intros k Hk Hk'; rewrite Hfr by congruence; now apply F6|].
  destruct Hcase as [[Hq _]|(Hq & _ & _ & _ & Hb & _)];
    [left; exact Hq | right; split; [exact Hq|exact Hb]].
Qed.

Lemma busy_of_mark f bfqq :
  f <> BFQ_BFQQ_FLAG_busy ->
  bfq_bfqq_busy (bfq_mark_bfqq f bfqq) = bfq_bfqq_busy bfqq.
Proof. intros H. unfold bfq_bfqq_busy. apply flag_mark_other. congruence. Qed.

Lemma busy_of_clear f bfqq :
  f <> BFQ_BFQQ_FLAG_busy ->
  bfq_bfqq_busy (bfq_clear_bfqq f bfqq) = bfq_bfqq_busy bfqq.
Proof. intros H. unfold bfq_bfqq_busy. apply flag_clear_other. congruence. Qed.

(** X26. [bfqd->wr_busy_queues] stays exact across a merge: if it equals
    the number of busy queues with a raised weight before
    [bfq_merge_bfqqs], it does so after it.  The increment for the new
    queue that inherits the weight raising and the decrement for the old
    queue that loses it are each made exactly when that queue is busy. *)
Theorem merge_keeps_wr_busy_exact st b q nq st' :
  wr_busy_exact st ->
  q <> nq ->
  is_Some (queues st !! q) -> is_Some (queues st !! nq) ->
  - 2 ^ 31 < wr_busy_queues (bfqd st) < 2 ^ 31 - 1 ->
  bfq_merge_bfqqs st b q nq = Some st' ->
  wr_busy_exact st'.
Proof.
  intros Hex Hne [bq Lq] [bn Ln] Hrange Hrun.
  rewrite merge_bfqqs_blocks in Hrun.
  destruct (bfq_bfqq_save_state st q) as [s1|] eqn:E1; [|discriminate].
  cbn [mbind option_bind] in Hrun.
  destruct (bfq_bfqq_save_state s1 nq) as [s2|] eqn:E2; [|discriminate].
  cbn [mbind option_bind] in Hrun.
  destruct (save_state_frame _ _ _ E1) as (Q1 & D1 & _).
  destruct (save_state_frame _ _ _ E2) as (Q2 & D2 & _).
  assert (Hv2 : view st s2 q nq bq bn).
  { unfold view. rewrite Q2, Q1. auto. }
  destruct (merge_io_bound_view st s2 q nq bq bn Hne Hv2)
    as (s3 & E3 & Hv3 & D3 & _).
  rewrite E3 in Hrun. cbn [mbind option_bind] in Hrun.
  destruct (merge_wr_inherit_view st s3 q nq _ _ Hne Hv3)
    as (s4 & E4 & Hv4 & D4 & _).
  rewrite E4 in Hrun. cbn [mbind option_bind] in Hrun.
  destruct (merge_wr_reset_view st s4 q nq _ _ Hne Hv4)
    as (s5 & E5 & Hv5 & D5 & _).
  rewrite E5 in Hrun. cbn [mbind option_bind] in Hrun.
  destruct (merge_redirect_view st s5 b q nq _ _ st' Hne Hv5 Hrun)
    as (D6 & _ & L6n & F6 & L6q).
  unfold wr_busy_exact in *.
  rewrite (wr_busy_count_frame2 (queues st) (queues st') q nq Hne F6).
  rewrite D6, D5, D4, D3, D2, D1.
  set (bn3 := if bfq_bfqq_IO_bound bq
              then bfq_mark_bfqq BFQ_BFQQ_FLAG_IO_bound bn else bn) in *.
  set (bq3 := bfq_clear_bfqq BFQ_BFQQ_FLAG_IO_bound bq) in *.
  assert (Bn3 : bfq_bfqq_busy bn3 = bfq_bfqq_busy bn).
  { subst bn3. destruct (bfq_bfqq_IO_bound bq); [|reflexivity].
    apply busy_of_mark. discriminate. }
  assert (Bq3 : bfq_bfqq_busy bq3 = bfq_bfqq_busy bq).
  { apply busy_of_clear. discriminate. }
  assert (Wn3 : wr_coeff bn3 = wr_coeff bn)
    by (subst bn3; now destruct (bfq_bfqq_IO_bound bq)).
  assert (Wq3 : wr_coeff bq3 = wr_coeff bq) by reflexivity.
  unfold raised_at at 1 2. rewrite Lq, Ln.
  unfold raised_at at 2. rewrite L6n.
  assert (Hq' : raised_at (queues st') q = 0).
  { unfold raised_at. destruct L6q as [-> | [-> _]]; [|reflexivity].
    unfold raised_and_busy.
    cbn [wr_coeff set_ref set_bic].
    destruct (1 <? wr_coeff bq3) eqn:R;
      cbn [wr_coeff on_entity set_entity set_wr_coeff];
      [now rewrite andb_false_r|].
    now rewrite R, andb_false_r. }
  rewrite Hq'.
  set (bn5 := set_bic None (bfq_mark_bfqq BFQ_BFQQ_FLAG_coop _)).
  assert (Hn' : raised_and_busy bn5
                = bfq_bfqq_busy bn
                  && (1 <? (if inherits bq3 bn3 then wr_coeff bq else wr_coeff bn))).
  { subst bn5. unfold raised_and_busy.
    destruct (inherits bq3 bn3).
    - match goal with
      | |- bfq_bfqq_busy (set_bic None (bfq_mark_bfqq ?f ?y)) && _ = _ =>
          change (bfq_bfqq_busy (set_bic None (bfq_mark_bfqq f y)))
            with (bfq_bfqq_busy (bfq_mark_bfqq f bn3))
      end.
      rewrite busy_of_mark by discriminate. now rewrite Bn3.
    - match goal with
      | |- bfq_bfqq_busy (set_bic None (bfq_mark_bfqq ?f ?y)) && _ = _ =>
          change (bfq_bfqq_busy (set_bic None (bfq_mark_bfqq f y)))
            with (bfq_bfqq_busy (bfq_mark_bfqq f bn3))
      end.
      rewrite busy_of_mark by discriminate. rewrite Bn3.
      cbn [wr_coeff set_bic bfq_mark_bfqq set_flags]. now rewrite Wn3. }
  rewrite Hn'. unfold raised_and_busy, inherits.
  rewrite Wn3, Wq3, Bn3, Bq3.
  set (W := wr_busy_queues (bfqd st)) in *.
  destruct (Z.eqb_spec (wr_coeff bn) 1) as [W1|W1];
    destruct (1 <? wr_coeff bq) eqn:Rq;
    destruct (bfq_bfqq_busy bq), (bfq_bfqq_busy bn);
    cbn [andb wr_busy_queues set_wr_busy_queues];
    rewrite ?Rq;
    fold W;
    rewrite ?(IntFacts.s32_small (W + 1)) by lia;
    rewrite ?(IntFacts.s32_small (W + 1 - 1)) by lia;
    rewrite ?(IntFacts.s32_small (W - 1)) by lia;
    try (rewrite W1; change (1 <? 1) with false);
    try (destruct (1 <? wr_coeff bn));
    lia.
Qed.

(** X27. [bfq_bfqq_end_wr] decrements [wr_busy_queues] for every busy
    queue, raised or not.  Starting from an exact counter, the counter is
    exact again when the queue was raised or was not busy, and is one below
    the number of raised busy queues when the queue was busy with
    coefficient 1.  The coefficient of the queue is 1 afterwards. *)
Theorem end_wr_accounting st q bfqq :
  wr_busy_exact st ->
  queues st !! q = Some bfqq ->
  - 2 ^ 31 < wr_busy_queues (bfqd st) < 2 ^ 31 ->
  exists st',
    bfq_bfqq_end_wr st q = Some st'
    /\ wr_coeff <$> queues st' !! q = Some 1
    /\ wr_busy_queues (bfqd st') - wr_busy_count (queues st')
       = (if bfq_bfqq_busy bfqq && negb (1 <? wr_coeff bfqq) then -1 else 0).
Proof.
  intros Hex L Hrange. unfold wr_busy_exact in Hex.
  unfold bfq_bfqq_end_wr. rewrite L. cbn [mbind option_bind].
  eexists. split; [reflexivity|].
  set (f := fun x => on_entity (set_prio_changed 1)
                       (set_wr_cur_max_time 0 (set_wr_coeff 1 x))).
  assert (Lq' : forall s, queues s = queues st ->
                          queues (upd_queue q f s) !! q = Some (f bfqq)).
  { intros s Hs. cbn [upd_queue queues set_queues].
    now rewrite lookup_alter_eq, Hs, L. }
  assert (Hc : forall s, queues s = queues st ->
             wr_busy_count (queues (upd_queue q f s))
             = wr_busy_count (queues st)
               - (if raised_and_busy bfqq then 1 else 0)).
  { intros s Hs.
    rewrite (wr_busy_count_frame1 (queues st) _ q).
    - unfold raised_at. rewrite (Lq' s Hs), L.
      unfold raised_and_busy at 2. cbn [wr_coeff f on_entity set_entity
        set_wr_cur_max_time set_wr_coeff].
      change (1 <? 1) with false. rewrite andb_false_r. lia.
    - intros k Hk. cbn [upd_queue queues set_queues].
      rewrite lookup_alter_ne by congruence. now rewrite Hs. }
  split.
  - destruct (bfq_bfqq_busy bfqq); rewrite Lq' by reflexivity; reflexivity.
  - unfold raised_and_busy in Hc.
    destruct (bfq_bfqq_busy bfqq); rewrite Hc by reflexivity;
      cbn [upd_queue upd_bfqd bfqd set_queues set_bfqd wr_busy_queues
           set_wr_busy_queues andb negb].
    + rewrite IntFacts.s32_small by lia.
      destruct (1 <? wr_coeff bfqq); cbn [negb]; lia.
    + lia.
Qed.

Lemma merge_keeps_wr_busy_exact_witness :
  exists st',
    bfq_merge_bfqqs busy_merge_state 1%positive 1%positive 2%positive = Some st'
    /\ wr_busy_exact st'.
Proof.
  eexists. split; [vm_compute; reflexivity|].
  apply (merge_keeps_wr_busy_exact busy_merge_state 1%positive 1%positive
           2%positive).
  - vm_compute. reflexivity.
  - discriminate.
  - eexists. reflexivity.
  - eexists. reflexivity.
  - vm_compute. split; reflexivity.
  - vm_compute. reflexivity.
Defined.

Lemma end_wr_accounting_witness :
  exists st',
    bfq_bfqq_end_wr busy_merge_state 2%positive = Some st'
    /\ wr_busy_queues (bfqd st') - wr_busy_count (queues st') = -1.
Proof.
  destruct (end_wr_accounting busy_merge_state 2%positive
              (bfq_mark_bfqq BFQ_BFQQ_FLAG_busy target_queue))
    as (st' & Hrun & _ & Hacc).
  - vm_compute. reflexivity.
  - reflexivity.
  - vm_compute. split; reflexivity.
  - exists st'. split; [exact Hrun|exact Hacc].
Defined.

(** ** Merge and split, for any two queues *)

(** A 32-bit reading differs from the number read by a multiple of
    2^32, and two numbers that differ by such a multiple read the same. *)
Lemma s32_decomp x : exists k, Int.s32 x = x + k * 2 ^ 32.
Proof.
  unfold Int.s32, Int.u32.
  pose proof (Z.div_mod x (2 ^ 32) ltac:(lia)) as E.
  destruct (x mod 2 ^ 32 <? 2 ^ 31).
  - exists (- (x / 2 ^ 32)). lia.
  - exists (- (x / 2 ^ 32) - 1). lia.
Qed.

Lemma s32_canon x y k : x = y + k * 2 ^ 32 -> Int.s32 x = Int.s32 y.
Proof.
  intros ->. unfold Int.s32, Int.u32. now rewrite Z_mod_plus_full.
Qed.

(** Taking one reference for a request, counted in [allocated], leaves
    the number of process references at 1, wrap-around included. *)
Lemma process_refs_after_request bfqq rw :
  bfqq_process_refs bfqq = Some 1 ->
  bfqq_process_refs
    (set_ref (Int.s32 (ref bfqq + 1))
       (set_allocated
          (array2_set (allocated bfqq) rw
             (Int.s32 (array2_get (allocated bfqq) rw + 1))) bfqq))
  = Some 1.
Proof.
  unfold bfqq_process_refs, BUG_ON.
  cbn [ref allocated entity set_ref set_allocated].
  set (a0 := fst (allocated bfqq)). set (a1 := snd (allocated bfqq)).
  set (r := ref bfqq). set (t := on_st (entity bfqq)).
  assert (E : forall u, fst (array2_set (allocated bfqq) rw u)
                        + snd (array2_set (allocated bfqq) rw u)
                        = if rw then a0 + u else u + a1).
  { intros u. unfold array2_set. now destruct rw. }
  rewrite E.
  assert (G : array2_get (allocated bfqq) rw = if rw then a1 else a0)
    by (unfold array2_get; now destruct rw).
  rewrite G.
  assert (K : Int.s32
                (Int.s32
                   (Int.s32 (r + 1)
                    - Int.s32
                        (if rw
                         then a0 + Int.s32 ((if rw then a1 else a0) + 1)
                         else Int.s32 ((if rw then a1 else a0) + 1) + a1)) - t)
              = Int.s32 (Int.s32 (r - Int.s32 (a0 + a1)) - t)).
  { destruct (s32_decomp (r + 1)) as [k1 E1]. rewrite E1.
    destruct (s32_decomp (a0 + a1)) as [j2 F2]. rewrite F2.
    destruct (s32_decomp (r - (a0 + a1 + j2 * 2 ^ 32))) as [j3 F3]. rewrite F3.
    destruct rw.
    - destruct (s32_decomp (a1 + 1)) as [k4 E4]. rewrite E4.
      destruct (s32_decomp (a0 + (a1 + 1 + k4 * 2 ^ 32))) as [k2 E2]. rewrite E2.
      match goal with
      | |- Int.s32 (Int.s32 ?x - t) = _ =>
          destruct (s32_decomp x) as [k3 E3]; rewrite E3
      end.
      transitivity (Int.s32 (r - a0 - a1 - t)).
      + apply (s32_canon _ _ (k1 - k4 - k2 + k3)). lia.
      + symmetry. apply (s32_canon _ _ (j3 - j2)). lia.
    - destruct (s32_decomp (a0 + 1)) as [k4 E4]. rewrite E4.
      destruct (s32_decomp (a0 + 1 + k4 * 2 ^ 32 + a1)) as [k2 E2]. rewrite E2.
      match goal with
      | |- Int.s32 (Int.s32 ?x - t) = _ =>
          destruct (s32_decomp x) as [k3 E3]; rewrite E3
      end.
      transitivity (Int.s32 (r - a0 - a1 - t)).
      + apply (s32_canon _ _ (k1 - k4 - k2 + k3)). lia.
      + symmetry. apply (s32_canon _ _ (j3 - j2)). lia. }
  rewrite K. tauto.
Qed.

Lemma put_queue_frame st q st' :
  bfq_put_queue st q = Some st' ->
  bics st' = bics st /\ oom_bfqq st' = oom_bfqq st.
Proof.
  intros H. split; [|exact (put_queue_oom _ _ _ H)].
  now destruct (put_queue_result _ _ _ H) as (x & _ & _ & _ & Hb & _).
Qed.

Lemma put_cooperator_loop_frame fuel : forall st q cur st',
  put_cooperator_loop fuel st q cur = Some st' ->
  bics st' = bics st /\ oom_bfqq st' = oom_bfqq st.
Proof.
  induction fuel as [|fuel IH]; intros st q cur st'; cbn [put_cooperator_loop].
  - destruct cur as [c|]; [|now intros [= <-]].
    destruct (Pos.eqb c q); [now intros [= <-]|discriminate].
  - destruct cur as [c|]; [|now intros [= <-]].
    destruct (Pos.eqb c q); [now intros [= <-]|].
    destruct (queues st !! c) as [cq|]; [|discriminate].
    destruct (bfq_put_queue st c) as [s|] eqn:Hp; [|discriminate].
    intros H. apply IH in H as [Hb Ho].
    destruct (put_queue_frame _ _ _ Hp) as [Hb' Ho'].
    split; congruence.
Qed.

Lemma put_cooperator_frame st q st' :
  bfq_put_cooperator st q = Some st' ->
  bics st' = bics st /\ oom_bfqq st' = oom_bfqq st.
Proof.
  unfold bfq_put_cooperator.
  destruct (queues st !! q); [|discriminate].
  apply put_cooperator_loop_frame.
Qed.

(** What [bfq_split_bfqq] leaves behind: the saved flags of the context
    are untouched; the queue is kept exactly when it has one process
    reference, and then loses its two sharing flags; otherwise the context
    has no sync queue any more. *)
Lemma split_bfqq_result st b q pid s kept c :
  bics st !! b = Some c ->
  bfq_split_bfqq st b q pid = Some (s, kept) ->
  oom_bfqq s = oom_bfqq st
  /\ exists c',
       bics s !! b = Some c' /\ same_saved c c'
       /\ match kept with
          | Some k =>
              k = q /\ bic_to_bfqq c' true = bic_to_bfqq c true
              /\ exists x, queues s !! q = Some x
                           /\ bfqq_process_refs x = Some 1
                           /\ bfq_bfqq_coop x = false
                           /\ bfq_bfqq_split_coop x = false
          | None => bic_to_bfqq c' true = None
          end.
Proof.
  intros Hc. unfold bfq_split_bfqq. rewrite Hc. cbn [mbind option_bind].
  change (queues (put_io_context b st)) with (queues st).
  destruct (queues st !! q) as [x|] eqn:Lx;
    cbn [mbind option_bind]; [|discriminate].
  destruct (bfqq_process_refs x) as [refs|] eqn:Hr;
    cbn [mbind option_bind]; [|discriminate].
  destruct (Z.eqb_spec refs 1) as [->|Hne].
  - intros [= <- <-]. split; [reflexivity|].
    exists (set_ioc_refcount (ioc_refcount c - 1) c).
    split.
    { cbn [upd_queue put_io_context upd_bic bics set_bics set_queues].
      now rewrite lookup_alter_eq, Hc. }
    split; [split; reflexivity|].
    split; [reflexivity|]. split; [reflexivity|].
    eexists. split.
    { cbn [upd_queue put_io_context upd_bic queues set_bics set_queues].
      rewrite lookup_alter_eq, Lx. reflexivity. }
    split; [exact Hr|].
    split.
    + unfold bfq_bfqq_coop. rewrite flag_clear_other by discriminate.
      apply flag_clear_same.
    + apply flag_clear_same.
  - set (s0 := upd_bic b (bic_set_bfqq None true) (put_io_context b st)).
    destruct (bfq_put_cooperator s0 q) as [s1|] eqn:H1;
    cbn [mbind option_bind]; [|discriminate].
    destruct (bfq_put_queue s1 q) as [s2|] eqn:H2;
    cbn [mbind option_bind]; [|discriminate].
    intros [= <- <-].
    destruct (put_cooperator_frame _ _ _ H1) as [B1 O1].
    destruct (put_queue_frame _ _ _ H2) as [B2 O2].
    split; [rewrite O2, O1; reflexivity|].
    exists (bic_set_bfqq None true (set_ioc_refcount (ioc_refcount c - 1) c)).
    split.
    { rewrite B2, B1. subst s0.
      cbn [put_io_context upd_bic bics set_bics].
      now rewrite !lookup_alter_eq, Hc. }
    split; [split; reflexivity|reflexivity].
Qed.

(** A queue initialised from zeroed memory. *)
Lemma init_bfqq_fresh bfqd bic pid jiffies y :
  bfq_init_bfqq bfqd bfq_queue_zero bic pid true jiffies = Some y ->
  ref y = 0 /\ allocated y = (0, 0) /\ on_st (entity y) = 0
  /\ bfq_bfqq_coop y = false /\ bfq_bfqq_split_coop y = false.
Proof.
  unfold bfq_init_bfqq.
  destruct bic as [c|].
  - unfold bfq_set_next_ioprio_data, BUG_ON.
    repeat match goal with
           | |- context [if ?c then _ else _] => destruct c
           end; try discriminate; intros [= <-]; repeat split; reflexivity.
  - repeat match goal with
           | |- context [if ?c then _ else _] => destruct c
           end; try discriminate; intros [= <-]; repeat split; reflexivity.
Qed.

Lemma get_queue_sync_result st c fresh pid jiffies s q :
  bfq_get_queue_sync st c fresh pid jiffies = Some (s, q) ->
  bics s = bics st /\ oom_bfqq s = oom_bfqq st
  /\ exists y,
       queues s !! q = Some y
       /\ (q <> oom_bfqq st ->
           ref y = 1 /\ allocated y = (0, 0) /\ on_st (entity y) = 0
           /\ bfq_bfqq_coop y = false /\ bfq_bfqq_split_coop y = false).
Proof.
  unfold bfq_get_queue_sync, BUG_ON. destruct fresh as [f|].
  - destruct (queues st !! f); [discriminate|].
    destruct (bfq_init_bfqq (bfqd st) bfq_queue_zero (Some c) pid true jiffies)
      as [y|] eqn:Hi; cbn [mbind option_bind]; [|discriminate].
    intros [= <- <-]. split; [reflexivity|]. split; [reflexivity|].
    eexists. split.
    { cbn [queues set_queues]. apply lookup_insert_eq. }
    intros _. destruct (init_bfqq_fresh _ _ _ _ _ Hi) as (R & A & T & C & S).
    cbn [ref set_ref]. rewrite R. repeat split; assumption.
  - destruct (queues st !! oom_bfqq st) as [o|] eqn:Lo;
      cbn [mbind option_bind]; [|discriminate].
    intros [= <- <-]. split; [reflexivity|]. split; [reflexivity|].
    eexists. split.
    { cbn [upd_queue queues set_queues]. rewrite lookup_alter_eq, Lo.
      reflexivity. }
    intros H. now contradiction H.
Qed.

(** The queue that the [new_queue] branch attaches to the context: the
    saved flags are untouched, and a queue other than the OOM one is new,
    with one process reference. *)
Lemma new_queue_result st b fresh split pid jiffies s r c :
  bics st !! b = Some c ->
  set_request_new_queue st b fresh split pid jiffies = Some (s, r) ->
  oom_bfqq s = oom_bfqq st
  /\ exists c' x,
       bics s !! b = Some c' /\ same_saved c c'
       /\ bic_to_bfqq c' true = Some r
       /\ queues s !! r = Some x
       /\ (r <> oom_bfqq st ->
           bfqq_process_refs x = Some 1
           /\ bfq_bfqq_coop x = false /\ bfq_bfqq_split_coop x = false).
Proof.
  intros Hc. unfold set_request_new_queue. rewrite Hc.
  cbn [mbind option_bind].
  destruct (match bic_to_bfqq c true with
            | Some old => bfq_put_queue st old
            | None => Some st
            end) as [s0|] eqn:Hput; cbn [mbind option_bind]; [|discriminate].
  assert (F0 : bics s0 = bics st /\ oom_bfqq s0 = oom_bfqq st).
  { destruct (bic_to_bfqq c true);
      [eapply put_queue_frame; eauto | now injection Hput as <-]. }
  destruct F0 as [B0 O0].
  destruct (bfq_get_queue_sync s0 c fresh pid jiffies) as [[s1 q1]|] eqn:Hg;
    cbn [mbind option_bind]; [|discriminate].
  destruct (get_queue_sync_result _ _ _ _ _ _ _ Hg) as (B1 & O1 & y & Ly & Hy).
  rewrite Ly. cbn [mbind option_bind]. unfold BUG_ON.
  destruct (burst_list_node y); [discriminate|].
  assert (Hb : bics (upd_bic b (bic_set_bfqq (Some q1) true) s1) !! b
               = Some (bic_set_bfqq (Some q1) true c)).
  { cbn [upd_bic bics set_bics]. rewrite lookup_alter_eq, B1, B0, Hc.
    reflexivity. }
  assert (Hrefs : forall x, ref x = ref y -> allocated x = allocated y ->
                            on_st (entity x) = on_st (entity y) ->
                            q1 <> oom_bfqq st ->
                            bfqq_process_refs x = Some 1).
  { intros x R A T Hq. rewrite <- O0 in Hq.
    destruct (Hy Hq) as (Ry & Ay & Ty & _).
    unfold bfqq_process_refs. rewrite R, A, T, Ry, Ay, Ty. reflexivity. }
  cbv zeta. destruct split.
  - intros [= <- <-].
    destruct (was_in_burst_list c && large_burst (bfqd s1)
              || saved_in_large_burst c).
    + split; [cbn; congruence|].
      eexists _, _. split; [exact Hb|]. split; [split; reflexivity|].
      split; [reflexivity|]. split.
      { cbn [upd_queue upd_bic queues set_queues set_bics].
        rewrite !lookup_alter_eq, Ly. reflexivity. }
      intros Hq. split; [now apply Hrefs|].
      rewrite <- O0 in Hq. destruct (Hy Hq) as (_ & _ & _ & C & S).
      split.
      * unfold bfq_bfqq_coop in *.
        change (bfq_bfqq_flag BFQ_BFQQ_FLAG_coop
                  (bfq_mark_bfqq BFQ_BFQQ_FLAG_in_large_burst y) = false).
        now rewrite flag_mark_other by discriminate.
      * unfold bfq_bfqq_split_coop in *.
        change (bfq_bfqq_flag BFQ_BFQQ_FLAG_split_coop
                  (bfq_mark_bfqq BFQ_BFQQ_FLAG_in_large_burst y) = false).
        now rewrite flag_mark_other by discriminate.
    + destruct (was_in_burst_list c).
      * split; [cbn; congruence|].
        eexists _, _. split; [exact Hb|]. split; [split; reflexivity|].
        split; [reflexivity|]. split.
        { cbn [upd_queue upd_bic queues set_queues set_bics].
          rewrite !lookup_alter_eq, Ly. reflexivity. }
        intros Hq. split; [now apply Hrefs|].
        rewrite <- O0 in Hq. destruct (Hy Hq) as (_ & _ & _ & C & S).
        split.
        -- unfold bfq_bfqq_coop in *.
           change (bfq_bfqq_flag BFQ_BFQQ_FLAG_coop
                     (bfq_clear_bfqq BFQ_BFQQ_FLAG_in_large_burst y) = false).
           now rewrite flag_clear_other by discriminate.
        -- unfold bfq_bfqq_split_coop in *.
           change (bfq_bfqq_flag BFQ_BFQQ_FLAG_split_coop
                     (bfq_clear_bfqq BFQ_BFQQ_FLAG_in_large_burst y) = false).
           now rewrite flag_clear_other by discriminate.
      * split; [cbn; congruence|].
        eexists _, _. split; [exact Hb|]. split; [split; reflexivity|].
        split; [reflexivity|]. split.
        { cbn [upd_queue upd_bic queues set_queues set_bics].
          rewrite !lookup_alter_eq, Ly. reflexivity. }
        intros Hq. split; [now apply Hrefs|].
        rewrite <- O0 in Hq. destruct (Hy Hq) as (_ & _ & _ & C & S).
        split.
        -- unfold bfq_bfqq_coop in *.
           change (bfq_bfqq_flag BFQ_BFQQ_FLAG_coop
                     (bfq_clear_bfqq BFQ_BFQQ_FLAG_in_large_burst y) = false).
           now rewrite flag_clear_other by discriminate.
        -- unfold bfq_bfqq_split_coop in *.
           change (bfq_bfqq_flag BFQ_BFQQ_FLAG_split_coop
                     (bfq_clear_bfqq BFQ_BFQQ_FLAG_in_large_burst y) = false).
           now rewrite flag_clear_other by discriminate.
  - intros [= <- <-]. split; [cbn; congruence|].
    eexists _, _. split; [exact Hb|]. split; [split; reflexivity|].
    split; [reflexivity|]. split; [exact Ly|].
    intros Hq. split; [now apply Hrefs|].
    rewrite <- O0 in Hq. now destruct (Hy Hq) as (_ & _ & _ & C & S).
Qed.

Lemma resume_state_bic x c : bic (bfq_bfqq_resume_state x c) = bic x.
Proof.
  unfold bfq_bfqq_resume_state.
  destruct (saved_idle_window c), (saved_IO_bound c); reflexivity.
Qed.

Lemma resume_state_other_flag f x c :
  f <> BFQ_BFQQ_FLAG_idle_window -> f <> BFQ_BFQQ_FLAG_IO_bound ->
  bfq_bfqq_flag f (bfq_bfqq_resume_state x c) = bfq_bfqq_flag f x.
Proof.
  intros H1 H2. unfold bfq_bfqq_resume_state.
  rewrite !flag_assign_other by congruence. reflexivity.
Qed.

(** X28. The split on the next request.  When the sync queue of the
    context is a shared queue flagged for a split and is not the OOM
    queue, [bfq_set_request] splits: the local [split] is true, the
    context points to the queue the request is attached to, and unless
    that queue is the OOM queue it belongs to the context again, has the
    idle-window and I/O-bound flags saved in the context, and is not
    flagged as shared. *)
Theorem set_request_split_restores st b c q bfqq rw fresh pid jiffies
    st' r split calls :
  bics st !! b = Some c ->
  bic_to_bfqq c true = Some q ->
  q <> oom_bfqq st ->
  queues st !! q = Some bfqq ->
  bfq_bfqq_coop bfqq = true ->
  bfq_bfqq_split_coop bfqq = true ->
  bfq_set_request st b rw fresh pid jiffies = Some (st', r, split, calls) ->
  split = true
  /\ exists br c',
       queues st' !! r = Some br
       /\ bics st' !! b = Some c' /\ bic_to_bfqq c' true = Some r
       /\ (r <> oom_bfqq st ->
           bic br = Some b
           /\ bfq_bfqq_idle_window br = saved_idle_window c
           /\ bfq_bfqq_IO_bound br = saved_IO_bound c
           /\ bfq_bfqq_coop br = false
           /\ bfq_bfqq_split_coop br = false).
Proof.
  intros Hc Hq Hoom Lq Hcoop Hsc. unfold bfq_set_request. rewrite Hc.
  cbn [mbind option_bind].
  match goal with
  | |- (?m ≫= _) = _ -> _ => destruct m as [[[sX r0] sp]|] eqn:Hmid
  end; cbn [mbind option_bind]; [|discriminate].
  assert (P : sp = true /\ oom_bfqq sX = oom_bfqq st
              /\ exists cX x,
                   bics sX !! b = Some cX /\ same_saved c cX
                   /\ bic_to_bfqq cX true = Some r0
                   /\ queues sX !! r0 = Some x
                   /\ (r0 <> oom_bfqq st ->
                       bfqq_process_refs x = Some 1
                       /\ bfq_bfqq_coop x = false
                       /\ bfq_bfqq_split_coop x = false)).
  { rewrite Hq in Hmid.
    destruct (Pos.eqb_spec q (oom_bfqq st)); [contradiction|].
    rewrite Lq in Hmid. cbn [mbind option_bind] in Hmid.
    rewrite Hcoop, Hsc in Hmid. cbn [andb] in Hmid.
    set (s0 := if bfq_bfqq_in_large_burst bfqq
               then upd_bic b (set_saved_in_large_burst true) st else st)
      in Hmid.
    assert (H0 : oom_bfqq s0 = oom_bfqq st
                 /\ exists c0, bics s0 !! b = Some c0 /\ same_saved c c0
                               /\ bic_to_bfqq c0 true = Some q).
    { subst s0. destruct (bfq_bfqq_in_large_burst bfqq).
      - split; [reflexivity|]. eexists. split.
        { cbn [upd_bic bics set_bics]. rewrite lookup_alter_eq, Hc.
          reflexivity. }
        split; [split; reflexivity|exact Hq].
      - split; [reflexivity|]. exists c.
        split; [exact Hc|]. split; [split; reflexivity|exact Hq]. }
    destruct H0 as (O0 & c0 & Hc0 & S0 & Hq0).
    destruct (bfq_split_bfqq s0 b q pid) as [[s1 kept]|] eqn:Hsp;
      cbn [mbind option_bind] in Hmid; [|discriminate].
    destruct (split_bfqq_result _ _ _ _ _ _ c0 Hc0 Hsp)
      as (O1 & c1 & Hc1 & S1 & Hk).
    destruct kept as [k|].
    - injection Hmid as <- <- <-.
      destruct Hk as (-> & Hq1 & x & Lx & Hr & Cx & Sx).
      split; [reflexivity|]. split; [congruence|].
      exists c1, x. split; [exact Hc1|]. split.
      { destruct S0, S1. split; congruence. }
      split; [congruence|]. split; [exact Lx|]. intros _. auto.
    - destruct (set_request_new_queue s1 b fresh true pid jiffies)
        as [[s2 r2]|] eqn:Hnew; cbn [mbind option_bind] in Hmid;
        [|discriminate].
      injection Hmid as <- <- <-.
      destruct (new_queue_result _ _ _ _ _ _ _ _ c1 Hc1 Hnew)
        as (O2 & c2 & x & Hc2 & S2 & Hq2 & Lx & Hx).
      split; [reflexivity|]. split; [congruence|].
      exists c2, x. split; [exact Hc2|]. split.
      { destruct S0, S1, S2. split; congruence. }
      split; [exact Hq2|]. split; [exact Lx|].
      intros Hne. apply Hx. congruence. }
  clear Hmid.
  destruct P as (-> & OX & cX & x & HcX & SX & HqX & Lx & Hx).
  cbn [upd_queue queues set_queues bics oom_bfqq].
  rewrite lookup_alter_eq, Lx.
  cbn [fmap option_fmap option_map mbind option_bind].
  rewrite HcX. cbn [mbind option_bind].
  destruct (Pos.eqb_spec r0 (oom_bfqq sX)) as [Eo|No];
    cbn [negb andb mbind option_bind].
  - cbn [upd_queue queues set_queues]. rewrite lookup_alter_eq, Lx.
    cbn [fmap option_fmap option_map mbind option_bind].
    intros [= <- <- <- <-]. split; [reflexivity|].
    eexists _, cX. split.
    { cbn [upd_queue queues set_queues]. rewrite lookup_alter_eq, Lx. reflexivity. }
    split; [exact HcX|]. split; [exact HqX|].
    intros Hne. exfalso. apply Hne. congruence.
  - assert (Hne : r0 <> oom_bfqq st) by congruence.
    destruct (Hx Hne) as (Hr & Cx & Sx).
    rewrite (process_refs_after_request x rw Hr).
    cbn [mbind option_bind]. change (1 =? 1) with true.
    cbn [upd_queue queues set_queues]. rewrite !lookup_alter_eq, Lx.
    cbn [fmap option_fmap option_map mbind option_bind].
    intros [= <- <- <- <-]. split; [reflexivity|].
    eexists _, cX. split.
    { cbn [upd_queue queues set_queues]. rewrite !lookup_alter_eq, Lx. reflexivity. }
    split; [exact HcX|]. split; [exact HqX|].
    intros _. destruct SX as [Siw Sio].
    match goal with
    | |- context [bfq_bfqq_resume_state ?y cX] =>
        destruct (resume_state_flags y cX) as (Riw & Rio & _);
        pose proof (resume_state_bic y cX) as Rb;
        pose proof (resume_state_other_flag BFQ_BFQQ_FLAG_coop y cX
                      ltac:(discriminate) ltac:(discriminate)) as Rc;
        pose proof (resume_state_other_flag BFQ_BFQQ_FLAG_split_coop y cX
                      ltac:(discriminate) ltac:(discriminate)) as Rs
    end.
    split; [rewrite Rb; reflexivity|].
    split; [rewrite Riw; exact Siw|].
    split; [rewrite Rio; exact Sio|].
    split.
    + unfold bfq_bfqq_coop. rewrite Rc. exact Cx.
    + unfold bfq_bfqq_split_coop. rewrite Rs. exact Sx.
Qed.

(** The context after the last block of a merge. *)
Lemma merge_redirect_bics st0 st b q nq bq bn c st' :
  q <> nq -> view st0 st q nq bq bn ->
  bic bq = Some b -> bic bn <> Some b ->
  bics st !! b = Some c ->
  merge_redirect st b q nq = Some st' ->
  bics st' !! b
  = Some (bic_set_bfqq (Some nq) true
            (set_ioc_refcount (ioc_refcount c + 1) c)).
Proof.
  intros Hne (Lq & Ln & _) Hb Hn Hc. unfold merge_redirect.
  destruct (bfq_get_bic_reference st q) as [s1|] eqn:E1;
    cbn [mbind option_bind]; [|discriminate].
  unfold bfq_get_bic_reference in E1. rewrite Lq, Hb, Hc in E1.
  injection E1 as E1.
  assert (Hc1 : bics s1 !! b = Some (set_ioc_refcount (ioc_refcount c + 1) c)).
  { subst s1. cbn [upd_bic bics set_bics]. now rewrite lookup_alter_eq, Hc. }
  assert (Q1 : queues s1 = queues st) by now subst s1.
  destruct (bfq_get_bic_reference s1 nq) as [s2|] eqn:E2;
    cbn [mbind option_bind]; [|discriminate].
  assert (Hc2 : bics s2 !! b = bics s1 !! b).
  { unfold bfq_get_bic_reference in E2.
    rewrite Q1, Ln in E2.
    destruct (bic bn) as [b'|] eqn:Hb'; [|now injection E2 as <-].
    destruct (bics s1 !! b'); [|discriminate]. injection E2 as <-.
    cbn [upd_bic bics set_bics]. apply lookup_alter_ne. congruence. }
  rewrite Hc2, Hc1. cbn [mbind option_bind].
  intros Hput. destruct (put_queue_frame _ _ _ Hput) as [-> _].
  cbn [upd_queue upd_bic bics set_bics set_queues].
  now rewrite lookup_alter_eq, Hc2, Hc1.
Qed.

(** X29. A merge saves and redirects.  After [bfq_merge_bfqqs] the
    context of the merged queue holds that queue's idle-window and
    I/O-bound flags as they were before the merge, has one reference more
    and points to the new queue; the new queue is flagged as shared, is
    owned by no context, and is I/O bound if the merged queue was. *)
Theorem merge_saves_and_redirects st b q nq bq bn st1 :
  q <> nq ->
  queues st !! q = Some bq -> bic bq = Some b ->
  queues st !! nq = Some bn -> bic bn <> Some b ->
  bfq_merge_bfqqs st b q nq = Some st1 ->
  exists c0 c bn1,
    bics st !! b = Some c0
    /\ bics st1 !! b = Some c
    /\ bic_to_bfqq c true = Some nq
    /\ saved_idle_window c = bfq_bfqq_idle_window bq
    /\ saved_IO_bound c = bfq_bfqq_IO_bound bq
    /\ ioc_refcount c = ioc_refcount c0 + 1
    /\ queues st1 !! nq = Some bn1
    /\ bfq_bfqq_coop bn1 = true
    /\ bic bn1 = None
    /\ (bfq_bfqq_IO_bound bq = true -> bfq_bfqq_IO_bound bn1 = true).
Proof.
  intros Hne Lq Hb Ln Hn Hrun.
  rewrite merge_bfqqs_blocks in Hrun.
  destruct (bfq_bfqq_save_state st q) as [s1|] eqn:E1;
    cbn [mbind option_bind] in Hrun; [|discriminate].
  destruct (bfq_bfqq_save_state s1 nq) as [s2|] eqn:E2;
    cbn [mbind option_bind] in Hrun; [|discriminate].
  destruct (save_state_frame _ _ _ E1) as (Q1 & _ & _).
  destruct (save_state_frame _ _ _ E2) as (Q2 & _ & _).
  unfold bfq_bfqq_save_state in E1. rewrite Lq, Hb in E1.
  destruct (bics st !! b) as [c0|] eqn:Hc0; [|discriminate].
  injection E1 as E1.
  set (c1 := set_was_in_burst_list (burst_list_node bq)
               (set_saved_in_large_burst (bfq_bfqq_in_large_burst bq)
                  (set_saved_IO_bound (bfq_bfqq_IO_bound bq)
                     (set_saved_idle_window (bfq_bfqq_idle_window bq) c0)))).
  assert (Hc1 : bics s1 !! b = Some c1).
  { subst s1. cbn [upd_bic bics set_bics]. now rewrite lookup_alter_eq, Hc0. }
  assert (Hc2 : bics s2 !! b = Some c1).
  { unfold bfq_bfqq_save_state in E2. rewrite Q1, Ln in E2.
    destruct (bic bn) as [b'|] eqn:Hb'; [|now injection E2 as <-].
    destruct (bics s1 !! b'); [|discriminate]. injection E2 as <-.
    cbn [upd_bic bics set_bics]. rewrite lookup_alter_ne by congruence.
    exact Hc1. }
  assert (Hv2 : view st s2 q nq bq bn).
  { unfold view. rewrite Q2, Q1. auto. }
  destruct (merge_io_bound_view st s2 q nq bq bn Hne Hv2)
    as (s3 & E3 & Hv3 & _ & B3 & _).
  rewrite E3 in Hrun. cbn [mbind option_bind] in Hrun.
  destruct (merge_wr_inherit_view st s3 q nq _ _ Hne Hv3)
    as (s4 & E4 & Hv4 & _ & B4 & _).
  rewrite E4 in Hrun. cbn [mbind option_bind] in Hrun.
  destruct (merge_wr_reset_view st s4 q nq _ _ Hne Hv4)
    as (s5 & E5 & Hv5 & _ & B5 & _).
  rewrite E5 in Hrun. cbn [mbind option_bind] in Hrun.
  assert (Hc5 : bics s5 !! b = Some c1) by (rewrite B5, B4, B3; exact Hc2).
  set (bn3 := if bfq_bfqq_IO_bound bq
              then bfq_mark_bfqq BFQ_BFQQ_FLAG_IO_bound bn else bn) in *.
  set (bq3 := bfq_clear_bfqq BFQ_BFQQ_FLAG_IO_bound bq) in *.
  set (bn5 := if inherits bq3 bn3 then _ else bn3) in *.
  set (bq5 := if 1 <? wr_coeff bq3 then _ else bq3) in *.
  assert (Hbq5 : bic bq5 = Some b).
  { subst bq5. destruct (1 <? wr_coeff bq3); exact Hb. }
  assert (Hbn3 : bic bn3 = bic bn).
  { subst bn3. now destruct (bfq_bfqq_IO_bound bq). }
  assert (Hbn5 : bic bn5 <> Some b).
  { subst bn5. destruct (inherits bq3 bn3); cbn [bic on_entity set_entity
      set_last_wr_start_finish set_wr_cur_max_time set_wr_coeff];
      rewrite Hbn3; exact Hn. }
  pose proof (merge_redirect_bics st s5 b q nq bq5 bn5 c1 st1 Hne Hv5 Hbq5
                Hbn5 Hc5 Hrun) as Hc.
  destruct (merge_redirect_view st s5 b q nq bq5 bn5 st1 Hne Hv5 Hrun)
    as (_ & _ & L6n & _ & _).
  eexists c0, _, _. split; [reflexivity|]. split; [exact Hc|].
  split; [reflexivity|]. split; [reflexivity|]. split; [reflexivity|].
  split; [reflexivity|]. split; [exact L6n|].
  split; [apply (flag_mark_same BFQ_BFQQ_FLAG_coop)|].
  split; [reflexivity|].
  intros Hio.
  change (bfq_bfqq_flag BFQ_BFQQ_FLAG_IO_bound
            (bfq_mark_bfqq BFQ_BFQQ_FLAG_coop bn5) = true).
  rewrite flag_mark_other by discriminate.
  assert (H3 : bfq_bfqq_flag BFQ_BFQQ_FLAG_IO_bound bn3 = true).
  { subst bn3. rewrite Hio. apply flag_mark_same. }
  subst bn5. destruct (inherits bq3 bn3); exact H3.
Qed.

Lemma merge_saves_and_redirects_witness :
  exists st1,
    bfq_merge_bfqqs merge_state 1%positive 1%positive 2%positive = Some st1
    /\ exists c0 c bn1,
         bics merge_state !! 1%positive = Some c0
         /\ bics st1 !! 1%positive = Some c
         /\ bic_to_bfqq c true = Some 2%positive
         /\ saved_idle_window c = bfq_bfqq_idle_window merging_queue
         /\ saved_IO_bound c = bfq_bfqq_IO_bound merging_queue
         /\ ioc_refcount c = ioc_refcount c0 + 1
         /\ queues st1 !! 2%positive = Some bn1
         /\ bfq_bfqq_coop bn1 = true
         /\ bic bn1 = None
         /\ (bfq_bfqq_IO_bound merging_queue = true
             -> bfq_bfqq_IO_bound bn1 = true).
Proof.
  eexists. split; [vm_compute; reflexivity|].
  apply (merge_saves_and_redirects merge_state 1%positive 1%positive
           2%positive merging_queue target_queue).
  - discriminate.
  - reflexivity.
  - reflexivity.
  - reflexivity.
  - vm_compute. discriminate.
  - vm_compute. reflexivity.
Defined.

Lemma set_request_split_restores_witness :
  exists c st' r split calls,
    bics split_pending_state !! 1%positive = Some c
    /\ bfq_set_request split_pending_state 1%positive READ (Some 3%positive)
         42 9000
       = Some (st', r, split, calls)
    /\ split = true
    /\ exists br c',
         queues st' !! r = Some br
         /\ bics st' !! 1%positive = Some c'
         /\ bic_to_bfqq c' true = Some r
         /\ (r <> oom_bfqq split_pending_state ->
             bic br = Some 1%positive
             /\ bfq_bfqq_idle_window br = saved_idle_window c
             /\ bfq_bfqq_IO_bound br = saved_IO_bound c
             /\ bfq_bfqq_coop br = false
             /\ bfq_bfqq_split_coop br = false).
Proof.
  eexists _, _, _, _, _.
  split; [vm_compute; reflexivity|]. split; [vm_compute; reflexivity|].
  eapply (set_request_split_restores split_pending_state 1%positive _
            2%positive _ READ (Some 3%positive) 42 9000).
  - vm_compute. reflexivity.
  - reflexivity.
  - discriminate.
  - vm_compute. reflexivity.
  - reflexivity.
  - reflexivity.
  - vm_compute. reflexivity.
Defined.

(** ** Service charging against the counter of raised busy queues *)

Lemma raised_at_range m k : 0 <= raised_at m k <= 1.
Proof.
  unfold raised_at. destruct (m !! k) as [b|]; [destruct (raised_and_busy b)|]; lia.
Qed.

Lemma wr_busy_count_nonneg m : 0 <= wr_busy_count m.
Proof. unfold wr_busy_count. lia. Qed.

Lemma raised_at_zero m k : wr_busy_count m = 0 -> raised_at m k = 0.
Proof.
  intros Hz. pose proof (wr_busy_count_delete m k) as Hd.
  pose proof (wr_busy_count_nonneg (delete k m)).
  pose proof (raised_at_range m k). lia.
Qed.

(** C2.  The doubled charge is keyed on the counter [wr_busy_queues], and
    [bfq_bfqq_end_wr] takes one off the counter for any busy queue, raised
    or not.  From a state whose counter is exact and in which no
    weight-raised stream is busy, ending the weight raising of a busy
    queue leaves a state in which still no weight-raised stream is busy,
    yet every request of an async stream that is not raised is charged
    [n * 2 * 10] instead of [n * 10]. *)
Theorem charge_doubled_without_raised_stream st q busyq rq bfqq :
  wr_busy_exact st ->
  wr_busy_count (queues st) = 0 ->
  queues st !! q = Some busyq ->
  bfq_bfqq_busy busyq = true ->
  request_wf rq ->
  bfq_bfqq_sync bfqq = false ->
  wr_coeff bfqq <= 1 ->
  exists st',
    bfq_bfqq_end_wr st q = Some st'
    /\ wr_busy_count (queues st') = 0
    /\ bfq_serv_to_charge rq bfqq (bfqd st')
       = blk_rq_sectors rq * 2 * bfq_async_charge_factor
    /\ bfq_serv_to_charge rq bfqq (bfqd st)
       = blk_rq_sectors rq * bfq_async_charge_factor.
Proof.
  intros Hex Hzero L Hbusy Hwf Hasync Hplain.
  pose proof (blk_rq_sectors_range rq Hwf) as Hn.
  unfold wr_busy_exact in Hex. rewrite Hzero in Hex.
  unfold bfq_bfqq_end_wr. rewrite L. cbn [mbind option_bind]. rewrite Hbusy.
  eexists. split; [reflexivity|]. split; [|split].
  - rewrite (wr_busy_count_frame1 (queues st) _ q).
    + rewrite Hzero, (raised_at_zero _ q Hzero).
      unfold raised_at. cbn [upd_queue upd_bfqd queues set_queues set_bfqd].
      rewrite lookup_alter_eq, L. cbn [fmap option_fmap option_map].
      unfold raised_and_busy.
      cbn [wr_coeff on_entity set_entity set_wr_cur_max_time set_wr_coeff].
      change (1 <? 1) with false. rewrite andb_false_r. reflexivity.
    + intros k Hk. cbn [upd_queue upd_bfqd queues set_queues set_bfqd].
      now rewrite lookup_alter_ne by congruence.
  - cbn [upd_queue upd_bfqd bfqd set_queues set_bfqd].
    unfold bfq_serv_to_charge. rewrite Hasync.
    replace (1 <? wr_coeff bfqq) with false by (symmetry; apply Z.ltb_ge; lia).
    cbn [orb wr_busy_queues set_wr_busy_queues]. rewrite Hex.
    change (Int.s32 (0 - 1) =? 0) with false. cbv iota.
    unfold bfq_async_charge_factor.
    rewrite (IntFacts.u32_small (blk_rq_sectors rq * 2)) by lia.
    apply IntFacts.u32_small. lia.
  - unfold bfq_serv_to_charge. rewrite Hasync.
    replace (1 <? wr_coeff bfqq) with false by (symmetry; apply Z.ltb_ge; lia).
    cbn [orb]. rewrite Hex. change (0 =? 0) with true. cbv iota.
    unfold bfq_async_charge_factor. apply IntFacts.u32_small. lia.
Qed.

Lemma charge_doubled_without_raised_stream_witness :
  exists st',
    bfq_bfqq_end_wr plain_busy_state 1%positive = Some st'
    /\ wr_busy_count (queues st') = 0
    /\ bfq_serv_to_charge rq_4k async_queue (bfqd st') = 160
    /\ bfq_serv_to_charge rq_4k async_queue (bfqd plain_busy_state) = 80.
Proof.
  apply (charge_doubled_without_raised_stream plain_busy_state 1%positive
           serving_queue rq_4k async_queue).
  - vm_compute. reflexivity.
  - vm_compute. reflexivity.
  - reflexivity.
  - reflexivity.
  - vm_compute. repeat split; discriminate.
  - reflexivity.
  - vm_compute. discriminate.
Defined.
